(** * Key discovery and per-customer column mapping

    A shallow embedding of the key-discovery scripts

      - [data_transformation/transformation/simple_key_discoverer_all_customers_mt.py]
        (module [Mt] below),
      - [data_transformation/transformation/simple_tag_group_key_discoverer.py]
        (module [TagGroup]),
      - [data_transformation/transformation/simple_key_discovery.py]
        (modules [Simple] and [SimpleScript]),

    of the scripts that read the mapping documents

      - [benchmarking/phase1_metric_discovery.py] (module [MetricDiscovery]),
      - [data_transformation/transformation/data_transformer.py]
        (module [Transformer]),
      - [data_transformation/transformation/schema_generator.py]
        (module [SchemaGenerator]),
      - [data_transformation/transformation/SchemaGeneratorV2.py]
        (module [SchemaGeneratorV2]),
      - [view_benchmarking/phase1_view_generation.py]
        (module [ViewGeneration]),

    and the properties of the mapping documents and of what is made of
    them.

    Conventions of the embedding:
      - a Python [str] is the list of its code points ([N]); comparison of
        two [str] is Python's: lexicographic on code points;
      - a Python [set] of [str] is a [gset str]; the order in which a run
        iterates over it is a parameter, and [sorted(s)] sorts the elements
        from that order;
      - a Python [dict] is the list of its items in insertion order
        ([dict_set] overwrites in place or appends, as [d[k] = v] does);
      - a function that can raise returns [result], with one constructor of
        [error] per [raise] site of the scripts (and per library exception
        the scripts can meet);
      - ClickHouse, the thread pool's completion order, the iteration
        order of the sets, the clock and the date parser of the [datetime]
        library are parameters. *)

From Stdlib Require Import Ascii String.
From stdpp Require Import base numbers list sorting gmap pretty strings.

Set Default Proof Using "Type".

(* ================================================================== *)
(** * Python strings *)
(* ================================================================== *)

(** A [str] as the sequence of its code points. *)
Definition str := list N.

(** A literal: the code points of an ASCII string. *)
Definition U (s : string) : str :=
  N_of_ascii <$> list_ascii_of_string s.

(** [a + b] on [str]. *)
Definition str_app (a b : str) : str := a ++ b.
Infix "+++" := str_app (at level 60, right associativity).

(** [bool(s)] for a [str]: the empty string is falsy. *)
Definition truthy (s : str) : bool :=
  match s with [] => false | _ :: _ => true end.

(** [str(n)] for an [int]: its decimal digits, with a leading [-] when
    negative. *)
Definition str_of_Z (n : Z) : str := U (pretty n).
Definition str_of_nat (n : nat) : str := U (pretty n).

(** [f"{n:02d}"] for [0 <= n]: at least two digits, padded with zeros. *)
Definition fmt02 (n : nat) : str :=
  if decide (n < 10) then U "0" +++ str_of_nat n else str_of_nat n.

(** [ch.isspace()]: the whitespace code points of CPython
    ([_Py_ascii_whitespace] below 128, [_PyUnicode_IsWhitespace] above). *)
Definition is_space (c : N) : bool :=
  ((9 <=? c) && (c <=? 13) || (28 <=? c) && (c <=? 32)
   || (c =? 133) || (c =? 160) || (c =? 5760)
   || (8192 <=? c) && (c <=? 8202)
   || (c =? 8232) || (c =? 8233) || (c =? 8239) || (c =? 8287)
   || (c =? 12288))%N.

Fixpoint lstrip (s : str) : str :=
  match s with
  | c :: s' => if is_space c then lstrip s' else s
  | [] => []
  end.

Definition rstrip (s : str) : str := reverse (lstrip (reverse s)).

(** [s.strip()]: leading and trailing whitespace removed. *)
Definition strip (s : str) : str := rstrip (lstrip s).

(** [s] carries no leading and no trailing whitespace. *)
Definition trimmed (s : str) : Prop := strip s = s.

(** [s] is empty or made of whitespace only. *)
Definition blank (s : str) : Prop := Forall (λ c, is_space c = true) s.

(** ** Comparison of [str]: lexicographic on code points *)

Fixpoint str_leb (a b : str) : bool :=
  match a, b with
  | [], _ => true
  | _ :: _, [] => false
  | x :: a', y :: b' =>
      if (x <? y)%N then true
      else if (x =? y)%N then str_leb a' b'
      else false
  end.

Definition str_le (a b : str) : Prop := str_leb a b = true.

Global Instance str_le_dec a b : Decision (str_le a b).
Proof. unfold str_le. apply _. Defined.

(** [sorted(xs)] on a list of [str]: Python's sort is a stable merge sort;
    so is [merge_sort]. *)
Definition sorted (xs : list str) : list str := merge_sort str_le xs.

(** The order in which a run iterates over a set of strings: some
    arrangement of its elements, each once. It is not the same from one run
    to the next (the hash of a string depends on the seed of the
    interpreter), so it is a parameter of the run. *)
Class SetOrder := {
  set_iter : gset str → list str;
  set_iter_perm : ∀ s, set_iter s ≡ₚ elements s;
}.

(** [sorted(s)] on a set: [sorted] reads the set in the order of its
    iteration. *)
Definition sorted_set `{SetOrder} (s : gset str) : list str :=
  sorted (set_iter s).

(** [sorted(xs)] on a list of [int]. *)
Definition sorted_Z (xs : list Z) : list Z := merge_sort Z.le xs.

(* ================================================================== *)
(** * Python dictionaries *)
(* ================================================================== *)

Section dict.
Context {K V : Type} `{EqDecision K}.

(** Items in insertion order. *)
Definition dict := list (K * V).

(** [d.get(k)] *)
Fixpoint dict_get (k : K) (d : dict) : option V :=
  match d with
  | [] => None
  | (k', v) :: d' => if decide (k = k') then Some v else dict_get k d'
  end.

(** [d[k] = v]: overwrites the value of an existing key where it stands,
    appends a new key at the end. *)
Fixpoint dict_set (k : K) (v : V) (d : dict) : dict :=
  match d with
  | [] => [(k, v)]
  | (k', v') :: d' =>
      if decide (k = k') then (k, v) :: d'
      else (k', v') :: dict_set k v d'
  end.

(** [k in d] *)
Definition dict_mem (k : K) (d : dict) : bool :=
  match dict_get k d with Some _ => true | None => false end.

(** The dictionary built by inserting [items] one after the other. *)
Definition dict_of_items (items : list (K * V)) : dict :=
  foldl (λ d kv, dict_set kv.1 kv.2 d) [] items.

(** A list of items is a dictionary when no key occurs twice. *)
Definition dict_wf (d : dict) : Prop := NoDup d.*1.
End dict.
Arguments dict : clear implicits.

(* ================================================================== *)
(** * Errors *)
(* ================================================================== *)

Inductive error :=
  | ZeroDivisionError            (* [1440 % 0] *)
  | ChunkNotDividingDay          (* ValueError: chunk-mins must divide 1440 *)
  | ChunkNotMultipleOf60         (* ValueError: chunk-mins >= 60 must be a multiple of 60 *)
  | ChunkNotDividingHour         (* ValueError: CHUNK_MINUTES must evenly divide 60 *)
  | DateFormatError              (* ValueError of [datetime.strptime] *)
  | OverflowError                (* [datetime + timedelta] outside the years 1 to 9999 *)
  | NoDateGiven                  (* SystemExit: give --date or --date-start and --date-end *)
  | EndBeforeStart               (* SystemExit: --date-end before --date-start *)
  | MissingSourceTable           (* SystemExit: no --source-table *)
  | ConnectionFailed             (* SystemExit: ping failed *)
  | QueryFailed                  (* an exception of the ClickHouse client *)
  | IndexError                   (* [row[i]] out of range *)
  | NoCustomersFound             (* SystemExit: nothing found in the date range *)
  | NoChunksProcessed            (* Exception: No chunks processed successfully *)
  | BadMaxWorkers                (* ValueError of ThreadPoolExecutor: max_workers must be greater than 0 *)
  | OutputNotWritable.           (* OSError of os.makedirs or open *)

Inductive result (A : Type) :=
  | Ok (a : A)
  | Raise (e : error).
Arguments Ok {A} a.
Arguments Raise {A} e.

Definition bind {A B} (r : result A) (k : A → result B) : result B :=
  match r with Ok a => k a | Raise e => Raise e end.

Notation "'do' x <- r ; k" := (bind r (λ x, k))
  (at level 10, x name, r at level 100, k at level 200,
   format "'[v' 'do'  x  <-  r ; '/' k ']'").
Notation "'do' ' p <- r ; k" := (bind r (λ p, k))
  (at level 10, p strict pattern, r at level 100, k at level 200,
   format "'[v' 'do'  ' p  <-  r ; '/' k ']'").

Global Instance error_eq_dec : EqDecision error.
Proof. solve_decision. Defined.

(* ================================================================== *)
(** * The environment of the scripts *)
(* ================================================================== *)

(** The days of the [datetime] library, by their ordinal: from
    [date.min.toordinal()], the first of January of the year 1, to
    [date.max.toordinal()], the last of December of the year 9999. *)
Definition min_ordinal : Z := 1.
Definition max_ordinal : Z := 3652059.

(** The two calls into the [datetime] library's calendar: a date is the
    ordinal of its day. *)
Class Calendar := {
  (** [datetime.strptime(s, "%Y-%m-%d")]; [None] when it raises. *)
  strptime_ymd : str → option Z;
  (** [d.strftime("%Y-%m-%d")] *)
  strftime_ymd : Z → str;
  (** A date that is parsed is a day of the library. *)
  strptime_ymd_range : ∀ s d,
    strptime_ymd s = Some d → (min_ordinal ≤ d ≤ max_ordinal)%Z;
}.

(** A [datetime] without microseconds: the day, from [min_ordinal] to
    [max_ordinal], and the second of the day. *)
Record datetime := { dt_day : Z; dt_sec : Z }.

Definition seconds_per_day : Z := 86400.

(** [t + timedelta(seconds=s)]: [OverflowError] when the sum is not a day of
    the library. (A [timedelta] of more than 999999999 days cannot be built,
    with the same error; added to a day of the library it leaves them
    anyway.) *)
Definition dt_add_seconds (t : datetime) (s : Z) : result datetime :=
  let day := (dt_day t + (dt_sec t + s) `div` seconds_per_day)%Z in
  if decide (min_ordinal ≤ day ≤ max_ordinal)%Z
  then Ok {| dt_day := day;
             dt_sec := ((dt_sec t + s) `mod` seconds_per_day)%Z |}
  else Raise OverflowError.

(** [t + timedelta(minutes=m)] *)
Definition dt_add_minutes (t : datetime) (m : Z) : result datetime :=
  dt_add_seconds t (60 * m)%Z.

(** [t + timedelta(days=n)] *)
Definition dt_add_days (t : datetime) (n : Z) : result datetime :=
  dt_add_seconds t (n * seconds_per_day)%Z.

(** Seconds since the midnight of day 0: the order of [datetime]. *)
Definition dt_to_seconds (t : datetime) : Z :=
  (dt_day t * seconds_per_day + dt_sec t)%Z.

(** [t.strftime("%Y-%m-%d %H:%M:%S")] *)
Definition strftime_ymd_hms `{Calendar} (t : datetime) : str :=
  strftime_ymd (dt_day t) +++ U " "
  +++ fmt02 (Z.to_nat (dt_sec t `div` 3600)) +++ U ":"
  +++ fmt02 (Z.to_nat ((dt_sec t `mod` 3600) `div` 60)) +++ U ":"
  +++ fmt02 (Z.to_nat (dt_sec t `mod` 60)).

(** [datetime.strptime(s, "%Y-%m-%d")] *)
Definition strptime `{Calendar} (s : str) : result datetime :=
  match strptime_ymd s with
  | Some d => Ok {| dt_day := d; dt_sec := 0 |}
  | None => Raise DateFormatError
  end.

(** [a % b] *)
Definition py_mod (a b : Z) : result Z :=
  if decide (b = 0)%Z then Raise ZeroDivisionError else Ok (a `mod` b)%Z.

(** [a // b] *)
Definition py_floordiv (a b : Z) : result Z :=
  if decide (b = 0)%Z then Raise ZeroDivisionError else Ok (a `div` b)%Z.

(* ================================================================== *)
(** * Windows of a day and days of a run
      ([build_chunks_for_day], [iter_days] and [day_range] have the same
      text in [simple_key_discoverer_all_customers_mt.py] and in
      [simple_tag_group_key_discoverer.py]) *)
(* ================================================================== *)

(** [[f(x) for x in xs]] when [f] can raise: the first exception ends the
    loop and nothing is returned. *)
Fixpoint map_raising {A B} (f : A → result B) (xs : list A) : result (list B) :=
  match xs with
  | [] => Ok []
  | x :: xs' =>
      do y <- f x;
      do ys <- map_raising f xs';
      Ok (y :: ys)
  end.

(** The window [i] of the loop of [build_chunks_for_day], before it is
    formatted: [(start, end)]. The end is computed as [(start +
    timedelta(minutes=chunk_minutes)) - timedelta(seconds=1)], the sum
    first. *)
Definition chunk_bounds (day_start : datetime) (chunk_minutes i : Z)
    : result (datetime * datetime) :=
  do start <- dt_add_minutes day_start (i * chunk_minutes)%Z;
  do next_start <- dt_add_minutes start chunk_minutes;
  do end_ <- dt_add_seconds next_start (-1);
  Ok (start, end_).

(** The windows of [build_chunks_for_day] before [strftime]; the checks come
    first, then the date is parsed. *)
Definition build_chunk_bounds `{Calendar} (date_str : str) (chunk_minutes : Z)
    : result (list (datetime * datetime)) :=
  do r <- py_mod 1440 chunk_minutes;
  if decide (r ≠ 0)%Z then Raise ChunkNotDividingDay else
  if decide (60 ≤ chunk_minutes ∧ chunk_minutes `mod` 60 ≠ 0)%Z
  then Raise ChunkNotMultipleOf60 else
  do day_start <- strptime date_str;
  do total <- py_floordiv 1440 chunk_minutes;
  map_raising (chunk_bounds day_start chunk_minutes) (seqZ 0 total).

Definition build_chunks_for_day `{Calendar} (date_str : str) (chunk_minutes : Z)
    : result (list (str * str)) :=
  do bounds <- build_chunk_bounds date_str chunk_minutes;
  Ok ((λ b, (strftime_ymd_hms b.1, strftime_ymd_hms b.2)) <$> bounds).

(** The [while cur <= d1] loop of [iter_days]; [n] bounds the number of
    iterations left. The day is appended, then [cur += timedelta(days=1)]
    is computed, also for the last day of the range. *)
Fixpoint iter_days_loop `{Calendar} (n : nat) (cur d1 : datetime) (out : list str)
    : result (list str) :=
  match n with
  | O => Ok out
  | S n' =>
      if decide (dt_to_seconds cur ≤ dt_to_seconds d1)%Z
      then
        let out := out ++ [strftime_ymd (dt_day cur)] in
        do cur <- dt_add_days cur 1;
        iter_days_loop n' cur d1 out
      else Ok out
  end.

(** [x] is given and true: neither [None] nor the empty string. *)
Definition given (x : option str) : bool :=
  match x with Some s => truthy s | None => false end.

Definition iter_days `{Calendar} (date date_start date_end : option str)
    : result (list str) :=
  if given date then
    let d := default [] date in
    do _ <- strptime d;
    Ok [d]
  else if negb (given date_start && given date_end) then Raise NoDateGiven
  else
    do d0 <- strptime (default [] date_start);
    do d1 <- strptime (default [] date_end);
    if decide (dt_to_seconds d1 < dt_to_seconds d0)%Z then Raise EndBeforeStart
    else
      iter_days_loop (Z.to_nat (dt_day d1 - dt_day d0 + 1)) d0 d1 [].

(** Midnight of the day and midnight of the next day, as [day_range] formats
    them. *)
Definition day_range `{Calendar} (date_str : str) : result (str * str) :=
  do start <- strptime date_str;
  do next_day <- dt_add_days start 1;
  Ok (strftime_ymd (dt_day start) +++ U " 00:00:00",
      strftime_ymd (dt_day next_day) +++ U " 00:00:00").

(** ** ClickHouse, the thread pool, the clock and the output file *)

Inductive value_type := IntGroups | FloatGroups.

Class ClickHouse := {
  (** The main client is built and [client.ping()] returns. *)
  ch_ping : bool;
  (** The rows of [SELECT DISTINCT customerId FROM table WHERE timestampMs >=
      start AND timestampMs < next_day]: one cell per row, [Some n] when
      [int(cid)] is [n], [None] when [int(cid)] raises. *)
  ch_customers : str → str → str → result (list (option Z));
  (** The rows of the query of [build_union_all_keys_sql] over the fifteen
      metric groups of a kind, for [(table, start_ts, end_ts, customer_id)];
      a row is the tuple of its cells. [Raise] when the client cannot be
      built or the query raises. *)
  ch_metric_keys : value_type → str → str → str → Z → result (list (list str));
  (** The same over the fifteen tag groups. *)
  ch_tag_keys : str → str → str → Z → result (list (list str));
  (** The rows of the aggregation query of [SimpleKeyDiscoverer]: a row is
      the tuple of its thirty arrays of keys, for [(chunk_start, chunk_end,
      customer_id)]. *)
  ch_group_arrays : str → str → Z → result (list (list (list str)));
}.

(** [as_completed(futures)]: the futures in the order they complete, some
    rearrangement of the ones submitted. *)
Class ThreadPool := {
  as_completed : ∀ {A}, list A → list A;
  as_completed_perm : ∀ A (l : list A), as_completed l ≡ₚ l;
}.

(** [datetime.now().isoformat()] *)
Class Clock := { now_isoformat : str }.

(** [os.makedirs(dirname(path), exist_ok=True)] and [open(path, "w")]
    succeed. *)
Class FileSystem := { fs_writable : str → bool }.

(* ================================================================== *)
(** * simple_key_discoverer_all_customers_mt.py *)
(* ================================================================== *)

(** The condition of both scanners' comprehensions, [r and
    str(r[0]).strip()], and the key they keep, [str(r[0])]: the cell as it
    is. *)
Definition row_key (r : list str) : option str :=
  match r with
  | [] => None
  | k :: _ => if truthy (strip k) then Some k else None
  end.

(** [[str(r[0]) for r in rows if r and str(r[0]).strip()]] *)
Definition rows_keys (rows : list (list str)) : list str :=
  omap row_key rows.

(** [enumerate(xs, start)] *)
Definition enumerate {A} (start : nat) (xs : list A) : list (nat * A) :=
  zip (seq start (length xs)) xs.

(** [f"int{i}"], [f"float{i}"] *)
Definition column (prefix : string) (i : nat) : str := U prefix +++ str_of_nat i.

(** One value of the [customers] block of a mapping document. *)
Record customer_entry := {
  int_keys : list str;
  float_keys : list str;
  int_mapping : dict str str;
  float_mapping : dict str str;
  reverse_int_mapping : dict str str;
  reverse_float_mapping : dict str str;
  int_columns : nat;
  float_columns : nat;
}.

Record metadata := {
  generated_at : str;
  source_table : str;
  dates : option (list str);
  note : str;
}.

Record mapping_document := {
  doc_metadata : metadata;
  max_int_columns : nat;
  max_float_columns : nat;
  customers : dict str customer_entry;
}.

(** The arguments [main] reads, the same in both scripts; the connection
    arguments are part of the [ClickHouse] environment. *)
Record args := {
  arg_source_table : option str;
  arg_date : option str;
  arg_date_start : option str;
  arg_date_end : option str;
  arg_chunk_mins : Z;
  arg_max_workers : Z;
  arg_output : str;
}.

(** [fetch_all_customers_for_date], the same in both scripts. *)
Definition fetch_all_customers_for_date `{Calendar, ClickHouse}
    (source_table date_str : str) : result (list Z) :=
  do '(start, next_day) <- day_range date_str;
  do rows <- ch_customers source_table start next_day;
  Ok (sorted_Z (omap id rows)).

Module Mt.

Definition _run_chunk_query `{ClickHouse}
    (source_table : str) (customer_id : Z) (start_ts end_ts : str)
    : result (list str * list str) :=
  do res_int <- ch_metric_keys IntGroups source_table start_ts end_ts customer_id;
  let int_keys := rows_keys res_int in
  do res_float <- ch_metric_keys FloatGroups source_table start_ts end_ts customer_id;
  let float_keys := rows_keys res_float in
  Ok (int_keys, float_keys).

(** The body of [for fut in as_completed(futures)]: a future that raised
    is logged and adds nothing. *)
Definition merge_future (acc : gset str * gset str)
    (fut : result (list str * list str)) : gset str * gset str :=
  match fut with
  | Ok (ints, floats) =>
      (if bool_decide (ints ≠ []) then acc.1 ∪ list_to_set ints else acc.1,
       if bool_decide (floats ≠ []) then acc.2 ∪ list_to_set floats else acc.2)
  | Raise _ => acc
  end.

Definition discover_all_keys_for_customer_day_mt `{Calendar, ClickHouse, ThreadPool}
    (source_table date_str : str) (customer_id chunk_minutes max_workers : Z)
    : result (gset str * gset str) :=
  do chunks <- build_chunks_for_day date_str chunk_minutes;
  if decide (max_workers ≤ 0)%Z then Raise BadMaxWorkers else
  let futures :=
    (λ c, _run_chunk_query source_table customer_id c.1 c.2) <$> chunks in
  Ok (foldl merge_future (∅, ∅) (as_completed futures)).

Definition customer_block `{SetOrder} (int_set float_set : gset str) : customer_entry :=
  let uniq_int := sorted_set int_set in
  let uniq_float := sorted_set float_set in
  let int_mapping : dict str str :=
    dict_of_items ((λ ik, (ik.2, column "int" ik.1)) <$> enumerate 1 uniq_int) in
  let float_mapping : dict str str :=
    dict_of_items ((λ ik, (ik.2, column "float" ik.1)) <$> enumerate 1 uniq_float) in
  let rev_int : dict str str :=
    dict_of_items ((λ kv : str * str, (kv.2, kv.1)) <$> int_mapping) in
  let rev_float : dict str str :=
    dict_of_items ((λ kv : str * str, (kv.2, kv.1)) <$> float_mapping) in
  {| int_keys := uniq_int;
     float_keys := uniq_float;
     int_mapping := int_mapping;
     float_mapping := float_mapping;
     reverse_int_mapping := rev_int;
     reverse_float_mapping := rev_float;
     int_columns := length uniq_int;
     float_columns := length uniq_float |}.

(** The state of the loop of [build_nested_mapping]:
    [(customers_block, max_int_cols, max_float_cols)] *)
Definition mapping_step `{SetOrder} (st : dict str customer_entry * nat * nat)
    (item : Z * (gset str * gset str)) : dict str customer_entry * nat * nat :=
  let '(customers_block, max_int_cols, max_float_cols) := st in
  let '(cid, (int_set, float_set)) := item in
  let e := customer_block int_set float_set in
  (dict_set (str_of_Z cid) e customers_block,
   max_int_cols `max` int_columns e,
   max_float_cols `max` float_columns e).

Definition note_text : str :=
  U "Per-customer mappings across multiple days; each customer independently maps metrics to column positions starting from int1/float1. Table uses max columns across all customers.".

Definition build_nested_mapping `{Clock, SetOrder} (source_table : str)
    (customer_to_keys : dict Z (gset str * gset str))
    (dates_processed : list str) : mapping_document :=
  let '(customers_block, max_int_cols, max_float_cols) :=
    foldl mapping_step ([], 0, 0) customer_to_keys in
  {| doc_metadata :=
       {| generated_at := now_isoformat;
          source_table := source_table;
          dates := Some dates_processed;
          note := note_text |};
     max_int_columns := max_int_cols;
     max_float_columns := max_float_cols;
     customers := customers_block |}.

(** The three statements of [main] that merge one day of one customer
    into [customer_to_keys]. *)
Definition accumulate (cid : Z) (day_ints day_floats : gset str)
    (customer_to_keys : dict Z (gset str * gset str))
    : dict Z (gset str * gset str) :=
  let customer_to_keys :=
    if dict_mem cid customer_to_keys then customer_to_keys
    else dict_set cid (∅, ∅) customer_to_keys in
  match dict_get cid customer_to_keys with
  | Some (ints, floats) =>
      dict_set cid (ints ∪ day_ints, floats ∪ day_floats) customer_to_keys
  | None => customer_to_keys
  end.

(** [for cid in customers] *)
Fixpoint customers_loop `{Calendar, ClickHouse, ThreadPool}
    (source_table : str) (chunk_mins max_workers : Z) (d : str)
    (customers : list Z) (customer_to_keys : dict Z (gset str * gset str))
    : result (dict Z (gset str * gset str)) :=
  match customers with
  | [] => Ok customer_to_keys
  | cid :: rest =>
      do '(day_ints, day_floats) <-
        discover_all_keys_for_customer_day_mt
          source_table d cid chunk_mins max_workers;
      customers_loop source_table chunk_mins max_workers d rest
        (accumulate cid day_ints day_floats customer_to_keys)
  end.

(** [for d in dates] *)
Fixpoint days_loop `{Calendar, ClickHouse, ThreadPool}
    (source_table : str) (chunk_mins max_workers : Z)
    (dates : list str) (customer_to_keys : dict Z (gset str * gset str))
    : result (dict Z (gset str * gset str)) :=
  match dates with
  | [] => Ok customer_to_keys
  | d :: rest =>
      do customers <- fetch_all_customers_for_date source_table d;
      match customers with
      | [] => days_loop source_table chunk_mins max_workers rest customer_to_keys
      | _ :: _ =>
          do customer_to_keys <-
            customers_loop source_table chunk_mins max_workers d customers
              customer_to_keys;
          days_loop source_table chunk_mins max_workers rest customer_to_keys
      end
  end.

(** [main]: [Ok (path, doc)] when the run reaches [json.dump] of [doc]
    into [path]; [Raise] when it ends before, nothing written. *)
Definition main `{Calendar, ClickHouse, ThreadPool, Clock, FileSystem, SetOrder}
    (a : args) : result (str * mapping_document) :=
  if negb (given (arg_source_table a)) then Raise MissingSourceTable else
  let source_table := default [] (arg_source_table a) in
  do dates <- iter_days (arg_date a) (arg_date_start a) (arg_date_end a);
  do _ <- match dates with
          | d0 :: _ => build_chunks_for_day d0 (arg_chunk_mins a)
          | [] => Raise IndexError
          end;
  if negb ch_ping then Raise ConnectionFailed else
  do customer_to_keys <-
    days_loop source_table (arg_chunk_mins a) (arg_max_workers a) dates [];
  match customer_to_keys with
  | [] => Raise NoCustomersFound
  | _ :: _ =>
      let mapping := build_nested_mapping source_table customer_to_keys dates in
      if negb (fs_writable (arg_output a)) then Raise OutputNotWritable
      else Ok (arg_output a, mapping)
  end.

End Mt.

(* ================================================================== *)
(** * simple_tag_group_key_discoverer.py *)
(* ================================================================== *)

Module TagGroup.

Definition _run_chunk_query `{ClickHouse}
    (source_table : str) (customer_id : Z) (start_ts end_ts : str)
    : result (gset str) :=
  do res <- ch_tag_keys source_table start_ts end_ts customer_id;
  Ok (list_to_set (rows_keys res)).

Definition merge_future (all_keys : gset str) (fut : result (gset str))
    : gset str :=
  match fut with
  | Ok keys => if bool_decide (keys ≠ ∅) then all_keys ∪ keys else all_keys
  | Raise _ => all_keys
  end.

Definition discover_all_keys_for_customer_day_mt `{Calendar, ClickHouse, ThreadPool}
    (source_table date_str : str) (customer_id chunk_minutes max_workers : Z)
    : result (gset str) :=
  do chunks <- build_chunks_for_day date_str chunk_minutes;
  if decide (max_workers ≤ 0)%Z then Raise BadMaxWorkers else
  let futures :=
    (λ c, _run_chunk_query source_table customer_id c.1 c.2) <$> chunks in
  Ok (foldl merge_future ∅ (as_completed futures)).

Record customer_keys := { keys : list str; key_count : nat }.

Record tag_document := {
  tag_metadata : metadata;
  max_keys_per_customer : nat;
  tag_customers : dict str customer_keys;
}.

Definition mapping_step `{SetOrder} (st : dict str customer_keys * nat)
    (item : Z * gset str) : dict str customer_keys * nat :=
  let '(customers_block, max_keys) := st in
  let '(cid, ks) := item in
  (dict_set (str_of_Z cid)
     {| keys := sorted_set ks; key_count := size ks |} customers_block,
   max_keys `max` size ks).

(** The note of the document: its code points. *)
Definition note_text : str :=
  [27599; 20010; 23458; 25143; 30340]%N +++ U "tag group"
  +++ [38190; 26144; 23556; 12290]%N.

Definition build_nested_mapping `{Clock, SetOrder} (source_table : str)
    (customer_to_keys : dict Z (gset str)) (dates_processed : list str)
    : tag_document :=
  let '(customers_block, max_keys) :=
    foldl mapping_step ([], 0) customer_to_keys in
  {| tag_metadata :=
       {| generated_at := now_isoformat;
          source_table := source_table;
          dates := Some dates_processed;
          note := note_text |};
     max_keys_per_customer := max_keys;
     tag_customers := customers_block |}.

(** [for cid in customers]: [customer_to_keys[cid] = all_keys] *)
Fixpoint customers_loop `{Calendar, ClickHouse, ThreadPool}
    (source_table : str) (chunk_mins max_workers : Z) (d : str)
    (customers : list Z) (customer_to_keys : dict Z (gset str))
    : result (dict Z (gset str)) :=
  match customers with
  | [] => Ok customer_to_keys
  | cid :: rest =>
      do all_keys <-
        discover_all_keys_for_customer_day_mt
          source_table d cid chunk_mins max_workers;
      customers_loop source_table chunk_mins max_workers d rest
        (dict_set cid all_keys customer_to_keys)
  end.

Fixpoint days_loop `{Calendar, ClickHouse, ThreadPool}
    (source_table : str) (chunk_mins max_workers : Z)
    (dates : list str) (customer_to_keys : dict Z (gset str))
    : result (dict Z (gset str)) :=
  match dates with
  | [] => Ok customer_to_keys
  | d :: rest =>
      do customers <- fetch_all_customers_for_date source_table d;
      match customers with
      | [] => days_loop source_table chunk_mins max_workers rest customer_to_keys
      | _ :: _ =>
          do customer_to_keys <-
            customers_loop source_table chunk_mins max_workers d customers
              customer_to_keys;
          days_loop source_table chunk_mins max_workers rest customer_to_keys
      end
  end.

Definition main `{Calendar, ClickHouse, ThreadPool, Clock, FileSystem, SetOrder}
    (a : args) : result (str * tag_document) :=
  if negb (given (arg_source_table a)) then Raise MissingSourceTable else
  let source_table := default [] (arg_source_table a) in
  do dates <- iter_days (arg_date a) (arg_date_start a) (arg_date_end a);
  do _ <- match dates with
          | d0 :: _ => build_chunks_for_day d0 (arg_chunk_mins a)
          | [] => Raise IndexError
          end;
  if negb ch_ping then Raise ConnectionFailed else
  do customer_to_keys <-
    days_loop source_table (arg_chunk_mins a) (arg_max_workers a) dates [];
  let mapping := build_nested_mapping source_table customer_to_keys dates in
  if negb (fs_writable (arg_output a)) then Raise OutputNotWritable
  else Ok (arg_output a, mapping).

End TagGroup.

(* ================================================================== *)
(** * simple_key_discovery.py *)
(* ================================================================== *)

Module Simple.

Definition CHUNK_MINUTES : nat := 1.

(** The accumulators of the loop of [discover_all_keys]. *)
Record scan := {
  scan_int_keys : gset str;
  scan_float_keys : gset str;
  successful_chunks : nat;
}.

(** [for key in keys: if key and key.strip(): acc.add(key)] *)
Definition add_keys (keys : list str) (acc : gset str) : gset str :=
  foldl (λ acc key,
           if truthy key && truthy (strip key) then acc ∪ {[ key ]} else acc)
        acc keys.

(** [for i in idxs: keys = row[i] if row[i] else []; ...]: the set as the
    loop leaves it, and whether it ran to its end ([false]: [row[i]] raised
    [IndexError]; what was added before stays added). *)
Fixpoint add_groups (row : list (list str)) (idxs : list nat)
    (acc : gset str) : gset str * bool :=
  match idxs with
  | [] => (acc, true)
  | i :: idxs' =>
      match row !! i with
      | None => (acc, false)
      | Some keys => add_groups row idxs' (add_keys keys acc)
      end
  end.

(** The [try] block of one chunk: a query that raises, a result that is
    not one row, or a row that is too short leave [successful_chunks] as
    it is. *)
Definition process_chunk (st : scan)
    (res : result (list (list (list str)))) : scan :=
  match res with
  | Raise _ => st
  | Ok [row] =>
      let (ints, ok_int) := add_groups row (seq 0 15) (scan_int_keys st) in
      if ok_int then
        let (floats, ok_float) := add_groups row (seq 15 15) (scan_float_keys st) in
        {| scan_int_keys := ints; scan_float_keys := floats;
           successful_chunks :=
             if ok_float then S (successful_chunks st) else successful_chunks st |}
      else
        {| scan_int_keys := ints; scan_float_keys := scan_float_keys st;
           successful_chunks := successful_chunks st |}
  | Ok _ => st
  end.

(** [(chunk_start, chunk_end)] of chunk [chunk_idx]. *)
Definition chunk_window (fixed_date : str) (chunks_per_hour chunk_idx : nat)
    : str * str :=
  let hour := chunk_idx `div` chunks_per_hour in
  let chunk_within_hour := chunk_idx `mod` chunks_per_hour in
  let minute := chunk_within_hour * CHUNK_MINUTES in
  let end_minute := minute + CHUNK_MINUTES - 1 in
  (fixed_date +++ U " " +++ fmt02 hour +++ U ":" +++ fmt02 minute +++ U ":00",
   fixed_date +++ U " " +++ fmt02 hour +++ U ":" +++ fmt02 end_minute +++ U ":59").

Definition discover_all_keys `{ClickHouse, SetOrder} (fixed_date : str) (customer_id : Z)
    : result (list str * list str) :=
  if decide (60 `mod` CHUNK_MINUTES ≠ 0) then Raise ChunkNotDividingHour else
  let chunks_per_hour := 60 `div` CHUNK_MINUTES in
  let total_chunks := 24 * chunks_per_hour in
  let st :=
    foldl (λ st chunk_idx,
             let (chunk_start, chunk_end) :=
               chunk_window fixed_date chunks_per_hour chunk_idx in
             process_chunk st (ch_group_arrays chunk_start chunk_end customer_id))
          {| scan_int_keys := ∅; scan_float_keys := ∅; successful_chunks := 0 |}
          (seq 0 total_chunks) in
  if decide (successful_chunks st = 0) then Raise NoChunksProcessed else
  Ok (sorted_set (scan_int_keys st), sorted_set (scan_float_keys st)).

(** The two dictionaries one [for i, key in enumerate(sorted_keys, 1)] loop
    fills: [(mapping, reverse_mapping)]. *)
Definition assign_columns (prefix : string) (sorted_keys : list str)
    : dict str str * dict str str :=
  foldl (λ (st : dict str str * dict str str) (ik : nat * str),
           let col := column prefix ik.1 in
           (dict_set ik.2 col st.1, dict_set col ik.2 st.2))
        ([], []) (enumerate 1 sorted_keys).

Definition customer_block `{SetOrder} (int_keys float_keys : list str) : customer_entry :=
  let sorted_int := sorted_set (list_to_set int_keys) in
  let sorted_float := sorted_set (list_to_set float_keys) in
  let (int_mapping, reverse_int_mapping) := assign_columns "int" sorted_int in
  let (float_mapping, reverse_float_mapping) := assign_columns "float" sorted_float in
  {| int_keys := sorted_int;
     float_keys := sorted_float;
     int_mapping := int_mapping;
     float_mapping := float_mapping;
     reverse_int_mapping := reverse_int_mapping;
     reverse_float_mapping := reverse_float_mapping;
     int_columns := length sorted_int;
     float_columns := length sorted_float |}.

Definition mapping_step `{SetOrder} (st : dict str customer_entry * nat * nat)
    (item : Z * (list str * list str)) : dict str customer_entry * nat * nat :=
  let '(customers_block, max_int_cols, max_float_cols) := st in
  let '(cid, (int_keys, float_keys)) := item in
  let e := customer_block int_keys float_keys in
  (dict_set (str_of_Z cid) e customers_block,
   max_int_cols `max` int_columns e,
   max_float_cols `max` float_columns e).

Definition note_text : str :=
  U "Per-customer mappings; each customer independently maps metrics to column positions starting from int1/float1. Table uses max columns across all customers.".

(** [SOURCE_TABLE] of the settings module is the argument
    [source_table]. *)
Definition generate_nested_mapping `{Clock, SetOrder} (source_table : str)
    (customer_keys : dict Z (list str * list str)) : mapping_document :=
  let '(customers_block, max_int_cols, max_float_cols) :=
    foldl mapping_step ([], 0, 0) customer_keys in
  {| doc_metadata :=
       {| generated_at := now_isoformat;
          source_table := source_table;
          dates := None;
          note := note_text |};
     max_int_columns := max_int_cols;
     max_float_columns := max_float_cols;
     customers := customers_block |}.

End Simple.

(* ================================================================== *)
(** * simple_key_discovery.py: [main], with the constants of settings.py *)
(* ================================================================== *)

Module SimpleScript.

(** [CUSTOMERS], [TRANSFORMATION_DATE] (the first word of
    [UNIFIED_DATE_START]) and [SOURCE_TABLE] of [src/config/settings.py]. *)
Definition CUSTOMERS : list Z := [1960181009; 1960181845; 1960183305]%Z.
Definition TRANSFORMATION_DATE : str := U "2025-10-08".
Definition SOURCE_TABLE : str :=
  U "default.eco_cross_page_flow_pt1m_local_20251008_3cust".

(** [for cid in customer_ids: customer_keys[cid] = discover_all_keys(...)].
    The script keys the dictionary by [str(cid)]; a customer is kept here by
    its number, which [str] maps one to one. *)
Fixpoint discover_customers `{ClickHouse, SetOrder} (fixed_date : str)
    (customer_ids : list Z) (customer_keys : dict Z (list str * list str))
    : result (dict Z (list str * list str)) :=
  match customer_ids with
  | [] => Ok customer_keys
  | cid :: rest =>
      do keys <- Simple.discover_all_keys fixed_date cid;
      discover_customers fixed_date rest (dict_set cid keys customer_keys)
  end.

(** [main]: [Ok None] when the connection test fails (the function logs
    and returns), [Ok (Some (path, doc))] when [doc] is saved to [path]. *)
Definition main `{ClickHouse, Clock, FileSystem, SetOrder}
    : result (option (str * mapping_document)) :=
  if negb ch_ping then Ok None else
  do customer_keys <- discover_customers TRANSFORMATION_DATE CUSTOMERS [];
  let nested_mapping := Simple.generate_nested_mapping SOURCE_TABLE customer_keys in
  let output_path := U "output/mappings/key_mapping.json" in
  if negb (fs_writable output_path) then Raise OutputNotWritable
  else Ok (Some (output_path, nested_mapping)).

End SimpleScript.

(* ================================================================== *)
(** * The readers of the mapping document *)
(* ================================================================== *)

(** The mapping document is read back from its JSON file by the scripts
    below; they look entries up by key only, so the document is given to
    them as it was built. One constructor of [failure] per exception they
    raise or meet. *)
Inductive failure :=
  | NoMappingForCustomer   (* Exception, ValueError: No mapping found for customer ... *)
  | MetricNotFound         (* Exception: Metric ... not found for customer ... *)
  | RowTooShort            (* IndexError of [row[i]] *)
  | NoItems                (* AttributeError of [map_data.items()] *)
  | MissingColumn.         (* KeyError of [row[col]] *)

Inductive outcome (A : Type) :=
  | Returns (a : A)
  | Fails (f : failure).
Arguments Returns {A} a.
Arguments Fails {A} f.

Definition and_then {A B} (r : outcome A) (k : A → outcome B) : outcome B :=
  match r with Returns a => k a | Fails f => Fails f end.

Notation "'attempt' x <- r ; k" := (and_then r (λ x, k))
  (at level 10, x name, r at level 100, k at level 200,
   format "'[v' 'attempt'  x  <-  r ; '/' k ']'").

(** [[f(x) for x in xs]], stopping at the first [f(x)] that raises. *)
Fixpoint for_each {A B} (f : A → outcome B) (xs : list A) : outcome (list B) :=
  match xs with
  | [] => Returns []
  | x :: xs' =>
      attempt y <- f x;
      attempt ys <- for_each f xs';
      Returns (y :: ys)
  end.

(** [sep.join(parts)] *)
Fixpoint join (sep : str) (parts : list str) : str :=
  match parts with
  | [] => []
  | [p] => p
  | p :: parts' => p +++ sep +++ join sep parts'
  end.

(* ------------------------------------------------------------------ *)
(** ** benchmarking/phase1_metric_discovery.py *)
(* ------------------------------------------------------------------ *)

Module MetricDiscovery.

Definition map_to_physical_column (key_mapping : mapping_document)
    (metric_key : str) (customer_id : Z) : outcome str :=
  match dict_get (str_of_Z customer_id) (customers key_mapping) with
  | None => Fails NoMappingForCustomer
  | Some customer_data =>
      match dict_get metric_key (int_mapping customer_data) with
      | Some col => Returns col
      | None =>
          match dict_get metric_key (float_mapping customer_data) with
          | Some col => Returns col
          | None => Fails MetricNotFound
          end
      end
  end.

End MetricDiscovery.

(* ------------------------------------------------------------------ *)
(** ** data_transformation/transformation/data_transformer.py *)
(* ------------------------------------------------------------------ *)

(** [repr(s)] of a [str], which only the [str()] of a map needs. *)
Class Repr := { repr_str : str → str }.

Module Transformer.

(** The values of a result row of ClickHouse. A float is kept by its
    [repr], a [datetime] or [date] by its [str()]; the values of a map
    column are numbers. *)
Inductive number :=
  | NInt (z : Z)
  | NFloat (repr : str).

Inductive value :=
  | VNone
  | VNum (n : number)
  | VStr (s : str)
  | VTime (text : str)
  | VMap (m : dict str number).

Definition str_number (n : number) : str :=
  match n with NInt z => str_of_Z z | NFloat repr => repr end.

(** [str(v)] *)
Definition str_value `{Repr} (v : value) : str :=
  match v with
  | VNone => U "None"
  | VNum n => str_number n
  | VStr s => s
  | VTime text => text
  | VMap m =>
      U "{" +++
      join (U ", ")
        ((λ kv : str * number, repr_str kv.1 +++ U ": " +++ str_number kv.2) <$> m)
      +++ U "}"
  end.

(** [bool(v)] *)
Definition truthy_value (v : value) : bool :=
  match v with
  | VNone => false
  | VNum (NInt z) => negb (z =? 0)%Z
  | VNum (NFloat repr) =>
      negb (bool_decide (repr = U "0.0") || bool_decide (repr = U "-0.0"))
  | VStr s => truthy s
  | VTime _ => true
  | VMap m => match m with [] => false | _ :: _ => true end
  end.

(** [row[i]] *)
Definition index (row : list value) (i : nat) : outcome value :=
  match row !! i with
  | Some v => Returns v
  | None => Fails RowTooShort
  end.

(** [row[a:b]] *)
Definition slice (a b : nat) (row : list value) : list value :=
  take (b - a) (drop a row).

(** The keys of the dictionary display of [_transform_chunk]; the key at
    position [i] is given [row[i]]. *)
Definition METADATA_COLUMNS : list str :=
  [U "timestampMs"; U "clientId"; U "sessionId"; U "customerId";
   U "inSession"; U "userSessionId"; U "inUserSession"; U "platform";
   U "platformSubcategory"; U "appName"; U "appBuild"; U "appVersion";
   U "browserName"; U "browserVersion"; U "userId"; U "deviceManufacturer";
   U "deviceMarketingName"; U "deviceModel"; U "deviceHardwareType";
   U "deviceName"; U "deviceCategory"; U "deviceOperatingSystem";
   U "deviceOperatingSystemVersion"; U "deviceOperatingSystemFamily";
   U "country"; U "state"; U "city"; U "countryIso"; U "sub1Iso";
   U "sub2Iso"; U "cityGid"; U "dma"; U "postalCode"; U "isp";
   U "netSpeed"; U "sensorVersion"; U "appType"; U "asn";
   U "timezoneOffsetMins"; U "connType"; U "watermarkMs"; U "partitionId";
   U "retentionDate"].

(** [row_dict = {"timestampMs": row[0], ..., "retentionDate": row[42]}] *)
Definition metadata_dict (row : list value) : outcome (dict str value) :=
  foldl (λ (acc : outcome (dict str value)) (ik : nat * str),
           attempt row_dict <- acc;
           attempt v <- index row ik.1;
           Returns (dict_set ik.2 v row_dict))
        (Returns []) (enumerate 0 METADATA_COLUMNS).

(** [for i in range(1, n + 1): row_dict[f"{prefix}{i}"] = default] *)
Definition default_columns (prefix : string) (default : value) (n : nat)
    (row_dict : dict str value) : dict str value :=
  foldl (λ row_dict i, dict_set (column prefix i) default row_dict)
        row_dict (seq 1 n).

(** [for key, value in map_data.items():
       if key in mapping: row_dict[mapping[key]] = value] *)
Definition fill_from_map (mapping : dict str str) (map_data : dict str number)
    (row_dict : dict str value) : dict str value :=
  foldl (λ row_dict (kv : str * number),
           match dict_get kv.1 mapping with
           | Some column_name => dict_set column_name (VNum kv.2) row_dict
           | None => row_dict
           end)
        row_dict map_data.

(** [for i, map_data in enumerate(groups, 1): if map_data: ...] *)
Fixpoint fill_from_groups (mapping : dict str str) (groups : list value)
    (row_dict : dict str value) : outcome (dict str value) :=
  match groups with
  | [] => Returns row_dict
  | map_data :: groups' =>
      if truthy_value map_data then
        match map_data with
        | VMap m => fill_from_groups mapping groups' (fill_from_map mapping m row_dict)
        | _ => Fails NoItems
        end
      else fill_from_groups mapping groups' row_dict
  end.

(** The body of the loop over the source rows. *)
Definition transform_row (max_int_cols max_float_cols : nat)
    (int_mapping float_mapping : dict str str) (row : list value)
    : outcome (dict str value) :=
  attempt row_dict <- metadata_dict row;
  let row_dict := default_columns "int" (VNum (NInt 0)) max_int_cols row_dict in
  let row_dict := default_columns "float" (VNum (NFloat (U "0.0"))) max_float_cols row_dict in
  attempt row_dict <- fill_from_groups int_mapping (slice 43 58 row) row_dict;
  fill_from_groups float_mapping (slice 58 73 row) row_dict.

(** [_transform_chunk] of a transformer that loaded [mapping]. *)
Definition _transform_chunk `{Repr} (mapping : mapping_document)
    (source_rows : list (list value)) : outcome (list (dict str value)) :=
  match source_rows with
  | [] => Returns []
  | first :: _ =>
      attempt customer_id <- index first 3;
      match dict_get (str_value customer_id) (customers mapping) with
      | None => Fails NoMappingForCustomer
      | Some customer_mapping =>
          for_each
            (transform_row (max_int_columns mapping) (max_float_columns mapping)
               (int_mapping customer_mapping) (float_mapping customer_mapping))
            source_rows
      end
  end.

(** [_insert_batch]: the column names and the rows handed to
    [client.insert], [None] when nothing is inserted. *)
Definition _insert_batch (transformed_data : list (dict str value))
    : outcome (option (list str * list (list value))) :=
  match transformed_data with
  | [] => Returns None
  | first :: _ =>
      let columns := first.*1 in
      attempt values_data <-
        for_each (λ row : dict str value,
                    for_each (λ col : str,
                                match dict_get col row with
                                | Some v => Returns v
                                | None => Fails MissingColumn
                                end)
                             columns)
                 transformed_data;
      Returns (Some (columns, values_data))
  end.

(** ** [transform_day_data] *)

(** ClickHouse as the transformer meets it: the count and the aggregation
    query over the source table, and whether [TRUNCATE] and an insert into
    the target table succeed. *)
Class Warehouse := {
  count_chunk_raw_rows : str → str → Z → result nat;
  fetch_chunk_aggregated : str → str → Z → result (list (list value));
  truncate_ok : bool;
  insert_ok : list str → list (list value) → bool;
}.

(** The target table, as the batches inserted into it: the column names
    and the rows of each. *)
Definition table := list (list str * list (list value)).

(** What the [except Exception] of [transform_day_data] can catch. *)
Inductive caught :=
  | FromDatabase (e : error)
  | FromTransform (f : failure).

(** The dictionary [stats]; [compression_factor_overall] keeps the two
    integers of the quotient [raw / agg] ([None]: the initial [0.0]). *)
Record stats := {
  date : str;
  customer_id : Z;
  chunk_minutes : nat;
  start_from_chunk : nat;
  truncated_target : bool;
  start_time : str;
  source_rows_processed : nat;
  target_rows_inserted : nat;
  chunks_processed : nat;
  raw_rows_before_agg : nat;
  agg_rows_after_agg : nat;
  compression_factor_overall : option (nat * nat);
  errors : list caught;
  end_time : option str;
}.

Definition CHUNK_MINUTES : nat := 1.

(** [(start_time, end_time)] of chunk [chunk_idx]. *)
Definition chunk_window (fixed_date : str) (chunks_per_hour chunk_idx : nat)
    : str * str :=
  let hour := chunk_idx `div` chunks_per_hour in
  let chunk_within_hour := chunk_idx `mod` chunks_per_hour in
  let minute := chunk_within_hour * CHUNK_MINUTES in
  let end_minute := minute + CHUNK_MINUTES - 1 in
  (fixed_date +++ U " " +++ fmt02 hour +++ U ":" +++ fmt02 minute +++ U ":00",
   fixed_date +++ U " " +++ fmt02 hour +++ U ":" +++ fmt02 end_minute +++ U ":59.999").

(** The body of the loop over the chunks: the statistics and the target
    table as it leaves them, and the exception that ended it, if any. *)
Definition process_chunk `{Repr, Warehouse} (mapping : mapping_document)
    (fixed_date : str) (customer : Z) (chunks_per_hour : nat)
    (st : stats) (target : table) (chunk_idx : nat)
    : stats * table * option caught :=
  let (start, end_) := chunk_window fixed_date chunks_per_hour chunk_idx in
  match count_chunk_raw_rows start end_ customer with
  | Raise e => (st, target, Some (FromDatabase e))
  | Ok raw_count =>
  match fetch_chunk_aggregated start end_ customer with
  | Raise e => (st, target, Some (FromDatabase e))
  | Ok chunk_rows =>
      let agg_count := length chunk_rows in
      let st := {| date := date st; customer_id := customer_id st;
                   chunk_minutes := chunk_minutes st;
                   start_from_chunk := start_from_chunk st;
                   truncated_target := truncated_target st;
                   start_time := start_time st;
                   source_rows_processed := source_rows_processed st;
                   target_rows_inserted := target_rows_inserted st;
                   chunks_processed := chunks_processed st;
                   raw_rows_before_agg := raw_rows_before_agg st + raw_count;
                   agg_rows_after_agg := agg_rows_after_agg st + agg_count;
                   compression_factor_overall := compression_factor_overall st;
                   errors := errors st; end_time := end_time st |} in
      match chunk_rows with
      | [] => (st, target, None)
      | _ :: _ =>
          let st := {| date := date st; customer_id := customer_id st;
                       chunk_minutes := chunk_minutes st;
                       start_from_chunk := start_from_chunk st;
                       truncated_target := truncated_target st;
                       start_time := start_time st;
                       source_rows_processed :=
                         source_rows_processed st + length chunk_rows;
                       target_rows_inserted := target_rows_inserted st;
                       chunks_processed := chunks_processed st + 1;
                       raw_rows_before_agg := raw_rows_before_agg st;
                       agg_rows_after_agg := agg_rows_after_agg st;
                       compression_factor_overall := compression_factor_overall st;
                       errors := errors st; end_time := end_time st |} in
          match _transform_chunk mapping chunk_rows with
          | Fails f => (st, target, Some (FromTransform f))
          | Returns transformed_data =>
              match transformed_data with
              | [] => (st, target, None)
              | _ :: _ =>
                  match _insert_batch transformed_data with
                  | Fails f => (st, target, Some (FromTransform f))
                  | Returns handed =>
                      let inserted :=
                        match handed with
                        | Some (columns, values_data) =>
                            if insert_ok columns values_data
                            then Some (target ++ [(columns, values_data)])
                            else None
                        | None => Some target
                        end in
                      match inserted with
                      | None => (st, target, Some (FromDatabase QueryFailed))
                      | Some target =>
                        ({| date := date st; customer_id := customer_id st;
                            chunk_minutes := chunk_minutes st;
                            start_from_chunk := start_from_chunk st;
                            truncated_target := truncated_target st;
                            start_time := start_time st;
                            source_rows_processed := source_rows_processed st;
                            target_rows_inserted :=
                              target_rows_inserted st + length transformed_data;
                            chunks_processed := chunks_processed st;
                            raw_rows_before_agg := raw_rows_before_agg st;
                            agg_rows_after_agg := agg_rows_after_agg st;
                            compression_factor_overall :=
                              compression_factor_overall st;
                            errors := errors st; end_time := end_time st |},
                         target, None)
                      end
                  end
              end
          end
      end
  end
  end.

(** [for chunk_idx in range(start_from_chunk, total_chunks)], left at the
    first exception. *)
Fixpoint chunks_loop `{Repr, Warehouse} (mapping : mapping_document)
    (fixed_date : str) (customer : Z) (chunks_per_hour : nat)
    (chunk_idxs : list nat) (st : stats) (target : table)
    : stats * table * option caught :=
  match chunk_idxs with
  | [] => (st, target, None)
  | chunk_idx :: rest =>
      match process_chunk mapping fixed_date customer chunks_per_hour
              st target chunk_idx with
      | (st, target, None) =>
          chunks_loop mapping fixed_date customer chunks_per_hour rest st target
      | stopped => stopped
      end
  end.

(** [transform_day_data] of a transformer that loaded [mapping], on the
    target table [target]; [now_start] and [now_end] are the two readings of
    the clock. It raises only when [TRUNCATE] does. *)
Definition transform_day_data `{Repr, Warehouse} (mapping : mapping_document)
    (now_start now_end : str) (fixed_date : str) (customer : Z)
    (truncate_target : bool) (start_chunk : nat) (target : table)
    : result (stats * table) :=
  do target <-
    (if truncate_target
     then (if truncate_ok then Ok [] else Raise QueryFailed)
     else Ok target);
  let st := {| date := fixed_date; customer_id := customer;
               chunk_minutes := CHUNK_MINUTES;
               start_from_chunk := start_chunk;
               truncated_target := truncate_target;
               start_time := now_start;
               source_rows_processed := 0; target_rows_inserted := 0;
               chunks_processed := 0; raw_rows_before_agg := 0;
               agg_rows_after_agg := 0; compression_factor_overall := None;
               errors := []; end_time := None |} in
  let chunks_per_hour := 60 `div` CHUNK_MINUTES in
  let total_chunks := 24 * chunks_per_hour in
  let '(st, target, stopped) :=
    chunks_loop mapping fixed_date customer chunks_per_hour
      (seq start_chunk (total_chunks - start_chunk)) st target in
  let errors :=
    match stopped with
    | Some e => errors st ++ [e]
    | None => errors st
    end in
  Ok ({| date := date st; customer_id := customer_id st;
         chunk_minutes := chunk_minutes st;
         start_from_chunk := start_from_chunk st;
         truncated_target := truncated_target st;
         start_time := start_time st;
         source_rows_processed := source_rows_processed st;
         target_rows_inserted := target_rows_inserted st;
         chunks_processed := chunks_processed st;
         raw_rows_before_agg := raw_rows_before_agg st;
         agg_rows_after_agg := agg_rows_after_agg st;
         compression_factor_overall :=
           if decide (0 < agg_rows_after_agg st)
           then Some (raw_rows_before_agg st, agg_rows_after_agg st)
           else compression_factor_overall st;
         errors := errors; end_time := Some now_end |},
      target).

End Transformer.

(* ------------------------------------------------------------------ *)
(** ** data_transformation/transformation/schema_generator.py *)
(* ------------------------------------------------------------------ *)

Module SchemaGenerator.

(** [TARGET_TABLE] of [src/config/settings.py]. *)
Definition TARGET_TABLE : str := U "default.eco_cross_page_preagg_pt1m_3cust".

(** The initial value of [standard_column_ddls]. *)
Definition standard_column_ddls : list str :=
  [U "timestampMs DateTime64(3) CODEC(ZSTD(1))";
   U "customerId Int32 CODEC(ZSTD(1))";
   U "clientId String CODEC(ZSTD(1))";
   U "sessionId UInt256 CODEC(ZSTD(1))";
   U "inSession UInt8 CODEC(ZSTD(1))";
   U "userSessionId Int64 CODEC(ZSTD(1))";
   U "inUserSession UInt8 CODEC(ZSTD(1))";
   U "platform LowCardinality(String) CODEC(ZSTD(1))";
   U "platformSubcategory LowCardinality(String) CODEC(ZSTD(1))";
   U "appName LowCardinality(String) CODEC(ZSTD(1))";
   U "appBuild LowCardinality(String) CODEC(ZSTD(1))";
   U "appVersion LowCardinality(String) CODEC(ZSTD(1))";
   U "browserName LowCardinality(String) DEFAULT '' CODEC(ZSTD(1))";
   U "browserVersion LowCardinality(String) DEFAULT '' CODEC(ZSTD(1))";
   U "userId String DEFAULT '' CODEC(ZSTD(1))";
   U "deviceManufacturer LowCardinality(String) DEFAULT '' CODEC(ZSTD(1))";
   U "deviceMarketingName LowCardinality(String) DEFAULT '' CODEC(ZSTD(1))";
   U "deviceModel LowCardinality(String) DEFAULT '' CODEC(ZSTD(1))";
   U "deviceHardwareType LowCardinality(String) DEFAULT '' CODEC(ZSTD(1))";
   U "deviceName LowCardinality(String) DEFAULT '' CODEC(ZSTD(1))";
   U "deviceCategory LowCardinality(String) DEFAULT '' CODEC(ZSTD(1))";
   U "deviceOperatingSystem LowCardinality(String) DEFAULT '' CODEC(ZSTD(1))";
   U "deviceOperatingSystemVersion LowCardinality(String) DEFAULT '' CODEC(ZSTD(1))";
   U "deviceOperatingSystemFamily LowCardinality(String) DEFAULT '' CODEC(ZSTD(1))";
   U "country Int64 DEFAULT 0 CODEC(ZSTD(1))";
   U "state Int64 DEFAULT 0 CODEC(ZSTD(1))";
   U "city Int64 DEFAULT 0 CODEC(ZSTD(1))";
   U "countryIso LowCardinality(String) CODEC(ZSTD(1))";
   U "sub1Iso LowCardinality(String) CODEC(ZSTD(1))";
   U "sub2Iso String CODEC(ZSTD(1))";
   U "cityGid Int32 CODEC(ZSTD(1))";
   U "dma Int16 CODEC(ZSTD(1))";
   U "postalCode String DEFAULT '' CODEC(ZSTD(1))";
   U "isp Int32 DEFAULT 0 CODEC(ZSTD(1))";
   U "netSpeed LowCardinality(String) DEFAULT '' CODEC(ZSTD(1))";
   U "sensorVersion LowCardinality(String) CODEC(ZSTD(1))";
   U "appType LowCardinality(String) CODEC(ZSTD(1))";
   U "asn Int32 DEFAULT 0 CODEC(ZSTD(1))";
   U "timezoneOffsetMins Int32 DEFAULT 0 CODEC(ZSTD(1))";
   U "connType Int32 DEFAULT 0 CODEC(ZSTD(1))";
   U "watermarkMs DateTime64(3) CODEC(ZSTD(1))";
   U "partitionId Int32 CODEC(ZSTD(1))";
   U "retentionDate Date CODEC(ZSTD(1))"].

(** [standard_column_ddls] after the two loops that append the metric
    columns. *)
Definition column_ddls (mapping : mapping_document) : list str :=
  let ddls :=
    foldl (λ ddls i, ddls ++ [column "int" i +++ U " Int32 DEFAULT 0 CODEC(ZSTD(1))"])
          standard_column_ddls (seq 1 (max_int_columns mapping)) in
  foldl (λ ddls i, ddls ++ [column "float" i +++ U " Float32 DEFAULT 0 CODEC(ZSTD(1))"])
        ddls (seq 1 (max_float_columns mapping)).

Definition newline : str := [10%N].

Definition generate_create_table_ddl (mapping : mapping_document) : str :=
  join newline
    ([U "CREATE TABLE IF NOT EXISTS " +++ TARGET_TABLE +++ U " ("] ++
     [U "    " +++ join (U "," +++ newline +++ U "    ") (column_ddls mapping)] ++
     [U ") ENGINE = MergeTree()";
      U "PARTITION BY toYYYYMM(timestampMs)";
      U "ORDER BY (customerId, clientId, sessionId, timestampMs)";
      U "SETTINGS index_granularity = 8192;"]).

End SchemaGenerator.

(* ------------------------------------------------------------------ *)
(** ** data_transformation/transformation/SchemaGeneratorV2.py *)
(* ------------------------------------------------------------------ *)

(** The string mapping this script reads is the document of the tag-group
    script, in the form with a [customers] block. *)
Module SchemaGeneratorV2.

(** [list(dict.fromkeys(seq))] *)
Definition dedupe_preserve_order (seq : list str) : list str :=
  (dict_of_items ((λ k : str, (k, ())) <$> seq)).*1.

(** [s.split(sep)] for a separator of one character. *)
Fixpoint split (sep : N) (s : str) : list str :=
  match s with
  | [] => [[]]
  | c :: s' =>
      if (c =? sep)%N then [] :: split sep s'
      else match split sep s' with
           | [] => [[c]]
           | w :: ws => (c :: w) :: ws
           end
  end.

(** The body of the loop of [normalize_string_mapping]: what it leaves in
    [entry]. *)
Definition normalize_entry (entry : TagGroup.customer_keys) : TagGroup.customer_keys :=
  let keys := dedupe_preserve_order (TagGroup.keys entry) in
  let kc := TagGroup.key_count entry in
  {| TagGroup.keys := keys;
     TagGroup.key_count := if decide (kc ≠ length keys) then length keys else kc |}.

Definition normalize_string_mapping (raw : TagGroup.tag_document)
    : TagGroup.tag_document :=
  let customers :=
    (λ it : str * TagGroup.customer_keys, (it.1, normalize_entry it.2))
      <$> TagGroup.tag_customers raw in
  {| TagGroup.tag_metadata := TagGroup.tag_metadata raw;
     TagGroup.max_keys_per_customer := TagGroup.max_keys_per_customer raw;
     TagGroup.tag_customers := customers |}.

Definition compute_required_string_columns (norm : option TagGroup.tag_document)
    : nat :=
  match norm with
  | None => 0
  | Some norm =>
      let observed_max :=
        foldl (λ observed_max (it : str * TagGroup.customer_keys),
                 observed_max `max` TagGroup.key_count it.2)
              0 (TagGroup.tag_customers norm) in
      let declared_max := TagGroup.max_keys_per_customer norm in
      observed_max `max` declared_max
  end.

(** The attributes of a [SchemaGeneratorV2] that its methods below read. *)
Record generator := {
  self_target_table : str;
  self_use_lc : bool;
  self_export_string_mapping_path : option str;
  self_int_columns : nat;
  self_float_columns : nat;
  self_string_norm : option TagGroup.tag_document;
  self_string_columns : nat;
}.

(** [__init__], given the contents of the numeric mapping file and of the
    string mapping file, when one is named. *)
Definition __init__ (numeric_mapping : mapping_document)
    (string_mapping : option TagGroup.tag_document) (target_table : str)
    (use_low_cardinality_strings : bool) (export_string_mapping_path : option str)
    : generator :=
  let string_norm := normalize_string_mapping <$> string_mapping in
  {| self_target_table := target_table;
     self_use_lc := use_low_cardinality_strings;
     self_export_string_mapping_path := export_string_mapping_path;
     self_int_columns := max_int_columns numeric_mapping;
     self_float_columns := max_float_columns numeric_mapping;
     self_string_norm := string_norm;
     self_string_columns :=
       match string_norm with
       | Some norm => compute_required_string_columns (Some norm)
       | None => 0
       end |}.

(** The initial columns of [generate_create_table_ddl]. *)
Definition standard_cols : list str :=
  [U "timestampMs DateTime64(3) CODEC(ZSTD(1))";
   U "flowId LowCardinality(String) CODEC(ZSTD(1))";
   U "flowStartTimeMs DateTime64(3) CODEC(ZSTD(1))";
   U "customerId Int32 CODEC(ZSTD(1))";
   U "clientId String CODEC(ZSTD(1))";
   U "sessionId UInt256 CODEC(ZSTD(1))";
   U "inSession UInt8 CODEC(ZSTD(1))";
   U "userSessionId Int64 CODEC(ZSTD(1))";
   U "inUserSession UInt8 CODEC(ZSTD(1))";
   U "platform LowCardinality(String) CODEC(ZSTD(1))";
   U "platformSubcategory LowCardinality(String) CODEC(ZSTD(1))";
   U "appName LowCardinality(String) CODEC(ZSTD(1))";
   U "appBuild LowCardinality(String) CODEC(ZSTD(1))";
   U "appVersion LowCardinality(String) CODEC(ZSTD(1))";
   U "browserName LowCardinality(String) DEFAULT '' CODEC(ZSTD(1))";
   U "browserVersion LowCardinality(String) DEFAULT '' CODEC(ZSTD(1))";
   U "userId String DEFAULT '' CODEC(ZSTD(1))";
   U "deviceManufacturer LowCardinality(String) DEFAULT '' CODEC(ZSTD(1))";
   U "deviceMarketingName LowCardinality(String) DEFAULT '' CODEC(ZSTD(1))";
   U "deviceModel LowCardinality(String) DEFAULT '' CODEC(ZSTD(1))";
   U "deviceHardwareType LowCardinality(String) DEFAULT '' CODEC(ZSTD(1))";
   U "deviceName LowCardinality(String) DEFAULT '' CODEC(ZSTD(1))";
   U "deviceCategory LowCardinality(String) DEFAULT '' CODEC(ZSTD(1))";
   U "deviceOperatingSystem LowCardinality(String) DEFAULT '' CODEC(ZSTD(1))";
   U "deviceOperatingSystemVersion LowCardinality(String) DEFAULT '' CODEC(ZSTD(1))";
   U "deviceOperatingSystemFamily LowCardinality(String) DEFAULT '' CODEC(ZSTD(1))";
   U "country Int64 DEFAULT 0 CODEC(ZSTD(1))";
   U "state Int64 DEFAULT 0 CODEC(ZSTD(1))";
   U "city Int64 DEFAULT 0 CODEC(ZSTD(1))";
   U "countryIso LowCardinality(String) CODEC(ZSTD(1))";
   U "sub1Iso LowCardinality(String) CODEC(ZSTD(1))";
   U "sub2Iso String CODEC(ZSTD(1))";
   U "cityGid Int32 CODEC(ZSTD(1))";
   U "dma Int16 CODEC(ZSTD(1))";
   U "postalCode String DEFAULT '' CODEC(ZSTD(1))";
   U "isp Int32 DEFAULT 0 CODEC(ZSTD(1))";
   U "netSpeed LowCardinality(String) DEFAULT '' CODEC(ZSTD(1))";
   U "sensorVersion LowCardinality(String) CODEC(ZSTD(1))";
   U "appType LowCardinality(String) CODEC(ZSTD(1))";
   U "asn Int32 DEFAULT 0 CODEC(ZSTD(1))";
   U "timezoneOffsetMins Int32 DEFAULT 0 CODEC(ZSTD(1))";
   U "connType Int32 DEFAULT 0 CODEC(ZSTD(1))";
   U "watermarkMs DateTime64(3) CODEC(ZSTD(1))";
   U "partitionId Int32 CODEC(ZSTD(1))";
   U "retentionDate Date CODEC(ZSTD(1))"].

(** [cols] after the three loops. *)
Definition cols (self : generator) : list str :=
  let cols :=
    foldl (λ cols i, cols ++ [column "int" i +++ U " Int32 DEFAULT 0 CODEC(ZSTD(1))"])
          standard_cols (seq 1 (self_int_columns self)) in
  let cols :=
    foldl (λ cols i, cols ++ [column "float" i +++ U " Float32 DEFAULT 0 CODEC(ZSTD(1))"])
          cols (seq 1 (self_float_columns self)) in
  if decide (0 < self_string_columns self) then
    let coltype := if self_use_lc self then U "LowCardinality(String)" else U "String" in
    foldl (λ cols i,
             cols ++ [column "string" i +++ U " " +++ coltype +++
                      U " DEFAULT '' CODEC(ZSTD(1))"])
          cols (seq 1 (self_string_columns self))
  else cols.

Definition generate_create_table_ddl (self : generator) : str :=
  join [10%N]
    ([U "CREATE TABLE IF NOT EXISTS " +++ self_target_table self +++ U " ("] ++
     [U "    " +++ join (U "," +++ [10%N] +++ U "    ") (cols self)] ++
     [U ") ENGINE = MergeTree()";
      U "PARTITION BY toYYYYMM(timestampMs)";
      U "ORDER BY (customerId, clientId, sessionId, timestampMs)";
      U "SETTINGS index_granularity = 8192;"]).

(** One value of the [customers] block of the exported string mapping. *)
Record string_entry := {
  string_columns : nat;
  string_keys : list str;
  string_mapping : dict str str;
  reverse_string_mapping : dict str str;
}.

Record string_export := {
  max_string_columns : nat;
  export_customers : dict str string_entry;
}.

Definition export_entry (entry : TagGroup.customer_keys) : string_entry :=
  let keys := dedupe_preserve_order (TagGroup.keys entry) in
  let mapping : dict str str :=
    dict_of_items ((λ ik : nat * str, (ik.2, column "string" (ik.1 + 1)))
                     <$> enumerate 0 keys) in
  let reverse : dict str str :=
    dict_of_items ((λ ik : nat * str, (column "string" (ik.1 + 1), ik.2))
                     <$> enumerate 0 keys) in
  {| string_columns := length keys;
     string_keys := keys;
     string_mapping := mapping;
     reverse_string_mapping := reverse |}.

(** [build_and_export_string_mapping]: [Ok None] without a string mapping,
    otherwise the path and the document written to it. *)
Definition build_and_export_string_mapping `{FileSystem} (self : generator)
    : result (option (str * string_export)) :=
  match self_string_norm self with
  | None => Ok None
  | Some string_norm =>
      let out :=
        {| max_string_columns := self_string_columns self;
           export_customers :=
             foldl (λ (customers : dict str string_entry)
                      (it : str * TagGroup.customer_keys),
                      dict_set it.1 (export_entry it.2) customers)
                   [] (TagGroup.tag_customers string_norm) |} in
      let final_path :=
        match self_export_string_mapping_path self with
        | Some path => if truthy path then Some path else None
        | None => None
        end in
      let final_path :=
        match final_path with
        | Some path => path
        | None =>
            let table_suffix := default [] (last (split 46 (self_target_table self))) in
            U "output/reports/string_key_mapping_" +++ table_suffix +++ U ".json"
        end in
      if negb (fs_writable final_path) then Raise OutputNotWritable
      else Ok (Some (final_path, out))
  end.

End SchemaGeneratorV2.

(* ------------------------------------------------------------------ *)
(** ** view_benchmarking/phase1_view_generation.py *)
(* ------------------------------------------------------------------ *)

Module ViewGeneration.

(** [STANDARD_COLUMNS] of [src/config/settings.py]. *)
Definition STANDARD_COLUMNS : list str :=
  [U "timestampMs"; U "customerId"; U "clientId"; U "sessionId";
   U "inSession"; U "userSessionId"; U "inUserSession"; U "platform";
   U "platformSubcategory"; U "appName"; U "appBuild"; U "appVersion";
   U "browserName"; U "browserVersion"; U "userId"; U "deviceManufacturer";
   U "deviceMarketingName"; U "deviceModel"; U "deviceHardwareType";
   U "deviceName"; U "deviceCategory"; U "deviceOperatingSystem";
   U "deviceOperatingSystemVersion"; U "deviceOperatingSystemFamily";
   U "country"; U "state"; U "city"; U "countryIso"; U "sub1Iso";
   U "sub2Iso"; U "cityGid"; U "dma"; U "postalCode"; U "isp"; U "netSpeed";
   U "sensorVersion"; U "appType"; U "asn"; U "timezoneOffsetMins";
   U "connType"; U "watermarkMs"; U "partitionId"; U "retentionDate"].

Definition generate_view_name (customer_id : Z) : str :=
  U "eco_cross_page_customer_" +++ str_of_Z customer_id +++ U "_view".

(** Both branches wrap the name in backticks. *)
Definition escape_column_name (name : str) : str :=
  if existsb (λ c : N, bool_decide (c ∈ name)) (U "-. /*+")
  then U "`" +++ name +++ U "`"
  else U "`" +++ name +++ U "`".

(** One element of [column_mappings]. *)
Record column_mapping := {
  metric_key : str;
  primitive_column : str;
  column_type : str;
}.

(** One of the two loops over the sorted keys: [column_defs] and
    [column_mappings] as it leaves them. *)
Definition add_metric_columns (kind : string) (keys : list str)
    (mapping : dict str str) (st : list str * list column_mapping)
    : list str * list column_mapping :=
  foldl (λ (st : list str * list column_mapping) (metric_key : str),
           match dict_get metric_key mapping with
           | Some primitive_col =>
               let escaped_name := escape_column_name metric_key in
               (st.1 ++ [primitive_col +++ U " AS " +++ escaped_name],
                st.2 ++ [{| metric_key := metric_key;
                            primitive_column := primitive_col;
                            column_type := U kind |}])
           | None => st
           end)
        st (sorted keys).

Definition generate_view_ddl (customer_id : Z) (customer_mapping : customer_entry)
    : str * list column_mapping :=
  let view_name := generate_view_name customer_id in
  let st := (STANDARD_COLUMNS, []) in
  let st := add_metric_columns "int" (int_keys customer_mapping)
              (int_mapping customer_mapping) st in
  let st := add_metric_columns "float" (float_keys customer_mapping)
              (float_mapping customer_mapping) st in
  let columns_str := join (U "," +++ [10%N] +++ U "    ") st.1 in
  let ddl :=
    U "CREATE VIEW " +++ view_name +++ U " AS" +++ [10%N] +++
    U "SELECT" +++ [10%N] +++
    U "    " +++ columns_str +++ [10%N] +++
    U "FROM " +++ SchemaGenerator.TARGET_TABLE +++ [10%N] +++
    U "WHERE customerId = " +++ str_of_Z customer_id in
  (ddl, st.2).

End ViewGeneration.

(* ================================================================== *)
(** * Vocabulary of the properties *)
(* ================================================================== *)

(** What it means for [(m, rev)] to assign the columns [prefix1 .. prefixK]
    to the keys of [s], listed in ascending order in [ks]. *)
Record column_bijection (prefix : string) (s : gset str) (ks : list str)
    (m rev : dict str str) (K : nat) : Prop := {
  (** [ks] lists the keys of [s] in ascending order, each once *)
  cb_sorted : StronglySorted str_le ks;
  cb_nodup : NoDup ks;
  cb_keys : ∀ k, k ∈ ks ↔ k ∈ s;
  (** [K] is the number of keys *)
  cb_count : K = size s ∧ K = length ks;
  (** both are dictionaries *)
  cb_wf : dict_wf m ∧ dict_wf rev;
  (** the keys of [m] are the keys of [s] *)
  cb_domain : ∀ k, is_Some (dict_get k m) ↔ k ∈ s;
  (** the values of [m] are exactly [prefix1 .. prefixK]: no gap *)
  cb_onto : ∀ c, (∃ k, dict_get k m = Some c) ↔
                 ∃ n, 1 ≤ n ≤ K ∧ c = column prefix n;
  (** no column is the target of two keys *)
  cb_injective : ∀ k1 k2 c,
    dict_get k1 m = Some c → dict_get k2 m = Some c → k1 = k2;
  (** the [N]th key in sort order gets column [N], counting from 1 *)
  cb_nth : ∀ n k, ks !! n = Some k → dict_get k m = Some (column prefix (S n));
  (** [rev] is the inverse function of [m] *)
  cb_inverse : ∀ k c, dict_get k m = Some c ↔ dict_get c rev = Some k;
}.

(** The items [(key, column)] of a mapping, in the order of the keys. *)
Definition items_of (prefix : string) (ks : list str) : list (str * str) :=
  (λ ik : nat * str, (ik.2, column prefix ik.1)) <$> enumerate 1 ks.

Definition swap_items (items : list (str * str)) : list (str * str) :=
  (λ kv : str * str, (kv.2, kv.1)) <$> items.

(** The key sets behind the key lists [generate_nested_mapping] is given:
    [set(int_keys)], [set(float_keys)]. *)
Definition to_sets (it : Z * (list str * list str)) : Z * (gset str * gset str) :=
  (it.1, (list_to_set it.2.1, list_to_set it.2.2)).

(** The int key count and the float key count of every tenant. *)
Definition int_counts (c2k : dict Z (gset str * gset str)) : list nat :=
  (λ it, size it.2.1) <$> c2k.
Definition float_counts (c2k : dict Z (gset str * gset str)) : list nat :=
  (λ it, size it.2.2) <$> c2k.

(** [m] is the maximum of [counts], 0 when there is none. *)
Definition is_max_of (m : nat) (counts : list nat) : Prop :=
  (∀ c, c ∈ counts → c ≤ m) ∧ (counts ≠ [] → m ∈ counts) ∧ (counts = [] → m = 0).

(** A window size the checks of [build_chunks_for_day] accept. *)
Definition valid_chunk_minutes (chunk_minutes : Z) : Prop :=
  (1440 `mod` chunk_minutes = 0 ∧
   (chunk_minutes < 60 ∨ chunk_minutes `mod` 60 = 0))%Z.

(** The configuration errors of [build_chunks_for_day]: its two
    [ValueError]s. *)
Definition configuration_error (e : error) : Prop :=
  e = ChunkNotDividingDay ∨ e = ChunkNotMultipleOf60.

(** Every key of [keys] is non-empty and carries no leading or trailing
    whitespace. *)
Definition keys_are_trimmed (keys : list str) : Prop :=
  ∀ k, k ∈ keys → k ≠ [] ∧ trimmed k.

(** The keys of a kind in a pair [(int_keys, float_keys)], and the keys of
    a kind accumulated for a customer (none for a customer not yet seen). *)
Definition kind_of (vt : value_type) (p : gset str * gset str) : gset str :=
  match vt with IntGroups => p.1 | FloatGroups => p.2 end.
Definition keys_of (vt : value_type) (c2k : dict Z (gset str * gset str))
    (cid : Z) : gset str :=
  kind_of vt (default (∅, ∅) (dict_get cid c2k)).

(** The call returned. *)
Definition is_Some_ok {A} (r : result A) : Prop :=
  match r with Ok _ => True | Raise _ => False end.

(** What the aggregation query of [SimpleKeyDiscoverer] answers for the
    chunk [chunk_idx] of a day, and when the chunk counts as processed: one
    row with its thirty arrays. *)
Definition simple_answer `{ClickHouse} (fixed_date : str) (customer_id : Z)
    (chunk_idx : nat) : result (list (list (list str))) :=
  ch_group_arrays (Simple.chunk_window fixed_date 60 chunk_idx).1
    (Simple.chunk_window fixed_date 60 chunk_idx).2 customer_id.

Definition simple_chunk_processed `{ClickHouse} (fixed_date : str) (customer_id : Z)
    (chunk_idx : nat) : Prop :=
  ∃ row, simple_answer fixed_date customer_id chunk_idx = Ok [row] ∧ 30 ≤ length row.

(** The key [k] stands, with something else than whitespace in it, in one of
    the arrays [lo .. hi - 1] of the single row some chunk of the day
    answered. *)
Definition simple_key_seen `{ClickHouse} (fixed_date : str) (customer_id : Z)
    (lo hi : nat) (k : str) : Prop :=
  ∃ chunk_idx row i keys,
    chunk_idx < 1440 ∧
    simple_answer fixed_date customer_id chunk_idx = Ok [row] ∧
    lo ≤ i < hi ∧ row !! i = Some keys ∧ k ∈ keys ∧ ¬ blank k.

(** The columns of the target table for a mapping document: the metadata
    columns, then [int1 ..], then [float1 ..]. *)
Definition target_columns (mapping : mapping_document) : list str :=
  Transformer.METADATA_COLUMNS ++
  (column "int" <$> seq 1 (max_int_columns mapping)) ++
  (column "float" <$> seq 1 (max_float_columns mapping)).

(** A source row as the query of [_fetch_chunk_aggregated] selects it: the
    43 metadata columns, and from position 43 on maps (or values that count
    as false, which the loops skip). *)
Definition is_group (v : Transformer.value) : Prop :=
  match v with
  | Transformer.VMap _ => True
  | _ => Transformer.truthy_value v = false
  end.

Definition source_row_ok (row : list Transformer.value) : Prop :=
  43 ≤ length row ∧ Forall is_group (drop 43 row).

(** The items of the maps among [groups], in the order the loops of
    [_transform_chunk] meet them. *)
Definition group_items (groups : list Transformer.value)
    : list (str * Transformer.number) :=
  concat ((λ v, match v with Transformer.VMap m => m | _ => [] end) <$> groups).

(** The value of the last item of [items] with the key [k]. *)
Definition last_written (k : str) (items : list (str * Transformer.number))
    : option Transformer.number :=
  foldl (λ acc (kv : str * Transformer.number),
           if decide (kv.1 = k) then Some kv.2 else acc) None items.

(** [r] is the target row of the source [row] under the key sets [I] and
    [F]: it has the columns of the target table; a metadata column holds the
    value at its position in [row]; the column [int<N>] of the [N]th sorted
    key of [I] holds the value of the last item with that key in the maps
    43..57 of [row], [0] when there is none; the int columns after those of
    [I] hold [0]; the same with [F], the maps 58..72 and [0.0]. *)
Definition row_transformed `{SetOrder} (mapping : mapping_document) (I F : gset str)
    (row : list Transformer.value) (r : dict str Transformer.value) : Prop :=
  r.*1 = target_columns mapping ∧
  (∀ (i : nat) (name : str), Transformer.METADATA_COLUMNS !! i = Some name →
     dict_get name r = row !! i) ∧
  (∀ (j : nat) (k : str), sorted_set I !! j = Some k →
     dict_get (column "int" (S j)) r =
     Some (Transformer.VNum
             (default (Transformer.NInt 0)
                (last_written k (group_items (Transformer.slice 43 58 row)))))) ∧
  (∀ j : nat, size I < j ≤ max_int_columns mapping →
     dict_get (column "int" j) r = Some (Transformer.VNum (Transformer.NInt 0))) ∧
  (∀ (j : nat) (k : str), sorted_set F !! j = Some k →
     dict_get (column "float" (S j)) r =
     Some (Transformer.VNum
             (default (Transformer.NFloat (U "0.0"))
                (last_written k (group_items (Transformer.slice 58 73 row)))))) ∧
  (∀ j : nat, size F < j ≤ max_float_columns mapping →
     dict_get (column "float" j) r
     = Some (Transformer.VNum (Transformer.NFloat (U "0.0")))).

(** The column name of a column definition of a [CREATE TABLE]: the text
    before the first blank. *)
Fixpoint first_word (s : str) : str :=
  match s with
  | [] => []
  | c :: s' => if (c =? 32)%N then [] else c :: first_word s'
  end.

(** The number of rows of a target table. *)
Definition table_rows (t : Transformer.table) : nat :=
  sum_list ((λ batch : list str * list (list Transformer.value), length batch.2) <$> t).

(** The warehouse answers both queries of the chunk [chunk_idx] of the
    day, with rows of the shape the aggregation query selects; when there
    are rows, the first names a customer of the dictionary [c2k]. *)
Definition clean_chunk `{Transformer.Warehouse} (c2k : dict Z (gset str * gset str))
    (fixed_date : str) (customer : Z) (chunk_idx : nat) : Prop :=
  ∃ (raw_count : nat) (chunk_rows : list (list Transformer.value)),
    Transformer.count_chunk_raw_rows
      (Transformer.chunk_window fixed_date 60 chunk_idx).1
      (Transformer.chunk_window fixed_date 60 chunk_idx).2 customer = Ok raw_count ∧
    Transformer.fetch_chunk_aggregated
      (Transformer.chunk_window fixed_date 60 chunk_idx).1
      (Transformer.chunk_window fixed_date 60 chunk_idx).2 customer = Ok chunk_rows ∧
    Forall source_row_ok chunk_rows ∧
    ∀ first : list Transformer.value, head chunk_rows = Some first →
      ∃ cid : Z, first !! 3 = Some (Transformer.VNum (Transformer.NInt cid)) ∧
                 is_Some (dict_get cid c2k).

(** A batch names the columns of the target table and has one value per
    column in every row. *)
Definition batch_fits (mapping : mapping_document)
    (batch : list str * list (list Transformer.value)) : Prop :=
  batch.1 = target_columns mapping ∧
  Forall (λ vs : list Transformer.value, length vs = length (target_columns mapping))
         batch.2.

(** The customer scan of the day [d] returns the customer [cid]. *)
Definition active_on `{Calendar, ClickHouse} (source_table : str) (cid : Z) (d : str)
    : Prop :=
  ∃ customers : list Z,
    fetch_all_customers_for_date source_table d = Ok customers ∧ cid ∈ customers.

(* ================================================================== *)
(** * Environments and inputs of the examples *)
(* ================================================================== *)

(** A clock, for the examples. *)
Definition example_clock : Clock := {| now_isoformat := U "2025-10-08T12:00:00" |}.

(** Customer 7 alone, with the int keys [b_metric] and [a_metric]. *)
Definition example_customer_to_keys : dict Z (gset str * gset str) :=
  [(7%Z, ({[ U "b_metric"; U "a_metric" ]}, ∅))].
Definition example_customer_keys : dict Z (list str * list str) :=
  [(7%Z, ([U "b_metric"; U "a_metric"; U "b_metric"], []))].

(** Two customers, in the two insertion orders. *)
Definition example_two_customers : dict Z (gset str * gset str) :=
  [(1%Z, ({[ U "b_metric"; U "a_metric" ]}, ∅)); (2%Z, (∅, {[ U "b" ]}))].
Definition example_two_customers_swapped : dict Z (gset str * gset str) :=
  [(2%Z, (∅, {[ U "b" ]})); (1%Z, ({[ U "b_metric"; U "a_metric" ]}, ∅))].
Definition example_later_clock : Clock := {| now_isoformat := U "2025-10-09T08:30:00" |}.

(** A run that iterates over a set from its first element in the order of
    [elements] to its last, and a run that iterates the other way round. *)
Definition example_order : SetOrder := {|
  set_iter s := elements s;
  set_iter_perm s := reflexivity (elements s);
|}.

Definition example_reverse_order : SetOrder := {|
  set_iter s := reverse (elements s);
  set_iter_perm s := reverse_Permutation (elements s);
|}.

(** A calendar that knows three days of October 2025, for the examples. *)
Definition example_strptime (s : str) : option Z :=
  if decide (s = U "2025-10-08") then Some 739532%Z
  else if decide (s = U "2025-10-09") then Some 739533%Z
  else if decide (s = U "2025-10-10") then Some 739534%Z
  else None.

Definition example_strptime_range (s : str) (d : Z) :
  example_strptime s = Some d → (min_ordinal ≤ d ≤ max_ordinal)%Z.
Proof.
  unfold example_strptime, min_ordinal, max_ordinal.
  repeat case_decide; intros Hd; simplify_eq; lia.
Qed.

Definition example_calendar : Calendar := {|
  strptime_ymd := example_strptime;
  strftime_ymd d :=
    if decide (d = 739532)%Z then U "2025-10-08"
    else if decide (d = 739533)%Z then U "2025-10-09"
    else if decide (d = 739534)%Z then U "2025-10-10"
    else U "2025-10-11";
  strptime_ymd_range := example_strptime_range;
|}.

(** A calendar that knows the last two days of the library. *)
Definition last_days_strptime (s : str) : option Z :=
  if decide (s = U "9999-12-30") then Some 3652058%Z
  else if decide (s = U "9999-12-31") then Some 3652059%Z
  else None.

Definition last_days_strptime_range (s : str) (d : Z) :
  last_days_strptime s = Some d → (min_ordinal ≤ d ≤ max_ordinal)%Z.
Proof.
  unfold last_days_strptime, min_ordinal, max_ordinal.
  repeat case_decide; intros Hd; simplify_eq; lia.
Qed.

Definition last_days_calendar : Calendar := {|
  strptime_ymd := last_days_strptime;
  strftime_ymd d :=
    if decide (d = 3652058)%Z then U "9999-12-30" else U "9999-12-31";
  strptime_ymd_range := last_days_strptime_range;
|}.

(** A database whose int groups hold, for customer 7, the keys [" a "]
    (with its spaces), a key of two spaces and [b], and whose float groups
    hold none. *)
Definition example_untrimmed_db : ClickHouse := {|
  ch_ping := true;
  ch_customers _ _ _ := Ok [Some 7%Z];
  ch_metric_keys vt _ _ _ _ :=
    match vt with
    | IntGroups => Ok [[U " a "]; [U "  "]; [U "b"]]
    | FloatGroups => Ok []
    end;
  ch_tag_keys _ _ _ _ := Ok [];
  ch_group_arrays _ _ _ := Ok [];
|}.

(** A thread pool whose futures complete in the reverse of the order of
    submission. *)
Definition example_pool : ThreadPool := {|
  as_completed _ l := reverse l;
  as_completed_perm _ l := reverse_Permutation l;
|}.

(** A database that knows customer 7 and fails every key query. *)
Definition example_failing_db : ClickHouse := {|
  ch_ping := true;
  ch_customers _ _ _ := Ok [Some 7%Z];
  ch_metric_keys _ _ _ _ _ := Raise QueryFailed;
  ch_tag_keys _ _ _ _ := Raise QueryFailed;
  ch_group_arrays _ _ _ := Raise QueryFailed;
|}.

(** A database without any customer. *)
Definition example_empty_db : ClickHouse := {|
  ch_ping := true;
  ch_customers _ _ _ := Ok [];
  ch_metric_keys _ _ _ _ _ := Ok [];
  ch_tag_keys _ _ _ _ := Ok [];
  ch_group_arrays _ _ _ := Ok [];
|}.

(** A database in which customer 7 uses the key [a] on 2025-10-08 and the
    key [b] on the other days. *)
Definition example_two_day_db : ClickHouse := {|
  ch_ping := true;
  ch_customers _ _ _ := Ok [Some 7%Z];
  ch_metric_keys vt _ start_ts _ _ :=
    match vt with
    | IntGroups =>
        if decide (take 10 start_ts = U "2025-10-08") then Ok [[U "a"]]
        else Ok [[U "b"]]
    | FloatGroups => Ok []
    end;
  ch_tag_keys _ start_ts _ _ :=
    if decide (take 10 start_ts = U "2025-10-08") then Ok [[U "a"]]
    else Ok [[U "b"]];
  ch_group_arrays _ _ _ := Ok [];
|}.

(** A database that answers every chunk of [SimpleKeyDiscoverer] with one
    row of thirty arrays: the int key [plays] in the first, the float key
    [rate] in the sixteenth. *)
Definition example_simple_db : ClickHouse := {|
  ch_ping := true;
  ch_customers _ _ _ := Ok [];
  ch_metric_keys _ _ _ _ _ := Ok [];
  ch_tag_keys _ _ _ _ := Ok [];
  ch_group_arrays _ _ _ :=
    Ok [[U "plays"] :: replicate 14 [] ++ [U "rate"] :: replicate 14 []];
|}.

(** A [repr] for the examples, and a source row of customer 7 whose first
    int map holds [b_metric]. *)
Definition example_repr : Repr := {| repr_str s := U "'" +++ s +++ U "'" |}.

Definition example_source_row : list Transformer.value :=
  replicate 3 (Transformer.VStr (U "x")) ++
  [Transformer.VNum (Transformer.NInt 7)] ++
  replicate 39 Transformer.VNone ++
  [Transformer.VMap [(U "b_metric", Transformer.NInt 5)]] ++
  replicate 29 (Transformer.VMap []).

(** A string mapping edited by hand: customer 7 with a repeated key and a
    wrong [key_count], and a declared maximum below the number of its
    keys. *)
Definition example_tag_document : TagGroup.tag_document := {|
  TagGroup.tag_metadata :=
    {| generated_at := U "2025-10-08T12:00:00";
       source_table := U "default.flow";
       dates := Some [U "2025-10-08"];
       note := TagGroup.note_text |};
  TagGroup.max_keys_per_customer := 1;
  TagGroup.tag_customers :=
    [(U "7", {| TagGroup.keys := [U "b"; U "a"; U "b"]; TagGroup.key_count := 5 |})];
|}.

(** A warehouse in which every minute of the day has three raw rows and
    the aggregated row [example_source_row], and every command succeeds. *)
Definition example_warehouse : Transformer.Warehouse := {|
  Transformer.count_chunk_raw_rows _ _ _ := Ok 3;
  Transformer.fetch_chunk_aggregated _ _ _ := Ok [example_source_row];
  Transformer.truncate_ok := true;
  Transformer.insert_ok _ _ := true;
|}.

Definition example_fs : FileSystem := {| fs_writable _ := true |}.

(** A run over 2025-10-08 and 2025-10-09 with windows of two hours. *)
Definition example_args : args := {|
  arg_source_table := Some (U "default.flow");
  arg_date := None;
  arg_date_start := Some (U "2025-10-08");
  arg_date_end := Some (U "2025-10-09");
  arg_chunk_mins := 120;
  arg_max_workers := 8;
  arg_output := U "output/mappings/key_mapping.json";
|}.

(* ================================================================== *)
(** * Facts about strings *)
(* ================================================================== *)

Lemma U_inj : Inj (=) (=) U.
Proof.
  intros s1 s2 Heq. unfold U in Heq.
  assert (Hinj : Inj (=) (=) N_of_ascii).
  { intros a b Hab. rewrite <- (ascii_N_embedding a), <- (ascii_N_embedding b).
    by rewrite Hab. }
  apply (inj (fmap N_of_ascii)) in Heq.
  rewrite <- (string_of_list_ascii_of_string s1),
          <- (string_of_list_ascii_of_string s2).
  by rewrite Heq.
Qed.

Lemma str_of_nat_inj : Inj (=) (=) str_of_nat.
Proof. intros i j Heq. apply U_inj in Heq. by apply (inj pretty) in Heq. Qed.

Lemma str_of_Z_inj : Inj (=) (=) str_of_Z.
Proof. intros i j Heq. apply U_inj in Heq. by apply (inj pretty) in Heq. Qed.

Lemma column_inj (prefix : string) : Inj (=) (=) (column prefix).
Proof.
  intros i j Heq. unfold column, str_app in Heq.
  apply app_inv_head in Heq. by apply str_of_nat_inj.
Qed.

Lemma lstrip_nil_iff s : lstrip s = [] ↔ blank s.
Proof.
  unfold blank. induction s as [|c s IH]; simpl.
  - split; [constructor | done].
  - destruct (is_space c) eqn:Hc.
    + rewrite IH. split; [by constructor | by inversion 1].
    + split; [done | inversion 1; congruence].
Qed.

Lemma lstrip_blank_iff s : blank (lstrip s) ↔ blank s.
Proof.
  unfold blank. induction s as [|c s IH]; simpl; [done|].
  destruct (is_space c) eqn:Hc.
  - rewrite IH. split; [by constructor | by inversion 1].
  - done.
Qed.

Lemma strip_nil_iff s : strip s = [] ↔ blank s.
Proof.
  unfold strip, rstrip.
  split.
  - intros Heq. apply (f_equal reverse) in Heq.
    rewrite reverse_involutive, reverse_nil in Heq.
    apply lstrip_nil_iff in Heq. unfold blank in Heq.
    rewrite Forall_reverse in Heq. by apply lstrip_blank_iff.
  - intros Hb. apply lstrip_blank_iff in Hb.
    assert (Hr : blank (reverse (lstrip s))) by (unfold blank; by rewrite Forall_reverse).
    apply lstrip_nil_iff in Hr. by rewrite Hr.
Qed.

Lemma truthy_strip_iff s : truthy (strip s) = true ↔ ¬ blank s.
Proof.
  rewrite <- strip_nil_iff. destruct (strip s); simpl; split; done.
Qed.

(** ** The order of [str] *)

Lemma str_leb_refl a : str_leb a a = true.
Proof.
  induction a as [|x a IH]; simpl; [done|].
  by rewrite N.ltb_irrefl, N.eqb_refl.
Qed.

Global Instance str_le_refl : Reflexive str_le.
Proof. intros a. apply str_leb_refl. Qed.

Global Instance str_le_total : Total str_le.
Proof.
  unfold str_le. intros a. induction a as [|x a IH]; intros [|y b]; simpl; auto.
  destruct (N.ltb_spec x y), (N.ltb_spec y x), (N.eqb_spec x y), (N.eqb_spec y x);
    auto; lia.
Qed.

Global Instance str_le_trans : Transitive str_le.
Proof.
  unfold str_le. intros a. induction a as [|x a IH]; intros [|y b] [|z c]; simpl; auto;
    try discriminate.
  destruct (N.ltb_spec x y), (N.ltb_spec y z), (N.ltb_spec x z),
    (N.eqb_spec x y), (N.eqb_spec y z), (N.eqb_spec x z);
    try done; try lia; eauto.
Qed.

Global Instance str_le_antisymm : AntiSymm (=) str_le.
Proof.
  unfold str_le. intros a. induction a as [|x a IH]; intros [|y b]; simpl; auto;
    try discriminate.
  destruct (N.ltb_spec x y), (N.ltb_spec y x), (N.eqb_spec x y), (N.eqb_spec y x);
    try done; try lia.
  intros. subst. f_equal. by apply IH.
Qed.

(** [sorted] returns the ascending rearrangement of its argument. *)
Lemma sorted_Sorted xs : StronglySorted str_le (sorted xs).
Proof. apply StronglySorted_merge_sort; apply _. Qed.

Lemma sorted_Permutation xs : sorted xs ≡ₚ xs.
Proof. apply merge_sort_Permutation. Qed.

Lemma sorted_perm_eq xs ys : xs ≡ₚ ys → sorted xs = sorted ys.
Proof.
  intros Hp. apply (Sorted_unique str_le).
  - apply Sorted_merge_sort, _.
  - apply Sorted_merge_sort, _.
  - by rewrite !sorted_Permutation.
Qed.

(** [sorted] of a set does not depend on the order of its iteration: it is
    [sorted] of any arrangement of the elements. *)
Lemma sorted_set_of_elements `{SetOrder} (s : gset str) (l : list str) :
  l ≡ₚ elements s → sorted_set s = sorted l.
Proof.
  intros Hl. unfold sorted_set. apply sorted_perm_eq.
  by rewrite set_iter_perm, Hl.
Qed.

Lemma sorted_set_elements `{SetOrder} (s : gset str) :
  sorted_set s = sorted (elements s).
Proof. by apply sorted_set_of_elements. Qed.

Lemma sorted_set_order_irrelevant (order1 order2 : SetOrder) (s : gset str) :
  @sorted_set order1 s = @sorted_set order2 s.
Proof. by rewrite !sorted_set_elements. Qed.

Lemma sorted_set_elem_of `{SetOrder} s k : k ∈ sorted_set s ↔ k ∈ s.
Proof.
  unfold sorted_set. by rewrite sorted_Permutation, set_iter_perm, elem_of_elements.
Qed.

Lemma sorted_set_NoDup `{SetOrder} s : NoDup (sorted_set s).
Proof.
  unfold sorted_set. rewrite sorted_Permutation, set_iter_perm. apply NoDup_elements.
Qed.

Lemma sorted_set_length `{SetOrder} s : length (sorted_set s) = size s.
Proof. unfold sorted_set. by rewrite sorted_Permutation, set_iter_perm. Qed.

Lemma sorted_set_Sorted `{SetOrder} s : StronglySorted str_le (sorted_set s).
Proof. apply sorted_Sorted. Qed.

(** In a sorted list without repetition, an earlier key is strictly below a
    later one. *)
Lemma sorted_set_lookup_lt `{SetOrder} s i j ki kj :
  sorted_set s !! i = Some ki → sorted_set s !! j = Some kj →
  i < j → str_le ki kj ∧ ki ≠ kj.
Proof.
  intros Hi Hj Hlt. split.
  - pose proof (sorted_set_Sorted s) as Hs.
    revert i j Hi Hj Hlt. induction Hs as [|x l Hs IH Hall]; intros i j Hi Hj Hlt.
    + done.
    + destruct i as [|i], j as [|j]; simplify_eq/=; try lia.
      * rewrite Forall_forall in Hall. apply Hall. by eapply list_elem_of_lookup_2.
      * eapply IH; eauto. lia.
  - intros ->. pose proof (sorted_set_NoDup s) as Hnd.
    pose proof (NoDup_lookup _ _ _ _ Hnd Hi Hj). lia.
Qed.

(** The model on a few values. *)
Example sorted_by_code_point :
  sorted [U "b_metric"; U "a_metric"; U "Zeta"; U "a"; U ""] =
  [U ""; U "Zeta"; U "a"; U "a_metric"; U "b_metric"].
Proof. by vm_compute. Qed.

Example strip_removes_outer_whitespace :
  strip (U "  a b ") = U "a b" ∧ strip (U "   ") = [] ∧ strip (U "ab") = U "ab".
Proof. by vm_compute. Qed.

Example str_of_Z_decimal :
  str_of_Z 0 = U "0" ∧ str_of_Z 1905 = U "1905" ∧ str_of_Z (-42) = U "-42" ∧
  fmt02 7 = U "07" ∧ fmt02 59 = U "59" ∧ column "float" 12 = U "float12".
Proof. by vm_compute. Qed.

Example build_chunks_for_day_720 :
  @build_chunks_for_day example_calendar (U "2025-10-08") 720 =
  Ok [(U "2025-10-08 00:00:00", U "2025-10-08 11:59:59");
      (U "2025-10-08 12:00:00", U "2025-10-08 23:59:59")].
Proof. by vm_compute. Qed.

Example build_chunks_for_day_rejects :
  @build_chunks_for_day example_calendar (U "2025-10-08") 7 = Raise ChunkNotDividingDay ∧
  @build_chunks_for_day example_calendar (U "2025-10-08") 90 = Raise ChunkNotMultipleOf60 ∧
  @build_chunks_for_day example_calendar (U "2025-10-08") (-60) = Ok [] ∧
  @build_chunks_for_day example_calendar (U "yesterday") 60 = Raise DateFormatError.
Proof. by vm_compute. Qed.

(* ================================================================== *)
(** * Facts about dictionaries *)
(* ================================================================== *)

Section dict_facts.
Context {K V : Type} `{EqDecision K}.
Implicit Types (d : dict K V) (k : K) (v : V).

Lemma dict_get_set_eq k v d : dict_get k (dict_set k v d) = Some v.
Proof.
  induction d as [|[k' v'] d IH]; simpl.
  - by rewrite decide_True.
  - case_decide; simpl; [by rewrite decide_True | by rewrite decide_False].
Qed.

Lemma dict_get_set_ne k k' v d :
  k ≠ k' → dict_get k' (dict_set k v d) = dict_get k' d.
Proof.
  intros Hne. induction d as [|[k0 v0] d IH]; simpl.
  - by rewrite decide_False.
  - destruct (decide (k = k0)), (decide (k' = k0)); simpl;
      rewrite ?decide_True, ?decide_False by congruence; congruence.
Qed.

Lemma dict_get_None k d : dict_get k d = None ↔ k ∉ d.*1.
Proof.
  induction d as [|[k' v'] d IH]; simpl.
  - split; [intros _; apply not_elem_of_nil | done].
  - case_decide; subst.
    + split; [done | intros Hn; destruct Hn; left].
    + rewrite IH, not_elem_of_cons. intuition.
Qed.

Lemma dict_get_Some_elem_of k v d : dict_get k d = Some v → (k, v) ∈ d.
Proof.
  induction d as [|[k' v'] d IH]; simpl; [done|].
  case_decide; intros Hg.
  - injection Hg as ->. subst. left.
  - right. auto.
Qed.

Lemma dict_get_Some k v d : dict_wf d → dict_get k d = Some v ↔ (k, v) ∈ d.
Proof.
  intros Hwf. split; [apply dict_get_Some_elem_of|].
  induction d as [|[k' v'] d IH]; simpl; [by intros ?%elem_of_nil|].
  apply NoDup_cons in Hwf as [Hk' Hwf].
  rewrite elem_of_cons. intros [?|Hin]; simplify_eq.
  - by rewrite decide_True.
  - rewrite decide_False; [by apply IH|].
    intros ->. apply Hk'. apply list_elem_of_fmap. by exists (k', v).
Qed.

Lemma dict_set_fresh k v d : k ∉ d.*1 → dict_set k v d = d ++ [(k, v)].
Proof.
  induction d as [|[k' v'] d IH]; simpl; [done|].
  rewrite not_elem_of_cons. intros [? ?]. rewrite decide_False by done.
  f_equal. by apply IH.
Qed.

Lemma dict_set_keys_mem k v v' d :
  dict_get k d = Some v' → (dict_set k v d).*1 = d.*1.
Proof.
  induction d as [|[k0 v0] d IH]; simpl; [done|].
  case_decide; simpl; intros; simplify_eq; [done|]. f_equal. by apply IH.
Qed.

Lemma dict_set_wf k v d : dict_wf d → dict_wf (dict_set k v d).
Proof.
  unfold dict_wf. intros Hwf. destruct (dict_get k d) as [v'|] eqn:Hg.
  - by rewrite (dict_set_keys_mem _ _ _ _ Hg).
  - apply dict_get_None in Hg. rewrite dict_set_fresh by done.
    rewrite fmap_app. simpl. apply NoDup_app. split_and!; [done| |apply NoDup_singleton].
    intros x Hx ?%list_elem_of_singleton. by subst.
Qed.

(** Inserting items whose keys are all different and all new appends
    them in their order. *)
Lemma foldl_dict_set_fresh (items : list (K * V)) d :
  NoDup (d.*1 ++ items.*1) →
  foldl (λ d kv, dict_set kv.1 kv.2 d) d items = d ++ items.
Proof.
  revert d. induction items as [|[k v] items IH]; intros d Hnd; simpl.
  - by rewrite app_nil_r.
  - rewrite dict_set_fresh.
    + rewrite IH; [by rewrite <- app_assoc|].
      rewrite fmap_app. simpl. by rewrite <- app_assoc.
    + apply NoDup_app in Hnd as (_ & Hdis & _). intros Hin.
      apply (Hdis _ Hin). simpl. left.
Qed.

Lemma dict_of_items_NoDup (items : list (K * V)) :
  NoDup items.*1 → dict_of_items items = items.
Proof. intros Hnd. unfold dict_of_items. by rewrite foldl_dict_set_fresh. Qed.

Lemma dict_mem_true k d : dict_mem k d = true ↔ is_Some (dict_get k d).
Proof.
  unfold dict_mem. destruct (dict_get k d); split; intros Hx;
    first [done | by eexists | by destruct Hx].
Qed.

(** Two dictionaries with the same items in different insertion orders
    answer every lookup alike. *)
Lemma dict_get_Permutation k d d' :
  dict_wf d → d ≡ₚ d' → dict_get k d = dict_get k d'.
Proof.
  intros Hwf Hp.
  assert (Hwf' : dict_wf d') by (unfold dict_wf in *; by rewrite <- Hp).
  destruct (dict_get k d) as [v|] eqn:Hg.
  - symmetry. apply dict_get_Some; [done|]. rewrite <- Hp.
    by apply dict_get_Some_elem_of.
  - symmetry. apply dict_get_None. rewrite <- Hp. by apply dict_get_None.
Qed.
End dict_facts.

(* ================================================================== *)
(** * Column assignment *)
(* ================================================================== *)

Lemma enumerate_lookup {A} (start : nat) (xs : list A) n :
  enumerate start xs !! n = (λ x, (start + n, x)) <$> xs !! n.
Proof.
  unfold enumerate. revert start n.
  induction xs as [|x xs IH]; intros start [|n]; simpl; try done.
  - by rewrite Nat.add_0_r.
  - rewrite IH. destruct (xs !! n); simpl; [|done]. do 2 f_equal. lia.
Qed.

Lemma enumerate_snd {A} (start : nat) (xs : list A) : (enumerate start xs).*2 = xs.
Proof. unfold enumerate. apply snd_zip. by rewrite length_seq. Qed.

Lemma enumerate_fst {A} (start : nat) (xs : list A) :
  (enumerate start xs).*1 = seq start (length xs).
Proof. unfold enumerate. apply fst_zip. by rewrite length_seq. Qed.

Lemma items_of_keys (prefix : string) ks : (items_of prefix ks).*1 = ks.
Proof.
  unfold items_of. rewrite <- list_fmap_compose.
  rewrite <- (enumerate_snd 1 ks) at 2. by apply list_fmap_ext.
Qed.

Lemma swap_items_keys (prefix : string) ks :
  (swap_items (items_of prefix ks)).*1 = column prefix <$> seq 1 (length ks).
Proof.
  unfold swap_items, items_of. rewrite <- !list_fmap_compose.
  rewrite <- (enumerate_fst 1 ks). rewrite <- list_fmap_compose.
  by apply list_fmap_ext.
Qed.

Lemma swap_items_NoDup (prefix : string) ks : NoDup (swap_items (items_of prefix ks)).*1.
Proof.
  rewrite swap_items_keys. apply NoDup_fmap_2; [apply column_inj | apply NoDup_seq].
Qed.

Lemma elem_of_items_of (prefix : string) ks k c :
  (k, c) ∈ items_of prefix ks ↔ ∃ n, ks !! n = Some k ∧ c = column prefix (S n).
Proof.
  unfold items_of. rewrite list_elem_of_fmap. split.
  - intros ([i k'] & Heq & Hin). simplify_eq/=.
    apply list_elem_of_lookup in Hin as [n Hn].
    rewrite enumerate_lookup in Hn.
    destruct (ks !! n) as [x|] eqn:Hx; simplify_eq/=. eauto.
  - intros (n & Hn & ->). exists (S n, k). split; [done|].
    apply list_elem_of_lookup. exists n. rewrite enumerate_lookup, Hn. done.
Qed.

Lemma elem_of_swap_items items k c : (c, k) ∈ swap_items items ↔ (k, c) ∈ items.
Proof.
  unfold swap_items. rewrite list_elem_of_fmap. split.
  - intros ([k' c'] & Heq & Hin). by simplify_eq/=.
  - intros Hin. by exists (k, c).
Qed.

(** The heart of the assignment: what the two dictionaries of one kind
    satisfy. *)
Lemma items_of_bijection `{SetOrder} (prefix : string) (s : gset str) :
  column_bijection prefix s (sorted_set s)
    (items_of prefix (sorted_set s))
    (swap_items (items_of prefix (sorted_set s)))
    (length (sorted_set s)).
Proof.
  set (ks := sorted_set s).
  assert (Hnd : NoDup ks) by apply sorted_set_NoDup.
  assert (Hwf : dict_wf (items_of prefix ks))
    by (unfold dict_wf; by rewrite items_of_keys).
  assert (Hwfr : dict_wf (swap_items (items_of prefix ks)))
    by apply swap_items_NoDup.
  assert (Hget : ∀ k c, dict_get k (items_of prefix ks) = Some c ↔
                        ∃ n, ks !! n = Some k ∧ c = column prefix (S n)).
  { intros k c. by rewrite dict_get_Some, elem_of_items_of. }
  split.
  - apply sorted_set_Sorted.
  - done.
  - apply sorted_set_elem_of.
  - split; [apply sorted_set_length | done].
  - done.
  - intros k. rewrite <- sorted_set_elem_of. fold ks. split.
    + intros [c Hc]. apply Hget in Hc as (n & Hn & _).
      by eapply list_elem_of_lookup_2.
    + intros [n Hn]%list_elem_of_lookup. eexists. apply Hget. eauto.
  - intros c. split.
    + intros [k Hk]. apply Hget in Hk as (n & Hn & ->).
      exists (S n). split; [|done]. apply lookup_lt_Some in Hn. lia.
    + intros (n & [H1 H2] & ->). destruct n as [|n]; [lia|].
      destruct (lookup_lt_is_Some_2 ks n) as [k Hk]; [lia|].
      exists k. apply Hget. eauto.
  - intros k1 k2 c H1 H2.
    apply Hget in H1 as (n1 & Hn1 & ->). apply Hget in H2 as (n2 & Hn2 & Heq).
    apply column_inj in Heq. simplify_eq. congruence.
  - intros n k Hn. apply Hget. eauto.
  - intros k c. by rewrite !dict_get_Some, elem_of_swap_items.
Qed.

Lemma Mt_customer_block_eq `{SetOrder} (int_set float_set : gset str) :
  Mt.customer_block int_set float_set =
  {| int_keys := sorted_set int_set;
     float_keys := sorted_set float_set;
     int_mapping := items_of "int" (sorted_set int_set);
     float_mapping := items_of "float" (sorted_set float_set);
     reverse_int_mapping := swap_items (items_of "int" (sorted_set int_set));
     reverse_float_mapping := swap_items (items_of "float" (sorted_set float_set));
     int_columns := length (sorted_set int_set);
     float_columns := length (sorted_set float_set) |}.
Proof.
  unfold Mt.customer_block. fold (items_of "int" (sorted_set int_set)).
  fold (items_of "float" (sorted_set float_set)).
  rewrite !(dict_of_items_NoDup (items_of _ _))
    by (rewrite items_of_keys; apply sorted_set_NoDup).
  fold (swap_items (items_of "int" (sorted_set int_set))).
  fold (swap_items (items_of "float" (sorted_set float_set))).
  rewrite !(dict_of_items_NoDup (swap_items _)) by apply swap_items_NoDup.
  done.
Qed.

Lemma assign_columns_foldl (prefix : string) (l : list (nat * str)) m r :
  foldl (λ (st : dict str str * dict str str) (ik : nat * str),
           let col := column prefix ik.1 in
           (dict_set ik.2 col st.1, dict_set col ik.2 st.2)) (m, r) l =
  (foldl (λ d kv, dict_set kv.1 kv.2 d) m
     ((λ ik : nat * str, (ik.2, column prefix ik.1)) <$> l),
   foldl (λ d kv, dict_set kv.1 kv.2 d) r
     (swap_items ((λ ik : nat * str, (ik.2, column prefix ik.1)) <$> l))).
Proof.
  revert m r. induction l as [|[i k] l IH]; intros m r; simpl; [done|].
  by rewrite IH.
Qed.

Lemma assign_columns_eq `{SetOrder} (prefix : string) (s : gset str) :
  Simple.assign_columns prefix (sorted_set s) =
  (items_of prefix (sorted_set s), swap_items (items_of prefix (sorted_set s))).
Proof.
  unfold Simple.assign_columns. rewrite assign_columns_foldl.
  fold (items_of prefix (sorted_set s)).
  f_equal.
  - apply (dict_of_items_NoDup (items_of _ _)).
    rewrite items_of_keys. apply sorted_set_NoDup.
  - apply (dict_of_items_NoDup (swap_items _)), swap_items_NoDup.
Qed.

(** The block of [generate_nested_mapping] for two key lists is the block
    of [build_nested_mapping] for the sets of their elements. *)
Lemma Simple_customer_block_eq `{SetOrder} (ints floats : list str) :
  Simple.customer_block ints floats =
  Mt.customer_block (list_to_set ints) (list_to_set floats).
Proof.
  unfold Simple.customer_block. rewrite !assign_columns_eq.
  by rewrite Mt_customer_block_eq.
Qed.

(** The loop of [build_nested_mapping], as a whole: the maxima are the
    maxima of the counts, and the block of a dictionary holds one entry per
    customer, in the order of the customers. *)
Lemma Mt_mapping_foldl `{SetOrder} (c2k : dict Z (gset str * gset str)) block mi mf :
  foldl Mt.mapping_step (block, mi, mf) c2k =
  (foldl (λ b (it : Z * (gset str * gset str)),
            dict_set (str_of_Z it.1) (Mt.customer_block it.2.1 it.2.2) b) block c2k,
   mi `max` max_list (int_counts c2k),
   mf `max` max_list (float_counts c2k)).
Proof.
  revert block mi mf. induction c2k as [|[cid [I F]] c2k IH]; intros block mi mf; simpl.
  - by rewrite !Nat.max_0_r.
  - rewrite IH. rewrite Mt_customer_block_eq. simpl.
    rewrite !sorted_set_length. by rewrite !Nat.max_assoc.
Qed.

Lemma Mt_customers_eq `{Clock, SetOrder}
    (src : str) (c2k : dict Z (gset str * gset str)) (dates : list str) :
  customers (Mt.build_nested_mapping src c2k dates) =
  dict_of_items ((λ it : Z * (gset str * gset str),
                    (str_of_Z it.1, Mt.customer_block it.2.1 it.2.2)) <$> c2k).
Proof.
  unfold Mt.build_nested_mapping. rewrite Mt_mapping_foldl. simpl.
  unfold dict_of_items. generalize (@nil (str * customer_entry)).
  induction c2k as [|[cid [I F]] c2k IH]; intros b; simpl; [done|]. by rewrite IH.
Qed.

Lemma Mt_max_int_eq `{Clock, SetOrder}
    (src : str) (c2k : dict Z (gset str * gset str)) (dates : list str) :
  max_int_columns (Mt.build_nested_mapping src c2k dates) =
  max_list (int_counts c2k).
Proof. unfold Mt.build_nested_mapping. by rewrite Mt_mapping_foldl. Qed.

Lemma Mt_max_float_eq `{Clock, SetOrder}
    (src : str) (c2k : dict Z (gset str * gset str)) (dates : list str) :
  max_float_columns (Mt.build_nested_mapping src c2k dates) =
  max_list (float_counts c2k).
Proof. unfold Mt.build_nested_mapping. by rewrite Mt_mapping_foldl. Qed.

Lemma Simple_mapping_foldl `{SetOrder} (ck : dict Z (list str * list str)) st :
  foldl Simple.mapping_step st ck = foldl Mt.mapping_step st (to_sets <$> ck).
Proof.
  revert st. induction ck as [|[cid [ints floats]] ck IH]; intros [[b mi] mf]; simpl; [done|].
  rewrite <- IH. simpl. by rewrite Simple_customer_block_eq.
Qed.

(** [generate_nested_mapping] builds the block and the maxima that
    [build_nested_mapping] builds from the sets of the lists. *)
Lemma Simple_generate_eq `{Clock, SetOrder}
    (src : str) (ck : dict Z (list str * list str))
    (dates : list str) :
  customers (Simple.generate_nested_mapping src ck) =
    customers (Mt.build_nested_mapping src (to_sets <$> ck) dates) ∧
  max_int_columns (Simple.generate_nested_mapping src ck) =
    max_int_columns (Mt.build_nested_mapping src (to_sets <$> ck) dates) ∧
  max_float_columns (Simple.generate_nested_mapping src ck) =
    max_float_columns (Mt.build_nested_mapping src (to_sets <$> ck) dates).
Proof.
  unfold Simple.generate_nested_mapping, Mt.build_nested_mapping.
  rewrite Simple_mapping_foldl.
  by destruct (foldl Mt.mapping_step ([], 0, 0) (to_sets <$> ck)) as [[b mi] mf].
Qed.

Lemma to_sets_keys (ck : dict Z (list str * list str)) : (to_sets <$> ck).*1 = ck.*1.
Proof. rewrite <- list_fmap_compose. by apply list_fmap_ext. Qed.

Lemma to_sets_get (ck : dict Z (list str * list str)) cid ints floats :
  dict_get cid ck = Some (ints, floats) →
  dict_get cid (to_sets <$> ck) = Some (list_to_set ints, list_to_set floats).
Proof.
  induction ck as [|[c [i f]] ck IH]; simpl; [done|].
  case_decide; intros Hg; [by simplify_eq | auto].
Qed.

(** The block of a well-formed dictionary is the list of its entries: no
    two customers share a name. *)
Lemma Mt_customers_list `{Clock, SetOrder}
    (src : str) (c2k : dict Z (gset str * gset str))
    (dates : list str) :
  dict_wf c2k →
  customers (Mt.build_nested_mapping src c2k dates) =
  (λ it : Z * (gset str * gset str),
     (str_of_Z it.1, Mt.customer_block it.2.1 it.2.2)) <$> c2k.
Proof.
  intros Hwf. rewrite Mt_customers_eq. apply dict_of_items_NoDup.
  rewrite <- list_fmap_compose.
  change (NoDup ((str_of_Z ∘ fst) <$> c2k)).
  rewrite list_fmap_compose. apply NoDup_fmap_2; [apply str_of_Z_inj | done].
Qed.

Lemma Mt_customers_wf `{Clock, SetOrder} (src : str) (c2k : dict Z (gset str * gset str))
    (dates : list str) :
  dict_wf c2k → dict_wf (customers (Mt.build_nested_mapping src c2k dates)).
Proof.
  intros Hwf. rewrite Mt_customers_list by done. unfold dict_wf.
  rewrite <- list_fmap_compose.
  change (NoDup ((str_of_Z ∘ fst) <$> c2k)).
  rewrite list_fmap_compose. apply NoDup_fmap_2; [apply str_of_Z_inj | done].
Qed.

Lemma Mt_customers_get `{Clock, SetOrder} (src : str) (c2k : dict Z (gset str * gset str))
    (dates : list str) cid I F :
  dict_wf c2k → dict_get cid c2k = Some (I, F) →
  dict_get (str_of_Z cid) (customers (Mt.build_nested_mapping src c2k dates)) =
  Some (Mt.customer_block I F).
Proof.
  intros Hwf Hg. apply dict_get_Some; [by apply Mt_customers_wf|].
  rewrite Mt_customers_list by done.
  apply list_elem_of_fmap. exists (cid, (I, F)). split; [done|].
  by apply dict_get_Some_elem_of.
Qed.

Lemma Mt_customer_block_bijection `{SetOrder} (I F : gset str) :
  let e := Mt.customer_block I F in
  column_bijection "int" I (int_keys e) (int_mapping e)
    (reverse_int_mapping e) (int_columns e) ∧
  column_bijection "float" F (float_keys e) (float_mapping e)
    (reverse_float_mapping e) (float_columns e).
Proof.
  rewrite Mt_customer_block_eq. simpl. split; apply items_of_bijection.
Qed.

(** The entries of the document are the entries of the tenants of the
    dictionary, and no other. *)
Lemma Mt_customers_get_inv `{Clock, SetOrder}
    (src : str) (c2k : dict Z (gset str * gset str))
    (dates : list str) (name : str) (e : customer_entry) :
  dict_wf c2k →
  dict_get name (customers (Mt.build_nested_mapping src c2k dates)) = Some e →
  ∃ cid I F, name = str_of_Z cid ∧ dict_get cid c2k = Some (I, F) ∧
             e = Mt.customer_block I F.
Proof.
  intros Hwf Hg. apply dict_get_Some_elem_of in Hg.
  rewrite Mt_customers_list in Hg by done.
  apply list_elem_of_fmap in Hg as ([cid [I F]] & Heq & Hin).
  injection Heq as -> ->. exists cid, I, F. split; [done|]. split; [|done].
  by apply dict_get_Some.
Qed.

Lemma to_sets_get_inv (ck : dict Z (list str * list str)) (cid : Z) (I F : gset str) :
  dict_get cid (to_sets <$> ck) = Some (I, F) →
  ∃ ints floats, dict_get cid ck = Some (ints, floats) ∧
                 I = list_to_set ints ∧ F = list_to_set floats.
Proof.
  induction ck as [|[c [i f]] ck IH]; simpl; [done|].
  case_decide; intros Hg; [|auto].
  injection Hg as <- <-. by exists i, f.
Qed.

(** C2. For every tenant of the dictionary given to [build_nested_mapping]
    (and of the one given to [generate_nested_mapping]), the document holds
    an entry under the tenant's name in which [int_mapping] is a bijection
    from the tenant's int key set onto the columns [int1 .. intK], [K] the
    number of its int keys, the [N]th key in ascending order getting column
    [N], and [reverse_int_mapping] is its inverse; the same for the float keys
    and the columns [floatN]. The document holds no other entry: every entry
    of its [customers] block stands under the name of a tenant of the
    dictionary and is that bijection for the tenant's key sets. The tenant
    with the int keys [b_metric] and [a_metric] gets [a_metric -> int1],
    [b_metric -> int2]. *)
Theorem nested_mapping_bijection `{Clock, SetOrder} (src : str) (dates : list str)
    (customer_to_keys : dict Z (gset str * gset str))
    (customer_keys : dict Z (list str * list str))
    (cid : Z) (int_set float_set : gset str) (ints floats : list str) :
  dict_wf customer_to_keys →
  dict_get cid customer_to_keys = Some (int_set, float_set) →
  dict_wf customer_keys →
  dict_get cid customer_keys = Some (ints, floats) →
  (∃ e, dict_get (str_of_Z cid)
          (customers (Mt.build_nested_mapping src customer_to_keys dates)) = Some e ∧
        column_bijection "int" int_set (int_keys e) (int_mapping e)
          (reverse_int_mapping e) (int_columns e) ∧
        column_bijection "float" float_set (float_keys e) (float_mapping e)
          (reverse_float_mapping e) (float_columns e)) ∧
  (∃ e, dict_get (str_of_Z cid)
          (customers (Simple.generate_nested_mapping src customer_keys)) = Some e ∧
        column_bijection "int" (list_to_set ints) (int_keys e) (int_mapping e)
          (reverse_int_mapping e) (int_columns e) ∧
        column_bijection "float" (list_to_set floats) (float_keys e) (float_mapping e)
          (reverse_float_mapping e) (float_columns e)) ∧
  (∀ name e,
     dict_get name (customers (Mt.build_nested_mapping src customer_to_keys dates))
       = Some e →
     ∃ cid' I F,
       name = str_of_Z cid' ∧ dict_get cid' customer_to_keys = Some (I, F) ∧
       column_bijection "int" I (int_keys e) (int_mapping e)
         (reverse_int_mapping e) (int_columns e) ∧
       column_bijection "float" F (float_keys e) (float_mapping e)
         (reverse_float_mapping e) (float_columns e)) ∧
  (∀ name e,
     dict_get name (customers (Simple.generate_nested_mapping src customer_keys))
       = Some e →
     ∃ cid' ints' floats',
       name = str_of_Z cid' ∧ dict_get cid' customer_keys = Some (ints', floats') ∧
       column_bijection "int" (list_to_set ints') (int_keys e) (int_mapping e)
         (reverse_int_mapping e) (int_columns e) ∧
       column_bijection "float" (list_to_set floats') (float_keys e) (float_mapping e)
         (reverse_float_mapping e) (float_columns e)) ∧
  int_mapping (Mt.customer_block {[ U "b_metric"; U "a_metric" ]} ∅) =
    [(U "a_metric", U "int1"); (U "b_metric", U "int2")].
Proof.
  intros Hwf Hg Hwf' Hg'. split_and!.
  - exists (Mt.customer_block int_set float_set). split.
    + by apply Mt_customers_get.
    + apply Mt_customer_block_bijection.
  - exists (Mt.customer_block (list_to_set ints) (list_to_set floats)). split.
    + destruct (Simple_generate_eq src customer_keys dates) as (-> & _ & _).
      apply Mt_customers_get.
      * unfold dict_wf. by rewrite to_sets_keys.
      * by apply to_sets_get.
    + apply Mt_customer_block_bijection.
  - intros name e He.
    apply Mt_customers_get_inv in He as (cid' & I & F & -> & Hc & ->); [|done].
    exists cid', I, F. split; [done|]. split; [done|].
    apply Mt_customer_block_bijection.
  - intros name e He.
    destruct (Simple_generate_eq src customer_keys dates) as (Heq & _ & _).
    rewrite Heq in He.
    apply Mt_customers_get_inv in He as (cid' & I & F & -> & Hc & ->);
      [|unfold dict_wf; by rewrite to_sets_keys].
    apply to_sets_get_inv in Hc as (ints' & floats' & Hc & -> & ->).
    exists cid', ints', floats'. split; [done|]. split; [done|].
    apply Mt_customer_block_bijection.
  - rewrite Mt_customer_block_eq. cbn [int_mapping].
    rewrite sorted_set_elements. by vm_compute.
Qed.

Lemma nested_mapping_bijection_witness :
  ∃ e, dict_get (U "7")
         (customers (@Mt.build_nested_mapping example_clock example_reverse_order
                       (U "t") example_customer_to_keys [U "2025-10-08"])) = Some e ∧
       column_bijection "int" {[ U "b_metric"; U "a_metric" ]} (int_keys e)
         (int_mapping e) (reverse_int_mapping e) (int_columns e).
Proof.
  destruct (@nested_mapping_bijection example_clock example_reverse_order
              (U "t") [U "2025-10-08"]
              example_customer_to_keys example_customer_keys 7
              {[ U "b_metric"; U "a_metric" ]} ∅
              [U "b_metric"; U "a_metric"; U "b_metric"] [])
    as [(e & He & Hint & _) _].
  - unfold dict_wf. simpl. apply NoDup_singleton.
  - reflexivity.
  - unfold dict_wf. simpl. apply NoDup_singleton.
  - reflexivity.
  - exists e. split; [exact He | exact Hint].
Defined.

(* ================================================================== *)
(** * Width of the table *)
(* ================================================================== *)

Lemma max_list_is_max (counts : list nat) : is_max_of (max_list counts) counts.
Proof.
  unfold is_max_of. split_and!.
  - intros c. apply max_list_elem_of_le.
  - apply max_list_elem_of.
  - by intros ->.
Qed.

Lemma int_counts_to_sets (ck : dict Z (list str * list str)) :
  int_counts (to_sets <$> ck) = (λ it, size (list_to_set (C := gset str) it.2.1)) <$> ck.
Proof. unfold int_counts. rewrite <- list_fmap_compose. by apply list_fmap_ext. Qed.

Lemma float_counts_to_sets (ck : dict Z (list str * list str)) :
  float_counts (to_sets <$> ck) = (λ it, size (list_to_set (C := gset str) it.2.2)) <$> ck.
Proof. unfold float_counts. rewrite <- list_fmap_compose. by apply list_fmap_ext. Qed.

Lemma int_counts_without_empty (l1 l2 : dict Z (gset str * gset str)) (cid : Z)
    (F : gset str) :
  max_list (int_counts (l1 ++ (cid, (∅, F)) :: l2)) = max_list (int_counts (l1 ++ l2)).
Proof.
  unfold int_counts. rewrite !fmap_app, fmap_cons, <- Permutation_middle.
  cbn [max_list_with fst snd id]. by rewrite size_empty.
Qed.

Lemma float_counts_without_empty (l1 l2 : dict Z (gset str * gset str)) (cid : Z)
    (I : gset str) :
  max_list (float_counts (l1 ++ (cid, (I, ∅)) :: l2)) = max_list (float_counts (l1 ++ l2)).
Proof.
  unfold float_counts. rewrite !fmap_app, fmap_cons, <- Permutation_middle.
  cbn [max_list_with fst snd id]. by rewrite size_empty.
Qed.

(** C3. [max_int_columns] of the document is the maximum over the tenants
    of the tenant's int key count: no tenant has more int keys, some tenant
    has exactly that many when there is a tenant at all, and it is 0 without
    tenants; every entry of the document records its own count in
    [int_columns], below the maximum. The same for [max_float_columns]. A
    tenant without keys of a kind has count 0 and leaves the maximum where
    the other tenants put it. [generate_nested_mapping] computes the same
    maxima from the numbers of distinct keys of its lists. Read from the
    document alone: the count of every entry of its [customers] block is at
    most the maximum, some entry has it when there is an entry, and it is 0
    in a document without entries. *)
Theorem max_columns_is_maximum `{Clock, SetOrder} (src : str) (dates : list str)
    (customer_to_keys : dict Z (gset str * gset str))
    (customer_keys : dict Z (list str * list str)) :
  let doc := Mt.build_nested_mapping src customer_to_keys dates in
  let doc' := Simple.generate_nested_mapping src customer_keys in
  is_max_of (max_int_columns doc) (int_counts customer_to_keys) ∧
  is_max_of (max_float_columns doc) (float_counts customer_to_keys) ∧
  (∀ cid I F, dict_wf customer_to_keys →
     dict_get cid customer_to_keys = Some (I, F) →
     ∃ e, dict_get (str_of_Z cid) (customers doc) = Some e ∧
          int_columns e = size I ∧ float_columns e = size F ∧
          int_columns e ≤ max_int_columns doc ∧
          float_columns e ≤ max_float_columns doc) ∧
  (∀ l1 l2 cid F, customer_to_keys = l1 ++ (cid, (∅, F)) :: l2 →
     max_int_columns doc = max_int_columns (Mt.build_nested_mapping src (l1 ++ l2) dates)) ∧
  (∀ l1 l2 cid I, customer_to_keys = l1 ++ (cid, (I, ∅)) :: l2 →
     max_float_columns doc = max_float_columns (Mt.build_nested_mapping src (l1 ++ l2) dates)) ∧
  is_max_of (max_int_columns doc')
    ((λ it, size (list_to_set (C := gset str) it.2.1)) <$> customer_keys) ∧
  is_max_of (max_float_columns doc')
    ((λ it, size (list_to_set (C := gset str) it.2.2)) <$> customer_keys) ∧
  (dict_wf customer_to_keys →
   (∀ name e, dict_get name (customers doc) = Some e →
      int_columns e ≤ max_int_columns doc ∧
      float_columns e ≤ max_float_columns doc) ∧
   (customers doc ≠ [] →
      (∃ name e, dict_get name (customers doc) = Some e ∧
                 int_columns e = max_int_columns doc) ∧
      (∃ name e, dict_get name (customers doc) = Some e ∧
                 float_columns e = max_float_columns doc)) ∧
   (customers doc = [] →
      max_int_columns doc = 0 ∧ max_float_columns doc = 0)).
Proof.
  intros doc doc'. subst doc doc'. split_and!.
  - rewrite Mt_max_int_eq. apply max_list_is_max.
  - rewrite Mt_max_float_eq. apply max_list_is_max.
  - intros cid I F Hwf Hg. exists (Mt.customer_block I F).
    rewrite Mt_max_int_eq, Mt_max_float_eq.
    split; [by apply Mt_customers_get|].
    rewrite Mt_customer_block_eq. simpl. rewrite !sorted_set_length.
    apply dict_get_Some_elem_of in Hg.
    split_and!; try done.
    + apply max_list_elem_of_le. unfold int_counts.
      apply list_elem_of_fmap. by exists (cid, (I, F)).
    + apply max_list_elem_of_le. unfold float_counts.
      apply list_elem_of_fmap. by exists (cid, (I, F)).
  - intros l1 l2 cid F ->. rewrite !Mt_max_int_eq. apply int_counts_without_empty.
  - intros l1 l2 cid I ->. rewrite !Mt_max_float_eq. apply float_counts_without_empty.
  - destruct (Simple_generate_eq src customer_keys dates) as (_ & -> & _).
    rewrite Mt_max_int_eq, int_counts_to_sets. apply max_list_is_max.
  - destruct (Simple_generate_eq src customer_keys dates) as (_ & _ & ->).
    rewrite Mt_max_float_eq, float_counts_to_sets. apply max_list_is_max.
  - intros Hwf. rewrite Mt_max_int_eq, Mt_max_float_eq. split_and!.
    + intros name e He.
      apply Mt_customers_get_inv in He as (cid & I & F & -> & Hc & ->); [|done].
      rewrite Mt_customer_block_eq. cbn [int_columns float_columns].
      rewrite !sorted_set_length. apply dict_get_Some_elem_of in Hc. split.
      * apply max_list_elem_of_le. unfold int_counts.
        apply list_elem_of_fmap. by exists (cid, (I, F)).
      * apply max_list_elem_of_le. unfold float_counts.
        apply list_elem_of_fmap. by exists (cid, (I, F)).
    + intros Hne. rewrite Mt_customers_list in Hne by done.
      assert (Hc2k : customer_to_keys ≠ []) by (by intros ->).
      split.
      * assert (Hin : max_list (int_counts customer_to_keys) ∈ int_counts customer_to_keys).
        { apply max_list_elem_of. unfold int_counts.
          by destruct customer_to_keys. }
        unfold int_counts in Hin at 2.
        apply list_elem_of_fmap in Hin as ([cid [I F]] & Hsize & Hin).
        exists (str_of_Z cid), (Mt.customer_block I F). split.
        -- apply Mt_customers_get; [done|]. by apply dict_get_Some.
        -- rewrite Mt_customer_block_eq. cbn [int_columns].
           by rewrite sorted_set_length.
      * assert (Hin : max_list (float_counts customer_to_keys)
                        ∈ float_counts customer_to_keys).
        { apply max_list_elem_of. unfold float_counts.
          by destruct customer_to_keys. }
        unfold float_counts in Hin at 2.
        apply list_elem_of_fmap in Hin as ([cid [I F]] & Hsize & Hin).
        exists (str_of_Z cid), (Mt.customer_block I F). split.
        -- apply Mt_customers_get; [done|]. by apply dict_get_Some.
        -- rewrite Mt_customer_block_eq. cbn [float_columns].
           by rewrite sorted_set_length.
    + intros Hnil. rewrite Mt_customers_list in Hnil by done.
      apply fmap_nil_inv in Hnil as ->. done.
Qed.

(* ================================================================== *)
(** * Determinism of the builder *)
(* ================================================================== *)

(** The block of a customer does not depend on the order in which the run
    iterates over the two sets: [sorted] gives the same list from every
    arrangement of their elements. *)
Lemma Mt_customer_block_order_irrelevant (order1 order2 : SetOrder)
    (int_set float_set : gset str) :
  @Mt.customer_block order1 int_set float_set =
  @Mt.customer_block order2 int_set float_set.
Proof.
  rewrite (@Mt_customer_block_eq order1), (@Mt_customer_block_eq order2).
  by rewrite !(sorted_set_order_irrelevant order1 order2).
Qed.

Lemma Mt_customers_order_irrelevant (clock1 clock2 : Clock) (order1 order2 : SetOrder)
    (src1 src2 : str) (dates1 dates2 : list str)
    (c2k : dict Z (gset str * gset str)) :
  customers (@Mt.build_nested_mapping clock1 order1 src1 c2k dates1) =
  customers (@Mt.build_nested_mapping clock2 order2 src2 c2k dates2).
Proof.
  rewrite !Mt_customers_eq. f_equal. apply list_fmap_ext.
  intros i [cid [I F]] _. cbn [fst snd]. f_equal.
  apply Mt_customer_block_order_irrelevant.
Qed.

(** C8. Two invocations of [build_nested_mapping] on the same per-tenant
    key sets, whatever the insertion order of the tenants, the order in which
    each run iterates over the sets, the clock, the table name and the list
    of dates of each, produce the same [max_columns] and the same entry for
    every tenant: [int_keys], [float_keys], the four mappings and the two
    counts; the two blocks hold the same items, and on the very same
    dictionary they are equal. The entry of a tenant is the one [sorted]
    gives from every arrangement of the tenant's keys: the keys in ascending
    order, the [N]th with column [N]. *)
Theorem build_nested_mapping_deterministic (clock1 clock2 : Clock)
    (order1 order2 : SetOrder)
    (src1 src2 : str) (dates1 dates2 : list str)
    (customer_to_keys1 customer_to_keys2 : dict Z (gset str * gset str)) :
  dict_wf customer_to_keys1 →
  customer_to_keys1 ≡ₚ customer_to_keys2 →
  let doc1 :=
    @Mt.build_nested_mapping clock1 order1 src1 customer_to_keys1 dates1 in
  let doc2 :=
    @Mt.build_nested_mapping clock2 order2 src2 customer_to_keys2 dates2 in
  max_int_columns doc1 = max_int_columns doc2 ∧
  max_float_columns doc1 = max_float_columns doc2 ∧
  (∀ name, dict_get name (customers doc1) = dict_get name (customers doc2)) ∧
  customers doc1 ≡ₚ customers doc2 ∧
  (customer_to_keys1 = customer_to_keys2 → customers doc1 = customers doc2) ∧
  (∀ cid int_set float_set (ints floats : list str),
     dict_get cid customer_to_keys1 = Some (int_set, float_set) →
     ints ≡ₚ elements int_set → floats ≡ₚ elements float_set →
     ∃ e, dict_get (str_of_Z cid) (customers doc1) = Some e ∧
          dict_get (str_of_Z cid) (customers doc2) = Some e ∧
          int_keys e = sorted ints ∧
          float_keys e = sorted floats ∧
          int_mapping e = items_of "int" (sorted ints) ∧
          float_mapping e = items_of "float" (sorted floats) ∧
          reverse_int_mapping e = swap_items (items_of "int" (sorted ints)) ∧
          reverse_float_mapping e = swap_items (items_of "float" (sorted floats)) ∧
          int_columns e = length ints ∧
          float_columns e = length floats).
Proof.
  intros Hwf Hp doc1 doc2. subst doc1 doc2.
  assert (Hwf2 : dict_wf customer_to_keys2) by (unfold dict_wf in *; by rewrite <- Hp).
  pose proof (Mt_customers_order_irrelevant clock2 clock1 order2 order1
                src2 src1 dates2 dates1 customer_to_keys2) as Heq.
  assert (Hblocks :
    customers (@Mt.build_nested_mapping clock1 order1 src1 customer_to_keys1 dates1)
    ≡ₚ customers (@Mt.build_nested_mapping clock2 order2 src2 customer_to_keys2 dates2)).
  { rewrite Heq. rewrite !Mt_customers_list by done. by rewrite Hp. }
  split_and!.
  - rewrite !Mt_max_int_eq. unfold int_counts. by rewrite Hp.
  - rewrite !Mt_max_float_eq. unfold float_counts. by rewrite Hp.
  - intros name. apply dict_get_Permutation; [by apply Mt_customers_wf | done].
  - done.
  - intros <-. apply Mt_customers_order_irrelevant.
  - intros cid I F ints floats Hg Hi Hf.
    exists (@Mt.customer_block order1 I F). split; [by apply Mt_customers_get|]. split.
    + rewrite (Mt_customer_block_order_irrelevant order1 order2).
      apply Mt_customers_get; [done|].
      by rewrite <- (dict_get_Permutation _ _ _ Hwf Hp).
    + rewrite Mt_customer_block_eq.
      cbn [int_keys float_keys int_mapping float_mapping reverse_int_mapping
           reverse_float_mapping int_columns float_columns].
      rewrite (sorted_set_of_elements I ints), (sorted_set_of_elements F floats)
        by done.
      split_and!; try done; by rewrite sorted_Permutation.
Qed.

Lemma build_nested_mapping_deterministic_witness :
  @set_iter example_order {[ U "b_metric"; U "a_metric" ]} ≠
  @set_iter example_reverse_order {[ U "b_metric"; U "a_metric" ]} ∧
  max_int_columns (@Mt.build_nested_mapping example_clock example_order (U "t")
                     example_two_customers [U "2025-10-08"]) =
  max_int_columns (@Mt.build_nested_mapping example_later_clock example_reverse_order
                     (U "t2") example_two_customers_swapped [U "2025-10-09"]) ∧
  customers (@Mt.build_nested_mapping example_clock example_order (U "t")
               example_two_customers [U "2025-10-08"]) ≡ₚ
  customers (@Mt.build_nested_mapping example_later_clock example_reverse_order
               (U "t2") example_two_customers_swapped [U "2025-10-09"]) ∧
  ∃ e,
    dict_get (U "1")
      (customers (@Mt.build_nested_mapping example_clock example_order (U "t")
                    example_two_customers [U "2025-10-08"])) = Some e ∧
    dict_get (U "1")
      (customers (@Mt.build_nested_mapping example_later_clock example_reverse_order
                    (U "t2") example_two_customers_swapped [U "2025-10-09"])) = Some e ∧
    int_keys e = [U "a_metric"; U "b_metric"] ∧
    int_mapping e = [(U "a_metric", U "int1"); (U "b_metric", U "int2")].
Proof.
  split; [by vm_compute|].
  cut (example_two_customers ≡ₚ example_two_customers_swapped ∧
       dict_wf example_two_customers).
  { intros [Hp Hwf].
    destruct (build_nested_mapping_deterministic example_clock example_later_clock
                example_order example_reverse_order
                (U "t") (U "t2") [U "2025-10-08"] [U "2025-10-09"]
                example_two_customers example_two_customers_swapped Hwf Hp)
      as (Hmax & _ & _ & Hperm & _ & Hentry).
    split; [exact Hmax|]. split; [exact Hperm|].
    destruct (Hentry 1%Z {[ U "b_metric"; U "a_metric" ]} ∅
                (elements ({[ U "b_metric"; U "a_metric" ]} : gset str)) []
                eq_refl (reflexivity _))
      as (e & He1 & He2 & Hkeys & _ & Hmap & _).
    - by rewrite elements_empty.
    - exists e. split; [exact He1|]. split; [exact He2|].
      split; [by rewrite Hkeys; vm_compute | by rewrite Hmap; vm_compute]. }
  split.
  - apply perm_swap.
  - unfold dict_wf. simpl. apply NoDup_cons. split.
    + intros Hin. apply list_elem_of_singleton in Hin. discriminate Hin.
    + apply NoDup_singleton.
Defined.

(* ================================================================== *)
(** * Windows of a day *)
(* ================================================================== *)

Section chunks.
Context `{Calendar}.
Local Open Scope Z_scope.

(** The sum, when it is a day of the library. *)
Lemma dt_add_seconds_eq (t : datetime) (s day sec : Z) :
  0 ≤ sec < 86400 →
  dt_sec t + s = (day - dt_day t) * 86400 + sec →
  min_ordinal ≤ day ≤ max_ordinal →
  dt_add_seconds t s = Ok {| dt_day := day; dt_sec := sec |}.
Proof.
  intros Hsec Heq Hday. unfold dt_add_seconds, seconds_per_day.
  assert (Hdiv : (dt_sec t + s) `div` 86400 = day - dt_day t).
  { symmetry. apply (Z.div_unique _ _ _ sec); lia. }
  assert (Hmod : (dt_sec t + s) `mod` 86400 = sec).
  { symmetry. apply (Z.mod_unique _ _ (day - dt_day t)); lia. }
  cbn zeta. rewrite Hdiv, Hmod.
  replace (dt_day t + (day - dt_day t)) with day by lia.
  by rewrite decide_True.
Qed.

(** The sum, when it is not one. *)
Lemma dt_add_seconds_overflow (t : datetime) (s day sec : Z) :
  0 ≤ sec < 86400 →
  dt_sec t + s = (day - dt_day t) * 86400 + sec →
  ¬ (min_ordinal ≤ day ≤ max_ordinal) →
  dt_add_seconds t s = Raise OverflowError.
Proof.
  intros Hsec Heq Hday. unfold dt_add_seconds, seconds_per_day.
  assert (Hdiv : (dt_sec t + s) `div` 86400 = day - dt_day t).
  { symmetry. apply (Z.div_unique _ _ _ sec); lia. }
  cbn zeta. rewrite Hdiv.
  replace (dt_day t + (day - dt_day t)) with day by lia.
  by rewrite decide_False.
Qed.

(** The only exception of the sum. *)
Lemma dt_add_seconds_raise (t : datetime) (s : Z) (e : error) :
  dt_add_seconds t s = Raise e → e = OverflowError.
Proof. unfold dt_add_seconds. cbn zeta. case_decide; congruence. Qed.

Lemma dt_add_days_midnight (day : Z) :
  min_ordinal ≤ day →
  dt_add_days {| dt_day := day; dt_sec := 0 |} 1 =
  if decide (day < max_ordinal) then Ok {| dt_day := day + 1; dt_sec := 0 |}
  else Raise OverflowError.
Proof.
  intros Hmin. unfold dt_add_days, seconds_per_day. case_decide.
  - apply dt_add_seconds_eq; cbn [dt_day dt_sec]; lia.
  - apply (dt_add_seconds_overflow _ _ (day + 1) 0); cbn [dt_day dt_sec]; lia.
Qed.

Lemma map_raising_ok {A B} (f : A → result B) (g : A → B) (xs : list A) :
  (∀ x, x ∈ xs → f x = Ok (g x)) → map_raising f xs = Ok (g <$> xs).
Proof.
  induction xs as [|x xs IH]; intros Hf; cbn [map_raising]; [done|].
  rewrite (Hf x) by apply list_elem_of_here. cbn [bind].
  rewrite IH; [done|]. intros y Hy. apply Hf. by apply list_elem_of_further.
Qed.

(** An exception of the loop is the exception of one of its calls. *)
Lemma map_raising_raise {A B} (f : A → result B) (xs : list A) (e : error) :
  map_raising f xs = Raise e → ∃ x, x ∈ xs ∧ f x = Raise e.
Proof.
  induction xs as [|x xs IH]; cbn [map_raising]; [done|].
  destruct (f x) as [y|e'] eqn:Hx; cbn [bind].
  - destruct (map_raising f xs) as [ys|e'']; cbn [bind]; [done|].
    intros [= ->]. destruct IH as (x' & Hin & Hx'); [done|].
    exists x'. split; [by apply list_elem_of_further | done].
  - intros [= ->]. exists x. split; [apply list_elem_of_here | done].
Qed.

(** The loop raises when its last call does and the calls before return. *)
Lemma map_raising_last {A B} (f : A → result B) (xs : list A) (x : A) (e : error) :
  (∀ y, y ∈ xs → ∃ v, f y = Ok v) → f x = Raise e →
  map_raising f (xs ++ [x]) = Raise e.
Proof.
  intros Hxs Hx. induction xs as [|y xs IH]; cbn [map_raising app].
  - by rewrite Hx.
  - destruct (Hxs y) as [v ->]; [apply list_elem_of_here|]. cbn [bind].
    rewrite IH; [done|]. intros z Hz. apply Hxs. by apply list_elem_of_further.
Qed.

Lemma chunk_bounds_raise (day_start : datetime) (chunk_minutes i : Z) (e : error) :
  chunk_bounds day_start chunk_minutes i = Raise e → e = OverflowError.
Proof.
  unfold chunk_bounds, dt_add_minutes.
  destruct (dt_add_seconds day_start _) as [start|e1] eqn:H1; cbn [bind];
    [|intros [= <-]; by apply dt_add_seconds_raise in H1].
  destruct (dt_add_seconds start _) as [next_start|e2] eqn:H2; cbn [bind];
    [|intros [= <-]; by apply dt_add_seconds_raise in H2].
  destruct (dt_add_seconds next_start _) as [end_|e3] eqn:H3; cbn [bind];
    [done|intros [= <-]; by apply dt_add_seconds_raise in H3].
Qed.

Lemma build_chunk_bounds_unfold (date_str : str) (chunk_minutes : Z) :
  build_chunk_bounds date_str chunk_minutes =
  if decide (chunk_minutes = 0) then Raise ZeroDivisionError
  else if decide (1440 `mod` chunk_minutes ≠ 0) then Raise ChunkNotDividingDay
  else if decide (60 ≤ chunk_minutes ∧ chunk_minutes `mod` 60 ≠ 0)
       then Raise ChunkNotMultipleOf60
  else match strptime_ymd date_str with
       | None => Raise DateFormatError
       | Some d =>
           map_raising (chunk_bounds {| dt_day := d; dt_sec := 0 |} chunk_minutes)
             (seqZ 0 (1440 `div` chunk_minutes))
       end.
Proof.
  unfold build_chunk_bounds, py_mod, py_floordiv, strptime.
  destruct (decide (chunk_minutes = 0)); simpl; [done|].
  destruct (decide (1440 `mod` chunk_minutes ≠ 0)); simpl; [done|].
  destruct (decide (60 ≤ chunk_minutes ∧ chunk_minutes `mod` 60 ≠ 0)); simpl; [done|].
  by destruct (strptime_ymd date_str).
Qed.

(** The exceptions of [build_chunks_for_day]. *)
Lemma build_chunk_bounds_raise (date_str : str) (chunk_minutes : Z) (e : error) :
  build_chunk_bounds date_str chunk_minutes = Raise e →
  (e = ZeroDivisionError ∧ chunk_minutes = 0) ∨
  (e = ChunkNotDividingDay ∧ chunk_minutes ≠ 0 ∧ 1440 `mod` chunk_minutes ≠ 0) ∨
  (e = ChunkNotMultipleOf60 ∧ chunk_minutes ≠ 0 ∧ 1440 `mod` chunk_minutes = 0 ∧
   60 ≤ chunk_minutes ∧ chunk_minutes `mod` 60 ≠ 0) ∨
  (e = DateFormatError ∧ chunk_minutes ≠ 0 ∧ valid_chunk_minutes chunk_minutes ∧
   strptime_ymd date_str = None) ∨
  (e = OverflowError ∧ chunk_minutes ≠ 0 ∧ valid_chunk_minutes chunk_minutes ∧
   is_Some (strptime_ymd date_str)).
Proof.
  rewrite build_chunk_bounds_unfold. unfold valid_chunk_minutes.
  destruct (decide (chunk_minutes = 0)); [intros [= <-]; auto|].
  destruct (decide (1440 `mod` chunk_minutes ≠ 0)); [intros [= <-]; auto|].
  destruct (decide (60 ≤ chunk_minutes ∧ chunk_minutes `mod` 60 ≠ 0)) as [H60|H60];
    [intros [= <-]; right; right; left; split_and!; [done|done|lia|tauto|tauto]|].
  destruct (strptime_ymd date_str) as [d|] eqn:Hd.
  - intros Hr. apply map_raising_raise in Hr as (i & _ & Hr).
    apply chunk_bounds_raise in Hr as ->.
    do 4 right. split_and!; [done|done|lia|lia|by eexists].
  - intros [= <-]. do 3 right. left. split_and!; [done|done|lia|lia|done].
Qed.

Lemma build_chunks_for_day_unfold (date_str : str) (chunk_minutes : Z) :
  build_chunks_for_day date_str chunk_minutes =
  match build_chunk_bounds date_str chunk_minutes with
  | Ok bounds =>
      Ok ((λ b, (strftime_ymd_hms b.1, strftime_ymd_hms b.2)) <$> bounds)
  | Raise e => Raise e
  end.
Proof. done. Qed.

Lemma valid_chunk_minutes_iff (chunk_minutes : Z) :
  valid_chunk_minutes chunk_minutes ↔
  ¬ (1440 `mod` chunk_minutes ≠ 0 ∨
     (60 ≤ chunk_minutes ∧ chunk_minutes `mod` 60 ≠ 0)).
Proof. unfold valid_chunk_minutes. lia. Qed.

(** The checks, on their own: which window sizes raise which error. *)
Lemma build_chunks_configuration_error (date_str : str) (chunk_minutes : Z) :
  chunk_minutes ≠ 0 →
  (∃ e, configuration_error e ∧
        build_chunks_for_day date_str chunk_minutes = Raise e) ↔
  ¬ valid_chunk_minutes chunk_minutes.
Proof.
  intros Hnz. rewrite valid_chunk_minutes_iff.
  rewrite build_chunks_for_day_unfold, build_chunk_bounds_unfold.
  unfold configuration_error.
  rewrite decide_False by done.
  destruct (decide (1440 `mod` chunk_minutes ≠ 0)) as [Hd|Hd].
  { split; [tauto|]. intros _. eauto. }
  destruct (decide (60 ≤ chunk_minutes ∧ chunk_minutes `mod` 60 ≠ 0)) as [Hm|Hm].
  { split; [tauto|]. intros _. eauto. }
  split; [|tauto].
  intros (e & He & Hr).
  destruct (strptime_ymd date_str) as [d|]; [|destruct He; by simplify_eq].
  destruct (map_raising _ _) as [bounds|e'] eqn:Hb; [done|].
  injection Hr as ->. apply map_raising_raise in Hb as (i & _ & Hi).
  apply chunk_bounds_raise in Hi as ->. by destruct He.
Qed.

(** The window [i] of a day before the last one of the library, for a
    window size that divides the day. *)
Lemma chunk_bounds_spec (day chunk_minutes i : Z) :
  min_ordinal ≤ day < max_ordinal →
  0 < chunk_minutes → 0 ≤ i → (i + 1) * chunk_minutes ≤ 1440 →
  chunk_bounds {| dt_day := day; dt_sec := 0 |} chunk_minutes i =
  Ok ({| dt_day := day; dt_sec := 60 * (i * chunk_minutes) |},
      {| dt_day := day; dt_sec := 60 * ((i + 1) * chunk_minutes) - 1 |}).
Proof.
  intros Hday Hc Hi Hle. unfold chunk_bounds, dt_add_minutes.
  rewrite (dt_add_seconds_eq _ _ day (60 * (i * chunk_minutes)));
    cbn [dt_day dt_sec]; [|nia|lia|lia].
  cbn [bind].
  destruct (decide ((i + 1) * chunk_minutes = 1440)) as [Hlast|Hlast].
  - rewrite (dt_add_seconds_eq _ _ (day + 1) 0); cbn [dt_day dt_sec]; [|lia|lia|lia].
    cbn [bind].
    rewrite (dt_add_seconds_eq _ _ day (60 * ((i + 1) * chunk_minutes) - 1));
      cbn [dt_day dt_sec]; [done|lia|lia|lia].
  - rewrite (dt_add_seconds_eq _ _ day (60 * ((i + 1) * chunk_minutes)));
      cbn [dt_day dt_sec]; [|lia|lia|lia].
    cbn [bind].
    rewrite (dt_add_seconds_eq _ _ day (60 * ((i + 1) * chunk_minutes) - 1));
      cbn [dt_day dt_sec]; [done|lia|lia|lia].
Qed.

(** On the last day of the library the windows before the last one are
    computed, and the end of the last one is not: [start +
    timedelta(minutes=chunk_minutes)] is the midnight of a day the library
    does not have. *)
Lemma chunk_bounds_last_day (chunk_minutes i : Z) :
  0 < chunk_minutes → 0 ≤ i → (i + 1) * chunk_minutes ≤ 1440 →
  chunk_bounds {| dt_day := max_ordinal; dt_sec := 0 |} chunk_minutes i =
  if decide ((i + 1) * chunk_minutes = 1440) then Raise OverflowError
  else Ok ({| dt_day := max_ordinal; dt_sec := 60 * (i * chunk_minutes) |},
           {| dt_day := max_ordinal; dt_sec := 60 * ((i + 1) * chunk_minutes) - 1 |}).
Proof.
  intros Hc Hi Hle. unfold chunk_bounds, dt_add_minutes.
  rewrite (dt_add_seconds_eq _ _ max_ordinal (60 * (i * chunk_minutes)));
    cbn [dt_day dt_sec]; [|nia|lia|unfold min_ordinal, max_ordinal; lia].
  cbn [bind].
  destruct (decide ((i + 1) * chunk_minutes = 1440)) as [Hlast|Hlast].
  - rewrite (dt_add_seconds_overflow _ _ (max_ordinal + 1) 0); cbn [dt_day dt_sec];
      [done|lia|lia|unfold min_ordinal, max_ordinal; lia].
  - rewrite (dt_add_seconds_eq _ _ max_ordinal (60 * ((i + 1) * chunk_minutes)));
      cbn [dt_day dt_sec]; [|lia|lia|unfold min_ordinal, max_ordinal; lia].
    cbn [bind].
    rewrite (dt_add_seconds_eq _ _ max_ordinal (60 * ((i + 1) * chunk_minutes) - 1));
      cbn [dt_day dt_sec]; [done|lia|lia|unfold min_ordinal, max_ordinal; lia].
Qed.

(** The windows of a day before the last one of the library. *)
Lemma build_chunk_bounds_ok (date_str : str) (chunk_minutes day : Z) :
  0 < chunk_minutes → valid_chunk_minutes chunk_minutes →
  strptime_ymd date_str = Some day → day < max_ordinal →
  build_chunk_bounds date_str chunk_minutes =
  Ok ((λ i, ({| dt_day := day; dt_sec := 60 * (i * chunk_minutes) |},
             {| dt_day := day; dt_sec := 60 * ((i + 1) * chunk_minutes) - 1 |}))
        <$> seqZ 0 (1440 `div` chunk_minutes)).
Proof.
  intros Hpos [Hdiv H60] Hday Hlt.
  pose proof (strptime_ymd_range _ _ Hday) as Hrange.
  pose proof (Z.div_mod 1440 chunk_minutes) as Htot.
  rewrite build_chunk_bounds_unfold, Hday.
  rewrite decide_False by lia. rewrite decide_False by lia.
  rewrite decide_False by lia.
  apply map_raising_ok. intros i Hi. apply elem_of_seqZ in Hi.
  apply chunk_bounds_spec; [lia|lia|lia|nia].
Qed.

(** No window of the last day of the library. *)
Lemma build_chunk_bounds_last_day (date_str : str) (chunk_minutes : Z) :
  0 < chunk_minutes → valid_chunk_minutes chunk_minutes →
  strptime_ymd date_str = Some max_ordinal →
  build_chunk_bounds date_str chunk_minutes = Raise OverflowError.
Proof.
  intros Hpos [Hdiv H60] Hday.
  pose proof (Z.div_mod 1440 chunk_minutes) as Htot.
  rewrite build_chunk_bounds_unfold, Hday.
  rewrite decide_False by lia. rewrite decide_False by lia.
  rewrite decide_False by lia.
  assert (Hn : 0 < 1440 `div` chunk_minutes) by nia.
  replace (1440 `div` chunk_minutes) with ((1440 `div` chunk_minutes - 1) + 1) at 1 by lia.
  rewrite seqZ_app by lia. rewrite Z.add_0_l.
  change (seqZ (1440 `div` chunk_minutes - 1) 1) with [1440 `div` chunk_minutes - 1].
  apply map_raising_last.
  - intros i Hi. apply elem_of_seqZ in Hi.
    rewrite chunk_bounds_last_day by (lia || nia).
    rewrite decide_False by nia. by eexists.
  - rewrite chunk_bounds_last_day by (lia || nia).
    by rewrite decide_True by nia.
Qed.
End chunks.

(** C7. For a positive window size, [build_chunks_for_day] raises one of its
    two configuration errors exactly when the size does not divide 1440 or is
    at least 60 without being a multiple of 60; the error comes before any
    scan: the day-level discovery of both scripts and the pre-check of [main]
    end with it whatever the database holds. For a size that passes both
    checks and a date the calendar parses, other than the last day of the
    library, it returns the [1440 / chunk_minutes] windows of the day,
    formatted: window [i] starts [i * chunk_minutes] minutes after midnight
    and ends one second before the start of window [i + 1] (the last one,
    one second before the next midnight), all within the day. For the last
    day of the library, 9999-12-31, it returns nothing: the end of the last
    window is computed from the midnight that follows, and the sum raises
    [OverflowError]. *)
Theorem build_chunks_for_day_tiles `{Calendar} (date_str : str) (chunk_minutes : Z) :
  (0 < chunk_minutes)%Z →
  ((∃ e, configuration_error e ∧
         build_chunks_for_day date_str chunk_minutes = Raise e) ↔
   (1440 `mod` chunk_minutes ≠ 0 ∨
    (60 ≤ chunk_minutes ∧ chunk_minutes `mod` 60 ≠ 0))%Z) ∧
  (∀ e, build_chunks_for_day date_str chunk_minutes = Raise e →
     (∀ (ch : ClickHouse) (pool : ThreadPool) (src : str) (cid workers : Z),
        Mt.discover_all_keys_for_customer_day_mt src date_str cid chunk_minutes workers
          = Raise e ∧
        TagGroup.discover_all_keys_for_customer_day_mt src date_str cid chunk_minutes workers
          = Raise e) ∧
     (∀ (ch : ClickHouse) (pool : ThreadPool) (clock : Clock) (fs : FileSystem)
        (order : SetOrder) (a : args) (rest : list str),
        given (arg_source_table a) = true →
        iter_days (arg_date a) (arg_date_start a) (arg_date_end a)
          = Ok (date_str :: rest) →
        arg_chunk_mins a = chunk_minutes →
        Mt.main a = Raise e ∧ TagGroup.main a = Raise e)) ∧
  (valid_chunk_minutes chunk_minutes →
   ∀ day, strptime_ymd date_str = Some day → (day < max_ordinal)%Z →
     ∃ bounds chunks,
       build_chunk_bounds date_str chunk_minutes = Ok bounds ∧
       build_chunks_for_day date_str chunk_minutes = Ok chunks ∧
       chunks = (λ b, (strftime_ymd_hms b.1, strftime_ymd_hms b.2)) <$> bounds ∧
       (Z.of_nat (length bounds) = 1440 `div` chunk_minutes)%Z ∧
       (Z.of_nat (length chunks) = 1440 `div` chunk_minutes)%Z ∧
       (1440 `div` chunk_minutes * chunk_minutes = 1440)%Z ∧
       ∀ i, (0 ≤ i < 1440 `div` chunk_minutes)%Z →
         ∃ start end_,
           bounds !! Z.to_nat i = Some (start, end_) ∧
           chunks !! Z.to_nat i =
             Some (strftime_ymd_hms start, strftime_ymd_hms end_) ∧
           dt_day start = day ∧
           (dt_sec start = 60 * (i * chunk_minutes))%Z ∧
           dt_day end_ = day ∧
           (dt_sec end_ = 60 * ((i + 1) * chunk_minutes) - 1)%Z) ∧
  (valid_chunk_minutes chunk_minutes →
   strptime_ymd date_str = Some max_ordinal →
   build_chunk_bounds date_str chunk_minutes = Raise OverflowError ∧
   build_chunks_for_day date_str chunk_minutes = Raise OverflowError ∧
   ¬ configuration_error OverflowError).
Proof.
  intros Hpos. split_and!.
  - rewrite build_chunks_configuration_error by lia.
    rewrite valid_chunk_minutes_iff. split; [|tauto].
    intros Hnn. destruct (decide (1440 `mod` chunk_minutes ≠ 0)%Z); [tauto|].
    destruct (decide (60 ≤ chunk_minutes ∧ chunk_minutes `mod` 60 ≠ 0)%Z); tauto.
  - intros e He. split.
    + intros ch pool src cid workers.
      unfold Mt.discover_all_keys_for_customer_day_mt,
        TagGroup.discover_all_keys_for_customer_day_mt.
      by rewrite He.
    + intros ch pool clock fs order a rest Hsrc Hdates Hc.
      unfold Mt.main, TagGroup.main. rewrite Hsrc, Hdates, Hc. simpl.
      by rewrite He.
  - intros Hvalid day Hday Hlt.
    assert (Htot : (1440 `div` chunk_minutes * chunk_minutes = 1440)%Z).
    { destruct Hvalid as [Hdiv _].
      pose proof (Z.div_mod 1440 chunk_minutes). lia. }
    pose proof (build_chunk_bounds_ok date_str chunk_minutes day Hpos Hvalid Hday Hlt)
      as Hb.
    eexists _, _. split_and!.
    + exact Hb.
    + by rewrite build_chunks_for_day_unfold, Hb.
    + done.
    + rewrite length_fmap, length_seqZ. nia.
    + rewrite !length_fmap, length_seqZ. nia.
    + done.
    + intros i Hi. eexists _, _. split_and!.
      * rewrite list_lookup_fmap, lookup_seqZ_lt by lia.
        simpl. rewrite Z2Nat.id by lia. by rewrite Z.add_0_l.
      * rewrite !list_lookup_fmap, lookup_seqZ_lt by lia.
        simpl. rewrite Z2Nat.id by lia. by rewrite Z.add_0_l.
      * done.
      * done.
      * done.
      * done.
  - intros Hvalid Hday.
    pose proof (build_chunk_bounds_last_day date_str chunk_minutes Hpos Hvalid Hday)
      as Hb.
    split_and!; [done | by rewrite build_chunks_for_day_unfold, Hb | by intros [?|?]].
Qed.

Lemma build_chunks_for_day_tiles_witness :
  ∃ bounds chunks,
    @build_chunk_bounds example_calendar (U "2025-10-08") 120 = Ok bounds ∧
    @build_chunks_for_day example_calendar (U "2025-10-08") 120 = Ok chunks ∧
    length chunks = 12 ∧
    chunks !! 1 = Some (U "2025-10-08 02:00:00", U "2025-10-08 03:59:59") ∧
    chunks !! 11 = Some (U "2025-10-08 22:00:00", U "2025-10-08 23:59:59") ∧
    ∃ start end_, bounds !! 11 = Some (start, end_) ∧
                  dt_sec start = 79200%Z ∧ dt_sec end_ = 86399%Z.
Proof.
  destruct (@build_chunks_for_day_tiles example_calendar (U "2025-10-08") 120)
    as (_ & _ & Hok & _).
  - reflexivity.
  - assert (Hvalid : valid_chunk_minutes 120)
      by (split; [reflexivity | right; reflexivity]).
    destruct (Hok Hvalid 739532%Z eq_refl eq_refl)
      as (bounds & chunks & Hb & Hc & Heq & Hlen & Hlen' & _ & Hwin).
    exists bounds, chunks. split; [exact Hb|]. split; [exact Hc|]. split; [|split].
    + change (1440 `div` 120)%Z with 12%Z in Hlen'. lia.
    + assert (Hi : (0 ≤ 1 < 1440 `div` 120)%Z)
        by (change (1440 `div` 120)%Z with 12%Z; lia).
      destruct (Hwin 1%Z Hi) as (start & end_ & _ & Hl' & Hd & Hs & Hd' & He).
      change (Z.to_nat 1) with 1%nat in Hl'.
      rewrite Hl'. destruct start as [sd ss], end_ as [ed es].
      cbn [dt_day dt_sec] in Hd, Hs, Hd', He. subst sd ss ed es.
      reflexivity.
    + assert (Hi : (0 ≤ 11 < 1440 `div` 120)%Z)
        by (change (1440 `div` 120)%Z with 12%Z; lia).
      destruct (Hwin 11%Z Hi) as (start & end_ & Hl & Hl' & Hd & Hs & Hd' & He).
      split.
      * change (Z.to_nat 11) with 11%nat in Hl'.
        rewrite Hl'. destruct start as [sd ss], end_ as [ed es].
        cbn [dt_day dt_sec] in Hd, Hs, Hd', He. subst sd ss ed es.
        reflexivity.
      * exists start, end_. split; [exact Hl|]. split; [exact Hs | exact He].
Defined.

(** C7, where the claim fails: 60 minutes pass both checks, and on the last
    day of the library [build_chunks_for_day] returns no window: it raises
    [OverflowError], which is not a configuration error. *)
Theorem build_chunks_for_day_overflows_on_last_day :
  valid_chunk_minutes 60 ∧
  @strptime_ymd last_days_calendar (U "9999-12-31") = Some max_ordinal ∧
  @build_chunks_for_day last_days_calendar (U "9999-12-31") 60 = Raise OverflowError ∧
  ¬ configuration_error OverflowError.
Proof.
  split_and!.
  - split; [reflexivity | right; reflexivity].
  - reflexivity.
  - by vm_compute.
  - by intros [?|?].
Qed.

(** C9. With [chunk_minutes = 0] the divisibility check itself raises
    [ZeroDivisionError], not a configuration error; no other window size
    does. *)
Theorem build_chunks_for_day_zero `{Calendar} (date_str : str) :
  build_chunks_for_day date_str 0 = Raise ZeroDivisionError ∧
  ¬ configuration_error ZeroDivisionError ∧
  (∀ chunk_minutes, chunk_minutes ≠ 0%Z →
     build_chunks_for_day date_str chunk_minutes ≠ Raise ZeroDivisionError).
Proof.
  split_and!.
  - done.
  - by intros [?|?].
  - intros c Hc. rewrite build_chunks_for_day_unfold.
    destruct (build_chunk_bounds date_str c) as [bounds|e] eqn:Hb; [done|].
    intros [= ->]. apply build_chunk_bounds_raise in Hb.
    destruct Hb as [[_ ?]|[[? _]|[[? _]|[[? _]|[? _]]]]]; done.
Qed.

(* ================================================================== *)
(** * Days of a run *)
(* ================================================================== *)

Lemma iter_days_given `{Calendar} (date : str) (date_start date_end : option str) :
  truthy date = true →
  iter_days (Some date) date_start date_end =
  match strptime_ymd date with
  | Some _ => Ok [date]
  | None => Raise DateFormatError
  end.
Proof.
  intros Ht. unfold iter_days, given, strptime. rewrite Ht. simpl.
  by destruct (strptime_ymd date).
Qed.

(** C10. When a single date is given, [iter_days] returns the list of that
    one date whatever the range arguments are: absent, well formed, or with
    the end before the start; they are not read, so the result is the one of
    the call without a range (a date the calendar rejects raises the format
    error of [strptime], with or without a range). The end-before-start error
    is raised only when no single date is given. *)
Theorem iter_days_single_date_precedence `{Calendar}
    (date : str) (date_start date_end : option str) :
  truthy date = true →
  (∀ day, strptime_ymd date = Some day →
     iter_days (Some date) date_start date_end = Ok [date]) ∧
  (strptime_ymd date = None →
     iter_days (Some date) date_start date_end = Raise DateFormatError) ∧
  iter_days (Some date) date_start date_end = iter_days (Some date) None None ∧
  (∀ d ds de, iter_days d ds de = Raise EndBeforeStart → given d = false).
Proof.
  intros Ht. split_and!.
  - intros day Hday. by rewrite iter_days_given, Hday.
  - intros Hnone. by rewrite iter_days_given, Hnone.
  - by rewrite !iter_days_given.
  - intros d ds de Hr. destruct (given d) eqn:Hg; [|done].
    destruct d as [d|]; [|done]. simpl in Hg.
    rewrite iter_days_given in Hr by done. by destruct (strptime_ymd d).
Qed.

Lemma iter_days_single_date_precedence_witness :
  @iter_days example_calendar (Some (U "2025-10-08"))
    (Some (U "2025-10-10")) (Some (U "2025-10-08")) = Ok [U "2025-10-08"] ∧
  @iter_days example_calendar None
    (Some (U "2025-10-10")) (Some (U "2025-10-08")) = Raise EndBeforeStart ∧
  @iter_days example_calendar None
    (Some (U "2025-10-08")) (Some (U "2025-10-10")) =
    Ok [U "2025-10-08"; U "2025-10-09"; U "2025-10-10"].
Proof.
  split_and!.
  - apply (proj1 (@iter_days_single_date_precedence example_calendar
                      (U "2025-10-08") (Some (U "2025-10-10"))
                      (Some (U "2025-10-08")) eq_refl) 739532%Z).
    reflexivity.
  - reflexivity.
  - reflexivity.
Defined.

(* ================================================================== *)
(** * Keys a scan returns *)
(* ================================================================== *)

Lemma row_key_Some (r : list str) (k : str) :
  row_key r = Some k ↔ head r = Some k ∧ ¬ blank k.
Proof.
  destruct r as [|c r]; simpl.
  - split; [done | by intros [? _]].
  - destruct (truthy (strip c)) eqn:Ht.
    + apply truthy_strip_iff in Ht. split.
      * by intros [= <-].
      * by intros [[= <-] _].
    + assert (Hb : blank c).
      { destruct (decide (blank c)) as [|Hn]; [done|].
        apply truthy_strip_iff in Hn. congruence. }
      split; [done|]. by intros [[= <-] ?].
Qed.

(** The keys kept from the rows of a query: the first cells that hold
    something else than whitespace, as they are. *)
Lemma elem_of_rows_keys (rows : list (list str)) (k : str) :
  k ∈ rows_keys rows ↔ ∃ r, r ∈ rows ∧ head r = Some k ∧ ¬ blank k.
Proof.
  unfold rows_keys. rewrite list_elem_of_omap.
  by setoid_rewrite row_key_Some.
Qed.

Lemma not_blank_nonempty (k : str) : ¬ blank k → k ≠ [].
Proof. intros Hn ->. apply Hn. constructor. Qed.

Lemma elem_of_add_keys (keys : list str) (acc : gset str) (k : str) :
  k ∈ Simple.add_keys keys acc ↔ k ∈ acc ∨ (k ∈ keys ∧ ¬ blank k).
Proof.
  unfold Simple.add_keys. revert acc.
  induction keys as [|key keys IH]; intros acc; simpl.
  - rewrite elem_of_nil. tauto.
  - rewrite IH, elem_of_cons.
    destruct (truthy key && truthy (strip key)) eqn:Ht.
    + apply andb_true_iff in Ht as [_ Ht%truthy_strip_iff].
      rewrite elem_of_union, elem_of_singleton. split.
      * intros [[?| ->]|[? ?]]; auto.
      * intros [?|[[->|?] ?]]; auto.
    + assert (Hb : blank key).
      { destruct (decide (blank key)) as [|Hn]; [done|].
        pose proof (not_blank_nonempty _ Hn) as Hne.
        apply truthy_strip_iff in Hn. rewrite Hn, andb_true_r in Ht.
        by destruct key. }
      split; [tauto|]. intros [?|[[->|?] ?]]; tauto.
Qed.

(** C4, as the code has it. A window scan returns, for each kind, the
    observed keys that hold something else than whitespace, each as it was
    observed: a key that is empty or whitespace only is discarded, a key that
    is kept is not empty and is not trimmed by the scan. The same holds for
    the keys [SimpleKeyDiscoverer] adds from one array. *)
Theorem scan_keeps_nonblank_keys `{ClickHouse}
    (source_table : str) (customer_id : Z) (start_ts end_ts : str)
    (ints floats : list str) :
  Mt._run_chunk_query source_table customer_id start_ts end_ts = Ok (ints, floats) →
  (∃ rows_int rows_float,
     ch_metric_keys IntGroups source_table start_ts end_ts customer_id = Ok rows_int ∧
     ch_metric_keys FloatGroups source_table start_ts end_ts customer_id = Ok rows_float ∧
     (∀ k, k ∈ ints ↔ ∃ r, r ∈ rows_int ∧ head r = Some k ∧ ¬ blank k) ∧
     (∀ k, k ∈ floats ↔ ∃ r, r ∈ rows_float ∧ head r = Some k ∧ ¬ blank k)) ∧
  (∀ k, k ∈ ints ++ floats → k ≠ [] ∧ ¬ blank k) ∧
  (∀ (keys : list str) (acc : gset str) k,
     k ∈ Simple.add_keys keys acc ↔ k ∈ acc ∨ (k ∈ keys ∧ ¬ blank k)).
Proof.
  unfold Mt._run_chunk_query. intros Hq.
  destruct (ch_metric_keys IntGroups _ _ _ _) as [rows_int|] eqn:Hi; [|done].
  destruct (ch_metric_keys FloatGroups _ _ _ _) as [rows_float|] eqn:Hf; [|done].
  simpl in Hq. simplify_eq. split_and!.
  - exists rows_int, rows_float. split_and!; try done; intros k; apply elem_of_rows_keys.
  - intros k [Hk|Hk]%elem_of_app; apply elem_of_rows_keys in Hk as (r & _ & _ & Hn);
      split; auto using not_blank_nonempty.
  - apply elem_of_add_keys.
Qed.

Lemma scan_keeps_nonblank_keys_witness :
  U " a " ≠ [] ∧ ¬ blank (U " a ").
Proof.
  apply (proj1 (proj2 (@scan_keeps_nonblank_keys example_untrimmed_db (U "t") 7
           (U "2025-10-08 00:00:00") (U "2025-10-08 01:59:59")
           [U " a "; U "b"] [] eq_refl)) (U " a ")).
  left.
Defined.

(** The keys a scan returns are not all trimmed: [" a "] comes back with
    its spaces. *)
Lemma scan_returns_untrimmed_key :
  @Mt._run_chunk_query example_untrimmed_db (U "t") 7
    (U "2025-10-08 00:00:00") (U "2025-10-08 01:59:59") = Ok ([U " a "; U "b"], []) ∧
  strip (U " a ") = U "a" ∧
  ¬ keys_are_trimmed [U " a "; U "b"] ∧
  Simple.add_keys [U " a "] ∅ = {[ U " a " ]}.
Proof.
  split_and!.
  - reflexivity.
  - reflexivity.
  - intros Hall. destruct (Hall (U " a ")) as [_ Ht]; [left|].
    unfold trimmed in Ht. vm_compute in Ht. discriminate Ht.
  - by vm_compute.
Qed.

(* ================================================================== *)
(** * Discovery of one day for one customer *)
(* ================================================================== *)

Lemma Mt_merge_futures_ints (futs : list (result (list str * list str)))
    (acc : gset str * gset str) (k : str) :
  k ∈ (foldl Mt.merge_future acc futs).1 ↔
  k ∈ acc.1 ∨ ∃ ints floats, Ok (ints, floats) ∈ futs ∧ k ∈ ints.
Proof.
  revert acc. induction futs as [|fut futs IH]; intros acc; simpl.
  - split; [auto | intros [?|(? & ? & []%elem_of_nil & _)]; done].
  - rewrite IH. setoid_rewrite elem_of_cons.
    destruct fut as [[ints floats]|e]; simpl.
    + case_bool_decide as Hne.
      * rewrite elem_of_union, elem_of_list_to_set. split.
        -- intros [[?|?]|(i & f & ? & ?)]; eauto 10.
        -- intros [?|(i & f & [[= -> ->]|?] & ?)]; eauto 10.
      * assert (ints = []) as -> by (destruct ints; [done | by destruct Hne]).
        split.
        -- intros [?|(i & f & ? & ?)]; eauto 10.
        -- intros [?|(i & f & [[= -> ->]|?] & Hk)]; eauto 10.
           by apply elem_of_nil in Hk.
    + split.
      * intros [?|(i & f & ? & ?)]; eauto 10.
      * intros [?|(i & f & [?|?] & ?)]; eauto 10. done.
Qed.

Lemma Mt_merge_futures_floats (futs : list (result (list str * list str)))
    (acc : gset str * gset str) (k : str) :
  k ∈ (foldl Mt.merge_future acc futs).2 ↔
  k ∈ acc.2 ∨ ∃ ints floats, Ok (ints, floats) ∈ futs ∧ k ∈ floats.
Proof.
  revert acc. induction futs as [|fut futs IH]; intros acc; simpl.
  - split; [auto | intros [?|(? & ? & []%elem_of_nil & _)]; done].
  - rewrite IH. setoid_rewrite elem_of_cons.
    destruct fut as [[ints floats]|e]; simpl.
    + case_bool_decide as Hne.
      * rewrite elem_of_union, elem_of_list_to_set. split.
        -- intros [[?|?]|(i & f & ? & ?)]; eauto 10.
        -- intros [?|(i & f & [[= -> ->]|?] & ?)]; eauto 10.
      * assert (floats = []) as -> by (destruct floats; [done | by destruct Hne]).
        split.
        -- intros [?|(i & f & ? & ?)]; eauto 10.
        -- intros [?|(i & f & [[= -> ->]|?] & Hk)]; eauto 10.
           by apply elem_of_nil in Hk.
    + split.
      * intros [?|(i & f & ? & ?)]; eauto 10.
      * intros [?|(i & f & [?|?] & ?)]; eauto 10. done.
Qed.

(** With every chunk failing, the loop of [SimpleKeyDiscoverer] leaves its
    accumulators as they were. *)
Lemma Simple_all_chunks_fail `{ClickHouse} (fixed_date : str) (customer_id : Z)
    (cph : nat) (idxs : list nat) (st : Simple.scan) :
  (∀ s e, ∃ err, ch_group_arrays s e customer_id = Raise err) →
  foldl (λ st chunk_idx,
           let (chunk_start, chunk_end) :=
             Simple.chunk_window fixed_date cph chunk_idx in
           Simple.process_chunk st (ch_group_arrays chunk_start chunk_end customer_id))
        st idxs = st.
Proof.
  intros Hfail. induction idxs as [|i idxs IH]; [done|].
  cbn [foldl].
  destruct (Simple.chunk_window fixed_date cph i) as [s e].
  destruct (Hfail s e) as [err ->]. cbn [Simple.process_chunk]. apply IH.
Qed.

(** C5, as the code has it. With a window size and a date that
    [build_chunks_for_day] accepts and a positive number of workers, the
    day-level discovery of the multithreaded script returns normally, and a
    key is in the int set (float set) it returns exactly when some window
    whose scan succeeded returned it among its int keys (float keys): failed
    windows add nothing, and when every window fails both sets are empty.
    [SimpleKeyDiscoverer.discover_all_keys] is stricter: when every chunk
    fails it raises. *)
Theorem day_discovery_unions_successful_windows `{Calendar, ClickHouse, ThreadPool, SetOrder}
    (source_table date_str : str) (customer_id chunk_minutes max_workers : Z)
    (chunks : list (str * str)) :
  build_chunks_for_day date_str chunk_minutes = Ok chunks →
  (0 < max_workers)%Z →
  (∃ ints floats,
     Mt.discover_all_keys_for_customer_day_mt
       source_table date_str customer_id chunk_minutes max_workers = Ok (ints, floats) ∧
     (∀ k, k ∈ ints ↔
        ∃ c ki kf, c ∈ chunks ∧
          Mt._run_chunk_query source_table customer_id c.1 c.2 = Ok (ki, kf) ∧ k ∈ ki) ∧
     (∀ k, k ∈ floats ↔
        ∃ c ki kf, c ∈ chunks ∧
          Mt._run_chunk_query source_table customer_id c.1 c.2 = Ok (ki, kf) ∧ k ∈ kf) ∧
     ((∀ c, c ∈ chunks →
         ∃ e, Mt._run_chunk_query source_table customer_id c.1 c.2 = Raise e) →
      ints = ∅ ∧ floats = ∅)) ∧
  ((∀ s e, ∃ err, ch_group_arrays s e customer_id = Raise err) →
   Simple.discover_all_keys date_str customer_id = Raise NoChunksProcessed).
Proof.
  intros Hchunks Hw. split.
  - unfold Mt.discover_all_keys_for_customer_day_mt. rewrite Hchunks. simpl.
    rewrite decide_False by lia.
    set (futures := (λ c : str * str,
                       Mt._run_chunk_query source_table customer_id c.1 c.2) <$> chunks).
    assert (Hin : ∀ ki kf, Ok (ki, kf) ∈ as_completed futures ↔
              ∃ c, c ∈ chunks ∧
                Mt._run_chunk_query source_table customer_id c.1 c.2 = Ok (ki, kf)).
    { intros ki kf. rewrite as_completed_perm. unfold futures.
      rewrite list_elem_of_fmap. split; intros (c & ? & ?); eauto. }
    assert (Hints : ∀ k, k ∈ (foldl Mt.merge_future (∅, ∅) (as_completed futures)).1 ↔
              ∃ c ki kf, c ∈ chunks ∧
                Mt._run_chunk_query source_table customer_id c.1 c.2 = Ok (ki, kf) ∧
                k ∈ ki).
    { intros k. rewrite Mt_merge_futures_ints. simpl. split.
      - intros [[]%not_elem_of_empty|(ki & kf & (c & ? & ?)%Hin & ?)]. eauto 10.
      - intros (c & ki & kf & ? & ? & ?). right. exists ki, kf. split; [|done].
        apply Hin. eauto. }
    assert (Hfloats : ∀ k, k ∈ (foldl Mt.merge_future (∅, ∅) (as_completed futures)).2 ↔
              ∃ c ki kf, c ∈ chunks ∧
                Mt._run_chunk_query source_table customer_id c.1 c.2 = Ok (ki, kf) ∧
                k ∈ kf).
    { intros k. rewrite Mt_merge_futures_floats. simpl. split.
      - intros [[]%not_elem_of_empty|(ki & kf & (c & ? & ?)%Hin & ?)]. eauto 10.
      - intros (c & ki & kf & ? & ? & ?). right. exists ki, kf. split; [|done].
        apply Hin. eauto. }
    destruct (foldl Mt.merge_future (∅, ∅) (as_completed futures)) as [ints floats].
    simpl in *. exists ints, floats. split_and!; try done.
    intros Hfail. split; apply set_eq; intros k; rewrite elem_of_empty.
    + rewrite Hints. split; [|done]. intros (c & ki & kf & Hc & Hq & _).
      destruct (Hfail c Hc) as [e He]. congruence.
    + rewrite Hfloats. split; [|done]. intros (c & ki & kf & Hc & Hq & _).
      destruct (Hfail c Hc) as [e He]. congruence.
  - intros Hfail. unfold Simple.discover_all_keys.
    rewrite decide_False by (intros Hne; by apply Hne).
    rewrite Simple_all_chunks_fail by done. done.
Qed.

Lemma day_discovery_unions_successful_windows_witness :
  @Mt.discover_all_keys_for_customer_day_mt
    example_calendar example_failing_db example_pool
    (U "t") (U "2025-10-08") 7 120 8 = Ok (∅, ∅).
Proof.
  destruct (@build_chunks_for_day example_calendar (U "2025-10-08") 120)
    as [chunks|e] eqn:Hchunks; [|by vm_compute in Hchunks].
  destruct (@day_discovery_unions_successful_windows
              example_calendar example_failing_db example_pool example_order
              (U "t") (U "2025-10-08") 7 120 8 chunks Hchunks)
    as [(ints & floats & Hret & _ & _ & Hempty) _].
  - reflexivity.
  - rewrite Hret. destruct Hempty as [-> ->]; [|reflexivity].
    intros c _. exists QueryFailed. reflexivity.
Defined.

(** With every chunk failing, [SimpleKeyDiscoverer.discover_all_keys] does
    not return two empty lists: it raises. *)
Lemma simple_discovery_raises_when_all_chunks_fail :
  @Simple.discover_all_keys example_failing_db example_order (U "2025-10-08") 7
    = Raise NoChunksProcessed.
Proof. by vm_compute. Qed.

(* ================================================================== *)
(** * The run: accumulation across days and the final check *)
(* ================================================================== *)

(** One step of the accumulation of [main]: the customer's sets become the
    union of what they were (empty for a new customer) and the sets of the
    day; the other customers keep theirs. *)
Lemma Mt_accumulate_get (cid : Z) (day_ints day_floats : gset str)
    (c2k : dict Z (gset str * gset str)) :
  dict_get cid (Mt.accumulate cid day_ints day_floats c2k) =
  Some ((default (∅, ∅) (dict_get cid c2k)).1 ∪ day_ints,
        (default (∅, ∅) (dict_get cid c2k)).2 ∪ day_floats).
Proof.
  unfold Mt.accumulate, dict_mem.
  destruct (dict_get cid c2k) as [[I F]|] eqn:Hg; simpl.
  - rewrite Hg. by rewrite dict_get_set_eq.
  - rewrite dict_get_set_eq. by rewrite dict_get_set_eq.
Qed.

Lemma Mt_accumulate_get_ne (cid cid' : Z) (day_ints day_floats : gset str)
    (c2k : dict Z (gset str * gset str)) :
  cid ≠ cid' →
  dict_get cid' (Mt.accumulate cid day_ints day_floats c2k) = dict_get cid' c2k.
Proof.
  intros Hne. unfold Mt.accumulate, dict_mem.
  destruct (dict_get cid c2k) as [[I F]|] eqn:Hg; simpl.
  - rewrite Hg. by rewrite dict_get_set_ne.
  - rewrite dict_get_set_eq. by rewrite !dict_get_set_ne.
Qed.

(** The sets of a customer only grow along [main]'s accumulation. *)
Lemma Mt_accumulate_grows (cid cid' : Z) (day_ints day_floats I F : gset str)
    (c2k : dict Z (gset str * gset str)) :
  dict_get cid' c2k = Some (I, F) →
  ∃ I' F', dict_get cid' (Mt.accumulate cid day_ints day_floats c2k) = Some (I', F') ∧
           I ⊆ I' ∧ F ⊆ F'.
Proof.
  intros Hg. destruct (decide (cid = cid')) as [->|Hne].
  - rewrite Mt_accumulate_get, Hg. simpl. eexists _, _. split; [done|]. set_solver.
  - rewrite Mt_accumulate_get_ne by done. eauto.
Qed.

Lemma Mt_customers_loop_grows `{Calendar, ClickHouse, ThreadPool}
    (src : str) (c w : Z) (d : str) (customers : list Z)
    (c2k c2k' : dict Z (gset str * gset str)) (cid : Z) (I F : gset str) :
  Mt.customers_loop src c w d customers c2k = Ok c2k' →
  dict_get cid c2k = Some (I, F) →
  ∃ I' F', dict_get cid c2k' = Some (I', F') ∧ I ⊆ I' ∧ F ⊆ F'.
Proof.
  revert c2k I F. induction customers as [|x customers IH]; intros c2k I F Hl Hg; simpl in Hl.
  - simplify_eq. eauto.
  - destruct (Mt.discover_all_keys_for_customer_day_mt src d x c w)
      as [[di df]|e]; simpl in Hl; [|done].
    destruct (Mt_accumulate_grows x cid di df I F c2k Hg) as (I1 & F1 & Hg1 & HI & HF).
    destruct (IH _ _ _ Hl Hg1) as (I' & F' & ? & ? & ?).
    exists I', F'. split; [done|]. set_solver.
Qed.

Lemma Mt_days_loop_grows `{Calendar, ClickHouse, ThreadPool}
    (src : str) (c w : Z) (dates : list str)
    (c2k c2k' : dict Z (gset str * gset str)) (cid : Z) (I F : gset str) :
  Mt.days_loop src c w dates c2k = Ok c2k' →
  dict_get cid c2k = Some (I, F) →
  ∃ I' F', dict_get cid c2k' = Some (I', F') ∧ I ⊆ I' ∧ F ⊆ F'.
Proof.
  revert c2k I F. induction dates as [|d dates IH]; intros c2k I F Hl Hg; simpl in Hl.
  - simplify_eq. eauto.
  - destruct (fetch_all_customers_for_date src d) as [customers|e]; simpl in Hl; [|done].
    destruct customers as [|x customers]; [eauto|].
    destruct (Mt.customers_loop src c w d (x :: customers) c2k) as [c2k1|e] eqn:Hc;
      simpl in Hl; [|done].
    destruct (Mt_customers_loop_grows _ _ _ _ _ _ _ _ _ _ Hc Hg) as (I1 & F1 & Hg1 & ? & ?).
    destruct (IH _ _ _ Hl Hg1) as (I' & F' & ? & ? & ?).
    exists I', F'. split; [done|]. set_solver.
Qed.

(** Days without customers leave the dictionary as it is. *)
Lemma Mt_days_loop_no_customers `{Calendar, ClickHouse, ThreadPool}
    (src : str) (c w : Z) (dates : list str) (c2k : dict Z (gset str * gset str)) :
  (∀ d, d ∈ dates → fetch_all_customers_for_date src d = Ok []) →
  Mt.days_loop src c w dates c2k = Ok c2k.
Proof.
  induction dates as [|d dates IH]; intros Hnone; simpl; [done|].
  rewrite (Hnone d) by left. simpl. apply IH. intros d' Hd'. apply Hnone. by right.
Qed.

(** The dictionary changes only on a day with customers. *)
Lemma Mt_days_loop_changes `{Calendar, ClickHouse, ThreadPool}
    (src : str) (c w : Z) (dates : list str) (c2k c2k' : dict Z (gset str * gset str)) :
  Mt.days_loop src c w dates c2k = Ok c2k' →
  c2k' = c2k ∨
  ∃ d customers, d ∈ dates ∧ fetch_all_customers_for_date src d = Ok customers ∧
                 customers ≠ [].
Proof.
  revert c2k. induction dates as [|d dates IH]; intros c2k Hl; simpl in Hl.
  - left. by simplify_eq.
  - destruct (fetch_all_customers_for_date src d) as [customers|e] eqn:Hf;
      simpl in Hl; [|done].
    destruct customers as [|x customers].
    + destruct (IH _ Hl) as [?|(d' & cs & ? & ? & ?)]; [by left|].
      right. exists d', cs. split_and!; try done. by right.
    + right. exists d, (x :: customers). split_and!; try done. left.
Qed.

Lemma dict_of_items_nonempty {K V} `{EqDecision K} (items : list (K * V)) :
  items ≠ [] → dict_of_items items ≠ [].
Proof.
  unfold dict_of_items.
  assert (Hgen : ∀ (l : list (K * V)) d, d ≠ [] →
            foldl (λ d kv, dict_set kv.1 kv.2 d) d l ≠ []).
  { induction l as [|[k v] l IH]; intros d Hd; simpl; [done|].
    apply IH. destruct d as [|[k' v'] d]; simpl; [done|]. by case_decide. }
  destruct items as [|[k v] items]; [done|]. intros _. simpl. by apply Hgen.
Qed.

Lemma Mt_accumulate_keys_of (vt : value_type) (x cid : Z)
    (day_ints day_floats : gset str) (c2k : dict Z (gset str * gset str)) :
  keys_of vt (Mt.accumulate x day_ints day_floats c2k) cid =
  if decide (x = cid) then keys_of vt c2k cid ∪ kind_of vt (day_ints, day_floats)
  else keys_of vt c2k cid.
Proof.
  unfold keys_of. case_decide as Hx.
  - subst. rewrite Mt_accumulate_get. by destruct vt.
  - by rewrite Mt_accumulate_get_ne.
Qed.

(** After the customers of a day, a customer holds what it held before and
    what its discovery of the day returned. *)
Lemma Mt_customers_loop_union `{Calendar, ClickHouse, ThreadPool}
    (vt : value_type) (src : str) (c w : Z) (d : str) (customers : list Z)
    (c2k c2k' : dict Z (gset str * gset str)) (cid : Z) (k : str) :
  Mt.customers_loop src c w d customers c2k = Ok c2k' →
  k ∈ keys_of vt c2k' cid ↔
  k ∈ keys_of vt c2k cid ∨
  (cid ∈ customers ∧
   ∃ day, Mt.discover_all_keys_for_customer_day_mt src d cid c w = Ok day ∧
          k ∈ kind_of vt day).
Proof.
  revert c2k. induction customers as [|x customers IH]; intros c2k Hl; simpl in Hl.
  - simplify_eq. split; [auto|]. intros [?|[[]%elem_of_nil _]]; done.
  - destruct (Mt.discover_all_keys_for_customer_day_mt src d x c w)
      as [[di df]|e] eqn:Hd; simpl in Hl; [|done].
    rewrite (IH _ Hl), Mt_accumulate_keys_of, elem_of_cons.
    case_decide as Hx.
    + subst x. rewrite elem_of_union. split.
      * intros [[?|?]|[? ?]]; eauto 10.
      * intros [?|[[_|?] (day & Hday & ?)]]; eauto 10.
        rewrite Hd in Hday. simplify_eq. auto.
    + split.
      * intros [?|[? ?]]; eauto 10.
      * intros [?|[[->|?] ?]]; eauto 10. done.
Qed.

(** After the days of a run, a customer holds the union of what its
    discoveries returned on the days it was active. *)
Lemma Mt_days_loop_union `{Calendar, ClickHouse, ThreadPool}
    (vt : value_type) (src : str) (c w : Z) (run_dates : list str)
    (c2k c2k' : dict Z (gset str * gset str)) (cid : Z) (k : str) :
  Mt.days_loop src c w run_dates c2k = Ok c2k' →
  k ∈ keys_of vt c2k' cid ↔
  k ∈ keys_of vt c2k cid ∨
  (∃ d customers day,
     d ∈ run_dates ∧ fetch_all_customers_for_date src d = Ok customers ∧
     cid ∈ customers ∧
     Mt.discover_all_keys_for_customer_day_mt src d cid c w = Ok day ∧
     k ∈ kind_of vt day).
Proof.
  revert c2k. induction run_dates as [|d run_dates IH]; intros c2k Hl; simpl in Hl.
  - simplify_eq. split; [auto|]. intros [?|(? & ? & ? & []%elem_of_nil & _)]; done.
  - destruct (fetch_all_customers_for_date src d) as [customers|e] eqn:Hf;
      simpl in Hl; [|done].
    assert (∃ c2k1, Mt.customers_loop src c w d customers c2k = Ok c2k1 ∧
                    Mt.days_loop src c w run_dates c2k1 = Ok c2k') as (c2k1 & Hc & Hr).
    { destruct customers as [|x customers]; [by exists c2k|].
      destruct (Mt.customers_loop src c w d (x :: customers) c2k) as [c2k1|e];
        simpl in Hl; [|done]. by exists c2k1. }
    rewrite (IH _ Hr), (Mt_customers_loop_union vt _ _ _ _ _ _ _ _ _ Hc).
    setoid_rewrite elem_of_cons. split.
    + intros [[?|[? (day & ? & ?)]]|(d' & cs & day & ? & ? & ? & ? & ?)]; eauto 15.
    + intros [?|(d' & cs & day & [->|?] & Hf' & ? & ? & ?)]; eauto 15.
      rewrite Hf in Hf'. simplify_eq. eauto 10.
Qed.

(** The run of [simple_key_discoverer_all_customers_mt.py] as a whole: the
    document it writes is built from a dictionary in which every customer
    holds, for each kind, exactly the keys its day-level discoveries returned
    on the days it was active. *)
Lemma Mt_main_accumulates_union `{Calendar, ClickHouse, ThreadPool, Clock, FileSystem, SetOrder}
    (a : args) (path : str) (doc : mapping_document) :
  Mt.main a = Ok (path, doc) →
  ∃ run_dates c2k,
    iter_days (arg_date a) (arg_date_start a) (arg_date_end a) = Ok run_dates ∧
    doc = Mt.build_nested_mapping (default [] (arg_source_table a)) c2k run_dates ∧
    ∀ vt cid k,
      k ∈ keys_of vt c2k cid ↔
      ∃ d customers day,
        d ∈ run_dates ∧
        fetch_all_customers_for_date (default [] (arg_source_table a)) d = Ok customers ∧
        cid ∈ customers ∧
        Mt.discover_all_keys_for_customer_day_mt (default [] (arg_source_table a))
          d cid (arg_chunk_mins a) (arg_max_workers a) = Ok day ∧
        k ∈ kind_of vt day.
Proof.
  intros Hmain. unfold Mt.main in Hmain.
  destruct (given (arg_source_table a)); cbn [negb] in Hmain; [|done].
  destruct (iter_days (arg_date a) _ _) as [run_dates|] eqn:Hd;
    cbn [bind] in Hmain; [|done].
  destruct run_dates as [|d0 rest]; cbn [bind] in Hmain; [done|].
  destruct (build_chunks_for_day d0 (arg_chunk_mins a)); cbn [bind] in Hmain; [|done].
  destruct ch_ping; cbn [negb] in Hmain; [|done].
  destruct (Mt.days_loop _ _ _ _ _) as [c2k|] eqn:Hl; cbn [bind] in Hmain; [|done].
  destruct c2k as [|item c2k]; [done|].
  destruct (fs_writable _); cbn [negb] in Hmain; [|done].
  injection Hmain as _ <-.
  exists (d0 :: rest), (item :: c2k). split_and!; try done.
  intros vt cid k. rewrite (Mt_days_loop_union vt _ _ _ _ _ _ cid k Hl).
  split; [|auto]. intros [Hk|?]; [|done].
  unfold keys_of in Hk. simpl in Hk. destruct vt; by apply elem_of_empty in Hk.
Qed.

(** [iter_days] never returns the empty list: [dates[0]] exists. *)
Lemma iter_days_loop_prefix `{Calendar} (n : nat) (cur d1 : datetime)
    (out days : list str) :
  iter_days_loop n cur d1 out = Ok days → ∃ l, days = out ++ l.
Proof.
  revert cur out. induction n as [|n IH]; intros cur out; cbn [iter_days_loop].
  - intros [= <-]. exists []. by rewrite app_nil_r.
  - case_decide.
    + destruct (dt_add_days cur 1) as [next|]; cbn [bind]; [|done].
      intros Hl. apply IH in Hl as [l ->].
      exists (strftime_ymd (dt_day cur) :: l). by rewrite <- app_assoc.
    + intros [= <-]. exists []. by rewrite app_nil_r.
Qed.

(** The only exception of the loop of [iter_days]. *)
Lemma iter_days_loop_raise `{Calendar} (n : nat) (cur d1 : datetime)
    (out : list str) (e : error) :
  iter_days_loop n cur d1 out = Raise e → e = OverflowError.
Proof.
  revert cur out. induction n as [|n IH]; intros cur out; cbn [iter_days_loop]; [done|].
  case_decide; [|done].
  destruct (dt_add_days cur 1) as [next|e'] eqn:Hn; cbn [bind].
  - apply IH.
  - intros [= <-]. by apply dt_add_seconds_raise in Hn.
Qed.

Lemma iter_days_nonempty `{Calendar} (date date_start date_end : option str)
    (days : list str) :
  iter_days date date_start date_end = Ok days → days ≠ [].
Proof.
  unfold iter_days, strptime. destruct (given date).
  - destruct (strptime_ymd _); simpl; intros; by simplify_eq.
  - destruct (negb _); [done|].
    destruct (strptime_ymd (default [] date_start)) as [d0|]; simpl; [|done].
    destruct (strptime_ymd (default [] date_end)) as [d1|]; simpl; [|done].
    unfold dt_to_seconds, seconds_per_day. simpl.
    case_decide as Hlt; [done|].
    destruct (Z.to_nat (d1 - d0 + 1)) as [|n] eqn:Hn; [lia|].
    cbn [iter_days_loop]. unfold dt_to_seconds, seconds_per_day. cbn [dt_day dt_sec].
    rewrite decide_True by lia.
    destruct (dt_add_days _ 1) as [next|]; cbn [bind]; [|done].
    intros Hl. apply iter_days_loop_prefix in Hl as [l ->]. done.
Qed.

(** C6, as the code has it. A run that finds no customer on any of its
    days ends with an error and writes nothing: [NoCustomersFound] when the
    window size is accepted and ClickHouse answers. Conversely a run that
    writes a document found a customer on some day, and the document holds
    at least one customer. (Whether any window scan succeeded is not part of
    the check.) *)
Theorem main_fails_without_customers
    `{Calendar, ClickHouse, ThreadPool, Clock, FileSystem, SetOrder}
    (a : args) (run_dates : list str) :
  given (arg_source_table a) = true →
  iter_days (arg_date a) (arg_date_start a) (arg_date_end a) = Ok run_dates →
  (∀ d, d ∈ run_dates →
     fetch_all_customers_for_date (default [] (arg_source_table a)) d = Ok []) →
  (∃ e, Mt.main a = Raise e) ∧
  (ch_ping = true →
   (∀ d0, head run_dates = Some d0 →
      ∃ chunks, build_chunks_for_day d0 (arg_chunk_mins a) = Ok chunks) →
   Mt.main a = Raise NoCustomersFound) ∧
  (∀ a' path doc, Mt.main a' = Ok (path, doc) →
     customers doc ≠ [] ∧
     ∃ dates' d cs,
       iter_days (arg_date a') (arg_date_start a') (arg_date_end a') = Ok dates' ∧
       d ∈ dates' ∧
       fetch_all_customers_for_date (default [] (arg_source_table a')) d = Ok cs ∧
       cs ≠ []).
Proof.
  intros Hsrc Hdates Hnone.
  assert (Hloop : Mt.days_loop (default [] (arg_source_table a)) (arg_chunk_mins a)
                    (arg_max_workers a) run_dates [] = Ok [])
    by by apply Mt_days_loop_no_customers.
  pose proof (iter_days_nonempty _ _ _ _ Hdates) as Hne.
  destruct run_dates as [|d0 rest]; [done|].
  split_and!.
  - unfold Mt.main. rewrite Hsrc, Hdates. cbn [negb bind].
    destruct (build_chunks_for_day d0 (arg_chunk_mins a)); cbn [bind]; [|by eexists].
    destruct ch_ping; cbn [negb]; [|by eexists].
    rewrite Hloop. cbn [bind]. by eexists.
  - intros Hping Hpre. unfold Mt.main. rewrite Hsrc, Hdates. cbn [negb bind].
    destruct (Hpre d0 eq_refl) as [chunks ->]. cbn [bind].
    rewrite Hping. cbn [negb]. by rewrite Hloop.
  - clear. intros a' path doc Hmain. unfold Mt.main in Hmain.
    destruct (given (arg_source_table a')); cbn [negb] in Hmain; [|done].
    destruct (iter_days (arg_date a') _ _) as [dates'|] eqn:Hd';
      cbn [bind] in Hmain; [|done].
    destruct dates' as [|d0' rest']; cbn [bind] in Hmain; [done|].
    destruct (build_chunks_for_day d0' (arg_chunk_mins a'));
      cbn [bind] in Hmain; [|done].
    destruct ch_ping; cbn [negb] in Hmain; [|done].
    destruct (Mt.days_loop _ _ _ _ _) as [c2k|] eqn:Hl; cbn [bind] in Hmain; [|done].
    destruct c2k as [|item c2k]; [done|].
    destruct (fs_writable _); cbn [negb] in Hmain; [|done].
    injection Hmain as _ <-. split.
    + rewrite Mt_customers_eq. by apply dict_of_items_nonempty.
    + apply Mt_days_loop_changes in Hl as [?|(d & cs & ? & ? & ?)]; [done|].
      exists (d0' :: rest'), d, cs. done.
Qed.

Lemma main_fails_without_customers_witness :
  @Mt.main example_calendar example_empty_db example_pool example_clock example_fs
    example_order example_args = Raise NoCustomersFound.
Proof.
  assert (Hnone : ∀ d, d ∈ [U "2025-10-08"; U "2025-10-09"] →
            @fetch_all_customers_for_date example_calendar example_empty_db
              (default [] (arg_source_table example_args)) d = Ok []).
  { intros d Hd. apply elem_of_cons in Hd as [->|Hd]; [reflexivity|].
    apply elem_of_cons in Hd as [->|Hd]; [reflexivity|].
    by apply elem_of_nil in Hd. }
  apply (proj1 (proj2 (@main_fails_without_customers
           example_calendar example_empty_db example_pool example_clock example_fs
           example_order example_args [U "2025-10-08"; U "2025-10-09"]
           eq_refl eq_refl Hnone))).
  - reflexivity.
  - intros d0 [= <-]. eexists. reflexivity.
Defined.

(** A run in which a customer is found and every window scan fails: [main]
    does not stop, it writes a document with that customer and no key. *)
Lemma main_writes_mapping_when_all_scans_fail :
  (∀ src cid s e, @Mt._run_chunk_query example_failing_db src cid s e
                    = Raise QueryFailed) ∧
  ∃ doc,
    @Mt.main example_calendar example_failing_db example_pool example_clock
      example_fs example_order example_args = Ok (arg_output example_args, doc) ∧
    customers doc = [(U "7", @Mt.customer_block example_order ∅ ∅)] ∧
    int_keys (@Mt.customer_block example_order ∅ ∅) = [] ∧
    float_keys (@Mt.customer_block example_order ∅ ∅) = [] ∧
    max_int_columns doc = 0 ∧ max_float_columns doc = 0.
Proof.
  split; [done|].
  eexists. split; [by vm_compute|]. by vm_compute.
Qed.

(** One step of the loop of the tag-group [main]: whatever the customer
    held before, it holds the keys of the day afterwards. *)
Lemma TagGroup_step_overwrites `{Calendar, ClickHouse, ThreadPool}
    (src : str) (c w : Z) (d : str) (cid : Z) (c2k c2k' : dict Z (gset str)) :
  TagGroup.customers_loop src c w d [cid] c2k = Ok c2k' →
  ∃ all_keys,
    TagGroup.discover_all_keys_for_customer_day_mt src d cid c w = Ok all_keys ∧
    dict_get cid c2k' = Some all_keys.
Proof.
  simpl. destruct (TagGroup.discover_all_keys_for_customer_day_mt src d cid c w)
    as [all_keys|e]; simpl; [|done].
  intros [= <-]. exists all_keys. split; [done|]. apply dict_get_set_eq.
Qed.

(** C1, where the code departs from it. In
    [simple_tag_group_key_discoverer.py], [main] stores the keys of the day
    in place of the customer's keys instead of adding them: customer 7 uses
    the key [a] on 2025-10-08 and the key [b] on 2025-10-09, and the document
    of the run over both days holds [b] alone. On the same data the [main] of
    [simple_key_discoverer_all_customers_mt.py] ends with [a] and [b]. *)
Theorem tag_group_main_keeps_last_day_only :
  @TagGroup.discover_all_keys_for_customer_day_mt
    example_calendar example_two_day_db example_pool
    (U "default.flow") (U "2025-10-08") 7 120 8 = Ok {[ U "a" ]} ∧
  @TagGroup.discover_all_keys_for_customer_day_mt
    example_calendar example_two_day_db example_pool
    (U "default.flow") (U "2025-10-09") 7 120 8 = Ok {[ U "b" ]} ∧
  (∃ doc,
     @TagGroup.main example_calendar example_two_day_db example_pool example_clock
       example_fs example_order example_args = Ok (arg_output example_args, doc) ∧
     TagGroup.tag_customers doc =
       [(U "7", {| TagGroup.keys := [U "b"]; TagGroup.key_count := 1 |})]) ∧
  (∃ doc e,
     @Mt.main example_calendar example_two_day_db example_pool example_clock
       example_fs example_order example_args = Ok (arg_output example_args, doc) ∧
     customers doc = [(U "7", e)] ∧ int_keys e = [U "a"; U "b"]).
Proof.
  split_and!.
  - by vm_compute.
  - by vm_compute.
  - eexists. split; by vm_compute.
  - eexists _, _. split_and!; by vm_compute.
Qed.

(* ================================================================== *)
(** * More on the days of a run *)
(* ================================================================== *)

Lemma iter_days_loop_seqZ `{Calendar} (n : nat) (cur d1 : Z) (out : list str) :
  Z.of_nat n = (d1 - cur + 1)%Z → (min_ordinal ≤ cur)%Z → (d1 < max_ordinal)%Z →
  iter_days_loop n {| dt_day := cur; dt_sec := 0 |} {| dt_day := d1; dt_sec := 0 |} out =
  Ok (out ++ (strftime_ymd <$> seqZ cur (d1 - cur + 1))).
Proof.
  revert cur out. induction n as [|n IH]; intros cur out Hn Hmin Hmax;
    cbn [iter_days_loop].
  - rewrite seqZ_nil by lia. by rewrite app_nil_r.
  - unfold dt_to_seconds, seconds_per_day. cbn [dt_day dt_sec].
    rewrite decide_True by lia.
    rewrite dt_add_days_midnight by done. rewrite decide_True by lia. cbn [bind].
    rewrite IH by lia.
    rewrite (seqZ_cons cur) by lia. rewrite <- app_assoc. simpl.
    replace (Z.pred (d1 - cur + 1)) with (d1 - (cur + 1) + 1)%Z by lia.
    by replace (Z.succ cur) with (cur + 1)%Z by lia.
Qed.

(** A range that ends on the last day of the library: the day after it is
    computed before the loop tests it. *)
Lemma iter_days_loop_last_day `{Calendar} (n : nat) (cur : Z) (out : list str) :
  Z.of_nat n = (max_ordinal - cur + 1)%Z → (min_ordinal ≤ cur ≤ max_ordinal)%Z →
  iter_days_loop n {| dt_day := cur; dt_sec := 0 |}
    {| dt_day := max_ordinal; dt_sec := 0 |} out = Raise OverflowError.
Proof.
  revert cur out. induction n as [|n IH]; intros cur out Hn Hcur;
    cbn [iter_days_loop]; [lia|].
  unfold dt_to_seconds, seconds_per_day. cbn [dt_day dt_sec].
  rewrite decide_True by lia.
  rewrite dt_add_days_midnight by lia.
  destruct (decide (cur < max_ordinal)%Z); cbn [bind]; [|done].
  apply IH; lia.
Qed.

(** X1. Without a single date and with a start and an end the calendar
    parses, the start not after the end, and the end before the last day of
    the library, [iter_days] returns every day from the start to the end,
    both included, in ascending order and each once: [end - start + 1] days.
    With the last day of the library, 9999-12-31, as the end it returns
    nothing: after that day is appended the day after it is computed, and the
    sum raises [OverflowError]. *)
Theorem iter_days_range_inclusive `{Calendar}
    (date date_start date_end : option str) (d0 d1 : Z) :
  given date = false →
  given date_start = true →
  given date_end = true →
  strptime_ymd (default [] date_start) = Some d0 →
  strptime_ymd (default [] date_end) = Some d1 →
  (d0 ≤ d1)%Z →
  ((d1 < max_ordinal)%Z →
   ∃ days,
     iter_days date date_start date_end = Ok days ∧
     days = strftime_ymd <$> seqZ d0 (d1 - d0 + 1) ∧
     length days = Z.to_nat (d1 - d0 + 1) ∧
     head days = Some (strftime_ymd d0) ∧
     last days = Some (strftime_ymd d1) ∧
     ∀ i : nat, (Z.of_nat i ≤ d1 - d0)%Z →
       days !! i = Some (strftime_ymd (d0 + Z.of_nat i))) ∧
  (d1 = max_ordinal →
   iter_days date date_start date_end = Raise OverflowError).
Proof.
  intros Hd Hs He H0 H1 Hle.
  pose proof (strptime_ymd_range _ _ H0) as Hr0.
  pose proof (strptime_ymd_range _ _ H1) as Hr1.
  assert (Hrun : iter_days date date_start date_end =
                 iter_days_loop (Z.to_nat (d1 - d0 + 1))
                   {| dt_day := d0; dt_sec := 0 |} {| dt_day := d1; dt_sec := 0 |} []).
  { unfold iter_days, strptime. rewrite Hd, Hs, He, H0, H1. cbn [negb andb bind].
    unfold dt_to_seconds, seconds_per_day. cbn [dt_day dt_sec].
    by rewrite decide_False by lia. }
  split.
  - intros Hlt. exists (strftime_ymd <$> seqZ d0 (d1 - d0 + 1)).
    assert (Hlook : ∀ i : nat, (Z.of_nat i ≤ d1 - d0)%Z →
              (strftime_ymd <$> seqZ d0 (d1 - d0 + 1)) !! i =
              Some (strftime_ymd (d0 + Z.of_nat i))).
    { intros i Hi. rewrite list_lookup_fmap, lookup_seqZ_lt by lia. done. }
    split_and!; try done.
    + rewrite Hrun. rewrite iter_days_loop_seqZ by lia. done.
    + by rewrite length_fmap, length_seqZ.
    + rewrite (seqZ_cons d0) by lia. done.
    + rewrite last_lookup, length_fmap, length_seqZ.
      replace (Nat.pred (Z.to_nat (d1 - d0 + 1))) with (Z.to_nat (d1 - d0)) by lia.
      rewrite Hlook by lia. do 2 f_equal. lia.
  - intros ->. rewrite Hrun. apply iter_days_loop_last_day; lia.
Qed.

Lemma iter_days_range_inclusive_witness :
  @iter_days example_calendar None (Some (U "2025-10-08")) (Some (U "2025-10-10"))
  = Ok [U "2025-10-08"; U "2025-10-09"; U "2025-10-10"] ∧
  @iter_days last_days_calendar None (Some (U "9999-12-30")) (Some (U "9999-12-31"))
  = Raise OverflowError.
Proof.
  split.
  - destruct (@iter_days_range_inclusive example_calendar None
                (Some (U "2025-10-08")) (Some (U "2025-10-10")) 739532 739534
                eq_refl eq_refl eq_refl eq_refl eq_refl)
      as [Hin _].
    + discriminate.
    + destruct Hin as (days & Hrun & Hdays & _); [reflexivity|].
      rewrite Hrun, Hdays. reflexivity.
  - apply (@iter_days_range_inclusive last_days_calendar None
             (Some (U "9999-12-30")) (Some (U "9999-12-31")) 3652058 3652059
             eq_refl eq_refl eq_refl eq_refl eq_refl).
    + discriminate.
    + reflexivity.
Defined.

(** X2. Without a single date, [iter_days] asks for dates exactly when the
    start or the end is missing or empty, before it parses anything; with
    both given, a start or an end the calendar rejects raises the format
    error, and two dates it parses raise the end-before-start error exactly
    when the end is an earlier day than the start. *)
Theorem iter_days_range_errors `{Calendar} (date date_start date_end : option str) :
  given date = false →
  (iter_days date date_start date_end = Raise NoDateGiven ↔
   given date_start = false ∨ given date_end = false) ∧
  (given date_start = true → given date_end = true →
   (strptime_ymd (default [] date_start) = None ∨
    (is_Some (strptime_ymd (default [] date_start)) ∧
     strptime_ymd (default [] date_end) = None)) →
   iter_days date date_start date_end = Raise DateFormatError) ∧
  (given date_start = true → given date_end = true →
   ∀ d0 d1, strptime_ymd (default [] date_start) = Some d0 →
            strptime_ymd (default [] date_end) = Some d1 →
     (iter_days date date_start date_end = Raise EndBeforeStart ↔ (d1 < d0)%Z)).
Proof.
  intros Hd. unfold iter_days, strptime. rewrite Hd. split_and!.
  - destruct (given date_start), (given date_end); cbn [negb andb];
      try (split; [auto | done]).
    split; [|by intros [?|?]].
    destruct (strptime_ymd (default [] date_start)); cbn [bind]; [|done].
    destruct (strptime_ymd (default [] date_end)); cbn [bind]; [|done].
    case_decide; [done|]. intros Hr. by apply iter_days_loop_raise in Hr.
  - intros -> -> Hbad. cbn [negb andb].
    destruct Hbad as [->|[[d0 ->] ->]]; done.
  - intros -> -> d0 d1 -> ->. cbn [negb andb bind].
    unfold dt_to_seconds, seconds_per_day. cbn [dt_day dt_sec].
    case_decide; split; try done; try lia.
    intros Hr. by apply iter_days_loop_raise in Hr.
Qed.

Lemma iter_days_range_errors_witness :
  @iter_days example_calendar None (Some (U "2025-10-08")) None = Raise NoDateGiven.
Proof.
  apply (proj1 (@iter_days_range_errors example_calendar None
                  (Some (U "2025-10-08")) None eq_refl)).
  right. reflexivity.
Defined.

(* ================================================================== *)
(** * More on the windows and the scans *)
(* ================================================================== *)

Lemma as_completed_nil `{ThreadPool} {A} : as_completed (@nil A) = [].
Proof. apply Permutation_nil_r, as_completed_perm. Qed.

(** X3. A negative window size is not rejected as such: when it does not
    divide 1440 the first check raises, and when it does (as -60 does) both
    checks pass and [build_chunks_for_day] returns no window at all, so that
    the day-level discovery returns two empty sets without a scan. *)
Theorem build_chunks_for_day_negative `{Calendar, ClickHouse, ThreadPool}
    (date_str : str) (chunk_minutes : Z) :
  (chunk_minutes < 0)%Z →
  ((1440 `mod` chunk_minutes ≠ 0)%Z →
   build_chunks_for_day date_str chunk_minutes = Raise ChunkNotDividingDay) ∧
  ((1440 `mod` chunk_minutes = 0)%Z →
   ∀ day, strptime_ymd date_str = Some day →
     build_chunks_for_day date_str chunk_minutes = Ok [] ∧
     ∀ (src : str) (cid workers : Z), (0 < workers)%Z →
       Mt.discover_all_keys_for_customer_day_mt src date_str cid chunk_minutes workers
         = Ok (∅, ∅) ∧
       TagGroup.discover_all_keys_for_customer_day_mt src date_str cid chunk_minutes workers
         = Ok ∅).
Proof.
  intros Hneg. split.
  - intros Hnd. rewrite build_chunks_for_day_unfold, build_chunk_bounds_unfold.
    rewrite decide_False by lia. by rewrite decide_True.
  - intros Hdiv day Hday.
    assert (Hb : build_chunks_for_day date_str chunk_minutes = Ok []).
    { rewrite build_chunks_for_day_unfold, build_chunk_bounds_unfold, Hday.
      rewrite decide_False by lia. rewrite decide_False by lia.
      rewrite decide_False by lia.
      rewrite seqZ_nil; [done|].
      pose proof (Z.div_mod 1440 chunk_minutes). nia. }
    split; [done|]. intros src cid workers Hw.
    unfold Mt.discover_all_keys_for_customer_day_mt,
      TagGroup.discover_all_keys_for_customer_day_mt.
    rewrite Hb. cbn [bind]. rewrite !decide_False by lia.
    rewrite !fmap_nil, !as_completed_nil. done.
Qed.

Lemma build_chunks_for_day_negative_witness :
  @build_chunks_for_day example_calendar (U "2025-10-08") (-60) = Ok [].
Proof.
  apply (proj2 (@build_chunks_for_day_negative example_calendar example_empty_db
                  example_pool (U "2025-10-08") (-60) eq_refl) eq_refl 739532%Z eq_refl).
Defined.

(** X4. [_run_chunk_query] is all or nothing: it returns the keys of both
    kinds when both queries succeed, and raises the error of the first query
    that fails, the int query before the float query; the int keys of a
    window are lost when its float query fails. *)
Theorem run_chunk_query_all_or_nothing `{ClickHouse}
    (source_table : str) (customer_id : Z) (start_ts end_ts : str) :
  (∀ ints floats,
     Mt._run_chunk_query source_table customer_id start_ts end_ts = Ok (ints, floats) ↔
     ∃ rows_int rows_float,
       ch_metric_keys IntGroups source_table start_ts end_ts customer_id = Ok rows_int ∧
       ch_metric_keys FloatGroups source_table start_ts end_ts customer_id = Ok rows_float ∧
       ints = rows_keys rows_int ∧ floats = rows_keys rows_float) ∧
  (∀ err,
     Mt._run_chunk_query source_table customer_id start_ts end_ts = Raise err ↔
     ch_metric_keys IntGroups source_table start_ts end_ts customer_id = Raise err ∨
     (is_Some_ok (ch_metric_keys IntGroups source_table start_ts end_ts customer_id) ∧
      ch_metric_keys FloatGroups source_table start_ts end_ts customer_id = Raise err)).
Proof.
  unfold Mt._run_chunk_query, is_Some_ok.
  destruct (ch_metric_keys IntGroups _ _ _ _) as [ri|ei];
    destruct (ch_metric_keys FloatGroups _ _ _ _) as [rf|ef]; cbn [bind]; split.
  all: try (intros ints floats; split;
            [intros [= <- <-]; eauto 10 | intros (? & ? & ? & ? & ? & ?); by simplify_eq]).
  all: try (intros ints floats; split; [done | intros (? & ? & ? & ? & ? & ?); by simplify_eq]).
  all: intros err; split; intros Hx; try done.
  all: try (destruct Hx as [Hx|[Hx1 Hx2]]; by simplify_eq).
  all: try (injection Hx as ->; auto).
Qed.

Lemma day_range_unfold `{Calendar} (date_str : str) :
  day_range date_str =
  match strptime_ymd date_str with
  | Some day =>
      if decide (day < max_ordinal)%Z
      then Ok (strftime_ymd day +++ U " 00:00:00",
               strftime_ymd (day + 1) +++ U " 00:00:00")
      else Raise OverflowError
  | None => Raise DateFormatError
  end.
Proof.
  unfold day_range, strptime.
  destruct (strptime_ymd date_str) as [day|] eqn:Hday; [|done].
  cbn [bind]. rewrite dt_add_days_midnight
    by (apply strptime_ymd_range in Hday; lia).
  by case_decide.
Qed.

(** X5. The customers of a day come from one query over the day, from its
    midnight to the midnight of the next day. When the calendar accepts the
    date, a day before the last one of the library, and the query returns,
    they are returned in ascending order, with exactly the identifiers that
    [int] accepts (a value it does not accept is dropped, a repeated
    identifier stays repeated). A date the calendar rejects or a query that
    fails makes the function raise; so does the last day of the library,
    9999-12-31, whose next day cannot be computed: [OverflowError], before
    any query. *)
Theorem fetch_all_customers_sorted `{Calendar, ClickHouse}
    (source_table date_str : str) :
  (∀ day rows,
     strptime_ymd date_str = Some day → (day < max_ordinal)%Z →
     ch_customers source_table (strftime_ymd day +++ U " 00:00:00")
       (strftime_ymd (day + 1) +++ U " 00:00:00") = Ok rows →
     ∃ customers,
       fetch_all_customers_for_date source_table date_str = Ok customers ∧
       Sorted Z.le customers ∧
       customers ≡ₚ omap id rows ∧
       (∀ cid, cid ∈ customers ↔ Some cid ∈ rows) ∧
       length customers ≤ length rows) ∧
  (strptime_ymd date_str = None →
   fetch_all_customers_for_date source_table date_str = Raise DateFormatError) ∧
  (∀ day e, strptime_ymd date_str = Some day → (day < max_ordinal)%Z →
     ch_customers source_table (strftime_ymd day +++ U " 00:00:00")
       (strftime_ymd (day + 1) +++ U " 00:00:00") = Raise e →
     fetch_all_customers_for_date source_table date_str = Raise e) ∧
  (strptime_ymd date_str = Some max_ordinal →
   day_range date_str = Raise OverflowError ∧
   fetch_all_customers_for_date source_table date_str = Raise OverflowError).
Proof.
  unfold fetch_all_customers_for_date. rewrite day_range_unfold. split_and!.
  - intros day rows -> Hlt Hq. rewrite decide_True by done.
    cbn [bind]. rewrite Hq. cbn [bind].
    eexists. split; [reflexivity|]. unfold sorted_Z. split_and!.
    + apply Sorted_merge_sort, _.
    + apply merge_sort_Permutation.
    + intros cid. rewrite merge_sort_Permutation, list_elem_of_omap. split.
      * intros ([x|] & Hin & Hx); by simplify_eq/=.
      * intros Hin. by exists (Some cid).
    + rewrite merge_sort_Permutation. clear.
      induction rows as [|x rows IH]; [done|].
      cbn [omap list_omap length]. destruct (id x); cbn [length]; lia.
  - by intros ->.
  - intros day e -> Hlt Hq. rewrite decide_True by done. cbn [bind]. by rewrite Hq.
  - intros ->. by rewrite decide_False by lia.
Qed.

Lemma fetch_all_customers_sorted_witness :
  (∃ customers,
     @fetch_all_customers_for_date example_calendar example_untrimmed_db
       (U "default.flow") (U "2025-10-08") = Ok customers ∧
     Sorted Z.le customers) ∧
  @fetch_all_customers_for_date last_days_calendar example_untrimmed_db
    (U "default.flow") (U "9999-12-31") = Raise OverflowError.
Proof.
  split.
  - destruct (proj1 (@fetch_all_customers_sorted example_calendar example_untrimmed_db
                       (U "default.flow") (U "2025-10-08"))
                739532%Z [Some 7%Z] eq_refl eq_refl eq_refl)
      as (customers & Hf & Hs & _).
    exists customers. split; [exact Hf | exact Hs].
  - apply (proj2 (proj2 (proj2 (@fetch_all_customers_sorted last_days_calendar
                                  example_untrimmed_db
                                  (U "default.flow") (U "9999-12-31"))))).
    reflexivity.
Defined.

(* ================================================================== *)
(** * The order in which the windows complete *)
(* ================================================================== *)

Lemma Mt_merge_futures_Permutation (l1 l2 : list (result (list str * list str)))
    (acc : gset str * gset str) :
  l1 ≡ₚ l2 → foldl Mt.merge_future acc l1 = foldl Mt.merge_future acc l2.
Proof.
  intros Hp.
  assert (H1 : (foldl Mt.merge_future acc l1).1 = (foldl Mt.merge_future acc l2).1).
  { apply set_eq. intros k. rewrite !Mt_merge_futures_ints.
    by setoid_rewrite Hp. }
  assert (H2 : (foldl Mt.merge_future acc l1).2 = (foldl Mt.merge_future acc l2).2).
  { apply set_eq. intros k. rewrite !Mt_merge_futures_floats.
    by setoid_rewrite Hp. }
  destruct (foldl Mt.merge_future acc l1), (foldl Mt.merge_future acc l2).
  simpl in *. by subst.
Qed.

Lemma Mt_discover_pool_irrelevant `{Calendar, ClickHouse} (pool1 pool2 : ThreadPool)
    (src d : str) (cid c w : Z) :
  @Mt.discover_all_keys_for_customer_day_mt _ _ pool1 src d cid c w =
  @Mt.discover_all_keys_for_customer_day_mt _ _ pool2 src d cid c w.
Proof.
  unfold Mt.discover_all_keys_for_customer_day_mt.
  destruct (build_chunks_for_day d c) as [chunks|]; cbn [bind]; [|done].
  case_decide; [done|]. f_equal. apply Mt_merge_futures_Permutation.
  by rewrite !as_completed_perm.
Qed.

Lemma Mt_customers_loop_pool_irrelevant `{Calendar, ClickHouse}
    (pool1 pool2 : ThreadPool) (src : str) (c w : Z) (d : str)
    (customers : list Z) (c2k : dict Z (gset str * gset str)) :
  @Mt.customers_loop _ _ pool1 src c w d customers c2k =
  @Mt.customers_loop _ _ pool2 src c w d customers c2k.
Proof.
  revert c2k. induction customers as [|cid customers IH]; intros c2k; simpl; [done|].
  rewrite (Mt_discover_pool_irrelevant pool1 pool2).
  destruct (Mt.discover_all_keys_for_customer_day_mt src d cid c w) as [[di df]|];
    simpl; [apply IH | done].
Qed.

Lemma Mt_days_loop_pool_irrelevant `{Calendar, ClickHouse}
    (pool1 pool2 : ThreadPool) (src : str) (c w : Z) (run_dates : list str)
    (c2k : dict Z (gset str * gset str)) :
  @Mt.days_loop _ _ pool1 src c w run_dates c2k =
  @Mt.days_loop _ _ pool2 src c w run_dates c2k.
Proof.
  revert c2k. induction run_dates as [|d run_dates IH]; intros c2k; simpl; [done|].
  destruct (fetch_all_customers_for_date src d) as [customers|]; simpl; [|done].
  destruct customers as [|x customers]; [apply IH|].
  rewrite (Mt_customers_loop_pool_irrelevant pool1 pool2).
  destruct (Mt.customers_loop src c w d (x :: customers) c2k); simpl; [apply IH | done].
Qed.

(** X6. The order in which the window scans of a day complete does not
    matter: with the same database, two thread pools that complete the
    futures in different orders give the same sets for a day, and the same
    outcome of the whole run, error or written document. *)
Theorem completion_order_irrelevant `{Calendar, ClickHouse, Clock, FileSystem, SetOrder}
    (pool1 pool2 : ThreadPool) :
  (∀ (src d : str) (cid c w : Z),
     @Mt.discover_all_keys_for_customer_day_mt _ _ pool1 src d cid c w =
     @Mt.discover_all_keys_for_customer_day_mt _ _ pool2 src d cid c w) ∧
  (∀ a : args, @Mt.main _ _ pool1 _ _ _ a = @Mt.main _ _ pool2 _ _ _ a).
Proof.
  split.
  - intros. apply Mt_discover_pool_irrelevant.
  - intros a. unfold Mt.main.
    destruct (negb (given (arg_source_table a))); [done|].
    destruct (iter_days (arg_date a) (arg_date_start a) (arg_date_end a))
      as [run_dates|]; cbn [bind]; [|done].
    destruct (match run_dates with
              | [] => Raise IndexError
              | d0 :: _ => build_chunks_for_day d0 (arg_chunk_mins a)
              end); cbn [bind]; [|done].
    destruct (negb ch_ping); [done|].
    by rewrite (Mt_days_loop_pool_irrelevant pool1 pool2).
Qed.

(* ================================================================== *)
(** * What a written document tells about the run *)
(* ================================================================== *)

Lemma Mt_accumulate_wf (cid : Z) (day_ints day_floats : gset str)
    (c2k : dict Z (gset str * gset str)) :
  dict_wf c2k → dict_wf (Mt.accumulate cid day_ints day_floats c2k).
Proof.
  intros Hwf. unfold Mt.accumulate.
  destruct (dict_mem cid c2k).
  - destruct (dict_get cid c2k) as [[I F]|]; [by apply dict_set_wf | done].
  - rewrite dict_get_set_eq. by do 2 apply dict_set_wf.
Qed.

Lemma Mt_accumulate_dom (cid cid' : Z) (day_ints day_floats : gset str)
    (c2k : dict Z (gset str * gset str)) :
  is_Some (dict_get cid' (Mt.accumulate cid day_ints day_floats c2k)) ↔
  cid' = cid ∨ is_Some (dict_get cid' c2k).
Proof.
  destruct (decide (cid = cid')) as [->|Hne].
  - rewrite Mt_accumulate_get. split; [auto | by eexists].
  - rewrite Mt_accumulate_get_ne by done. split; [auto | by intros [?|?]].
Qed.

Lemma Mt_customers_loop_inv `{Calendar, ClickHouse, ThreadPool}
    (src : str) (c w : Z) (d : str) (customers : list Z)
    (c2k c2k' : dict Z (gset str * gset str)) :
  Mt.customers_loop src c w d customers c2k = Ok c2k' →
  (dict_wf c2k → dict_wf c2k') ∧
  (∀ cid, is_Some (dict_get cid c2k') ↔ is_Some (dict_get cid c2k) ∨ cid ∈ customers) ∧
  (∀ cid, cid ∈ customers →
     ∃ day, Mt.discover_all_keys_for_customer_day_mt src d cid c w = Ok day).
Proof.
  revert c2k. induction customers as [|x customers IH]; intros c2k Hl; simpl in Hl.
  - simplify_eq. split_and!; [done| |by intros ? ?%elem_of_nil].
    intros cid. split; [auto | by intros [?|?%elem_of_nil]].
  - destruct (Mt.discover_all_keys_for_customer_day_mt src d x c w)
      as [[di df]|e] eqn:Hd; simpl in Hl; [|done].
    destruct (IH _ Hl) as (Hwf & Hdom & Hok). split_and!.
    + intros ?. by apply Hwf, Mt_accumulate_wf.
    + intros cid. rewrite Hdom, Mt_accumulate_dom, elem_of_cons. tauto.
    + intros cid [->|?]%elem_of_cons; eauto.
Qed.

Lemma Mt_days_loop_inv `{Calendar, ClickHouse, ThreadPool}
    (src : str) (c w : Z) (run_dates : list str)
    (c2k c2k' : dict Z (gset str * gset str)) :
  Mt.days_loop src c w run_dates c2k = Ok c2k' →
  (dict_wf c2k → dict_wf c2k') ∧
  (∀ cid, is_Some (dict_get cid c2k') ↔
          is_Some (dict_get cid c2k) ∨
          ∃ d customers, d ∈ run_dates ∧
            fetch_all_customers_for_date src d = Ok customers ∧ cid ∈ customers) ∧
  (∀ d, d ∈ run_dates →
     ∃ customers, fetch_all_customers_for_date src d = Ok customers ∧
       ∀ cid, cid ∈ customers →
         ∃ day, Mt.discover_all_keys_for_customer_day_mt src d cid c w = Ok day).
Proof.
  revert c2k. induction run_dates as [|d run_dates IH]; intros c2k Hl; simpl in Hl.
  - simplify_eq. split_and!; [done| |by intros ? ?%elem_of_nil].
    intros cid. split; [auto | by intros [?|(? & ? & ?%elem_of_nil & _)]].
  - destruct (fetch_all_customers_for_date src d) as [customers|e] eqn:Hf;
      simpl in Hl; [|done].
    assert (∃ c2k1, Mt.customers_loop src c w d customers c2k = Ok c2k1 ∧
                    Mt.days_loop src c w run_dates c2k1 = Ok c2k') as (c2k1 & Hc & Hr).
    { destruct customers as [|x customers]; [by exists c2k|].
      destruct (Mt.customers_loop src c w d (x :: customers) c2k) as [c2k1|e];
        simpl in Hl; [|done]. by exists c2k1. }
    destruct (Mt_customers_loop_inv _ _ _ _ _ _ _ Hc) as (Hwf1 & Hdom1 & Hok1).
    destruct (IH _ Hr) as (Hwf & Hdom & Hok). split_and!.
    + auto.
    + intros cid. rewrite Hdom, Hdom1. setoid_rewrite elem_of_cons. split.
      * intros [[?|?]|(d' & cs & ? & ? & ?)]; eauto 10.
      * intros [?|(d' & cs & [->|?] & Hf' & ?)]; eauto 10.
        rewrite Hf in Hf'. simplify_eq. auto.
    + intros d' [->|?]%elem_of_cons; eauto.
Qed.

Lemma Mt_discover_ok_workers `{Calendar, ClickHouse, ThreadPool}
    (src d : str) (cid c w : Z) (day : gset str * gset str) :
  Mt.discover_all_keys_for_customer_day_mt src d cid c w = Ok day → (0 < w)%Z.
Proof.
  unfold Mt.discover_all_keys_for_customer_day_mt.
  destruct (build_chunks_for_day d c); cbn [bind]; [|done].
  case_decide; [done | lia].
Qed.

(** X7. A document is written only by a run in which everything but the
    window scans went well: the source table was given, the dates were
    accepted, the window size passed the checks on the first date, ClickHouse
    answered, the customer scan of every day of the run returned, every
    day-level discovery returned, the number of workers was positive and the
    output was writable. The document goes to the output path and its
    metadata record the clock, the source table and all days of the run,
    those without customers included. *)
Theorem mt_main_written_only_if `{Calendar, ClickHouse, ThreadPool, Clock, FileSystem, SetOrder}
    (a : args) (path : str) (doc : mapping_document) :
  Mt.main a = Ok (path, doc) →
  given (arg_source_table a) = true ∧
  ∃ d0 rest chunks,
    iter_days (arg_date a) (arg_date_start a) (arg_date_end a) = Ok (d0 :: rest) ∧
    build_chunks_for_day d0 (arg_chunk_mins a) = Ok chunks ∧
    ch_ping = true ∧
    (∀ d, d ∈ d0 :: rest →
       ∃ customers,
         fetch_all_customers_for_date (default [] (arg_source_table a)) d = Ok customers ∧
         ∀ cid, cid ∈ customers →
           ∃ day, Mt.discover_all_keys_for_customer_day_mt
                    (default [] (arg_source_table a)) d cid
                    (arg_chunk_mins a) (arg_max_workers a) = Ok day) ∧
    (0 < arg_max_workers a)%Z ∧
    fs_writable (arg_output a) = true ∧
    path = arg_output a ∧
    doc_metadata doc =
      {| generated_at := now_isoformat;
         source_table := default [] (arg_source_table a);
         dates := Some (d0 :: rest);
         note := Mt.note_text |}.
Proof.
  intros Hmain. unfold Mt.main in Hmain.
  destruct (given (arg_source_table a)); cbn [negb] in Hmain; [|done].
  destruct (iter_days (arg_date a) _ _) as [run_dates|] eqn:Hd;
    cbn [bind] in Hmain; [|done].
  destruct run_dates as [|d0 rest]; cbn [bind] in Hmain; [done|].
  destruct (build_chunks_for_day d0 (arg_chunk_mins a)) as [chunks|] eqn:Hb;
    cbn [bind] in Hmain; [|done].
  destruct ch_ping; cbn [negb] in Hmain; [|done].
  destruct (Mt.days_loop _ _ _ _ _) as [c2k|] eqn:Hl; cbn [bind] in Hmain; [|done].
  destruct c2k as [|item c2k]; [done|].
  destruct (fs_writable _); cbn [negb] in Hmain; [|done].
  injection Hmain as <- <-.
  destruct (Mt_days_loop_inv _ _ _ _ _ _ Hl) as (_ & _ & Hok).
  split; [done|]. exists d0, rest, chunks. split_and!; try done.
  - apply Mt_days_loop_changes in Hl as [?|(d & cs & Hin & Hf & Hne)]; [done|].
    destruct (Hok d Hin) as (cs' & Hf' & Hdisc). rewrite Hf in Hf'. simplify_eq.
    destruct cs' as [|cid cs']; [done|].
    destruct (Hdisc cid) as [day Hday]; [left|].
    by eapply Mt_discover_ok_workers.
  - unfold Mt.build_nested_mapping.
    by destruct (foldl Mt.mapping_step ([], 0, 0) (item :: c2k)) as [[b mi] mf].
Qed.

Lemma mt_main_written_only_if_witness :
  @fs_writable example_fs (arg_output example_args) = true ∧
  (0 < arg_max_workers example_args)%Z.
Proof.
  destruct (@Mt.main example_calendar example_two_day_db example_pool example_clock
              example_fs example_order example_args) as [[path doc]|e] eqn:Hmain;
    [|by vm_compute in Hmain].
  destruct (@mt_main_written_only_if example_calendar example_two_day_db example_pool
              example_clock example_fs example_order example_args path doc Hmain)
    as (_ & d0 & rest & chunks & _ & _ & _ & _ & Hw & Hfs & _).
  split; [exact Hfs | exact Hw].
Defined.

Lemma Mt_customers_get_None `{Clock, SetOrder} (src : str)
    (c2k : dict Z (gset str * gset str)) (run_dates : list str) (cid : Z) :
  dict_get cid c2k = None →
  dict_get (str_of_Z cid) (customers (Mt.build_nested_mapping src c2k run_dates)) = None.
Proof.
  intros Hg. rewrite Mt_customers_eq.
  assert (Hgen : ∀ b : dict str customer_entry,
            dict_get (str_of_Z cid) b = None →
            dict_get (str_of_Z cid)
              (foldl (λ d kv, dict_set kv.1 kv.2 d) b
                 ((λ it : Z * (gset str * gset str),
                     (str_of_Z it.1, Mt.customer_block it.2.1 it.2.2)) <$> c2k)) = None).
  { induction c2k as [|[x [I F]] c2k IH]; intros b Hb; simpl; [done|].
    simpl in Hg. case_decide; [done|].
    apply IH; [done|]. rewrite dict_get_set_ne; [done|].
    intros Heq. by apply str_of_Z_inj in Heq. }
  by apply Hgen.
Qed.

Lemma Mt_main_inv `{Calendar, ClickHouse, ThreadPool, Clock, FileSystem, SetOrder}
    (a : args) (path : str) (doc : mapping_document) :
  Mt.main a = Ok (path, doc) →
  ∃ run_dates c2k,
    iter_days (arg_date a) (arg_date_start a) (arg_date_end a) = Ok run_dates ∧
    Mt.days_loop (default [] (arg_source_table a)) (arg_chunk_mins a)
      (arg_max_workers a) run_dates [] = Ok c2k ∧
    doc = Mt.build_nested_mapping (default [] (arg_source_table a)) c2k run_dates.
Proof.
  intros Hmain. unfold Mt.main in Hmain.
  destruct (given (arg_source_table a)); cbn [negb] in Hmain; [|done].
  destruct (iter_days (arg_date a) _ _) as [run_dates|] eqn:Hd;
    cbn [bind] in Hmain; [|done].
  destruct run_dates as [|d0 rest]; cbn [bind] in Hmain; [done|].
  destruct (build_chunks_for_day d0 (arg_chunk_mins a)); cbn [bind] in Hmain; [|done].
  destruct ch_ping; cbn [negb] in Hmain; [|done].
  destruct (Mt.days_loop _ _ _ _ _) as [c2k|] eqn:Hl; cbn [bind] in Hmain; [|done].
  destruct c2k as [|item c2k]; [done|].
  destruct (fs_writable _); cbn [negb] in Hmain; [|done].
  injection Hmain as _ <-. by exists (d0 :: rest), (item :: c2k).
Qed.

(** X8. In the document a run writes, a customer has an entry exactly when
    it was active on some day of the run, and the entry's [int_keys]
    ([float_keys]) list exactly the keys that the customer's day-level
    discoveries returned on its active days, in ascending order and each
    once: the union over the days. *)
Theorem mt_document_is_union_of_days
    `{Calendar, ClickHouse, ThreadPool, Clock, FileSystem, SetOrder}
    (a : args) (path : str) (doc : mapping_document) :
  Mt.main a = Ok (path, doc) →
  ∃ run_dates,
    iter_days (arg_date a) (arg_date_start a) (arg_date_end a) = Ok run_dates ∧
    let src := default [] (arg_source_table a) in
    let active cid d :=
      ∃ customers, d ∈ run_dates ∧
        fetch_all_customers_for_date src d = Ok customers ∧ cid ∈ customers in
    let found vt cid k :=
      ∃ d day, active cid d ∧
        Mt.discover_all_keys_for_customer_day_mt src d cid
          (arg_chunk_mins a) (arg_max_workers a) = Ok day ∧
        k ∈ kind_of vt day in
    dict_wf (customers doc) ∧
    ∀ cid,
      (is_Some (dict_get (str_of_Z cid) (customers doc)) ↔ ∃ d, active cid d) ∧
      ∀ e, dict_get (str_of_Z cid) (customers doc) = Some e →
        (∀ k, k ∈ int_keys e ↔ found IntGroups cid k) ∧
        (∀ k, k ∈ float_keys e ↔ found FloatGroups cid k) ∧
        StronglySorted str_le (int_keys e) ∧ NoDup (int_keys e) ∧
        StronglySorted str_le (float_keys e) ∧ NoDup (float_keys e).
Proof.
  intros Hmain.
  destruct (Mt_main_inv a path doc Hmain) as (run_dates & c2k & Hd & Hl & ->).
  exists run_dates. split; [done|]. intros src active found.
  destruct (Mt_days_loop_inv _ _ _ _ _ _ Hl) as (Hwf & Hdom & _).
  assert (Hwf' : dict_wf c2k) by (apply Hwf, NoDup_nil_2).
  split; [by apply Mt_customers_wf|].
  intros cid.
  assert (Hact : is_Some (dict_get cid c2k) ↔ ∃ d, active cid d).
  { rewrite Hdom. unfold active. split.
    - intros [[? [=]]|(d & cs & ? & ? & ?)]. eauto.
    - intros (d & cs & ? & ? & ?). eauto 10. }
  assert (Hfound : ∀ vt k, k ∈ keys_of vt c2k cid ↔ found vt cid k).
  { intros vt k. rewrite (Mt_days_loop_union vt _ _ _ _ _ _ cid k Hl).
    unfold found, active. split.
    - intros [Hk|(d & cs & day & ? & ? & ? & ? & ?)]; [|eauto 10].
      unfold keys_of in Hk. simpl in Hk. destruct vt; by apply elem_of_empty in Hk.
    - intros (d & day & (cs & ? & ? & ?) & ? & ?). right. eauto 10. }
  destruct (dict_get cid c2k) as [[I F]|] eqn:Hg.
  - rewrite (Mt_customers_get src c2k run_dates cid I F Hwf' Hg). split.
    + rewrite <- Hact. split; by eexists.
    + intros e [= <-]. rewrite Mt_customer_block_eq. cbn [int_keys float_keys].
      split_and!.
      * intros k. rewrite sorted_set_elem_of, <- (Hfound IntGroups).
        unfold keys_of. by rewrite Hg.
      * intros k. rewrite sorted_set_elem_of, <- (Hfound FloatGroups).
        unfold keys_of. by rewrite Hg.
      * apply sorted_set_Sorted.
      * apply sorted_set_NoDup.
      * apply sorted_set_Sorted.
      * apply sorted_set_NoDup.
  - rewrite (Mt_customers_get_None src c2k run_dates cid Hg). split; [|done].
    rewrite <- Hact. split; by intros [? ?].
Qed.

Lemma mt_document_is_union_of_days_witness :
  ∃ path doc,
    @Mt.main example_calendar example_two_day_db example_pool example_clock
      example_fs example_order example_args = Ok (path, doc) ∧
    dict_wf (customers doc).
Proof.
  destruct (@Mt.main example_calendar example_two_day_db example_pool example_clock
              example_fs example_order example_args) as [[path doc]|e] eqn:Hmain;
    [|by vm_compute in Hmain].
  exists path, doc. split; [reflexivity|].
  destruct (@mt_document_is_union_of_days example_calendar example_two_day_db
              example_pool example_clock example_fs example_order example_args path doc Hmain)
    as (run_dates & _ & Hwf & _).
  exact Hwf.
Defined.

(* ================================================================== *)
(** * The tag-group script *)
(* ================================================================== *)

Lemma TagGroup_merge_futures (futs : list (result (gset str))) (acc : gset str) (k : str) :
  k ∈ foldl TagGroup.merge_future acc futs ↔
  k ∈ acc ∨ ∃ ks, Ok ks ∈ futs ∧ k ∈ ks.
Proof.
  revert acc. induction futs as [|fut futs IH]; intros acc; simpl.
  - split; [auto | intros [?|(? & []%elem_of_nil & _)]; done].
  - rewrite IH. setoid_rewrite elem_of_cons.
    destruct fut as [ks|e]; simpl.
    + case_bool_decide as Hne.
      * rewrite elem_of_union. split.
        -- intros [[?|?]|(ks' & ? & ?)]; eauto 10.
        -- intros [?|(ks' & [[= ->]|?] & ?)]; eauto 10.
      * assert (ks = ∅) as ->
          by (destruct (decide (ks = ∅)); [done | by destruct Hne]).
        split.
        -- intros [?|(ks' & ? & ?)]; eauto 10.
        -- intros [?|(ks' & [[= ->]|?] & Hk)]; eauto 10.
           by apply elem_of_empty in Hk.
    + split.
      * intros [?|(ks' & ? & ?)]; eauto 10.
      * intros [?|(ks' & [?|?] & ?)]; eauto 10. done.
Qed.

(** X9. The day-level discovery of the tag-group script returns, for an
    accepted window size and date and a positive number of workers, exactly
    the keys of the windows whose scan succeeded: a key is returned when and
    only when it is the first cell, with something else than whitespace in it,
    of a row of a window whose query returned. Failed windows add nothing. *)
Theorem tag_discovery_unions_successful_windows `{Calendar, ClickHouse, ThreadPool}
    (source_table date_str : str) (customer_id chunk_minutes max_workers : Z)
    (chunks : list (str * str)) :
  build_chunks_for_day date_str chunk_minutes = Ok chunks →
  (0 < max_workers)%Z →
  ∃ all_keys,
    TagGroup.discover_all_keys_for_customer_day_mt
      source_table date_str customer_id chunk_minutes max_workers = Ok all_keys ∧
    (∀ k, k ∈ all_keys ↔
       ∃ c rows r, c ∈ chunks ∧
         ch_tag_keys source_table c.1 c.2 customer_id = Ok rows ∧
         r ∈ rows ∧ head r = Some k ∧ ¬ blank k) ∧
    ((∀ c, c ∈ chunks → ∃ e, ch_tag_keys source_table c.1 c.2 customer_id = Raise e) →
     all_keys = ∅).
Proof.
  intros Hchunks Hw.
  unfold TagGroup.discover_all_keys_for_customer_day_mt. rewrite Hchunks. cbn [bind].
  rewrite decide_False by lia.
  set (futures := (λ c : str * str,
                     TagGroup._run_chunk_query source_table customer_id c.1 c.2) <$> chunks).
  assert (Hkeys : ∀ k, k ∈ foldl TagGroup.merge_future ∅ (as_completed futures) ↔
            ∃ c rows r, c ∈ chunks ∧
              ch_tag_keys source_table c.1 c.2 customer_id = Ok rows ∧
              r ∈ rows ∧ head r = Some k ∧ ¬ blank k).
  { intros k. rewrite TagGroup_merge_futures. setoid_rewrite as_completed_perm.
    unfold futures. setoid_rewrite list_elem_of_fmap.
    unfold TagGroup._run_chunk_query. split.
    - intros [[]%not_elem_of_empty|(ks & (c & Hq & Hc) & Hk)].
      destruct (ch_tag_keys source_table c.1 c.2 customer_id) as [rows|] eqn:Hrows;
        cbn [bind] in Hq; [|done].
      injection Hq as ->. apply elem_of_list_to_set, elem_of_rows_keys in Hk
        as (r & ? & ? & ?). eauto 10.
    - intros (c & rows & r & Hc & Hrows & Hr & Hh & Hnb). right.
      exists (list_to_set (rows_keys rows)). split.
      + exists c. split; [|done]. by rewrite Hrows.
      + apply elem_of_list_to_set, elem_of_rows_keys. eauto. }
  eexists. split_and!; [done | done |].
  intros Hfail. apply set_eq. intros k. rewrite Hkeys, elem_of_empty.
  split; [|done]. intros (c & rows & r & Hc & Hrows & _).
  destruct (Hfail c Hc) as [e He]. congruence.
Qed.

Lemma tag_discovery_unions_successful_windows_witness :
  @TagGroup.discover_all_keys_for_customer_day_mt
    example_calendar example_failing_db example_pool
    (U "t") (U "2025-10-08") 7 120 8 = Ok ∅.
Proof.
  destruct (@build_chunks_for_day example_calendar (U "2025-10-08") 120)
    as [chunks|e] eqn:Hchunks; [|by vm_compute in Hchunks].
  destruct (@tag_discovery_unions_successful_windows
              example_calendar example_failing_db example_pool
              (U "t") (U "2025-10-08") 7 120 8 chunks Hchunks)
    as (all_keys & Hret & _ & Hempty).
  - reflexivity.
  - rewrite Hret. rewrite Hempty; [reflexivity|].
    intros c _. exists QueryFailed. reflexivity.
Defined.

Lemma TagGroup_mapping_foldl `{SetOrder} (c2k : dict Z (gset str))
    (block : dict str TagGroup.customer_keys) (m : nat) :
  foldl TagGroup.mapping_step (block, m) c2k =
  (foldl (λ b (it : Z * gset str),
            dict_set (str_of_Z it.1)
              {| TagGroup.keys := sorted_set it.2; TagGroup.key_count := size it.2 |} b)
         block c2k,
   m `max` max_list ((λ it, size it.2) <$> c2k)).
Proof.
  revert block m. induction c2k as [|[cid ks] c2k IH]; intros block m; simpl.
  - by rewrite Nat.max_0_r.
  - rewrite IH. simpl. by rewrite Nat.max_assoc.
Qed.

Lemma TagGroup_customers_list `{Clock, SetOrder} (src : str) (c2k : dict Z (gset str))
    (run_dates : list str) :
  dict_wf c2k →
  TagGroup.tag_customers (TagGroup.build_nested_mapping src c2k run_dates) =
  (λ it : Z * gset str,
     (str_of_Z it.1,
      {| TagGroup.keys := sorted_set it.2; TagGroup.key_count := size it.2 |})) <$> c2k.
Proof.
  intros Hwf. unfold TagGroup.build_nested_mapping. rewrite TagGroup_mapping_foldl.
  cbn [TagGroup.tag_customers].
  transitivity (dict_of_items
    ((λ it : Z * gset str,
        (str_of_Z it.1,
         {| TagGroup.keys := sorted_set it.2; TagGroup.key_count := size it.2 |})) <$> c2k)).
  - unfold dict_of_items. generalize (@nil (str * TagGroup.customer_keys)).
    clear Hwf. induction c2k as [|[cid ks] c2k IH]; intros b; simpl; [done|]. by rewrite IH.
  - apply dict_of_items_NoDup. rewrite <- list_fmap_compose.
    change (NoDup ((str_of_Z ∘ fst) <$> c2k)).
    rewrite list_fmap_compose. apply NoDup_fmap_2; [apply str_of_Z_inj | done].
Qed.

(** X10. The document of the tag-group script holds, for every customer of
    a well-formed dictionary, the customer's keys in ascending order, each
    once, with their number in [key_count]; [max_keys_per_customer] is the
    maximum of these numbers over the customers, 0 without customers. *)
Theorem tag_document_keys_and_maximum `{Clock, SetOrder} (src : str)
    (customer_to_keys : dict Z (gset str)) (run_dates : list str) :
  dict_wf customer_to_keys →
  let doc := TagGroup.build_nested_mapping src customer_to_keys run_dates in
  is_max_of (TagGroup.max_keys_per_customer doc)
    ((λ it, size it.2) <$> customer_to_keys) ∧
  (∀ cid ks, dict_get cid customer_to_keys = Some ks →
     ∃ e, dict_get (str_of_Z cid) (TagGroup.tag_customers doc) = Some e ∧
          StronglySorted str_le (TagGroup.keys e) ∧ NoDup (TagGroup.keys e) ∧
          (∀ k, k ∈ TagGroup.keys e ↔ k ∈ ks) ∧
          TagGroup.key_count e = length (TagGroup.keys e) ∧
          TagGroup.key_count e ≤ TagGroup.max_keys_per_customer doc) ∧
  (∀ name e, dict_get name (TagGroup.tag_customers doc) = Some e →
     ∃ cid ks, name = str_of_Z cid ∧ dict_get cid customer_to_keys = Some ks).
Proof.
  intros Hwf doc. subst doc.
  assert (Hmax : TagGroup.max_keys_per_customer
                   (TagGroup.build_nested_mapping src customer_to_keys run_dates) =
                 max_list ((λ it, size it.2) <$> customer_to_keys)).
  { unfold TagGroup.build_nested_mapping. by rewrite TagGroup_mapping_foldl. }
  assert (Hwfb : dict_wf ((λ it : Z * gset str,
     (str_of_Z it.1,
      {| TagGroup.keys := sorted_set it.2; TagGroup.key_count := size it.2 |}))
     <$> customer_to_keys)).
  { unfold dict_wf. rewrite <- list_fmap_compose.
    change (NoDup ((str_of_Z ∘ fst) <$> customer_to_keys)).
    rewrite list_fmap_compose. apply NoDup_fmap_2; [apply str_of_Z_inj | done]. }
  rewrite Hmax, TagGroup_customers_list by done. split_and!.
  - apply max_list_is_max.
  - intros cid ks Hg. eexists. split.
    + apply dict_get_Some; [done|]. apply list_elem_of_fmap.
      exists (cid, ks). split; [done|]. by apply dict_get_Some_elem_of.
    + cbn [TagGroup.keys TagGroup.key_count]. split_and!.
      * apply sorted_set_Sorted.
      * apply sorted_set_NoDup.
      * apply sorted_set_elem_of.
      * by rewrite sorted_set_length.
      * apply max_list_elem_of_le, list_elem_of_fmap.
        exists (cid, ks). split; [done|]. by apply dict_get_Some_elem_of.
  - intros name e Hg. apply dict_get_Some_elem_of, list_elem_of_fmap in Hg
      as ([cid ks] & [= -> ->] & Hin).
    exists cid, ks. split; [done|]. by apply dict_get_Some.
Qed.

Lemma tag_document_keys_and_maximum_witness :
  TagGroup.max_keys_per_customer
    (@TagGroup.build_nested_mapping example_clock example_order (U "t")
       [(7%Z, {[ U "b"; U "a" ]})] [U "2025-10-08"]) ∈ [2].
Proof.
  assert (Hwf : dict_wf [(7%Z, ({[ U "b"; U "a" ]} : gset str))])
    by (unfold dict_wf; simpl; apply NoDup_singleton).
  destruct (@tag_document_keys_and_maximum example_clock example_order (U "t")
              [(7%Z, {[ U "b"; U "a" ]})] [U "2025-10-08"] Hwf)
    as ((_ & Hin & _) & _).
  apply Hin. discriminate.
Defined.

Lemma TagGroup_days_loop_no_customers `{Calendar, ClickHouse, ThreadPool}
    (src : str) (c w : Z) (run_dates : list str) (c2k : dict Z (gset str)) :
  (∀ d, d ∈ run_dates → fetch_all_customers_for_date src d = Ok []) →
  TagGroup.days_loop src c w run_dates c2k = Ok c2k.
Proof.
  induction run_dates as [|d run_dates IH]; intros Hnone; simpl; [done|].
  rewrite (Hnone d) by left. simpl. apply IH. intros d' Hd'. apply Hnone. by right.
Qed.

(** X11. The tag-group [main] has no check for a run without customers:
    when no day of the run has a customer (and the window size, ClickHouse
    and the output are fine) it writes a document with no customer and
    [max_keys_per_customer = 0], where the [main] of the multithreaded script
    stops with an error. *)
Theorem tag_main_writes_empty_document
    `{Calendar, ClickHouse, ThreadPool, Clock, FileSystem, SetOrder}
    (a : args) (d0 : str) (rest : list str) (chunks : list (str * str)) :
  given (arg_source_table a) = true →
  iter_days (arg_date a) (arg_date_start a) (arg_date_end a) = Ok (d0 :: rest) →
  build_chunks_for_day d0 (arg_chunk_mins a) = Ok chunks →
  ch_ping = true →
  fs_writable (arg_output a) = true →
  (∀ d, d ∈ d0 :: rest →
     fetch_all_customers_for_date (default [] (arg_source_table a)) d = Ok []) →
  (∃ doc, TagGroup.main a = Ok (arg_output a, doc) ∧
          TagGroup.tag_customers doc = [] ∧
          TagGroup.max_keys_per_customer doc = 0 ∧
          dates (TagGroup.tag_metadata doc) = Some (d0 :: rest)) ∧
  Mt.main a = Raise NoCustomersFound.
Proof.
  intros Hsrc Hdates Hb Hping Hfs Hnone. split.
  - unfold TagGroup.main. rewrite Hsrc, Hdates. cbn [negb bind].
    rewrite Hb. cbn [bind]. rewrite Hping. cbn [negb].
    rewrite TagGroup_days_loop_no_customers by done. cbn [bind].
    rewrite Hfs. cbn [negb]. eexists. split; [done|]. by vm_compute.
  - unfold Mt.main. rewrite Hsrc, Hdates. cbn [negb bind].
    rewrite Hb. cbn [bind]. rewrite Hping. cbn [negb].
    by rewrite Mt_days_loop_no_customers.
Qed.

Lemma tag_main_writes_empty_document_witness :
  ∃ doc,
    @TagGroup.main example_calendar example_empty_db example_pool example_clock
      example_fs example_order example_args = Ok (arg_output example_args, doc) ∧
    TagGroup.tag_customers doc = [].
Proof.
  assert (Hnone : ∀ d, d ∈ [U "2025-10-08"; U "2025-10-09"] →
            @fetch_all_customers_for_date example_calendar example_empty_db
              (default [] (arg_source_table example_args)) d = Ok []).
  { intros d Hd. apply elem_of_cons in Hd as [->|Hd]; [reflexivity|].
    apply elem_of_cons in Hd as [->|Hd]; [reflexivity|].
    by apply elem_of_nil in Hd. }
  destruct (@build_chunks_for_day example_calendar (U "2025-10-08") 120)
    as [chunks|e] eqn:Hchunks; [|by vm_compute in Hchunks].
  destruct (@tag_main_writes_empty_document
              example_calendar example_empty_db example_pool example_clock example_fs example_order
              example_args (U "2025-10-08") [U "2025-10-09"] chunks
              eq_refl eq_refl Hchunks eq_refl eq_refl Hnone)
    as [(doc & Hmain & Hcust & _) _].
  exists doc. split; [exact Hmain | exact Hcust].
Defined.

(* ------------------------------------------------------------------ *)
(** ** [SimpleKeyDiscoverer]: the day of one customer *)
(* ------------------------------------------------------------------ *)

(** The loops over the array positions of a row: the keys of the positions
    that exist are added, and the loop runs to its end exactly when the row
    is long enough. *)
Lemma Simple_add_groups_spec (row : list (list str)) (n a : nat) (acc : gset str) :
  (∀ k : str, k ∈ (Simple.add_groups row (seq a n) acc).1 ↔
     k ∈ acc ∨ ∃ (i : nat) (keys : list str),
                 a ≤ i < a + n ∧ row !! i = Some keys ∧ k ∈ keys ∧ ¬ blank k) ∧
  ((Simple.add_groups row (seq a n) acc).2 = true ↔ n = 0 ∨ a + n ≤ length row).
Proof.
  revert a acc. induction n as [|n IH]; intros a acc.
  - cbn [seq Simple.add_groups fst snd]. split.
    + intros k. split; [by left|]. intros [?|(i & keys & ? & _)]; [done | lia].
    + split; [by left | done].
  - cbn [seq Simple.add_groups]. destruct (row !! a) as [keys|] eqn:Ha.
    + pose proof (lookup_lt_Some _ _ _ Ha) as Hlt.
      destruct (IH (S a) (Simple.add_keys keys acc)) as [Hk Hok]. split.
      * intros k. rewrite Hk, elem_of_add_keys. split.
        -- intros [[?|[? ?]]|(i & keys' & ? & ? & ? & ?)].
           ++ by left.
           ++ right. exists a, keys. split; [lia | done].
           ++ right. exists i, keys'. split; [lia | done].
        -- intros [?|(i & keys' & Hi & Hrow & Hin & Hnb)]; [by left; left|].
           destruct (decide (i = a)) as [->|Hne].
           ++ rewrite Ha in Hrow. injection Hrow as <-. left. right. done.
           ++ right. exists i, keys'. split; [lia | done].
      * rewrite Hok. lia.
    + apply lookup_ge_None in Ha. cbn [fst snd]. split.
      * intros k. split; [by left|].
        intros [?|(i & keys & Hi & Hrow & _)]; [done|].
        apply lookup_lt_Some in Hrow. lia.
      * split; [done | lia].
Qed.

(** One chunk of the loop of [discover_all_keys]. *)
Lemma Simple_process_chunk_spec (st : Simple.scan)
    (res : result (list (list (list str)))) :
  (∀ k : str, k ∈ Simple.scan_int_keys (Simple.process_chunk st res) ↔
     k ∈ Simple.scan_int_keys st ∨
     ∃ (row : list (list str)) (i : nat) (keys : list str),
       res = Ok [row] ∧ 0 ≤ i < 15 ∧ row !! i = Some keys ∧ k ∈ keys ∧ ¬ blank k) ∧
  (∀ k : str, k ∈ Simple.scan_float_keys (Simple.process_chunk st res) ↔
     k ∈ Simple.scan_float_keys st ∨
     ∃ (row : list (list str)) (i : nat) (keys : list str),
       res = Ok [row] ∧ 15 ≤ i < 30 ∧ row !! i = Some keys ∧ k ∈ keys ∧ ¬ blank k) ∧
  (Simple.successful_chunks (Simple.process_chunk st res) = 0 ↔
     Simple.successful_chunks st = 0 ∧
     ¬ ∃ row : list (list str), res = Ok [row] ∧ 30 ≤ length row).
Proof.
  assert (Hskip : ∀ P : list (list str) → Prop,
            (∀ row : list (list str), res ≠ Ok [row]) →
            ¬ ∃ row : list (list str), res = Ok [row] ∧ P row).
  { intros P Hno (row & Hres & _). by apply (Hno row). }
  destruct res as [[|row [|row' rows]]|e]; cbn [Simple.process_chunk].
  1, 3, 4: split_and!; [intros k; split; [by left|];
                         intros [?|(row0 & i & keys & ? & _)]; done ..
                       | split; [intros ?; split; [done|]; apply Hskip; done | tauto]].
  destruct (Simple_add_groups_spec row 15 0 (Simple.scan_int_keys st)) as [Hik Hiok].
  destruct (Simple.add_groups row (seq 0 15) (Simple.scan_int_keys st))
    as [ints ok_int].
  cbn [fst snd] in Hik, Hiok.
  destruct ok_int.
  - assert (Hlen : 15 ≤ length row) by (destruct Hiok as [Hiok _]; specialize (Hiok eq_refl); lia).
    destruct (Simple_add_groups_spec row 15 15 (Simple.scan_float_keys st)) as [Hfk Hfok].
    destruct (Simple.add_groups row (seq 15 15) (Simple.scan_float_keys st))
      as [floats ok_float].
    cbn [fst snd] in Hfk, Hfok.
    cbn [Simple.scan_int_keys Simple.scan_float_keys Simple.successful_chunks].
    split_and!.
    + intros k. rewrite Hik. split.
      * intros [?|(i & keys & ? & ?)]; [by left|]. right. by exists row, i, keys.
      * intros [?|(row0 & i & keys & [= <-] & ? & ?)]; [by left|].
        right. by exists i, keys.
    + intros k. rewrite Hfk. split.
      * intros [?|(i & keys & ? & ?)]; [by left|]. right.
        exists row, i, keys. split; [done|]. split; [lia | done].
      * intros [?|(row0 & i & keys & [= <-] & ? & ?)]; [by left|].
        right. exists i, keys. split; [lia | done].
    + destruct ok_float.
      * split; [done|]. intros [_ Hno]. destruct Hno. exists row. split; [done|].
        destruct Hfok as [Hfok _]. specialize (Hfok eq_refl). lia.
      * split; [|tauto]. intros Hz. split; [done|].
        intros (row0 & [= <-] & Hlen30).
        destruct Hfok as [_ Hfok]. discriminate Hfok. right. lia.
  - assert (Hlen : length row < 15).
    { destruct (decide (length row < 15)); [done|].
      destruct Hiok as [_ Hiok]. discriminate Hiok. right. lia. }
    cbn [Simple.scan_int_keys Simple.scan_float_keys Simple.successful_chunks].
    split_and!.
    + intros k. rewrite Hik. split.
      * intros [?|(i & keys & ? & ?)]; [by left|]. right. by exists row, i, keys.
      * intros [?|(row0 & i & keys & [= <-] & ? & ?)]; [by left|].
        right. by exists i, keys.
    + intros k. split; [by left|].
      intros [?|(row0 & i & keys & [= <-] & Hi & Hrow & _)]; [done|].
      apply lookup_lt_Some in Hrow. lia.
    + split; [|tauto]. intros Hz. split; [done|].
      intros (row0 & [= <-] & Hlen30). lia.
Qed.

(** The whole loop, over any list of chunks. *)
Lemma Simple_loop_spec (answer : nat → result (list (list (list str))))
    (idxs : list nat) (st : Simple.scan) :
  let st' := foldl (λ st chunk_idx, Simple.process_chunk st (answer chunk_idx)) st idxs in
  (∀ k : str, k ∈ Simple.scan_int_keys st' ↔
     k ∈ Simple.scan_int_keys st ∨
     ∃ (chunk_idx : nat) (row : list (list str)) (i : nat) (keys : list str),
       chunk_idx ∈ idxs ∧ answer chunk_idx = Ok [row] ∧ 0 ≤ i < 15 ∧
       row !! i = Some keys ∧ k ∈ keys ∧ ¬ blank k) ∧
  (∀ k : str, k ∈ Simple.scan_float_keys st' ↔
     k ∈ Simple.scan_float_keys st ∨
     ∃ (chunk_idx : nat) (row : list (list str)) (i : nat) (keys : list str),
       chunk_idx ∈ idxs ∧ answer chunk_idx = Ok [row] ∧ 15 ≤ i < 30 ∧
       row !! i = Some keys ∧ k ∈ keys ∧ ¬ blank k) ∧
  (Simple.successful_chunks st' = 0 ↔
     Simple.successful_chunks st = 0 ∧
     ∀ chunk_idx : nat, chunk_idx ∈ idxs →
       ¬ ∃ row : list (list str), answer chunk_idx = Ok [row] ∧ 30 ≤ length row).
Proof.
  revert st. induction idxs as [|idx idxs IH]; intros st; cbn [foldl].
  - split_and!.
    + intros k. split; [by left|].
      intros [?|(c & ? & ? & ? & Hc & _)]; [done | by apply elem_of_nil in Hc].
    + intros k. split; [by left|].
      intros [?|(c & ? & ? & ? & Hc & _)]; [done | by apply elem_of_nil in Hc].
    + split; [|tauto]. intros ?. split; [done|]. intros c Hc. by apply elem_of_nil in Hc.
  - destruct (IH (Simple.process_chunk st (answer idx))) as (Hi & Hf & Hs).
    destruct (Simple_process_chunk_spec st (answer idx)) as (Hi1 & Hf1 & Hs1).
    split_and!.
    + intros k. rewrite Hi, Hi1. split.
      * intros [[?|(row & i & keys & ? & ?)]|(c & row & i & keys & ? & ?)].
        -- by left.
        -- right. exists idx, row, i, keys. split; [by left | done].
        -- right. exists c, row, i, keys. split; [by right | done].
      * intros [?|(c & row & i & keys & Hc & ? & ?)]; [by left; left|].
        apply elem_of_cons in Hc as [->|Hc].
        -- left. right. by exists row, i, keys.
        -- right. by exists c, row, i, keys.
    + intros k. rewrite Hf, Hf1. split.
      * intros [[?|(row & i & keys & ? & ?)]|(c & row & i & keys & ? & ?)].
        -- by left.
        -- right. exists idx, row, i, keys. split; [by left | done].
        -- right. exists c, row, i, keys. split; [by right | done].
      * intros [?|(c & row & i & keys & Hc & ? & ?)]; [by left; left|].
        apply elem_of_cons in Hc as [->|Hc].
        -- left. right. by exists row, i, keys.
        -- right. by exists c, row, i, keys.
    + rewrite Hs, Hs1. split.
      * intros [[? Hno] Hall]. split; [done|].
        intros c Hc. apply elem_of_cons in Hc as [->|Hc]; [done | by apply Hall].
      * intros [? Hall]. split; [split; [done|]; apply Hall; by left|].
        intros c Hc. apply Hall. by right.
Qed.

Lemma Simple_loop_answer `{ClickHouse} (fixed_date : str) (customer_id : Z)
    (idxs : list nat) (st : Simple.scan) :
  foldl (λ st chunk_idx,
           let (chunk_start, chunk_end) :=
             Simple.chunk_window fixed_date 60 chunk_idx in
           Simple.process_chunk st (ch_group_arrays chunk_start chunk_end customer_id))
        st idxs
  = foldl (λ st chunk_idx,
             Simple.process_chunk st (simple_answer fixed_date customer_id chunk_idx))
          st idxs.
Proof.
  revert st. induction idxs as [|idx idxs IH]; intros st; [done|].
  cbn [foldl]. by rewrite IH.
Qed.

(** X12. [discover_all_keys] of [SimpleKeyDiscoverer] returns exactly when
    some one-minute chunk of the day answered one row with its thirty
    arrays, and raises otherwise. What it returns are two sorted lists
    without repetition; a key is in the first (second) exactly when it holds
    something else than whitespace and stands in one of the arrays 0..14
    (15..29) of the single row of some chunk, also of a chunk whose row was
    too short to be counted. *)
Theorem simple_discovery_characterised `{ClickHouse, SetOrder} (fixed_date : str)
    (customer_id : Z) :
  ((∃ chunk_idx, chunk_idx < 1440 ∧
      simple_chunk_processed fixed_date customer_id chunk_idx) →
   ∃ ints floats : list str,
     Simple.discover_all_keys fixed_date customer_id = Ok (ints, floats) ∧
     StronglySorted str_le ints ∧ NoDup ints ∧
     StronglySorted str_le floats ∧ NoDup floats ∧
     (∀ k : str, k ∈ ints ↔ simple_key_seen fixed_date customer_id 0 15 k) ∧
     (∀ k : str, k ∈ floats ↔ simple_key_seen fixed_date customer_id 15 30 k)) ∧
  ((∀ chunk_idx, chunk_idx < 1440 →
      ¬ simple_chunk_processed fixed_date customer_id chunk_idx) →
   Simple.discover_all_keys fixed_date customer_id = Raise NoChunksProcessed).
Proof.
  unfold Simple.discover_all_keys.
  change (60 `mod` Simple.CHUNK_MINUTES) with 0.
  change (24 * 60 `div` Simple.CHUNK_MINUTES) with 1440.
  change (60 `div` Simple.CHUNK_MINUTES) with 60.
  destruct (decide (0 ≠ 0)) as [|_]; [done|].
  cbv zeta. rewrite Simple_loop_answer.
  destruct (Simple_loop_spec (simple_answer fixed_date customer_id) (seq 0 1440)
              {| Simple.scan_int_keys := ∅; Simple.scan_float_keys := ∅;
                 Simple.successful_chunks := 0 |}) as (Hi & Hf & Hs).
  cbv zeta in Hi, Hf, Hs.
  set (st := foldl _ _ (seq 0 1440)) in *.
  cbn [Simple.scan_int_keys Simple.scan_float_keys Simple.successful_chunks] in Hi, Hf, Hs.
  split.
  - intros (c & Hc & Hproc).
    destruct (decide (Simple.successful_chunks st = 0)) as [Hz|_].
    { apply Hs in Hz as [_ Hall]. destruct (Hall c); [|done].
      apply elem_of_seq. lia. }
    eexists _, _. split; [done|].
    split_and!; try apply sorted_set_Sorted; try apply sorted_set_NoDup.
    + intros k. rewrite sorted_set_elem_of, Hi. unfold simple_key_seen. split.
      * intros [Hk|(c' & row & i & keys & Hc' & ?)];
          [by apply not_elem_of_empty in Hk|].
        exists c', row, i, keys. apply elem_of_seq in Hc'. split; [lia | done].
      * intros (c' & row & i & keys & Hc' & ?). right.
        exists c', row, i, keys. split; [apply elem_of_seq; lia | done].
    + intros k. rewrite sorted_set_elem_of, Hf. unfold simple_key_seen. split.
      * intros [Hk|(c' & row & i & keys & Hc' & ?)];
          [by apply not_elem_of_empty in Hk|].
        exists c', row, i, keys. apply elem_of_seq in Hc'. split; [lia | done].
      * intros (c' & row & i & keys & Hc' & ?). right.
        exists c', row, i, keys. split; [apply elem_of_seq; lia | done].
  - intros Hnone.
    destruct (decide (Simple.successful_chunks st = 0)) as [_|Hnz]; [done|].
    destruct Hnz. apply Hs. split; [done|].
    intros c Hc. apply Hnone. apply elem_of_seq in Hc. lia.
Qed.

Lemma simple_discovery_characterised_witness :
  ∃ ints floats : list str,
    @Simple.discover_all_keys example_simple_db example_order (U "2025-10-08") 7
      = Ok (ints, floats) ∧
    NoDup ints ∧
    (U "plays" ∈ ints ↔
       @simple_key_seen example_simple_db (U "2025-10-08") 7 0 15 (U "plays")).
Proof.
  destruct (proj1 (@simple_discovery_characterised example_simple_db example_order (U "2025-10-08") 7))
    as (ints & floats & Hd & _ & Hnd & _ & _ & Hi & _).
  - exists 0. split; [lia|]. eexists. split; [reflexivity|]. simpl. lia.
  - exists ints, floats. split; [exact Hd|]. split; [exact Hnd | exact (Hi (U "plays"))].
Defined.

(* ------------------------------------------------------------------ *)
(** ** [simple_key_discovery.py]: the run over the configured customers *)
(* ------------------------------------------------------------------ *)

Lemma Simple_discover_unfold `{ClickHouse, SetOrder}
    (fixed_date : str) (customer_id : Z) :
  Simple.discover_all_keys fixed_date customer_id =
  let st := foldl (λ st chunk_idx,
                     Simple.process_chunk st
                       (simple_answer fixed_date customer_id chunk_idx))
                  {| Simple.scan_int_keys := ∅; Simple.scan_float_keys := ∅;
                     Simple.successful_chunks := 0 |} (seq 0 1440) in
  if decide (Simple.successful_chunks st = 0) then Raise NoChunksProcessed
  else Ok (sorted_set (Simple.scan_int_keys st), sorted_set (Simple.scan_float_keys st)).
Proof.
  unfold Simple.discover_all_keys.
  change (60 `mod` Simple.CHUNK_MINUTES) with 0.
  change (24 * 60 `div` Simple.CHUNK_MINUTES) with 1440.
  change (60 `div` Simple.CHUNK_MINUTES) with 60.
  destruct (decide (0 ≠ 0)) as [|_]; [done|].
  cbv zeta. by rewrite Simple_loop_answer.
Qed.

Lemma Simple_discover_ok `{ClickHouse, SetOrder} (fixed_date : str) (customer_id : Z)
    (chunk_idx : nat) :
  chunk_idx < 1440 → simple_chunk_processed fixed_date customer_id chunk_idx →
  ∃ keys, Simple.discover_all_keys fixed_date customer_id = Ok keys.
Proof.
  intros Hc Hproc. rewrite Simple_discover_unfold. cbv zeta.
  destruct (Simple_loop_spec (simple_answer fixed_date customer_id) (seq 0 1440)
              {| Simple.scan_int_keys := ∅; Simple.scan_float_keys := ∅;
                 Simple.successful_chunks := 0 |}) as (_ & _ & Hs).
  cbv zeta in Hs. set (st := foldl _ _ (seq 0 1440)) in *.
  destruct (decide (Simple.successful_chunks st = 0)) as [Hz|_]; [|by eexists].
  apply Hs in Hz as [_ Hall]. destruct (Hall chunk_idx); [|exact Hproc].
  apply elem_of_seq. lia.
Qed.

Lemma Simple_discover_raise `{ClickHouse, SetOrder} (fixed_date : str) (customer_id : Z) :
  (∀ chunk_idx, chunk_idx < 1440 →
     ¬ simple_chunk_processed fixed_date customer_id chunk_idx) →
  Simple.discover_all_keys fixed_date customer_id = Raise NoChunksProcessed.
Proof.
  intros Hnone. rewrite Simple_discover_unfold. cbv zeta.
  destruct (Simple_loop_spec (simple_answer fixed_date customer_id) (seq 0 1440)
              {| Simple.scan_int_keys := ∅; Simple.scan_float_keys := ∅;
                 Simple.successful_chunks := 0 |}) as (_ & _ & Hs).
  cbv zeta in Hs. set (st := foldl _ _ (seq 0 1440)) in *.
  destruct (decide (Simple.successful_chunks st = 0)) as [_|Hnz];
    [reflexivity|].
  destruct Hnz. apply Hs. split; [reflexivity|].
  intros c Hc. apply Hnone. apply elem_of_seq in Hc. lia.
Qed.

Lemma Simple_discover_error `{ClickHouse, SetOrder} (fixed_date : str) (customer_id : Z)
    (e : error) :
  Simple.discover_all_keys fixed_date customer_id = Raise e → e = NoChunksProcessed.
Proof.
  rewrite Simple_discover_unfold. cbv zeta.
  set (st := foldl _ _ (seq 0 1440)).
  destruct (decide (Simple.successful_chunks st = 0)); [|discriminate].
  by intros [= <-].
Qed.

(** The loop over the customers: it stops at the first customer whose
    discovery raises; when it ends, the dictionary holds what was
    discovered for each customer of the list and is otherwise unchanged. *)
Lemma SimpleScript_discover_customers_spec `{ClickHouse, SetOrder} (fixed_date : str)
    (customer_ids : list Z) (customer_keys : dict Z (list str * list str)) :
  dict_wf customer_keys →
  match SimpleScript.discover_customers fixed_date customer_ids customer_keys with
  | Ok customer_keys' =>
      dict_wf customer_keys' ∧
      (∀ cid : Z, cid ∈ customer_ids →
         ∃ keys, Simple.discover_all_keys fixed_date cid = Ok keys ∧
                 dict_get cid customer_keys' = Some keys) ∧
      (∀ cid : Z, cid ∉ customer_ids →
         dict_get cid customer_keys' = dict_get cid customer_keys)
  | Raise e =>
      ∃ cid : Z, cid ∈ customer_ids ∧ Simple.discover_all_keys fixed_date cid = Raise e
  end.
Proof.
  revert customer_keys.
  induction customer_ids as [|cid rest IH]; intros ck Hwf;
    cbn [SimpleScript.discover_customers].
  - split; [done|]. split; [|done]. intros cid Hc. by apply elem_of_nil in Hc.
  - destruct (Simple.discover_all_keys fixed_date cid) as [keys|e] eqn:Hd; cbn [bind].
    + specialize (IH (dict_set cid keys ck) (dict_set_wf _ _ _ Hwf)).
      destruct (SimpleScript.discover_customers fixed_date rest (dict_set cid keys ck))
        as [ck'|e].
      * destruct IH as (Hwf' & Hin & Hout). split; [done|]. split.
        -- intros c Hc. destruct (decide (c ∈ rest)) as [Hr|Hr]; [by apply Hin|].
           apply elem_of_cons in Hc as [->|Hc]; [|destruct (Hr Hc)].
           exists keys. split; [exact Hd|]. rewrite (Hout _ Hr).
           apply dict_get_set_eq.
        -- intros c Hc. apply not_elem_of_cons in Hc as [Hne Hc].
           rewrite Hout by done. by apply dict_get_set_ne.
      * destruct IH as (c & Hc & He). exists c. split; [by right | done].
    + exists cid. split; [by left | done].
Qed.

(** X13. The run of [simple_key_discovery.py] over the customers of the
    settings is all or nothing. Without a connection nothing is discovered
    and nothing saved. With a connection, one customer without a single
    processed chunk ends the run with the error of [discover_all_keys],
    whatever was found for the other customers, and no document is saved.
    When every customer has a processed chunk (and the output file can be
    written), the saved document has, for every configured customer, the
    block of the keys discovered for it. *)
Theorem simple_main_all_or_nothing `{ClickHouse, Clock, FileSystem, SetOrder} :
  (ch_ping = false → SimpleScript.main = Ok None) ∧
  (ch_ping = true →
   ∀ cid : Z, cid ∈ SimpleScript.CUSTOMERS →
     (∀ chunk_idx, chunk_idx < 1440 →
        ¬ simple_chunk_processed SimpleScript.TRANSFORMATION_DATE cid chunk_idx) →
     SimpleScript.main = Raise NoChunksProcessed) ∧
  (ch_ping = true →
   fs_writable (U "output/mappings/key_mapping.json") = true →
   (∀ cid : Z, cid ∈ SimpleScript.CUSTOMERS →
      ∃ chunk_idx, chunk_idx < 1440 ∧
        simple_chunk_processed SimpleScript.TRANSFORMATION_DATE cid chunk_idx) →
   ∃ doc : mapping_document,
     SimpleScript.main = Ok (Some (U "output/mappings/key_mapping.json", doc)) ∧
     ∀ cid : Z, cid ∈ SimpleScript.CUSTOMERS →
       ∃ ints floats : list str,
         Simple.discover_all_keys SimpleScript.TRANSFORMATION_DATE cid
           = Ok (ints, floats) ∧
         dict_get (str_of_Z cid) (customers doc)
           = Some (Simple.customer_block ints floats)).
Proof.
  pose proof (SimpleScript_discover_customers_spec SimpleScript.TRANSFORMATION_DATE
                SimpleScript.CUSTOMERS [] (NoDup_nil_2 : dict_wf [])) as Hloop.
  unfold SimpleScript.main. split_and!.
  - by intros ->.
  - intros -> cid Hcid Hnone. cbn [negb].
    apply Simple_discover_raise in Hnone.
    destruct (SimpleScript.discover_customers _ _ _) as [ck|e]; cbn [bind].
    + destruct Hloop as (_ & Hin & _). destruct (Hin cid Hcid) as (keys & Hd & _).
      rewrite Hnone in Hd. discriminate Hd.
    + destruct Hloop as (c & _ & He). apply Simple_discover_error in He. by subst.
  - intros -> Hfs Hproc. cbn [negb].
    destruct (SimpleScript.discover_customers _ _ _) as [ck|e]; cbn [bind].
    + destruct Hloop as (Hwf & Hin & _). rewrite Hfs. cbn [negb].
      eexists. split; [reflexivity|].
      intros cid Hcid. destruct (Hin cid Hcid) as ([ints floats] & Hd & Hg).
      exists ints, floats. split; [done|].
      destruct (Simple_generate_eq SimpleScript.SOURCE_TABLE ck []) as [-> _].
      rewrite (Mt_customers_get _ _ _ cid (list_to_set ints) (list_to_set floats)).
      * by rewrite Simple_customer_block_eq.
      * unfold dict_wf. by rewrite to_sets_keys.
      * by apply to_sets_get.
    + destruct Hloop as (c & Hc & He).
      destruct (Hproc c Hc) as (idx & Hidx & Hp).
      destruct (Simple_discover_ok _ _ _ Hidx Hp) as [keys Hk].
      rewrite Hk in He. discriminate He.
Qed.

Lemma simple_main_all_or_nothing_witness :
  ∃ doc : mapping_document,
    @SimpleScript.main example_simple_db example_clock example_fs example_order
      = Ok (Some (U "output/mappings/key_mapping.json", doc)).
Proof.
  destruct (proj2 (proj2 (@simple_main_all_or_nothing
                            example_simple_db example_clock example_fs
                            example_order))
              eq_refl eq_refl) as (doc & Hmain & _).
  - intros cid _. exists 0. split; [lia|].
    eexists. split; [reflexivity|]. simpl. lia.
  - exists doc. exact Hmain.
Defined.

(* ------------------------------------------------------------------ *)
(** ** The readers of the mapping document *)
(* ------------------------------------------------------------------ *)

Lemma items_of_get `{SetOrder} (prefix : string) (s : gset str) (k c : str) :
  dict_get k (items_of prefix (sorted_set s)) = Some c ↔
  ∃ n, sorted_set s !! n = Some k ∧ c = column prefix (S n).
Proof.
  rewrite dict_get_Some, elem_of_items_of; [done|].
  unfold dict_wf. rewrite items_of_keys. apply sorted_set_NoDup.
Qed.

Lemma items_of_get_None `{SetOrder} (prefix : string) (s : gset str) (k : str) :
  dict_get k (items_of prefix (sorted_set s)) = None ↔ k ∉ s.
Proof. by rewrite dict_get_None, items_of_keys, sorted_set_elem_of. Qed.

Lemma items_of_get_is_Some `{SetOrder} (prefix : string) (s : gset str) (k : str) :
  k ∈ s → ∃ n, sorted_set s !! n = Some k ∧
               dict_get k (items_of prefix (sorted_set s)) = Some (column prefix (S n)).
Proof.
  intros Hk. apply sorted_set_elem_of, list_elem_of_lookup in Hk as [n Hn].
  exists n. split; [done|]. apply items_of_get. eauto.
Qed.

Lemma column_int_float (i j : nat) : column "int" i ≠ column "float" j.
Proof. unfold column. intros Heq. by injection Heq. Qed.

(** X14. [map_to_physical_column] on a document [build_nested_mapping]
    built: a key of the customer's int set is mapped to [int<N>] with [N]
    its rank among the sorted int keys, a key that is only in the float set
    to [float<N>] likewise, any other key raises; two different keys of a
    customer are never mapped to the same physical column; and a customer
    the document does not hold raises for every key. *)
Theorem physical_column_of_built_mapping `{Clock, SetOrder} (src : str)
    (c2k : dict Z (gset str * gset str)) (run_dates : list str)
    (cid : Z) (I F : gset str) :
  dict_wf c2k → dict_get cid c2k = Some (I, F) →
  let doc := Mt.build_nested_mapping src c2k run_dates in
  (∀ k : str, k ∈ I →
     ∃ n, sorted_set I !! n = Some k ∧
          MetricDiscovery.map_to_physical_column doc k cid
            = Returns (column "int" (S n))) ∧
  (∀ k : str, k ∉ I → k ∈ F →
     ∃ n, sorted_set F !! n = Some k ∧
          MetricDiscovery.map_to_physical_column doc k cid
            = Returns (column "float" (S n))) ∧
  (∀ k : str, k ∉ I → k ∉ F →
     MetricDiscovery.map_to_physical_column doc k cid = Fails MetricNotFound) ∧
  (∀ k1 k2 c1 c2 : str, k1 ≠ k2 →
     MetricDiscovery.map_to_physical_column doc k1 cid = Returns c1 →
     MetricDiscovery.map_to_physical_column doc k2 cid = Returns c2 →
     c1 ≠ c2) ∧
  (∀ (cid' : Z) (k : str), dict_get cid' c2k = None →
     MetricDiscovery.map_to_physical_column doc k cid' = Fails NoMappingForCustomer).
Proof.
  intros Hwf Hg doc.
  assert (Hmap : ∀ k : str,
            MetricDiscovery.map_to_physical_column doc k cid =
            match dict_get k (items_of "int" (sorted_set I)) with
            | Some col => Returns col
            | None =>
                match dict_get k (items_of "float" (sorted_set F)) with
                | Some col => Returns col
                | None => Fails MetricNotFound
                end
            end).
  { intros k. unfold MetricDiscovery.map_to_physical_column, doc.
    rewrite (Mt_customers_get _ _ _ cid I F) by done.
    by rewrite Mt_customer_block_eq. }
  assert (Hint : ∀ k c : str,
            MetricDiscovery.map_to_physical_column doc k cid = Returns c →
            (∃ n, sorted_set I !! n = Some k ∧ c = column "int" (S n)) ∨
            (∃ n, sorted_set F !! n = Some k ∧ c = column "float" (S n))).
  { intros k c. rewrite Hmap.
    destruct (dict_get k (items_of "int" (sorted_set I))) as [ci|] eqn:Hi.
    - intros [= <-]. left. by apply items_of_get.
    - destruct (dict_get k (items_of "float" (sorted_set F))) as [cf|] eqn:Hf;
        [|done].
      intros [= <-]. right. by apply items_of_get. }
  split_and!.
  - intros k Hk. destruct (items_of_get_is_Some "int" I k Hk) as (n & Hn & Hd).
    exists n. split; [done|]. by rewrite Hmap, Hd.
  - intros k HkI Hk. destruct (items_of_get_is_Some "float" F k Hk) as (n & Hn & Hd).
    exists n. split; [done|].
    apply (items_of_get_None "int") in HkI. by rewrite Hmap, HkI, Hd.
  - intros k HkI HkF. apply (items_of_get_None "int") in HkI.
    apply (items_of_get_None "float") in HkF. by rewrite Hmap, HkI, HkF.
  - intros k1 k2 c1 c2 Hne H1 H2 ->.
    apply Hint in H1 as [(n1 & Hn1 & Hc1)|(n1 & Hn1 & Hc1)];
      apply Hint in H2 as [(n2 & Hn2 & Hc2)|(n2 & Hn2 & Hc2)]; subst c2.
    + apply column_inj in Hc2. injection Hc2 as <-. congruence.
    + by apply column_int_float in Hc2.
    + symmetry in Hc2. by apply column_int_float in Hc2.
    + apply column_inj in Hc2. injection Hc2 as <-. congruence.
  - intros cid' k Hnone. unfold MetricDiscovery.map_to_physical_column, doc.
    by rewrite Mt_customers_get_None.
Qed.

Lemma physical_column_of_built_mapping_witness :
  ∃ n, @sorted_set example_order {[ U "b_metric"; U "a_metric" ]} !! n
         = Some (U "b_metric") ∧
       MetricDiscovery.map_to_physical_column
         (@Mt.build_nested_mapping example_clock example_order (U "t")
            example_customer_to_keys [])
         (U "b_metric") 7
       = Returns (column "int" (S n)).
Proof.
  apply (proj1 (@physical_column_of_built_mapping example_clock example_order (U "t")
                  example_customer_to_keys [] 7
                  {[ U "b_metric"; U "a_metric" ]} ∅
                  ltac:(vm_compute; repeat constructor; set_solver)
                  eq_refl)).
  set_solver.
Defined.

(* ------------------------------------------------------------------ *)
(** ** The transformer *)
(* ------------------------------------------------------------------ *)

Lemma for_each_Returns {A B} (f : A → outcome B) (P : A → B → Prop) (xs : list A) :
  (∀ x : A, x ∈ xs → ∃ y : B, f x = Returns y ∧ P x y) →
  ∃ ys : list B, for_each f xs = Returns ys ∧ Forall2 P xs ys.
Proof.
  induction xs as [|x xs IH]; intros Hall; cbn [for_each].
  - exists []. split; [done | constructor].
  - destruct (Hall x) as (y & -> & Hy); [by left|].
    destruct IH as (ys & -> & Hys); [intros x' Hx'; apply Hall; by right|].
    exists (y :: ys). split; [done | by constructor].
Qed.

(** The dictionary display of [_transform_chunk]. *)
Lemma Transformer_metadata_fold (row : list Transformer.value) (names : list str)
    (start : nat) (d : dict str Transformer.value) :
  start + length names ≤ length row →
  foldl (λ (acc : outcome (dict str Transformer.value)) (ik : nat * str),
           attempt row_dict <- acc;
           attempt v <- Transformer.index row ik.1;
           Returns (dict_set ik.2 v row_dict))
        (Returns d) (enumerate start names)
  = Returns (foldl (λ d kv, dict_set kv.1 kv.2 d) d
               (zip names (take (length names) (drop start row)))).
Proof.
  revert start d. induction names as [|name names IH]; intros start d Hlen; [done|].
  cbn [length] in Hlen.
  destruct (lookup_lt_is_Some_2 row start) as [v Hv]; [lia|].
  change (enumerate start (name :: names))
    with ((start, name) :: enumerate (S start) names).
  rewrite (drop_S _ _ _ Hv).
  cbn [foldl length take zip zip_with and_then fst snd].
  unfold Transformer.index at 2. rewrite Hv. cbn [and_then].
  by rewrite IH by lia.
Qed.

Lemma Transformer_metadata_dict (row : list Transformer.value) :
  43 ≤ length row →
  Transformer.metadata_dict row
  = Returns (zip Transformer.METADATA_COLUMNS (take 43 row)).
Proof.
  intros Hlen. unfold Transformer.metadata_dict.
  rewrite Transformer_metadata_fold by (cbn [length]; exact Hlen).
  rewrite drop_0. f_equal.
  change (length Transformer.METADATA_COLUMNS) with 43.
  apply (foldl_dict_set_fresh _ []). cbn [fmap list_fmap app].
  rewrite fst_zip
    by (rewrite length_take; unfold Transformer.METADATA_COLUMNS; cbn [length]; lia).
  apply (bool_decide_unpack _). by vm_compute.
Qed.

Lemma Transformer_metadata_NoDup : NoDup Transformer.METADATA_COLUMNS.
Proof. apply (bool_decide_unpack _). by vm_compute. Qed.

Lemma Transformer_metadata_not_column (prefix : string) (i : nat) :
  prefix = "int"%string ∨ prefix = "float"%string →
  column prefix i ∉ Transformer.METADATA_COLUMNS.
Proof.
  intros Hp Hin.
  assert (Hpre : Forall (λ name : str, take 3 name ≠ U "int" ∧ take 5 name ≠ U "float")
                   Transformer.METADATA_COLUMNS).
  { apply (bool_decide_unpack _). by vm_compute. }
  rewrite Forall_forall in Hpre. destruct (Hpre _ Hin) as [H3 H5].
  destruct Hp as [-> | ->]; [by apply H3 | by apply H5].
Qed.

Lemma target_columns_NoDup (mapping : mapping_document) :
  NoDup (target_columns mapping).
Proof.
  unfold target_columns. apply NoDup_app. split_and!.
  - apply Transformer_metadata_NoDup.
  - intros name Hin Hc. apply elem_of_app in Hc as [Hc|Hc];
      apply list_elem_of_fmap in Hc as (i & -> & _);
      revert Hin; apply Transformer_metadata_not_column; auto.
  - apply NoDup_app. split_and!.
    + apply NoDup_fmap_2; [apply column_inj | apply NoDup_seq].
    + intros c Hi Hf. apply list_elem_of_fmap in Hi as (i & -> & _).
      apply list_elem_of_fmap in Hf as (j & Heq & _).
      by apply column_int_float in Heq.
    + apply NoDup_fmap_2; [apply column_inj | apply NoDup_seq].
Qed.

(** The two loops that initialise the metric columns. *)
Lemma Transformer_default_columns (prefix : string) (default : Transformer.value)
    (n : nat) (row_dict : dict str Transformer.value) :
  NoDup (row_dict.*1 ++ (column prefix <$> seq 1 n)) →
  Transformer.default_columns prefix default n row_dict
  = row_dict ++ ((λ i, (column prefix i, default)) <$> seq 1 n).
Proof.
  intros Hnd. unfold Transformer.default_columns.
  rewrite <- (foldl_dict_set_fresh ((λ i, (column prefix i, default)) <$> seq 1 n)).
  - by rewrite foldl_fmap.
  - by rewrite <- list_fmap_compose.
Qed.

Lemma dict_get_app {K V} `{EqDecision K} (k : K) (d1 d2 : dict K V) :
  dict_get k (d1 ++ d2) =
  match dict_get k d1 with Some v => Some v | None => dict_get k d2 end.
Proof.
  induction d1 as [|[k' v'] d1 IH]; simpl; [done|]. by case_decide.
Qed.

Lemma dict_get_zip {K V} `{EqDecision K} (ks : list K) (vs : list V) (i : nat) (k : K) :
  NoDup ks → ks !! i = Some k → length ks ≤ length vs →
  dict_get k (zip ks vs) = vs !! i.
Proof.
  revert vs i. induction ks as [|k0 ks IH]; intros vs i Hnd Hi Hlen; [done|].
  destruct vs as [|v vs]; [simpl in Hlen; lia|].
  apply NoDup_cons in Hnd as [Hk0 Hnd]. simpl in Hlen.
  destruct i as [|i]; simpl in *.
  - simplify_eq. by rewrite decide_True.
  - rewrite decide_False; [apply IH; [done..|lia]|].
    intros ->. apply Hk0. by eapply list_elem_of_lookup_2.
Qed.

Lemma defaults_keys {V} (prefix : string) (default : V) (n : nat) :
  ((λ i, (column prefix i, default)) <$> seq 1 n).*1 = column prefix <$> seq 1 n.
Proof. by rewrite <- list_fmap_compose. Qed.

Lemma dict_get_defaults {V} (prefix : string) (default : V) (n j : nat) :
  dict_get (column prefix j) ((λ i, (column prefix i, default)) <$> seq 1 n)
  = if decide (1 ≤ j ≤ n) then Some default else None.
Proof.
  case_decide as Hj.
  - apply dict_get_Some.
    + unfold dict_wf. rewrite defaults_keys.
      apply NoDup_fmap_2; [apply column_inj | apply NoDup_seq].
    + apply list_elem_of_fmap. exists j. split; [done|]. apply elem_of_seq. lia.
  - apply dict_get_None. rewrite defaults_keys.
    intros Hin. apply list_elem_of_fmap in Hin as (i & Heq & Hi).
    apply column_inj in Heq. subst. apply elem_of_seq in Hi. lia.
Qed.

(** One map of a source row: the columns stay, and a column holds the value
    of the last item whose key is mapped to it. *)
Lemma Transformer_fill_keys (mapping : dict str str)
    (items : list (str * Transformer.number)) (d : dict str Transformer.value) :
  (∀ k c : str, dict_get k mapping = Some c → c ∈ d.*1) →
  (Transformer.fill_from_map mapping items d).*1 = d.*1.
Proof.
  intros Hrange. unfold Transformer.fill_from_map. revert d Hrange.
  induction items as [|[k v] items IH]; intros d Hrange; cbn [foldl fst snd]; [done|].
  destruct (dict_get k mapping) as [c|] eqn:Hk; [|by apply IH].
  assert (Hkeys : (dict_set c (Transformer.VNum v) d).*1 = d.*1).
  { destruct (dict_get c d) as [v'|] eqn:Hc; [by eapply dict_set_keys_mem|].
    apply dict_get_None in Hc. destruct Hc. by eapply Hrange. }
  rewrite IH; [done|]. intros k' c' Hk'. rewrite Hkeys. by eapply Hrange.
Qed.

Lemma last_written_snoc (k : str) (items : list (str * Transformer.number))
    (kv : str * Transformer.number) :
  last_written k (items ++ [kv]) =
  if decide (kv.1 = k) then Some kv.2 else last_written k items.
Proof. unfold last_written. by rewrite foldl_app. Qed.

Lemma Transformer_fill_get (mapping : dict str str)
    (items : list (str * Transformer.number)) (d : dict str Transformer.value)
    (k c : str) :
  (∀ k1 k2 c' : str, dict_get k1 mapping = Some c' → dict_get k2 mapping = Some c' →
     k1 = k2) →
  dict_get k mapping = Some c →
  dict_get c (Transformer.fill_from_map mapping items d) =
  match last_written k items with
  | Some v => Some (Transformer.VNum v)
  | None => dict_get c d
  end.
Proof.
  intros Hinj Hk. induction items as [|[k' v] items IH] using rev_ind; [done|].
  unfold Transformer.fill_from_map in *. rewrite foldl_app, last_written_snoc.
  cbn [foldl fst snd]. destruct (dict_get k' mapping) as [c'|] eqn:Hk'.
  - case_decide as Heq.
    + subst k'. rewrite Hk in Hk'. injection Hk' as <-. apply dict_get_set_eq.
    + rewrite dict_get_set_ne; [done|]. intros ->. apply Heq. by eapply Hinj.
  - case_decide as Heq; [|done]. subst k'. by rewrite Hk in Hk'.
Qed.

Lemma Transformer_fill_get_other (mapping : dict str str)
    (items : list (str * Transformer.number)) (d : dict str Transformer.value)
    (c : str) :
  (∀ k : str, dict_get k mapping ≠ Some c) →
  dict_get c (Transformer.fill_from_map mapping items d) = dict_get c d.
Proof.
  intros Hno. induction items as [|[k' v] items IH] using rev_ind; [done|].
  unfold Transformer.fill_from_map in *. rewrite foldl_app.
  cbn [foldl fst snd]. destruct (dict_get k' mapping) as [c'|] eqn:Hk'; [|done].
  rewrite dict_get_set_ne; [done|]. intros ->. by apply (Hno k').
Qed.

Lemma Transformer_fill_app (mapping : dict str str)
    (items1 items2 : list (str * Transformer.number)) (d : dict str Transformer.value) :
  Transformer.fill_from_map mapping (items1 ++ items2) d
  = Transformer.fill_from_map mapping items2 (Transformer.fill_from_map mapping items1 d).
Proof. unfold Transformer.fill_from_map. apply foldl_app. Qed.

(** The loop over the map columns of a row. *)
Lemma Transformer_fill_from_groups (mapping : dict str str)
    (groups : list Transformer.value) (d : dict str Transformer.value) :
  Forall is_group groups →
  Transformer.fill_from_groups mapping groups d
  = Returns (Transformer.fill_from_map mapping (group_items groups) d).
Proof.
  intros Hg. revert d. induction Hg as [|g groups Hg _ IH]; intros d; [done|].
  cbn [Transformer.fill_from_groups]. unfold group_items. cbn [fmap list_fmap concat].
  fold (group_items groups). rewrite Transformer_fill_app.
  destruct g as [|n|s|t|m]; cbn [is_group] in Hg; try (rewrite Hg; apply IH).
  destruct m as [|kv m]; cbn [Transformer.truthy_value]; apply IH.
Qed.

Lemma items_of_inj `{SetOrder} (prefix : string) (s : gset str) (k1 k2 c : str) :
  dict_get k1 (items_of prefix (sorted_set s)) = Some c →
  dict_get k2 (items_of prefix (sorted_set s)) = Some c → k1 = k2.
Proof.
  intros (n1 & Hn1 & ->)%items_of_get (n2 & Hn2 & Heq)%items_of_get.
  apply column_inj in Heq. injection Heq as <-. congruence.
Qed.

Lemma items_of_range `{SetOrder} (prefix : string) (s : gset str) (k c : str) :
  dict_get k (items_of prefix (sorted_set s)) = Some c →
  ∃ j, 1 ≤ j ≤ size s ∧ c = column prefix j.
Proof.
  intros (n & Hn & ->)%items_of_get. exists (S n). split; [|done].
  apply lookup_lt_Some in Hn. rewrite sorted_set_length in Hn. lia.
Qed.

Lemma Transformer_get_metadata_column (prefix : string) (j : nat)
    (row : list Transformer.value) :
  prefix = "int"%string ∨ prefix = "float"%string →
  dict_get (column prefix j) (zip Transformer.METADATA_COLUMNS (take 43 row)) = None.
Proof.
  intros Hp. apply dict_get_None. intros Hin.
  apply (Transformer_metadata_not_column prefix j Hp).
  apply list_elem_of_fmap in Hin as ([name v] & -> & Hin).
  by apply elem_of_zip_l in Hin.
Qed.

Lemma Transformer_transform_row_spec `{SetOrder}
    (mapping : mapping_document) (I F : gset str)
    (row : list Transformer.value) :
  source_row_ok row →
  size I ≤ max_int_columns mapping → size F ≤ max_float_columns mapping →
  ∃ r : dict str Transformer.value,
    Transformer.transform_row (max_int_columns mapping) (max_float_columns mapping)
      (items_of "int" (sorted_set I)) (items_of "float" (sorted_set F)) row
      = Returns r ∧
    row_transformed mapping I F row r.
Proof.
  intros [Hlen Hgroups].
  unfold row_transformed, target_columns.
  generalize (max_int_columns mapping) (max_float_columns mapping).
  clear mapping. intros maxi maxf HI HF.
  set (im := items_of "int" (sorted_set I)).
  set (fm := items_of "float" (sorted_set F)).
  set (d0 := zip Transformer.METADATA_COLUMNS (take 43 row)).
  set (idef := (λ i, (column "int" i, Transformer.VNum (Transformer.NInt 0)))
                 <$> seq 1 maxi).
  set (fdef := (λ i, (column "float" i,
                      Transformer.VNum (Transformer.NFloat (U "0.0")))) <$> seq 1 maxf).
  set (iitems := group_items (Transformer.slice 43 58 row)).
  set (fitems := group_items (Transformer.slice 58 73 row)).
  assert (Hd0 : d0.*1 = Transformer.METADATA_COLUMNS).
  { unfold d0. apply fst_zip. rewrite length_take.
    unfold Transformer.METADATA_COLUMNS. cbn [length]. lia. }
  assert (Hkeys2 : ((d0 ++ idef) ++ fdef).*1 =
                   Transformer.METADATA_COLUMNS ++
                   (column "int" <$> seq 1 maxi) ++ (column "float" <$> seq 1 maxf)).
  { rewrite !fmap_app, Hd0. unfold idef, fdef. rewrite !defaults_keys.
    by rewrite <- app_assoc. }
  pose proof (target_columns_NoDup
                {| doc_metadata := {| generated_at := []; source_table := [];
                                      dates := None; note := [] |};
                   max_int_columns := maxi; max_float_columns := maxf;
                   customers := [] |}) as Hnd.
  unfold target_columns in Hnd.
  cbn [max_int_columns max_float_columns] in Hnd.
  assert (Hrow : Transformer.transform_row maxi maxf im fm row
                 = Returns (Transformer.fill_from_map fm fitems
                              (Transformer.fill_from_map im iitems
                                 ((d0 ++ idef) ++ fdef)))).
  { unfold Transformer.transform_row.
    rewrite Transformer_metadata_dict by done. cbn [and_then]. fold d0.
    rewrite (Transformer_default_columns "int"); fold idef.
    2:{ rewrite Hd0. rewrite app_assoc in Hnd. by apply NoDup_app in Hnd as [? _]. }
    rewrite (Transformer_default_columns "float"); fold fdef.
    2:{ rewrite fmap_app, Hd0. unfold idef. rewrite defaults_keys.
        by rewrite <- app_assoc. }
    rewrite Transformer_fill_from_groups.
    2:{ unfold Transformer.slice. by apply Forall_take. }
    cbn [and_then]. fold iitems.
    rewrite Transformer_fill_from_groups.
    2:{ unfold Transformer.slice. apply Forall_take.
        replace (drop 58 row) with (drop 15 (drop 43 row)) by by rewrite drop_drop.
        by apply Forall_drop. }
    done. }
  assert (Hirange : ∀ k c : str, dict_get k im = Some c →
            c ∈ ((d0 ++ idef) ++ fdef).*1).
  { intros k c (j & Hj & ->)%items_of_range. rewrite Hkeys2.
    apply elem_of_app. right. apply elem_of_app. left.
    apply list_elem_of_fmap. exists j. split; [done|]. apply elem_of_seq. lia. }
  assert (Hfrange : ∀ k c : str, dict_get k fm = Some c →
            c ∈ ((d0 ++ idef) ++ fdef).*1).
  { intros k c (j & Hj & ->)%items_of_range. rewrite Hkeys2.
    apply elem_of_app. right. apply elem_of_app. right.
    apply list_elem_of_fmap. exists j. split; [done|]. apply elem_of_seq. lia. }
  eexists. split; [exact Hrow|]. split_and!.
  - rewrite Transformer_fill_keys.
    + by rewrite Transformer_fill_keys.
    + intros k c Hk. rewrite Transformer_fill_keys by done. by eapply Hfrange.
  - intros i name Hname.
    assert (Hi : i < 43).
    { apply lookup_lt_Some in Hname. unfold Transformer.METADATA_COLUMNS in Hname.
      cbn [length] in Hname. lia. }
    rewrite !Transformer_fill_get_other.
    + rewrite !dict_get_app.
      assert (Hget : dict_get name d0 = row !! i).
      { unfold d0. rewrite (dict_get_zip _ _ i).
        - by rewrite lookup_take_lt.
        - apply Transformer_metadata_NoDup.
        - done.
        - rewrite length_take. unfold Transformer.METADATA_COLUMNS.
          cbn [length]. lia. }
      rewrite Hget. destruct (lookup_lt_is_Some_2 row i) as [v ->]; [lia | done].
    + intros k (j & _ & ->)%items_of_range.
      eapply Transformer_metadata_not_column; [by left|].
      by eapply list_elem_of_lookup_2.
    + intros k (j & _ & ->)%items_of_range.
      eapply Transformer_metadata_not_column; [by right|].
      by eapply list_elem_of_lookup_2.
  - intros j k Hk.
    assert (Hj : S j ≤ maxi).
    { apply lookup_lt_Some in Hk. rewrite sorted_set_length in Hk. lia. }
    rewrite Transformer_fill_get_other.
    2:{ intros k' (j' & _ & Heq)%items_of_range. by apply column_int_float in Heq. }
    rewrite (Transformer_fill_get im iitems _ k).
    2:{ apply items_of_inj. }
    2:{ apply items_of_get. eauto. }
    destruct (last_written k iitems) as [v|]; [done|]. cbn [default].
    rewrite !dict_get_app. unfold d0, idef.
    rewrite Transformer_get_metadata_column by by left.
    rewrite dict_get_defaults. case_decide; [done | lia].
  - intros j Hj.
    rewrite Transformer_fill_get_other.
    2:{ intros k' (j' & _ & Heq)%items_of_range. by apply column_int_float in Heq. }
    rewrite Transformer_fill_get_other.
    2:{ intros k' (j' & Hj' & Heq)%items_of_range. apply column_inj in Heq. lia. }
    rewrite !dict_get_app. unfold d0, idef.
    rewrite Transformer_get_metadata_column by by left.
    rewrite dict_get_defaults. case_decide; [done | lia].
  - intros j k Hk.
    assert (Hj : S j ≤ maxf).
    { apply lookup_lt_Some in Hk. rewrite sorted_set_length in Hk. lia. }
    rewrite (Transformer_fill_get fm fitems _ k).
    2:{ apply items_of_inj. }
    2:{ apply items_of_get. eauto. }
    destruct (last_written k fitems) as [v|]; [done|]. cbn [default].
    rewrite Transformer_fill_get_other.
    2:{ intros k' (j' & _ & Heq)%items_of_range. symmetry in Heq.
        by apply column_int_float in Heq. }
    assert (Hnone : dict_get (column "float" (S j)) idef = None).
    { apply dict_get_None. unfold idef. rewrite defaults_keys.
      intros (i & Heq & _)%list_elem_of_fmap. symmetry in Heq.
      by apply column_int_float in Heq. }
    rewrite !dict_get_app, Hnone. unfold d0, fdef.
    rewrite Transformer_get_metadata_column by by right.
    rewrite dict_get_defaults. case_decide; [done | lia].
  - intros j Hj.
    rewrite Transformer_fill_get_other.
    2:{ intros k' (j' & Hj' & Heq)%items_of_range. apply column_inj in Heq. lia. }
    rewrite Transformer_fill_get_other.
    2:{ intros k' (j' & _ & Heq)%items_of_range. symmetry in Heq.
        by apply column_int_float in Heq. }
    assert (Hnone : dict_get (column "float" j) idef = None).
    { apply dict_get_None. unfold idef. rewrite defaults_keys.
      intros (i & Heq & _)%list_elem_of_fmap. symmetry in Heq.
      by apply column_int_float in Heq. }
    rewrite !dict_get_app, Hnone. unfold d0, fdef.
    rewrite Transformer_get_metadata_column by by right.
    rewrite dict_get_defaults. case_decide; [done | lia].
Qed.

Lemma Mt_document_counts `{Clock, SetOrder}
    (src : str) (c2k : dict Z (gset str * gset str))
    (run_dates : list str) (cid : Z) (I F : gset str) :
  dict_get cid c2k = Some (I, F) →
  size I ≤ max_int_columns (Mt.build_nested_mapping src c2k run_dates) ∧
  size F ≤ max_float_columns (Mt.build_nested_mapping src c2k run_dates).
Proof.
  intros Hg%dict_get_Some_elem_of. rewrite Mt_max_int_eq, Mt_max_float_eq. split.
  - apply max_list_elem_of_le. unfold int_counts.
    apply list_elem_of_fmap. by exists (cid, (I, F)).
  - apply max_list_elem_of_le. unfold float_counts.
    apply list_elem_of_fmap. by exists (cid, (I, F)).
Qed.

Lemma for_each_ext {A B} (f g : A → outcome B) (xs : list A) :
  (∀ x : A, x ∈ xs → f x = g x) → for_each f xs = for_each g xs.
Proof.
  induction xs as [|x xs IH]; intros Hext; cbn [for_each]; [done|].
  rewrite (Hext x) by left. rewrite IH; [done|]. intros x' Hx'. apply Hext. by right.
Qed.

(** [[row[col] for col in row.keys()]] are the values of [row]. *)
Lemma Transformer_row_values {V} (row : dict str V) :
  NoDup row.*1 →
  for_each (λ col : str,
              match dict_get col row with
              | Some v => Returns v
              | None => Fails MissingColumn
              end) row.*1
  = Returns row.*2.
Proof.
  induction row as [|[k v] row IH]; intros Hnd; [done|].
  apply NoDup_cons in Hnd as [Hk Hnd].
  cbn [fmap list_fmap fst snd for_each dict_get].
  rewrite decide_True by done. cbn [and_then].
  rewrite (for_each_ext _ (λ col : str,
             match dict_get col row with
             | Some v => Returns v
             | None => Fails MissingColumn
             end)).
  - fold (fmap (M := list) (@snd str V)). by rewrite IH.
  - intros col Hcol. rewrite decide_False; [done|]. by intros ->.
Qed.

Lemma Transformer_insert_batch (columns : list str)
    (first : dict str Transformer.value) (rest : list (dict str Transformer.value)) :
  NoDup columns →
  Forall (λ r : dict str Transformer.value, r.*1 = columns) (first :: rest) →
  Transformer._insert_batch (first :: rest)
  = Returns (Some (columns, (λ r : dict str Transformer.value, r.*2) <$> first :: rest)).
Proof.
  intros Hnd Hall. unfold Transformer._insert_batch.
  rewrite (Forall_inv Hall).
  assert (Hrows : ∀ rows : list (dict str Transformer.value),
            Forall (λ r : dict str Transformer.value, r.*1 = columns) rows →
            for_each (λ row : dict str Transformer.value,
                        for_each (λ col : str,
                                    match dict_get col row with
                                    | Some v => Returns v
                                    | None => Fails MissingColumn
                                    end) columns) rows
            = Returns ((λ r : dict str Transformer.value, r.*2) <$> rows)).
  { intros rows Hrows. induction Hrows as [|r rows Hr _ IH]; [done|].
    cbn [for_each]. rewrite <- Hr at 1.
    rewrite Transformer_row_values by by rewrite Hr.
    cbn [and_then]. by rewrite IH. }
  by rewrite Hrows.
Qed.

(** A chunk whose first row names a customer of the document. *)
Lemma Transformer_chunk_spec `{Clock, Repr, SetOrder} (src : str)
    (c2k : dict Z (gset str * gset str)) (run_dates : list str)
    (cid : Z) (I F : gset str)
    (first : list Transformer.value) (rest : list (list Transformer.value)) :
  dict_wf c2k → dict_get cid c2k = Some (I, F) →
  first !! 3 = Some (Transformer.VNum (Transformer.NInt cid)) →
  Forall source_row_ok (first :: rest) →
  ∃ out : list (dict str Transformer.value),
    Transformer._transform_chunk (Mt.build_nested_mapping src c2k run_dates)
      (first :: rest) = Returns out ∧
    Forall2 (row_transformed (Mt.build_nested_mapping src c2k run_dates) I F)
      (first :: rest) out.
Proof.
  intros Hwf Hg H3 Hok.
  unfold Transformer._transform_chunk, Transformer.index. rewrite H3.
  cbn [and_then Transformer.str_value Transformer.str_number].
  rewrite (Mt_customers_get _ _ _ cid I F) by done.
  rewrite Mt_customer_block_eq. cbn [int_mapping float_mapping].
  apply for_each_Returns. intros row Hrow.
  destruct (Mt_document_counts src c2k run_dates cid I F Hg) as [HI HF].
  apply Transformer_transform_row_spec; [|done..].
  rewrite Forall_forall in Hok. by apply Hok.
Qed.

(** X15. A chunk of source rows transformed with a document
    [build_nested_mapping] built fits the target table. When the customer of
    the first row is not in the document the chunk raises. When it is (and
    the rows have their 43 metadata values and maps behind them), the chunk
    returns one target row per source row, and [_insert_batch] finds every
    column of the first row in every row: it hands [client.insert] the
    columns of the target table and, per row, one value per column. *)
Theorem transformed_chunk_fits_target_table `{Clock, Repr, SetOrder} (src : str)
    (c2k : dict Z (gset str * gset str)) (run_dates : list str) (cid : Z)
    (first : list Transformer.value) (rest : list (list Transformer.value)) :
  dict_wf c2k →
  first !! 3 = Some (Transformer.VNum (Transformer.NInt cid)) →
  Forall source_row_ok (first :: rest) →
  let doc := Mt.build_nested_mapping src c2k run_dates in
  match dict_get cid c2k with
  | None =>
      Transformer._transform_chunk doc (first :: rest) = Fails NoMappingForCustomer
  | Some _ =>
      ∃ out : list (dict str Transformer.value),
        Transformer._transform_chunk doc (first :: rest) = Returns out ∧
        length out = S (length rest) ∧
        Transformer._insert_batch out
          = Returns (Some (target_columns doc,
                           (λ r : dict str Transformer.value, r.*2) <$> out)) ∧
        Forall (λ vs : list Transformer.value,
                  length vs = 43 + max_int_columns doc + max_float_columns doc)
               ((λ r : dict str Transformer.value, r.*2) <$> out)
  end.
Proof.
  intros Hwf H3 Hok doc.
  destruct (dict_get cid c2k) as [[I F]|] eqn:Hg.
  - destruct (Transformer_chunk_spec src c2k run_dates cid I F first rest)
      as (out & Hout & Hrows); [done..|].
    fold doc in Hout, Hrows.
    exists out. split; [done|].
    pose proof (Forall2_length _ _ _ Hrows) as Hlen. cbn [length] in Hlen.
    assert (Hcols : Forall (λ r : dict str Transformer.value,
                              r.*1 = target_columns doc) out).
    { apply Forall_forall. intros r Hr.
      apply list_elem_of_lookup in Hr as [n Hn].
      destruct (Forall2_lookup_r _ _ _ _ _ Hrows Hn) as (row & _ & Hrow & _).
      exact Hrow. }
    split_and!.
    + done.
    + destruct out as [|r out]; [discriminate Hlen|].
      apply Transformer_insert_batch; [apply target_columns_NoDup | done].
    + apply Forall_fmap. eapply Forall_impl; [exact Hcols|].
      intros r Hr. cbn [compose].
      rewrite length_fmap, <- (length_fmap fst r), Hr. unfold target_columns.
      rewrite !length_app, !length_fmap, !length_seq.
      unfold Transformer.METADATA_COLUMNS. cbn [length]. lia.
  - unfold Transformer._transform_chunk, Transformer.index. rewrite H3.
    cbn [and_then Transformer.str_value Transformer.str_number].
    unfold doc. by rewrite Mt_customers_get_None.
Qed.

Lemma transformed_chunk_fits_target_table_witness :
  ∃ out : list (dict str Transformer.value),
    @Transformer._transform_chunk example_repr
      (@Mt.build_nested_mapping example_clock example_order (U "t") example_customer_to_keys [])
      [example_source_row] = Returns out ∧
    length out = 1.
Proof.
  destruct (@transformed_chunk_fits_target_table example_clock example_repr example_order (U "t")
              example_customer_to_keys [] 7 example_source_row [])
    as (out & Hout & Hlen & _).
  - vm_compute; repeat constructor; set_solver.
  - reflexivity.
  - repeat constructor; simpl; lia.
  - exists out. split; [exact Hout | exact Hlen].
Defined.

(** X16. What a transformed row holds. The mapping of the customer of the
    first row of the chunk is used for every row: each target row has the
    metadata of its source row, in the column [int<N>] of the customer's
    [N]th sorted int key the value of the last item with that key in the int
    maps of the row ([0] without one), [0] in the int columns the customer
    does not use, and the same for the float keys with [0.0]. *)
Theorem transformed_rows_carry_values `{Clock, Repr, SetOrder} (src : str)
    (c2k : dict Z (gset str * gset str)) (run_dates : list str)
    (cid : Z) (I F : gset str)
    (first : list Transformer.value) (rest : list (list Transformer.value)) :
  dict_wf c2k → dict_get cid c2k = Some (I, F) →
  first !! 3 = Some (Transformer.VNum (Transformer.NInt cid)) →
  Forall source_row_ok (first :: rest) →
  ∃ out : list (dict str Transformer.value),
    Transformer._transform_chunk (Mt.build_nested_mapping src c2k run_dates)
      (first :: rest) = Returns out ∧
    ∀ (n : nat) (row : list Transformer.value),
      (first :: rest) !! n = Some row →
      ∃ r : dict str Transformer.value,
        out !! n = Some r ∧
        row_transformed (Mt.build_nested_mapping src c2k run_dates) I F row r.
Proof.
  intros Hwf Hg H3 Hok.
  destruct (Transformer_chunk_spec src c2k run_dates cid I F first rest)
    as (out & Hout & Hrows); [done..|].
  exists out. split; [done|]. intros n row Hn.
  destruct (Forall2_lookup_l _ _ _ _ _ Hrows Hn) as (r & Hr & Hrow). eauto.
Qed.

Lemma transformed_rows_carry_values_witness :
  ∃ (out : list (dict str Transformer.value)) (r : dict str Transformer.value),
    @Transformer._transform_chunk example_repr
      (@Mt.build_nested_mapping example_clock example_order (U "t") example_customer_to_keys [])
      [example_source_row] = Returns out ∧
    out !! 0 = Some r ∧
    dict_get (column "int" 2) r = Some (Transformer.VNum (Transformer.NInt 5)).
Proof.
  destruct (@transformed_rows_carry_values example_clock example_repr example_order (U "t")
              example_customer_to_keys [] 7 {[ U "b_metric"; U "a_metric" ]} ∅
              example_source_row [])
    as (out & Hout & Hrows).
  - vm_compute; repeat constructor; set_solver.
  - reflexivity.
  - reflexivity.
  - repeat constructor; simpl; lia.
  - destruct (Hrows 0 example_source_row eq_refl) as (r & Hr & _ & _ & Hint & _).
    exists out, r. split; [exact Hout|]. split; [exact Hr|].
    apply (Hint 1 (U "b_metric")). by vm_compute.
Defined.

(* ------------------------------------------------------------------ *)
(** ** The schema generator *)
(* ------------------------------------------------------------------ *)

Lemma first_word_app (a b : str) :
  32%N ∉ a → first_word (a ++ 32%N :: b) = a.
Proof.
  induction a as [|c a IH]; intros Hno; [done|].
  apply not_elem_of_cons in Hno as [Hc Ha]. cbn [app first_word].
  destruct (N.eqb_spec c 32) as [->|_]; [done|]. by rewrite IH.
Qed.

Lemma pretty_N_go_no_space (x : N) (s : string) :
  32%N ∉ U s → 32%N ∉ U (pretty_N_go x s).
Proof.
  revert s. induction (N.lt_wf_0 x) as [x _ IH]; intros s Hs.
  assert (x = 0 ∨ 0 < x)%N as [->|?] by lia.
  - by rewrite pretty_N_go_0.
  - rewrite pretty_N_go_step by done. apply IH.
    { by apply N.div_lt. }
    unfold U. cbn [list_ascii_of_string fmap list_fmap].
    apply not_elem_of_cons. split; [|exact Hs].
    unfold pretty_N_char. by repeat case_match.
Qed.

Lemma str_of_nat_no_space (i : nat) : 32%N ∉ str_of_nat i.
Proof.
  unfold str_of_nat, pretty, pretty_nat, pretty, pretty_N.
  case_decide.
  - by apply (bool_decide_unpack _).
  - apply pretty_N_go_no_space. apply not_elem_of_nil.
Qed.

Lemma column_no_space (prefix : string) (i : nat) :
  prefix = "int"%string ∨ prefix = "float"%string → 32%N ∉ column prefix i.
Proof.
  intros Hp. unfold column, str_app. intros Hin.
  apply elem_of_app in Hin as [Hin|Hin].
  - revert Hin. destruct Hp as [-> | ->]; by apply (bool_decide_unpack _).
  - by apply str_of_nat_no_space in Hin.
Qed.

Lemma SchemaGenerator_column_ddls (mapping : mapping_document) :
  SchemaGenerator.column_ddls mapping =
  SchemaGenerator.standard_column_ddls ++
  ((λ i, column "int" i +++ U " Int32 DEFAULT 0 CODEC(ZSTD(1))")
     <$> seq 1 (max_int_columns mapping)) ++
  ((λ i, column "float" i +++ U " Float32 DEFAULT 0 CODEC(ZSTD(1))")
     <$> seq 1 (max_float_columns mapping)).
Proof.
  assert (Happ : ∀ (f : nat → str) (l : list nat) (ddls : list str),
            foldl (λ ddls i, ddls ++ [f i]) ddls l = ddls ++ (f <$> l)).
  { intros f l. induction l as [|i l IH]; intros ddls; cbn [foldl fmap list_fmap].
    - by rewrite app_nil_r.
    - rewrite IH. by rewrite <- app_assoc. }
  unfold SchemaGenerator.column_ddls. cbv zeta. rewrite !Happ.
  by rewrite <- app_assoc.
Qed.

(** X17. The columns of the [CREATE TABLE] statement of the schema
    generator are, up to their order, the columns the transformer fills for
    the same document: the 43 metadata columns, [int1 ..] and [float1 ..] up
    to the maxima of the document; no column is defined twice. *)
Theorem created_table_has_target_columns (mapping : mapping_document) :
  first_word <$> SchemaGenerator.column_ddls mapping ≡ₚ target_columns mapping ∧
  NoDup (first_word <$> SchemaGenerator.column_ddls mapping) ∧
  length (SchemaGenerator.column_ddls mapping)
  = 43 + max_int_columns mapping + max_float_columns mapping.
Proof.
  assert (Hperm :
    first_word <$> SchemaGenerator.column_ddls mapping ≡ₚ target_columns mapping).
  { rewrite SchemaGenerator_column_ddls. unfold target_columns.
    rewrite !fmap_app. apply Permutation_app; [|apply Permutation_app].
    - apply NoDup_Permutation.
      + apply (bool_decide_unpack _). by vm_compute.
      + apply (bool_decide_unpack _). by vm_compute.
      + assert (H1 : Forall (λ x, x ∈ Transformer.METADATA_COLUMNS)
                       (first_word <$> SchemaGenerator.standard_column_ddls))
          by (apply (bool_decide_unpack _); by vm_compute).
        assert (H2 : Forall (λ x, x ∈ first_word <$> SchemaGenerator.standard_column_ddls)
                       Transformer.METADATA_COLUMNS)
          by (apply (bool_decide_unpack _); by vm_compute).
        rewrite Forall_forall in H1, H2. intros x. split; [apply H1 | apply H2].
    - rewrite <- list_fmap_compose. apply reflexive_eq, list_fmap_ext.
      intros _ i _. cbn [compose]. unfold str_app.
      apply (first_word_app _ (U "Int32 DEFAULT 0 CODEC(ZSTD(1))")).
      apply column_no_space. by left.
    - rewrite <- list_fmap_compose. apply reflexive_eq, list_fmap_ext.
      intros _ i _. cbn [compose]. unfold str_app.
      apply (first_word_app _ (U "Float32 DEFAULT 0 CODEC(ZSTD(1))")).
      apply column_no_space. by right. }
  split_and!.
  - done.
  - rewrite Hperm. apply target_columns_NoDup.
  - rewrite SchemaGenerator_column_ddls, !length_app, !length_fmap, !length_seq.
    unfold SchemaGenerator.standard_column_ddls. cbn [length]. lia.
Qed.

(* ------------------------------------------------------------------ *)
(** ** The schema generator with string columns *)
(* ------------------------------------------------------------------ *)

Lemma dict_keys_set {K V} `{EqDecision K} (k : K) (v : V) (d : dict K V) :
  (dict_set k v d).*1 = if decide (k ∈ d.*1) then d.*1 else d.*1 ++ [k].
Proof.
  case_decide as Hk.
  - destruct (dict_get k d) as [v'|] eqn:Hg; [by eapply dict_set_keys_mem|].
    by apply dict_get_None in Hg.
  - rewrite dict_set_fresh by done. by rewrite fmap_app.
Qed.

(** The keys of a dictionary filled from a list: the keys it had, then the
    new keys in the order of their first occurrence. *)
Lemma dict_keys_foldl_set {K V} `{EqDecision K} (items : list (K * V)) (d : dict K V) :
  (foldl (λ d kv, dict_set kv.1 kv.2 d) d items).*1 =
  d.*1 ++ filter (λ k, k ∉ d.*1) (dict_of_items items).*1.
Proof.
  unfold dict_of_items. revert d.
  induction items as [|[k v] items IH]; intros d; cbn [foldl fst snd].
  - by rewrite app_nil_r.
  - rewrite IH, (IH (dict_set k v [])). cbn [dict_set fmap list_fmap fst app].
    rewrite dict_keys_set, filter_cons. case_decide as Hk.
    + rewrite decide_False by (intros Hn; by apply Hn).
      f_equal. rewrite list_filter_filter. apply list_filter_iff.
      intros x. split; [|tauto]. intros Hx. split; [done|].
      rewrite list_elem_of_singleton. by intros ->.
    + rewrite decide_True by done. rewrite <- app_assoc. cbn [app]. do 2 f_equal.
      rewrite list_filter_filter. apply list_filter_iff.
      intros x. rewrite elem_of_app, !list_elem_of_singleton. tauto.
Qed.

Lemma dedupe_cons (x : str) (l : list str) :
  SchemaGeneratorV2.dedupe_preserve_order (x :: l) =
  x :: filter (λ y, y ≠ x) (SchemaGeneratorV2.dedupe_preserve_order l).
Proof.
  unfold SchemaGeneratorV2.dedupe_preserve_order, dict_of_items at 1.
  cbn [fmap list_fmap foldl fst snd dict_set].
  rewrite dict_keys_foldl_set. cbn [fmap list_fmap fst app]. f_equal.
  apply list_filter_iff. intros y. by rewrite list_elem_of_singleton.
Qed.

Lemma dedupe_elem_of (l : list str) (k : str) :
  k ∈ SchemaGeneratorV2.dedupe_preserve_order l ↔ k ∈ l.
Proof.
  induction l as [|x l IH]; [done|].
  rewrite dedupe_cons, !elem_of_cons, list_elem_of_filter, IH.
  destruct (decide (k = x)) as [->|Hne]; [split; by left|].
  split; [intros [?|[_ ?]]; tauto | intros [?|?]; [done | by right]].
Qed.

Lemma dedupe_NoDup (l : list str) : NoDup (SchemaGeneratorV2.dedupe_preserve_order l).
Proof.
  induction l as [|x l IH]; [constructor|].
  rewrite dedupe_cons. apply NoDup_cons. split.
  - intros [Hne _]%list_elem_of_filter. by apply Hne.
  - by apply NoDup_filter.
Qed.

Lemma dedupe_id (l : list str) :
  NoDup l → SchemaGeneratorV2.dedupe_preserve_order l = l.
Proof.
  intros Hnd. unfold SchemaGeneratorV2.dedupe_preserve_order.
  rewrite dict_of_items_NoDup.
  - rewrite <- list_fmap_compose. apply list_fmap_id.
  - rewrite <- list_fmap_compose. by rewrite list_fmap_id.
Qed.

Lemma dedupe_length (l : list str) :
  length (SchemaGeneratorV2.dedupe_preserve_order l) ≤ length l.
Proof.
  induction l as [|x l IH]; [done|].
  rewrite dedupe_cons. cbn [length].
  pose proof (length_filter (λ y, y ≠ x) (SchemaGeneratorV2.dedupe_preserve_order l)).
  lia.
Qed.

Lemma items_of_shift (prefix : string) (ks : list str) :
  (λ ik : nat * str, (ik.2, column prefix (ik.1 + 1))) <$> enumerate 0 ks
  = items_of prefix ks.
Proof.
  unfold items_of. apply list_eq. intros i.
  rewrite !list_lookup_fmap, !enumerate_lookup.
  destruct (ks !! i) as [k|]; cbn [fmap option_fmap option_map fst snd]; [|done].
  do 3 f_equal. lia.
Qed.

Lemma swap_items_shift (prefix : string) (ks : list str) :
  (λ ik : nat * str, (column prefix (ik.1 + 1), ik.2)) <$> enumerate 0 ks
  = swap_items (items_of prefix ks).
Proof.
  rewrite <- items_of_shift. unfold swap_items. rewrite <- list_fmap_compose.
  by apply list_fmap_ext.
Qed.

Lemma items_of_get_NoDup (prefix : string) (ks : list str) (k c : str) :
  NoDup ks →
  dict_get k (items_of prefix ks) = Some c ↔
  ∃ n, ks !! n = Some k ∧ c = column prefix (S n).
Proof.
  intros Hnd. rewrite dict_get_Some, elem_of_items_of; [done|].
  unfold dict_wf. by rewrite items_of_keys.
Qed.

Lemma swap_items_get (prefix : string) (ks : list str) (k c : str) :
  dict_get c (swap_items (items_of prefix ks)) = Some k ↔
  ∃ n, ks !! n = Some k ∧ c = column prefix (S n).
Proof.
  rewrite dict_get_Some by apply swap_items_NoDup.
  unfold swap_items. rewrite list_elem_of_fmap. split.
  - intros ([k' c'] & [= -> ->] & Hin). by apply elem_of_items_of in Hin.
  - intros Hn. exists (k, c). split; [done|]. by apply elem_of_items_of.
Qed.

(** What [build_and_export_string_mapping] writes for one customer. *)
Lemma SchemaGeneratorV2_export_entry (entry : TagGroup.customer_keys) :
  let keys := SchemaGeneratorV2.dedupe_preserve_order (TagGroup.keys entry) in
  SchemaGeneratorV2.export_entry entry =
  {| SchemaGeneratorV2.string_columns := length keys;
     SchemaGeneratorV2.string_keys := keys;
     SchemaGeneratorV2.string_mapping := items_of "string" keys;
     SchemaGeneratorV2.reverse_string_mapping := swap_items (items_of "string" keys) |}.
Proof.
  intros keys. unfold SchemaGeneratorV2.export_entry. fold keys. cbv zeta.
  rewrite items_of_shift, swap_items_shift.
  rewrite !dict_of_items_NoDup; [done|apply swap_items_NoDup|].
  rewrite items_of_keys. apply dedupe_NoDup.
Qed.

Lemma foldl_max {A} (f : A → nat) (l : list A) (m : nat) :
  foldl (λ m x, m `max` f x) m l = m `max` max_list (f <$> l).
Proof.
  revert m. induction l as [|x l IH]; intros m; cbn [foldl]; [simpl; lia|].
  rewrite IH. rewrite fmap_cons. cbn [max_list_with id]. symmetry. apply Nat.max_assoc.
Qed.

Lemma dict_get_fmap_values {K V W} `{EqDecision K} (f : V → W) (k : K) (d : dict K V) :
  dict_get k ((λ it : K * V, (it.1, f it.2)) <$> d) = f <$> dict_get k d.
Proof.
  induction d as [|[k' v] d IH]; [done|]. cbn [fmap list_fmap dict_get fst snd].
  by case_decide.
Qed.

Lemma fmap_values_keys {K V W} (f : V → W) (d : dict K V) :
  ((λ it : K * V, (it.1, f it.2)) <$> d).*1 = d.*1.
Proof. rewrite <- list_fmap_compose. by apply list_fmap_ext. Qed.

Lemma SchemaGeneratorV2_normalize_entry (entry : TagGroup.customer_keys) :
  SchemaGeneratorV2.normalize_entry entry =
  {| TagGroup.keys := SchemaGeneratorV2.dedupe_preserve_order (TagGroup.keys entry);
     TagGroup.key_count :=
       length (SchemaGeneratorV2.dedupe_preserve_order (TagGroup.keys entry)) |}.
Proof.
  unfold SchemaGeneratorV2.normalize_entry. cbv zeta. f_equal.
  case_decide as Hkc; [done|]. by destruct (decide (TagGroup.key_count entry =
    length (SchemaGeneratorV2.dedupe_preserve_order (TagGroup.keys entry)))).
Qed.

Lemma SchemaGeneratorV2_normalize_entry_id (entry : TagGroup.customer_keys) :
  NoDup (TagGroup.keys entry) →
  TagGroup.key_count entry = length (TagGroup.keys entry) →
  SchemaGeneratorV2.normalize_entry entry = entry.
Proof.
  intros Hnd Hkc. rewrite SchemaGeneratorV2_normalize_entry, dedupe_id by done.
  destruct entry as [ks kc]. cbn in *. by subst.
Qed.

Lemma SchemaGeneratorV2_required (norm : TagGroup.tag_document) :
  SchemaGeneratorV2.compute_required_string_columns (Some norm) =
  max_list ((λ it : str * TagGroup.customer_keys, TagGroup.key_count it.2)
              <$> TagGroup.tag_customers norm)
  `max` TagGroup.max_keys_per_customer norm.
Proof.
  unfold SchemaGeneratorV2.compute_required_string_columns. cbv zeta.
  by rewrite foldl_max, Nat.max_0_l.
Qed.

(** X18. [normalize_string_mapping] makes a string mapping consistent.
    [dedupe_preserve_order] keeps the first occurrence of every key, in
    order. After the normalisation every customer has its keys without
    repetition (the same keys as before) and a [key_count] that is their
    number, whatever it was; the number of string columns computed from it
    covers every customer and the declared maximum; normalising again changes
    nothing. A document the tag-group script built is already normal, and the
    number of string columns computed from it is its
    [max_keys_per_customer]. *)
Theorem normalize_string_mapping_spec `{SetOrder} :
  (∀ (x : str) (l : list str),
     SchemaGeneratorV2.dedupe_preserve_order (x :: l) =
     x :: filter (λ y, y ≠ x) (SchemaGeneratorV2.dedupe_preserve_order l)) ∧
  (∀ raw : TagGroup.tag_document,
     let norm := SchemaGeneratorV2.normalize_string_mapping raw in
     Forall2 (λ r n : str * TagGroup.customer_keys,
                n.1 = r.1 ∧
                NoDup (TagGroup.keys n.2) ∧
                (∀ k : str, k ∈ TagGroup.keys n.2 ↔ k ∈ TagGroup.keys r.2) ∧
                TagGroup.key_count n.2 = length (TagGroup.keys n.2) ∧
                TagGroup.key_count n.2
                  ≤ SchemaGeneratorV2.compute_required_string_columns (Some norm))
             (TagGroup.tag_customers raw) (TagGroup.tag_customers norm) ∧
     TagGroup.max_keys_per_customer raw
       ≤ SchemaGeneratorV2.compute_required_string_columns (Some norm) ∧
     SchemaGeneratorV2.normalize_string_mapping norm = norm) ∧
  (∀ (clock : Clock) (src : str) (c2k : dict Z (gset str)) (run_dates : list str),
     dict_wf c2k →
     let doc := TagGroup.build_nested_mapping src c2k run_dates in
     SchemaGeneratorV2.normalize_string_mapping doc = doc ∧
     SchemaGeneratorV2.compute_required_string_columns (Some doc)
       = TagGroup.max_keys_per_customer doc).
Proof.
  split_and!.
  - apply dedupe_cons.
  - intros raw norm. split_and!.
    + unfold norm, SchemaGeneratorV2.normalize_string_mapping.
      cbn [TagGroup.tag_customers].
      apply Forall2_fmap_r, Forall_Forall2_diag, Forall_forall.
      intros [cid e] Hin. cbn [compose fst snd].
      rewrite SchemaGeneratorV2_normalize_entry. cbn [TagGroup.keys TagGroup.key_count].
      split_and!; [done | apply dedupe_NoDup | apply dedupe_elem_of | done |].
      rewrite SchemaGeneratorV2_required.
      etrans; [|apply Nat.le_max_l]. apply max_list_elem_of_le.
      cbn [TagGroup.tag_customers]. rewrite <- list_fmap_compose.
      apply list_elem_of_fmap. exists (cid, e). split; [|done].
      cbn [compose fst snd]. by rewrite SchemaGeneratorV2_normalize_entry.
    + rewrite SchemaGeneratorV2_required. apply Nat.le_max_r.
    + unfold norm, SchemaGeneratorV2.normalize_string_mapping.
      cbn [TagGroup.tag_customers TagGroup.tag_metadata TagGroup.max_keys_per_customer].
      f_equal. rewrite <- list_fmap_compose. apply list_fmap_ext.
      intros _ [cid e] _. cbn [compose fst snd]. f_equal.
      apply SchemaGeneratorV2_normalize_entry_id.
      * rewrite SchemaGeneratorV2_normalize_entry. apply dedupe_NoDup.
      * by rewrite SchemaGeneratorV2_normalize_entry.
  - intros clock src c2k run_dates Hwf doc.
    assert (Hnorm : SchemaGeneratorV2.normalize_string_mapping doc = doc).
    { unfold SchemaGeneratorV2.normalize_string_mapping.
      destruct doc as [m mk cs] eqn:Hdoc.
      cbn [TagGroup.tag_customers TagGroup.tag_metadata TagGroup.max_keys_per_customer].
      f_equal.
      assert (Hcs : cs = TagGroup.tag_customers doc) by by rewrite Hdoc.
      rewrite Hcs. unfold doc. rewrite TagGroup_customers_list by done.
      rewrite <- list_fmap_compose. apply list_fmap_ext.
      intros _ [cid ks] _. cbn [compose fst snd]. f_equal.
      apply SchemaGeneratorV2_normalize_entry_id; cbn [TagGroup.keys TagGroup.key_count].
      - apply sorted_set_NoDup.
      - by rewrite sorted_set_length. }
    split; [done|].
    rewrite SchemaGeneratorV2_required. unfold doc.
    rewrite TagGroup_customers_list by done.
    unfold TagGroup.build_nested_mapping. rewrite TagGroup_mapping_foldl.
    cbn [TagGroup.max_keys_per_customer]. rewrite <- list_fmap_compose.
    rewrite Nat.max_0_l. apply Nat.max_id.
Qed.

Lemma column_prefix_no_space (prefix : string) (i : nat) :
  32%N ∉ U prefix → 32%N ∉ column prefix i.
Proof.
  intros Hp. unfold column, str_app. intros Hin.
  apply elem_of_app in Hin as [Hin|Hin]; [done|].
  by apply str_of_nat_no_space in Hin.
Qed.

Lemma first_word_column (prefix : string) (i : nat) (rest : str) :
  32%N ∉ U prefix → first_word (column prefix i ++ 32%N :: rest) = column prefix i.
Proof. intros Hp. by apply first_word_app, column_prefix_no_space. Qed.

Lemma foldl_snoc_fmap {A B} (f : A → B) (l : list A) (acc : list B) :
  foldl (λ acc x, acc ++ [f x]) acc l = acc ++ (f <$> l).
Proof.
  revert acc. induction l as [|x l IH]; intros acc; cbn [foldl fmap list_fmap].
  - by rewrite app_nil_r.
  - rewrite IH. by rewrite <- app_assoc.
Qed.

Lemma column_int_string (i j : nat) : column "int" i ≠ column "string" j.
Proof. unfold column. intros Heq. by injection Heq. Qed.

Lemma column_float_string (i j : nat) : column "float" i ≠ column "string" j.
Proof. unfold column. intros Heq. by injection Heq. Qed.

(** The column names of the statement of [SchemaGeneratorV2]. *)
Lemma SchemaGeneratorV2_column_names (self : SchemaGeneratorV2.generator) :
  first_word <$> SchemaGeneratorV2.cols self =
  (first_word <$> SchemaGeneratorV2.standard_cols) ++
  (column "int" <$> seq 1 (SchemaGeneratorV2.self_int_columns self)) ++
  (column "float" <$> seq 1 (SchemaGeneratorV2.self_float_columns self)) ++
  (column "string" <$> seq 1 (SchemaGeneratorV2.self_string_columns self)).
Proof.
  assert (Hnames : ∀ (prefix : string) (rest : str) (n : nat),
            32%N ∉ U prefix →
            first_word <$> ((λ i, column prefix i ++ 32%N :: rest) <$> seq 1 n)
            = column prefix <$> seq 1 n).
  { intros prefix rest n Hp. rewrite <- list_fmap_compose. apply list_fmap_ext.
    intros _ i _. cbn [compose]. by apply first_word_column. }
  assert (Hno : ∀ prefix : string,
            prefix = "int"%string ∨ prefix = "float"%string ∨ prefix = "string"%string →
            32%N ∉ U prefix).
  { intros prefix [-> | [-> | ->]]; by apply (bool_decide_unpack _). }
  unfold SchemaGeneratorV2.cols. cbv zeta. rewrite !foldl_snoc_fmap.
  case_decide as Hs.
  - rewrite !fmap_app, <- !app_assoc.
    f_equal. f_equal; [|f_equal].
    + apply (Hnames "int"%string (U "Int32 DEFAULT 0 CODEC(ZSTD(1))")). apply Hno. auto.
    + apply (Hnames "float"%string (U "Float32 DEFAULT 0 CODEC(ZSTD(1))")). apply Hno. auto.
    + apply (Hnames "string"%string
               ((if SchemaGeneratorV2.self_use_lc self
                 then U "LowCardinality(String)" else U "String")
                ++ U " DEFAULT '' CODEC(ZSTD(1))")).
      apply Hno. auto.
  - replace (SchemaGeneratorV2.self_string_columns self) with 0 by lia.
    cbn [seq fmap list_fmap]. rewrite !fmap_app, app_nil_r, <- !app_assoc.
    f_equal. f_equal.
    + apply (Hnames "int"%string (U "Int32 DEFAULT 0 CODEC(ZSTD(1))")). apply Hno. auto.
    + apply (Hnames "float"%string (U "Float32 DEFAULT 0 CODEC(ZSTD(1))")). apply Hno. auto.
Qed.

(** X20. The [CREATE TABLE] statement of [SchemaGeneratorV2] defines no
    column twice; it has 45 metadata columns, the int and float columns of
    the numeric mapping and the string columns computed from the string
    mapping (none without one); every column the transformer fills for the
    numeric mapping is among them. *)
Theorem v2_table_columns (numeric : mapping_document)
    (string_mapping : option TagGroup.tag_document) (target_table : str)
    (use_lc : bool) (export_path : option str) :
  let self := SchemaGeneratorV2.__init__ numeric string_mapping target_table
                use_lc export_path in
  NoDup (first_word <$> SchemaGeneratorV2.cols self) ∧
  length (SchemaGeneratorV2.cols self)
    = 45 + max_int_columns numeric + max_float_columns numeric
      + SchemaGeneratorV2.self_string_columns self ∧
  (∀ c : str, c ∈ target_columns numeric → c ∈ first_word <$> SchemaGeneratorV2.cols self) ∧
  (∀ i : nat, 1 ≤ i ≤ SchemaGeneratorV2.self_string_columns self →
     column "string" i ∈ first_word <$> SchemaGeneratorV2.cols self) ∧
  (string_mapping = None → SchemaGeneratorV2.self_string_columns self = 0).
Proof.
  intros self. rewrite SchemaGeneratorV2_column_names.
  assert (Hstd : Forall (λ name : str, take 3 name ≠ U "int" ∧ take 5 name ≠ U "float"
                                       ∧ take 6 name ≠ U "string")
                   (first_word <$> SchemaGeneratorV2.standard_cols)).
  { apply (bool_decide_unpack _). by vm_compute. }
  rewrite Forall_forall in Hstd.
  split_and!.
  - apply NoDup_app. split_and!.
    + apply (bool_decide_unpack _). by vm_compute.
    + intros name Hin Hc. destruct (Hstd _ Hin) as (H3 & H5 & H6).
      rewrite !elem_of_app in Hc.
      destruct Hc as [Hc|[Hc|Hc]]; apply list_elem_of_fmap in Hc as (i & -> & _).
      * by apply H3.
      * by apply H5.
      * by apply H6.
    + apply NoDup_app. split_and!.
      * apply NoDup_fmap_2; [apply column_inj | apply NoDup_seq].
      * intros c Hi Hc. apply list_elem_of_fmap in Hi as (i & -> & _).
        apply elem_of_app in Hc as [Hc|Hc]; apply list_elem_of_fmap in Hc as (j & Heq & _).
        -- by apply column_int_float in Heq.
        -- by apply column_int_string in Heq.
      * apply NoDup_app. split_and!.
        -- apply NoDup_fmap_2; [apply column_inj | apply NoDup_seq].
        -- intros c Hi Hc. apply list_elem_of_fmap in Hi as (i & -> & _).
           apply list_elem_of_fmap in Hc as (j & Heq & _).
           by apply column_float_string in Heq.
        -- apply NoDup_fmap_2; [apply column_inj | apply NoDup_seq].
  - rewrite <- (length_fmap first_word), SchemaGeneratorV2_column_names.
    rewrite !length_app, !length_fmap, !length_seq.
    unfold SchemaGeneratorV2.standard_cols. cbn [length]. unfold self.
    cbn [SchemaGeneratorV2.__init__ SchemaGeneratorV2.self_int_columns
         SchemaGeneratorV2.self_float_columns]. lia.
  - intros c Hc. unfold target_columns in Hc. rewrite !elem_of_app in Hc.
    rewrite !elem_of_app. destruct Hc as [Hc|[Hc|Hc]].
    + left.
      assert (Hsub : Forall (λ x, x ∈ first_word <$> SchemaGeneratorV2.standard_cols)
                       Transformer.METADATA_COLUMNS)
        by (apply (bool_decide_unpack _); by vm_compute).
      rewrite Forall_forall in Hsub. by apply Hsub.
    + right; left. exact Hc.
    + right; right; left. exact Hc.
  - intros i Hi. rewrite !elem_of_app. do 3 right.
    apply list_elem_of_fmap. exists i. split; [done|]. apply elem_of_seq. lia.
  - by intros ->.
Qed.

(** X19. The exported string mapping fits the table. With a string
    mapping whose customers are named once and a writable export path,
    [build_and_export_string_mapping] writes to that path a document with
    the same customers, in which every customer has its keys without
    repetition, their number in [string_columns], the [N]th key mapped to
    [string<N>] and back, at most [max_string_columns] columns, and no
    column that the [CREATE TABLE] statement of the same generator does not
    define. *)
Theorem string_export_fits_table `{FileSystem} (numeric : mapping_document)
    (raw : TagGroup.tag_document) (target_table : str) (use_lc : bool)
    (export_path : str) :
  dict_wf (TagGroup.tag_customers raw) →
  truthy export_path = true →
  fs_writable export_path = true →
  let self := SchemaGeneratorV2.__init__ numeric (Some raw) target_table use_lc
                (Some export_path) in
  ∃ out : SchemaGeneratorV2.string_export,
    SchemaGeneratorV2.build_and_export_string_mapping self
      = Ok (Some (export_path, out)) ∧
    SchemaGeneratorV2.max_string_columns out
      = SchemaGeneratorV2.self_string_columns self ∧
    (SchemaGeneratorV2.export_customers out).*1 = (TagGroup.tag_customers raw).*1 ∧
    ∀ (cid : str) (entry : TagGroup.customer_keys),
      dict_get cid (TagGroup.tag_customers raw) = Some entry →
      ∃ se : SchemaGeneratorV2.string_entry,
        dict_get cid (SchemaGeneratorV2.export_customers out) = Some se ∧
        NoDup (SchemaGeneratorV2.string_keys se) ∧
        (∀ k : str, k ∈ SchemaGeneratorV2.string_keys se ↔ k ∈ TagGroup.keys entry) ∧
        SchemaGeneratorV2.string_columns se
          = length (SchemaGeneratorV2.string_keys se) ∧
        SchemaGeneratorV2.string_columns se
          ≤ SchemaGeneratorV2.max_string_columns out ∧
        (∀ k c : str,
           dict_get k (SchemaGeneratorV2.string_mapping se) = Some c ↔
           ∃ n, SchemaGeneratorV2.string_keys se !! n = Some k ∧
                c = column "string" (S n)) ∧
        (∀ k c : str,
           dict_get c (SchemaGeneratorV2.reverse_string_mapping se) = Some k ↔
           dict_get k (SchemaGeneratorV2.string_mapping se) = Some c) ∧
        (∀ k c : str,
           dict_get k (SchemaGeneratorV2.string_mapping se) = Some c →
           c ∈ first_word <$> SchemaGeneratorV2.cols self).
Proof.
  intros Hwf Htruthy Hfs self.
  set (norm := SchemaGeneratorV2.normalize_string_mapping raw).
  assert (Hcols : SchemaGeneratorV2.self_string_columns self
                  = SchemaGeneratorV2.compute_required_string_columns (Some norm))
    by done.
  assert (Hblock :
    foldl (λ (customers : dict str SchemaGeneratorV2.string_entry)
             (it : str * TagGroup.customer_keys),
             dict_set it.1 (SchemaGeneratorV2.export_entry it.2) customers)
          [] (TagGroup.tag_customers norm)
    = (λ it : str * TagGroup.customer_keys,
         (it.1, SchemaGeneratorV2.export_entry (SchemaGeneratorV2.normalize_entry it.2)))
        <$> TagGroup.tag_customers raw).
  { transitivity (dict_of_items
                    ((λ it : str * TagGroup.customer_keys,
                        (it.1, SchemaGeneratorV2.export_entry it.2))
                       <$> TagGroup.tag_customers norm)).
    { unfold dict_of_items. by rewrite foldl_fmap. }
    rewrite dict_of_items_NoDup.
    - unfold norm, SchemaGeneratorV2.normalize_string_mapping.
      cbn [TagGroup.tag_customers]. rewrite <- list_fmap_compose.
      by apply list_fmap_ext.
    - rewrite fmap_values_keys. unfold norm, SchemaGeneratorV2.normalize_string_mapping.
      cbn [TagGroup.tag_customers]. by rewrite fmap_values_keys. }
  eexists. split_and!.
  - unfold SchemaGeneratorV2.build_and_export_string_mapping, self.
    cbn [SchemaGeneratorV2.__init__ SchemaGeneratorV2.self_string_norm
         SchemaGeneratorV2.self_export_string_mapping_path fmap option_fmap option_map].
    rewrite Htruthy, Hfs. cbn [negb]. reflexivity.
  - done.
  - cbn [SchemaGeneratorV2.export_customers]. fold norm. rewrite Hblock.
    by rewrite <- list_fmap_compose.
  - intros cid entry Hg. cbn [SchemaGeneratorV2.export_customers
                              SchemaGeneratorV2.max_string_columns].
    fold norm. rewrite Hblock.
    rewrite (dict_get_fmap_values
               (λ e, SchemaGeneratorV2.export_entry (SchemaGeneratorV2.normalize_entry e))),
            Hg.
    cbn [fmap option_fmap option_map]. eexists. split; [reflexivity|].
    rewrite SchemaGeneratorV2_export_entry, SchemaGeneratorV2_normalize_entry.
    cbn [TagGroup.keys SchemaGeneratorV2.string_keys SchemaGeneratorV2.string_columns
         SchemaGeneratorV2.string_mapping SchemaGeneratorV2.reverse_string_mapping].
    rewrite (dedupe_id (SchemaGeneratorV2.dedupe_preserve_order (TagGroup.keys entry)))
      by apply dedupe_NoDup.
    set (keys := SchemaGeneratorV2.dedupe_preserve_order (TagGroup.keys entry)).
    assert (Hle : length keys ≤ SchemaGeneratorV2.self_string_columns self).
    { rewrite Hcols, SchemaGeneratorV2_required.
      etrans; [|apply Nat.le_max_l]. apply max_list_elem_of_le.
      apply list_elem_of_fmap. exists (cid, SchemaGeneratorV2.normalize_entry entry).
      split; [by rewrite SchemaGeneratorV2_normalize_entry|].
      unfold norm, SchemaGeneratorV2.normalize_string_mapping.
      cbn [TagGroup.tag_customers]. apply list_elem_of_fmap.
      exists (cid, entry). split; [done|]. by apply dict_get_Some_elem_of. }
    split_and!.
    + apply dedupe_NoDup.
    + apply dedupe_elem_of.
    + done.
    + done.
    + intros k c. apply items_of_get_NoDup, dedupe_NoDup.
    + intros k c. rewrite swap_items_get, items_of_get_NoDup; [done|apply dedupe_NoDup].
    + intros k c (n & Hn & ->)%items_of_get_NoDup; [|apply dedupe_NoDup].
      rewrite SchemaGeneratorV2_column_names, !elem_of_app. do 3 right.
      apply list_elem_of_fmap. exists (S n). split; [done|]. apply elem_of_seq.
      apply lookup_lt_Some in Hn. lia.
Qed.

Lemma string_export_fits_table_witness :
  ∃ out : SchemaGeneratorV2.string_export,
    @SchemaGeneratorV2.build_and_export_string_mapping example_fs
      (SchemaGeneratorV2.__init__
         (@Mt.build_nested_mapping example_clock example_order (U "t") example_customer_to_keys [])
         (Some example_tag_document) (U "default.target") false
         (Some (U "out/strings.json")))
      = Ok (Some (U "out/strings.json", out)) ∧
    SchemaGeneratorV2.max_string_columns out = 2.
Proof.
  destruct (@string_export_fits_table example_fs
              (@Mt.build_nested_mapping example_clock example_order (U "t") example_customer_to_keys [])
              example_tag_document (U "default.target") false (U "out/strings.json"))
    as (out & Hout & Hmax & _).
  - vm_compute; repeat constructor; set_solver.
  - reflexivity.
  - reflexivity.
  - exists out. split; [exact Hout | exact Hmax].
Defined.

(* ------------------------------------------------------------------ *)
(** ** The transformation of a day *)
(* ------------------------------------------------------------------ *)

Lemma for_each_length {A B} (f : A → outcome B) (xs : list A) (ys : list B) :
  for_each f xs = Returns ys → length ys = length xs.
Proof.
  revert ys. induction xs as [|x xs IH]; intros ys; cbn [for_each].
  - by intros [= <-].
  - destruct (f x) as [y|]; cbn [and_then]; [|done].
    destruct (for_each f xs) as [ys'|]; cbn [and_then]; [|done].
    intros [= <-]. cbn [length]. by rewrite (IH ys').
Qed.

Lemma Transformer_transform_chunk_length `{Repr} (mapping : mapping_document)
    (source_rows : list (list Transformer.value))
    (out : list (dict str Transformer.value)) :
  Transformer._transform_chunk mapping source_rows = Returns out →
  length out = length source_rows.
Proof.
  unfold Transformer._transform_chunk. destruct source_rows as [|first rest].
  - by intros [= <-].
  - destruct (Transformer.index first 3) as [customer_id|]; cbn [and_then]; [|done].
    destruct (dict_get _ _) as [customer_mapping|]; [|done].
    apply for_each_length.
Qed.

Lemma Transformer_insert_batch_length
    (transformed_data : list (dict str Transformer.value))
    (handed : option (list str * list (list Transformer.value))) :
  Transformer._insert_batch transformed_data = Returns handed →
  match handed with
  | Some (columns, values_data) => length values_data = length transformed_data
  | None => transformed_data = []
  end.
Proof.
  unfold Transformer._insert_batch. destruct transformed_data as [|first rest].
  - by intros [= <-].
  - destruct (for_each _ (first :: rest)) as [values_data|] eqn:Hv; cbn [and_then];
      [|done].
    intros [= <-]. by apply for_each_length in Hv.
Qed.

Lemma table_rows_snoc (t : Transformer.table) (columns : list str)
    (values_data : list (list Transformer.value)) :
  table_rows (t ++ [(columns, values_data)]) = table_rows t + length values_data.
Proof.
  unfold table_rows. rewrite fmap_app, sum_list_with_app. simpl. lia.
Qed.

(** One chunk: what it adds to the table it adds to [target_rows_inserted];
    the aggregated rows it counts it counts as source rows too. *)
Lemma Transformer_process_chunk_spec `{Repr, Transformer.Warehouse}
    (mapping : mapping_document) (fixed_date : str) (customer : Z)
    (chunks_per_hour : nat) (st st' : Transformer.stats)
    (target target' : Transformer.table) (chunk_idx : nat)
    (stopped : option Transformer.caught) :
  Transformer.process_chunk mapping fixed_date customer chunks_per_hour
    st target chunk_idx = (st', target', stopped) →
  target `prefix_of` target' ∧
  table_rows target' + Transformer.target_rows_inserted st
    = table_rows target + Transformer.target_rows_inserted st' ∧
  Transformer.source_rows_processed st' + Transformer.agg_rows_after_agg st
    = Transformer.source_rows_processed st + Transformer.agg_rows_after_agg st' ∧
  Transformer.target_rows_inserted st' + Transformer.source_rows_processed st
    ≤ Transformer.source_rows_processed st' + Transformer.target_rows_inserted st ∧
  Transformer.chunks_processed st' ≤ Transformer.chunks_processed st + 1 ∧
  Transformer.errors st' = Transformer.errors st ∧
  Transformer.compression_factor_overall st'
    = Transformer.compression_factor_overall st ∧
  (stopped = None →
   Transformer.target_rows_inserted st' + Transformer.source_rows_processed st
     = Transformer.source_rows_processed st' + Transformer.target_rows_inserted st).
Proof.
  unfold Transformer.process_chunk.
  destruct (Transformer.chunk_window fixed_date chunks_per_hour chunk_idx)
    as [start end_].
  destruct (Transformer.count_chunk_raw_rows start end_ customer) as [raw_count|e].
  2:{ intros [= <- <- <-]. split_and!; try done; lia. }
  destruct (Transformer.fetch_chunk_aggregated start end_ customer)
    as [chunk_rows|e].
  2:{ intros [= <- <- <-]. split_and!; try done; lia. }
  destruct chunk_rows as [|row chunk_rows].
  { intros [= <- <- <-]. cbn. split_and!; try done; lia. }
  destruct (Transformer._transform_chunk mapping (row :: chunk_rows))
    as [transformed_data|f] eqn:Ht.
  2:{ intros [= <- <- <-]. cbn. split_and!; try done; lia. }
  apply Transformer_transform_chunk_length in Ht.
  destruct transformed_data as [|r transformed_data]; [discriminate Ht|].
  destruct (Transformer._insert_batch (r :: transformed_data)) as [handed|f] eqn:Hi.
  2:{ intros [= <- <- <-]. cbn. split_and!; try done; lia. }
  apply Transformer_insert_batch_length in Hi.
  destruct handed as [[columns values_data]|]; [|discriminate Hi].
  destruct (Transformer.insert_ok columns values_data).
  - intros [= <- <- <-]. cbn in *. rewrite table_rows_snoc.
    split_and!; try done; try lia. by apply prefix_app_r.
  - intros [= <- <- <-]. cbn in *. split_and!; try done; lia.
Qed.

Lemma Transformer_chunks_loop_spec `{Repr, Transformer.Warehouse}
    (mapping : mapping_document) (fixed_date : str) (customer : Z)
    (chunks_per_hour : nat) (chunk_idxs : list nat) (st st' : Transformer.stats)
    (target target' : Transformer.table) (stopped : option Transformer.caught) :
  Transformer.chunks_loop mapping fixed_date customer chunks_per_hour
    chunk_idxs st target = (st', target', stopped) →
  target `prefix_of` target' ∧
  table_rows target' + Transformer.target_rows_inserted st
    = table_rows target + Transformer.target_rows_inserted st' ∧
  Transformer.source_rows_processed st' + Transformer.agg_rows_after_agg st
    = Transformer.source_rows_processed st + Transformer.agg_rows_after_agg st' ∧
  Transformer.target_rows_inserted st' + Transformer.source_rows_processed st
    ≤ Transformer.source_rows_processed st' + Transformer.target_rows_inserted st ∧
  Transformer.chunks_processed st'
    ≤ Transformer.chunks_processed st + length chunk_idxs ∧
  Transformer.errors st' = Transformer.errors st ∧
  Transformer.compression_factor_overall st'
    = Transformer.compression_factor_overall st ∧
  (stopped = None →
   Transformer.target_rows_inserted st' + Transformer.source_rows_processed st
     = Transformer.source_rows_processed st' + Transformer.target_rows_inserted st).
Proof.
  revert st target.
  induction chunk_idxs as [|chunk_idx rest IH]; intros st target;
    cbn [Transformer.chunks_loop length].
  - intros [= <- <- <-]. split_and!; try done; lia.
  - destruct (Transformer.process_chunk mapping fixed_date customer chunks_per_hour
                st target chunk_idx) as [[st1 target1] stopped1] eqn:Hstep.
    apply Transformer_process_chunk_spec in Hstep
      as (Hp1 & Hr1 & Hs1 & Hi1 & Hc1 & He1 & Hf1 & Hn1).
    destruct stopped1 as [e|].
    + intros [= <- <- <-]. split_and!; try done; lia.
    + intros Hrest.
      apply IH in Hrest as (Hp2 & Hr2 & Hs2 & Hi2 & Hc2 & He2 & Hf2 & Hn2).
      specialize (Hn1 eq_refl).
      split_and!; try lia.
      * by etrans.
      * congruence.
      * congruence.
      * intros Hnone. specialize (Hn2 Hnone). lia.
Qed.

(** X21. The accounting of [transform_day_data]. It raises only when the
    table is to be truncated and [TRUNCATE] fails; otherwise it returns,
    whatever happens in the chunks, and then: the rows that were in the
    target table (none after a truncation) are still there, followed by
    exactly [target_rows_inserted] new rows; [source_rows_processed] equals
    [agg_rows_after_agg]; no more rows were inserted than processed, and as
    many when no error was recorded; at most one error is recorded, the one
    that ended the loop; no more chunks are counted than the day has from
    the start chunk on; and the compression factor is the quotient of the
    two row counts when there are aggregated rows. *)
Theorem transform_day_accounting `{Repr, Transformer.Warehouse}
    (mapping : mapping_document) (now_start now_end fixed_date : str) (customer : Z)
    (truncate_target : bool) (start_chunk : nat) (target : Transformer.table) :
  (truncate_target = true → Transformer.truncate_ok = false →
   Transformer.transform_day_data mapping now_start now_end fixed_date customer
     truncate_target start_chunk target = Raise QueryFailed) ∧
  (truncate_target = false ∨ Transformer.truncate_ok = true →
   ∃ (st : Transformer.stats) (target' : Transformer.table),
     Transformer.transform_day_data mapping now_start now_end fixed_date customer
       truncate_target start_chunk target = Ok (st, target') ∧
     (if truncate_target then [] else target) `prefix_of` target' ∧
     table_rows target'
       = table_rows (if truncate_target then [] else target)
         + Transformer.target_rows_inserted st ∧
     Transformer.source_rows_processed st = Transformer.agg_rows_after_agg st ∧
     Transformer.target_rows_inserted st ≤ Transformer.source_rows_processed st ∧
     Transformer.chunks_processed st ≤ 1440 - start_chunk ∧
     length (Transformer.errors st) ≤ 1 ∧
     (Transformer.errors st = [] →
      Transformer.target_rows_inserted st = Transformer.source_rows_processed st) ∧
     Transformer.compression_factor_overall st
       = (if decide (0 < Transformer.agg_rows_after_agg st)
          then Some (Transformer.raw_rows_before_agg st,
                     Transformer.agg_rows_after_agg st)
          else None)).
Proof.
  unfold Transformer.transform_day_data. split.
  - by intros -> ->.
  - intros Hok.
    set (base := if truncate_target then [] else target).
    assert (Hbase : (if truncate_target
                     then (if Transformer.truncate_ok then Ok [] else Raise QueryFailed)
                     else Ok target) = Ok base).
    { unfold base. destruct truncate_target; [|done].
      destruct Hok as [?| ->]; done. }
    rewrite Hbase. cbn [bind]. cbv zeta.
    change (60 `div` Transformer.CHUNK_MINUTES) with 60.
    change (24 * 60) with 1440.
    destruct (Transformer.chunks_loop mapping fixed_date customer 60
                (seq start_chunk (1440 - start_chunk)) _ base)
      as [[st target'] stopped] eqn:Hloop.
    apply Transformer_chunks_loop_spec in Hloop
      as (Hp & Hr & Hs & Hi & Hc & He & Hf & Hn).
    cbn [Transformer.source_rows_processed Transformer.target_rows_inserted
         Transformer.agg_rows_after_agg Transformer.chunks_processed
         Transformer.errors Transformer.compression_factor_overall] in *.
    rewrite length_seq in Hc.
    eexists _, _. split; [reflexivity|].
    cbn [Transformer.source_rows_processed Transformer.target_rows_inserted
         Transformer.agg_rows_after_agg Transformer.chunks_processed
         Transformer.errors Transformer.compression_factor_overall
         Transformer.raw_rows_before_agg].
    subst base. split_and!.
    + exact Hp.
    + rewrite Nat.add_0_r in Hr. exact Hr.
    + lia.
    + lia.
    + lia.
    + rewrite He. destruct stopped; cbn [length app]; lia.
    + rewrite He. destruct stopped; [done|]. intros _. specialize (Hn eq_refl). lia.
    + by rewrite Hf.
Qed.

Lemma transform_day_accounting_witness :
  ∃ (st : Transformer.stats) (target' : Transformer.table),
    @Transformer.transform_day_data example_repr example_warehouse
      (@Mt.build_nested_mapping example_clock example_order (U "t") example_customer_to_keys [])
      (U "2025-10-09T00:00:00") (U "2025-10-09T00:10:00") (U "2025-10-08") 7
      true 0 [] = Ok (st, target') ∧
    Transformer.target_rows_inserted st ≤ Transformer.source_rows_processed st.
Proof.
  destruct (proj2 (@transform_day_accounting example_repr example_warehouse
                     (@Mt.build_nested_mapping example_clock example_order (U "t")
                        example_customer_to_keys [])
                     (U "2025-10-09T00:00:00") (U "2025-10-09T00:10:00")
                     (U "2025-10-08") 7 true 0 [])
              (or_intror eq_refl))
    as (st & target' & Hrun & _ & _ & _ & Hle & _).
  exists st, target'. split; [exact Hrun | exact Hle].
Defined.

(** A chunk the warehouse answers cleanly is transformed and inserted. *)
Lemma Transformer_clean_chunk `{Clock, Repr, Transformer.Warehouse, SetOrder} (src : str)
    (c2k : dict Z (gset str * gset str)) (run_dates : list str)
    (fixed_date : str) (customer : Z) (st : Transformer.stats)
    (target : Transformer.table) (chunk_idx : nat) :
  dict_wf c2k →
  (∀ columns values_data, Transformer.insert_ok columns values_data = true) →
  clean_chunk c2k fixed_date customer chunk_idx →
  ∃ (st' : Transformer.stats) (new : Transformer.table),
    Transformer.process_chunk (Mt.build_nested_mapping src c2k run_dates)
      fixed_date customer 60 st target chunk_idx = (st', target ++ new, None) ∧
    Forall (batch_fits (Mt.build_nested_mapping src c2k run_dates)) new.
Proof.
  intros Hwf Hins (raw_count & chunk_rows & Hcount & Hfetch & Hrows & Hfirst).
  unfold Transformer.process_chunk.
  destruct (Transformer.chunk_window fixed_date 60 chunk_idx) as [start end_].
  cbn [fst snd] in Hcount, Hfetch. rewrite Hcount, Hfetch.
  destruct chunk_rows as [|first rest].
  { eexists _, []. rewrite app_nil_r. split; [reflexivity | constructor]. }
  destruct (Hfirst first eq_refl) as (cid & H3 & [[I F] Hg]).
  destruct (Transformer_chunk_spec src c2k run_dates cid I F first rest)
    as (out & -> & Hout); [done..|].
  assert (Hcols : Forall (λ r : dict str Transformer.value,
                    r.*1 = target_columns (Mt.build_nested_mapping src c2k run_dates))
                    out).
  { apply Forall_forall. intros r Hr. apply list_elem_of_lookup in Hr as [n Hn].
    destruct (Forall2_lookup_r _ _ _ _ _ Hout Hn) as (row & _ & Hrow & _).
    exact Hrow. }
  destruct out as [|r out]; [by apply Forall2_length in Hout|].
  rewrite (Transformer_insert_batch _ r out (target_columns_NoDup _) Hcols).
  rewrite Hins. eexists _, [_]. split; [reflexivity|].
  constructor; [|constructor]. split; [done|]. cbn [snd].
  apply Forall_fmap. eapply Forall_impl; [exact Hcols|].
  intros r' Hr'. cbn [compose].
  by rewrite length_fmap, <- (length_fmap fst r'), Hr'.
Qed.

Lemma Transformer_clean_loop `{Clock, Repr, Transformer.Warehouse, SetOrder} (src : str)
    (c2k : dict Z (gset str * gset str)) (run_dates : list str)
    (fixed_date : str) (customer : Z) (chunk_idxs : list nat)
    (st : Transformer.stats) (target : Transformer.table) :
  dict_wf c2k →
  (∀ columns values_data, Transformer.insert_ok columns values_data = true) →
  (∀ chunk_idx, chunk_idx ∈ chunk_idxs → clean_chunk c2k fixed_date customer chunk_idx) →
  ∃ (st' : Transformer.stats) (new : Transformer.table),
    Transformer.chunks_loop (Mt.build_nested_mapping src c2k run_dates)
      fixed_date customer 60 chunk_idxs st target = (st', target ++ new, None) ∧
    Forall (batch_fits (Mt.build_nested_mapping src c2k run_dates)) new.
Proof.
  intros Hwf Hins. revert st target.
  induction chunk_idxs as [|chunk_idx rest IH]; intros st target Hclean;
    cbn [Transformer.chunks_loop].
  - eexists _, []. rewrite app_nil_r. split; [reflexivity | constructor].
  - destruct (Transformer_clean_chunk src c2k run_dates fixed_date customer
                st target chunk_idx Hwf Hins) as (st1 & new1 & -> & Hnew1).
    { apply Hclean. by left. }
    destruct (IH st1 (target ++ new1)) as (st2 & new2 & -> & Hnew2).
    { intros idx Hidx. apply Hclean. by right. }
    exists st2, (new1 ++ new2). rewrite app_assoc. split; [done|].
    by apply Forall_app.
Qed.

(** X22. A clean day is transformed completely. With a document
    [build_nested_mapping] built, a warehouse that answers both queries of
    every chunk from the start chunk on with well-shaped rows of customers
    of the document, and inserts that succeed, [transform_day_data] records
    no error, and appends to the target table batches that all name the
    columns of the target table, with one value per column in every row and
    as many rows in all as the aggregation queries returned. *)
Theorem clean_day_is_transformed_completely
    `{Clock, Repr, Transformer.Warehouse, SetOrder} (src : str)
    (c2k : dict Z (gset str * gset str)) (run_dates : list str)
    (now_start now_end fixed_date : str) (customer : Z)
    (truncate_target : bool) (start_chunk : nat) (target : Transformer.table) :
  dict_wf c2k →
  truncate_target = false ∨ Transformer.truncate_ok = true →
  (∀ columns values_data, Transformer.insert_ok columns values_data = true) →
  (∀ chunk_idx, start_chunk ≤ chunk_idx < 1440 →
     clean_chunk c2k fixed_date customer chunk_idx) →
  let doc := Mt.build_nested_mapping src c2k run_dates in
  ∃ (st : Transformer.stats) (new : Transformer.table),
    Transformer.transform_day_data doc now_start now_end fixed_date customer
      truncate_target start_chunk target
      = Ok (st, (if truncate_target then [] else target) ++ new) ∧
    Transformer.errors st = [] ∧
    Forall (batch_fits doc) new ∧
    table_rows new = Transformer.agg_rows_after_agg st ∧
    Transformer.target_rows_inserted st = Transformer.agg_rows_after_agg st ∧
    Transformer.source_rows_processed st = Transformer.agg_rows_after_agg st.
Proof.
  intros Hwf Hok Hins Hclean doc.
  unfold Transformer.transform_day_data.
  set (base := if truncate_target then [] else target).
  assert (Hbase : (if truncate_target
                   then (if Transformer.truncate_ok then Ok [] else Raise QueryFailed)
                   else Ok target) = Ok base).
  { unfold base. destruct truncate_target; [|done].
    destruct Hok as [?| ->]; done. }
  rewrite Hbase. cbn [bind]. cbv zeta.
  change (60 `div` Transformer.CHUNK_MINUTES) with 60.
  change (24 * 60) with 1440.
  match goal with
  | |- context [Transformer.chunks_loop doc fixed_date customer 60 ?idxs ?st0 base] =>
      destruct (Transformer_clean_loop src c2k run_dates fixed_date customer
                  idxs st0 base Hwf Hins) as (st & new & Hloop & Hnew)
  end.
  { intros idx Hidx. apply Hclean. apply elem_of_seq in Hidx. lia. }
  fold doc in Hloop, Hnew. rewrite Hloop.
  pose proof (Transformer_chunks_loop_spec _ _ _ _ _ _ _ _ _ _ Hloop)
    as (_ & Hr & Hs & _ & _ & He & _ & Hn).
  specialize (Hn eq_refl).
  cbn [Transformer.source_rows_processed Transformer.target_rows_inserted
       Transformer.agg_rows_after_agg Transformer.errors] in *.
  assert (Hrows : table_rows (base ++ new) = table_rows base + table_rows new).
  { unfold table_rows. by rewrite fmap_app, sum_list_with_app. }
  eexists _, new. split; [reflexivity|].
  cbn [Transformer.source_rows_processed Transformer.target_rows_inserted
       Transformer.agg_rows_after_agg Transformer.errors].
  split_and!; [done | done | lia | lia | lia].
Qed.

Lemma clean_day_is_transformed_completely_witness :
  ∃ (st : Transformer.stats) (new : Transformer.table),
    @Transformer.transform_day_data example_repr example_warehouse
      (@Mt.build_nested_mapping example_clock example_order (U "t") example_customer_to_keys [])
      (U "2025-10-09T00:00:00") (U "2025-10-09T00:10:00") (U "2025-10-08") 7
      true 0 [] = Ok (st, new) ∧
    Transformer.errors st = [].
Proof.
  destruct (@clean_day_is_transformed_completely example_clock example_repr
              example_warehouse example_order (U "t") example_customer_to_keys []
              (U "2025-10-09T00:00:00") (U "2025-10-09T00:10:00") (U "2025-10-08") 7
              true 0 [])
    as (st & new & Hrun & Herr & _).
  - vm_compute; repeat constructor; set_solver.
  - right. reflexivity.
  - intros columns values_data. reflexivity.
  - intros chunk_idx _. exists 3, [example_source_row].
    split; [reflexivity|]. split; [reflexivity|].
    split; [repeat constructor; simpl; lia|].
    intros first [= <-]. exists 7%Z. split; [reflexivity|]. by eexists.
  - exists st, new. split; [exact Hrun | exact Herr].
Defined.

(* ------------------------------------------------------------------ *)
(** ** The views *)
(* ------------------------------------------------------------------ *)

Lemma sorted_sorted_set `{SetOrder} (s : gset str) : sorted (sorted_set s) = sorted_set s.
Proof. unfold sorted_set. apply sorted_perm_eq, sorted_Permutation. Qed.

(** A loop of [generate_view_ddl] over keys that are all mapped, the key at
    position [n] to the column [off + n + 1]. *)
Lemma ViewGeneration_loop (kind prefix : string) (mapping : dict str str)
    (keys : list str) (off : nat)
    (st : list str * list ViewGeneration.column_mapping) :
  (∀ (n : nat) (k : str), keys !! n = Some k →
     dict_get k mapping = Some (column prefix (S (off + n)))) →
  foldl (λ (st : list str * list ViewGeneration.column_mapping) (metric_key : str),
           match dict_get metric_key mapping with
           | Some primitive_col =>
               let escaped_name := ViewGeneration.escape_column_name metric_key in
               (st.1 ++ [primitive_col +++ U " AS " +++ escaped_name],
                st.2 ++ [{| ViewGeneration.metric_key := metric_key;
                            ViewGeneration.primitive_column := primitive_col;
                            ViewGeneration.column_type := U kind |}])
           | None => st
           end)
        st keys
  = (st.1 ++ imap (λ n k, column prefix (S (off + n)) +++ U " AS "
                          +++ ViewGeneration.escape_column_name k) keys,
     st.2 ++ imap (λ n k, {| ViewGeneration.metric_key := k;
                             ViewGeneration.primitive_column :=
                               column prefix (S (off + n));
                             ViewGeneration.column_type := U kind |}) keys).
Proof.
  revert off st. induction keys as [|k keys IH]; intros off [defs maps] Hget.
  - cbn [foldl imap fst snd]. by rewrite !app_nil_r.
  - cbn [foldl]. rewrite (Hget 0 k eq_refl). cbv zeta. cbn [fst snd].
    rewrite (IH (S off)).
    2:{ intros n k' Hn. rewrite (Hget (S n) k' Hn). do 2 f_equal. lia. }
    cbn [fst snd imap]. rewrite <- !app_assoc. cbn [app].
    rewrite Nat.add_0_r. f_equal.
    + do 2 f_equal. apply imap_ext. intros n k' _. cbn [compose].
      do 2 f_equal. lia.
    + do 2 f_equal. apply imap_ext. intros n k' _. cbn [compose].
      do 2 f_equal. lia.
Qed.

Lemma ViewGeneration_add_metric_columns `{SetOrder} (kind prefix : string) (s : gset str)
    (st : list str * list ViewGeneration.column_mapping) :
  ViewGeneration.add_metric_columns kind (sorted_set s)
    (items_of prefix (sorted_set s)) st
  = (st.1 ++ imap (λ n k, column prefix (S n) +++ U " AS "
                          +++ ViewGeneration.escape_column_name k) (sorted_set s),
     st.2 ++ imap (λ n k, {| ViewGeneration.metric_key := k;
                             ViewGeneration.primitive_column := column prefix (S n);
                             ViewGeneration.column_type := U kind |}) (sorted_set s)).
Proof.
  unfold ViewGeneration.add_metric_columns. rewrite sorted_sorted_set.
  rewrite (ViewGeneration_loop kind prefix _ _ 0); [done|].
  intros n k Hn. apply items_of_get. eauto.
Qed.

(** X23. The view of a customer reads the metrics back. For a customer of
    a document [build_nested_mapping] built, [generate_view_ddl] lists one
    column mapping per int key and then one per float key, in sorted order,
    the [N]th key of a kind with the column [int<N>] or [float<N>]; each of
    these columns is a column of the target table; and in a row the
    transformer built for that customer, the column of a mapping holds the
    value the source row had for the mapping's key ([0] or [0.0] without
    one). The standard columns the view passes through are the metadata
    columns the transformer fills. *)
Theorem view_reads_back_the_metrics `{Clock, SetOrder} (src : str)
    (c2k : dict Z (gset str * gset str)) (run_dates : list str)
    (cid : Z) (I F : gset str) :
  dict_wf c2k → dict_get cid c2k = Some (I, F) →
  let doc := Mt.build_nested_mapping src c2k run_dates in
  ∃ entry : customer_entry,
    dict_get (str_of_Z cid) (customers doc) = Some entry ∧
    let column_mappings := (ViewGeneration.generate_view_ddl cid entry).2 in
    column_mappings =
      imap (λ n k, {| ViewGeneration.metric_key := k;
                      ViewGeneration.primitive_column := column "int" (S n);
                      ViewGeneration.column_type := U "int" |}) (sorted_set I) ++
      imap (λ n k, {| ViewGeneration.metric_key := k;
                      ViewGeneration.primitive_column := column "float" (S n);
                      ViewGeneration.column_type := U "float" |}) (sorted_set F) ∧
    (∀ m : ViewGeneration.column_mapping, m ∈ column_mappings →
       ViewGeneration.primitive_column m ∈ target_columns doc) ∧
    (∀ (row : list Transformer.value) (r : dict str Transformer.value)
       (m : ViewGeneration.column_mapping),
       row_transformed doc I F row r → m ∈ column_mappings →
       dict_get (ViewGeneration.primitive_column m) r =
       Some (Transformer.VNum
               (if decide (ViewGeneration.column_type m = U "int")
                then default (Transformer.NInt 0)
                       (last_written (ViewGeneration.metric_key m)
                          (group_items (Transformer.slice 43 58 row)))
                else default (Transformer.NFloat (U "0.0"))
                       (last_written (ViewGeneration.metric_key m)
                          (group_items (Transformer.slice 58 73 row)))))) ∧
    ViewGeneration.STANDARD_COLUMNS ≡ₚ Transformer.METADATA_COLUMNS.
Proof.
  intros Hwf Hg doc. exists (Mt.customer_block I F).
  split; [by apply Mt_customers_get|].
  assert (Hmaps : (ViewGeneration.generate_view_ddl cid (Mt.customer_block I F)).2 =
      imap (λ n k, {| ViewGeneration.metric_key := k;
                      ViewGeneration.primitive_column := column "int" (S n);
                      ViewGeneration.column_type := U "int" |}) (sorted_set I) ++
      imap (λ n k, {| ViewGeneration.metric_key := k;
                      ViewGeneration.primitive_column := column "float" (S n);
                      ViewGeneration.column_type := U "float" |}) (sorted_set F)).
  { unfold ViewGeneration.generate_view_ddl. cbv zeta. cbn [snd].
    rewrite Mt_customer_block_eq.
    cbn [int_keys float_keys int_mapping float_mapping].
    by rewrite !ViewGeneration_add_metric_columns. }
  cbv zeta. rewrite Hmaps.
  assert (Hin : ∀ m : ViewGeneration.column_mapping,
            m ∈ imap (λ n k, {| ViewGeneration.metric_key := k;
                                ViewGeneration.primitive_column := column "int" (S n);
                                ViewGeneration.column_type := U "int" |}) (sorted_set I) ++
                imap (λ n k, {| ViewGeneration.metric_key := k;
                                ViewGeneration.primitive_column := column "float" (S n);
                                ViewGeneration.column_type := U "float" |}) (sorted_set F) →
            (∃ n k, sorted_set I !! n = Some k ∧
                    m = {| ViewGeneration.metric_key := k;
                           ViewGeneration.primitive_column := column "int" (S n);
                           ViewGeneration.column_type := U "int" |}) ∨
            (∃ n k, sorted_set F !! n = Some k ∧
                    m = {| ViewGeneration.metric_key := k;
                           ViewGeneration.primitive_column := column "float" (S n);
                           ViewGeneration.column_type := U "float" |})).
  { intros m Hm. apply elem_of_app in Hm as [Hm|Hm];
      apply elem_of_lookup_imap in Hm as (n & k & -> & Hn); eauto. }
  destruct (Mt_document_counts src c2k run_dates cid I F Hg) as [HI HF].
  fold doc in HI, HF.
  split_and!.
  - done.
  - intros m [(n & k & Hn & ->)|(n & k & Hn & ->)]%Hin;
      cbn [ViewGeneration.primitive_column]; unfold target_columns;
      rewrite !elem_of_app; right; apply lookup_lt_Some in Hn;
      rewrite sorted_set_length in Hn.
    + left. apply list_elem_of_fmap. exists (S n). split; [done|].
      apply elem_of_seq. lia.
    + right. apply list_elem_of_fmap. exists (S n). split; [done|].
      apply elem_of_seq. lia.
  - intros row r m (_ & _ & Hint & _ & Hfloat & _)
      [(n & k & Hn & ->)|(n & k & Hn & ->)]%Hin;
      cbn [ViewGeneration.primitive_column ViewGeneration.column_type
           ViewGeneration.metric_key].
    + rewrite decide_True by done. by apply Hint.
    + rewrite decide_False by (intros Heq; apply U_inj in Heq; discriminate Heq).
      by apply Hfloat.
  - apply NoDup_Permutation.
    + apply (bool_decide_unpack _). by vm_compute.
    + apply Transformer_metadata_NoDup.
    + assert (H1 : Forall (λ x, x ∈ Transformer.METADATA_COLUMNS)
                     ViewGeneration.STANDARD_COLUMNS)
        by (apply (bool_decide_unpack _); by vm_compute).
      assert (H2 : Forall (λ x, x ∈ ViewGeneration.STANDARD_COLUMNS)
                     Transformer.METADATA_COLUMNS)
        by (apply (bool_decide_unpack _); by vm_compute).
      rewrite Forall_forall in H1, H2. intros x. split; [apply H1 | apply H2].
Qed.

Lemma view_reads_back_the_metrics_witness :
  ∃ entry : customer_entry,
    dict_get (str_of_Z 7)
      (customers (@Mt.build_nested_mapping example_clock example_order (U "t")
                    example_customer_to_keys [])) = Some entry ∧
    length (ViewGeneration.generate_view_ddl 7 entry).2 = 2.
Proof.
  destruct (@view_reads_back_the_metrics example_clock example_order (U "t")
              example_customer_to_keys [] 7 {[ U "b_metric"; U "a_metric" ]} ∅)
    as (entry & Hentry & Hmaps & _).
  - vm_compute; repeat constructor; set_solver.
  - reflexivity.
  - exists entry. split; [exact Hentry|]. cbv zeta in Hmaps. rewrite Hmaps.
    by vm_compute.
Defined.

(* ------------------------------------------------------------------ *)
(** ** The tag-group script over several days *)
(* ------------------------------------------------------------------ *)

(** The loop over the customers of a day stores, for each of them, the keys
    of that day; the other customers keep what they had. *)
Lemma TagGroup_customers_loop_spec `{Calendar, ClickHouse, ThreadPool}
    (src : str) (c w : Z) (d : str) (customers : list Z)
    (c2k c2k' : dict Z (gset str)) :
  TagGroup.customers_loop src c w d customers c2k = Ok c2k' →
  (dict_wf c2k → dict_wf c2k') ∧
  ∀ cid : Z,
    (cid ∈ customers →
     ∃ ks, TagGroup.discover_all_keys_for_customer_day_mt src d cid c w = Ok ks ∧
           dict_get cid c2k' = Some ks) ∧
    (cid ∉ customers → dict_get cid c2k' = dict_get cid c2k).
Proof.
  revert c2k. induction customers as [|x customers IH]; intros c2k;
    cbn [TagGroup.customers_loop].
  - intros [= <-]. split; [done|]. intros cid. split; [|done].
    intros Hin. by apply elem_of_nil in Hin.
  - destruct (TagGroup.discover_all_keys_for_customer_day_mt src d x c w)
      as [ks|e] eqn:Hd; cbn [bind]; [|done].
    intros Hrest. apply IH in Hrest as [Hwf Hrest]. split.
    { intros Hc. by apply Hwf, dict_set_wf. }
    intros cid. destruct (Hrest cid) as [Hin Hout]. split.
    + intros Hcid. destruct (decide (cid ∈ customers)) as [Hc|Hc]; [by apply Hin|].
      apply elem_of_cons in Hcid as [->|Hcid]; [|destruct (Hc Hcid)].
      exists ks. split; [exact Hd|]. rewrite (Hout Hc). apply dict_get_set_eq.
    + intros Hcid. apply not_elem_of_cons in Hcid as [Hne Hcid].
      rewrite (Hout Hcid). by apply dict_get_set_ne.
Qed.

(** The loop over the days: a customer ends with the keys of the last day
    on which the customer scan returned it. *)
Lemma TagGroup_days_loop_spec `{Calendar, ClickHouse, ThreadPool}
    (src : str) (c w : Z) (run_dates : list str) (c2k c2k' : dict Z (gset str)) :
  TagGroup.days_loop src c w run_dates c2k = Ok c2k' →
  (dict_wf c2k → dict_wf c2k') ∧
  ∀ cid : Z,
    (∃ (i : nat) (d : str) (ks : gset str),
       run_dates !! i = Some d ∧ active_on src cid d ∧
       (∀ (j : nat) (d' : str), i < j → run_dates !! j = Some d' →
          ¬ active_on src cid d') ∧
       TagGroup.discover_all_keys_for_customer_day_mt src d cid c w = Ok ks ∧
       dict_get cid c2k' = Some ks) ∨
    ((∀ d : str, d ∈ run_dates → ¬ active_on src cid d) ∧
     dict_get cid c2k' = dict_get cid c2k).
Proof.
  revert c2k. induction run_dates as [|d rest IH]; intros c2k;
    cbn [TagGroup.days_loop].
  - intros [= <-]. split; [done|]. intros cid. right. split; [|done].
    intros d Hd. by apply elem_of_nil in Hd.
  - destruct (fetch_all_customers_for_date src d) as [customers|e] eqn:Hf;
      cbn [bind]; [|done].
    assert (Hshift : ∀ (cid : Z) (c2k1 : dict Z (gset str)),
      (∃ (i : nat) (d0 : str) (ks : gset str),
         rest !! i = Some d0 ∧ active_on src cid d0 ∧
         (∀ (j : nat) (d' : str), i < j → rest !! j = Some d' →
            ¬ active_on src cid d') ∧
         TagGroup.discover_all_keys_for_customer_day_mt src d0 cid c w = Ok ks ∧
         dict_get cid c2k' = Some ks) →
      ∃ (i : nat) (d0 : str) (ks : gset str),
         (d :: rest) !! i = Some d0 ∧ active_on src cid d0 ∧
         (∀ (j : nat) (d' : str), i < j → (d :: rest) !! j = Some d' →
            ¬ active_on src cid d') ∧
         TagGroup.discover_all_keys_for_customer_day_mt src d0 cid c w = Ok ks ∧
         dict_get cid c2k' = Some ks).
    { intros cid _ (i & d0 & ks & Hi & Hact & Hlast & Hd & Hg).
      exists (S i), d0, ks. split_and!; try done.
      intros [|j] d' Hj Hd'; [lia|]. apply (Hlast j); [lia | done]. }
    destruct customers as [|x customers].
    + intros Hrest. apply IH in Hrest as [Hwf Hrest]. split; [done|].
      intros cid. destruct (Hrest cid) as [Hlast|[Hnone Hg]].
      * left. by apply (Hshift cid c2k).
      * right. split; [|done]. intros d' Hd'.
        apply elem_of_cons in Hd' as [->|Hd']; [|by apply Hnone].
        intros (customers' & Hf' & Hin). rewrite Hf in Hf'. injection Hf' as <-.
        by apply elem_of_nil in Hin.
    + destruct (TagGroup.customers_loop src c w d (x :: customers) c2k)
        as [c2k1|e] eqn:Hc; cbn [bind]; [|done].
      apply TagGroup_customers_loop_spec in Hc as [Hwf1 Hday].
      intros Hrest. apply IH in Hrest as [Hwf Hrest]. split; [auto|].
      intros cid. destruct (Hrest cid) as [Hlast|[Hnone Hg]].
      * left. by apply (Hshift cid c2k1).
      * destruct (Hday cid) as [Hin Hout].
        destruct (decide (cid ∈ x :: customers)) as [Hcid|Hcid].
        -- left. destruct (Hin Hcid) as (ks & Hd & Hg1).
           exists 0, d, ks. split_and!; try done.
           ++ by exists (x :: customers).
           ++ intros [|j] d' Hj Hd'; [lia|]. apply Hnone.
              by eapply list_elem_of_lookup_2.
           ++ by rewrite Hg.
        -- right. split; [|by rewrite Hg, (Hout Hcid)].
           intros d' Hd'. apply elem_of_cons in Hd' as [->|Hd']; [|by apply Hnone].
           intros (customers' & Hf' & Hin'). rewrite Hf in Hf'.
           by injection Hf' as <-.
Qed.

Lemma TagGroup_customers_get `{Clock, SetOrder} (src : str) (c2k : dict Z (gset str))
    (run_dates : list str) (cid : Z) :
  dict_wf c2k →
  dict_get (str_of_Z cid)
    (TagGroup.tag_customers (TagGroup.build_nested_mapping src c2k run_dates))
  = (λ ks : gset str,
       {| TagGroup.keys := sorted_set ks; TagGroup.key_count := size ks |})
      <$> dict_get cid c2k.
Proof.
  intros Hwf. rewrite TagGroup_customers_list by done. clear Hwf.
  induction c2k as [|[cid' ks] c2k IH]; [done|].
  cbn [fmap list_fmap dict_get fst snd].
  destruct (decide (cid = cid')) as [->|Hne].
  - by rewrite decide_True.
  - rewrite (decide_False (P := str_of_Z cid = str_of_Z cid'))
      by (by intros ?%str_of_Z_inj).
    exact IH.
Qed.

(** X24. What the tag-group [main] writes over several days. A customer
    has an entry exactly when the customer scan of some day of the run
    returned it, and the entry holds the keys of one day only: the last day
    of the run on which the customer was active. The keys of its earlier
    days are not in the document unless that last day returned them too. *)
Theorem tag_document_holds_last_active_day
    `{Calendar, ClickHouse, ThreadPool, Clock, FileSystem, SetOrder}
    (a : args) (path : str) (doc : TagGroup.tag_document) :
  TagGroup.main a = Ok (path, doc) →
  ∃ run_dates : list str,
    iter_days (arg_date a) (arg_date_start a) (arg_date_end a) = Ok run_dates ∧
    let src := default [] (arg_source_table a) in
    ∀ cid : Z,
      (is_Some (dict_get (str_of_Z cid) (TagGroup.tag_customers doc)) ↔
       ∃ d : str, d ∈ run_dates ∧ active_on src cid d) ∧
      ∀ e : TagGroup.customer_keys,
        dict_get (str_of_Z cid) (TagGroup.tag_customers doc) = Some e →
        ∃ (i : nat) (d : str) (ks : gset str),
          run_dates !! i = Some d ∧ active_on src cid d ∧
          (∀ (j : nat) (d' : str), i < j → run_dates !! j = Some d' →
             ¬ active_on src cid d') ∧
          TagGroup.discover_all_keys_for_customer_day_mt src d cid
            (arg_chunk_mins a) (arg_max_workers a) = Ok ks ∧
          TagGroup.keys e = sorted_set ks ∧
          TagGroup.key_count e = size ks.
Proof.
  unfold TagGroup.main.
  destruct (given (arg_source_table a)); cbn [negb]; [|done].
  destruct (iter_days _ _ _) as [run_dates|e] eqn:Hdates; cbn [bind]; [|done].
  destruct (match run_dates with
            | d0 :: _ => build_chunks_for_day d0 (arg_chunk_mins a)
            | [] => Raise IndexError
            end) as [chunks|e]; cbn [bind]; [|done].
  destruct ch_ping; cbn [negb]; [|done].
  destruct (TagGroup.days_loop _ _ _ run_dates []) as [c2k|e] eqn:Hloop;
    cbn [bind]; [|done].
  destruct (fs_writable (arg_output a)); cbn [negb]; [|done].
  intros [= <- <-]. exists run_dates. split; [done|]. cbv zeta.
  apply TagGroup_days_loop_spec in Hloop as [Hwf Hloop].
  specialize (Hwf (NoDup_nil_2 : dict_wf [])).
  intros cid. rewrite TagGroup_customers_get by done.
  destruct (Hloop cid) as [(i & d & ks & Hi & Hact & Hlast & Hd & Hg)|[Hnone Hg]].
  - rewrite Hg. cbn [fmap option_fmap option_map]. split.
    + split; [|by eexists]. intros _. exists d. split; [|done].
      by eapply list_elem_of_lookup_2.
    + intros e [= <-]. exists i, d, ks. by split_and!.
  - rewrite Hg. cbn [dict_get fmap option_fmap option_map]. split.
    + split; [by intros [? ?]|]. intros (d & Hd & Hact). by destruct (Hnone d Hd).
    + done.
Qed.

Lemma tag_document_holds_last_active_day_witness :
  ∃ (path : str) (doc : TagGroup.tag_document) (run_dates : list str),
    @TagGroup.main example_calendar example_two_day_db example_pool example_clock
      example_fs example_order example_args = Ok (path, doc) ∧
    @iter_days example_calendar (arg_date example_args) (arg_date_start example_args)
      (arg_date_end example_args) = Ok run_dates.
Proof.
  destruct (@TagGroup.main example_calendar example_two_day_db example_pool
              example_clock example_fs example_order example_args) as [[path doc]|e] eqn:Hmain;
    [|by vm_compute in Hmain].
  destruct (@tag_document_holds_last_active_day example_calendar example_two_day_db
              example_pool example_clock example_fs example_order example_args path doc Hmain)
    as (run_dates & Hdates & _).
  exists path, doc, run_dates. split; [reflexivity | exact Hdates].
Defined.
